(** * Carcodillo: reservation admission and billing, embedded in Rocq

    The development follows the TypeScript sources:
    - [BillingEngine.calculatePrice] (lib/billing-engine),
    - the route handlers [POST] (create), [PUT] (edit), [DELETE] (cancel) of
      the reservations API and [GET] of the availability API,
    - the Prisma schema (tables, enumerations, key and uniqueness constraints).

    Conventions of the embedding.
    - A JavaScript [Date] is its [getTime()] value: an integer number of
      milliseconds, or NaN for an invalid date.
    - The billing engine is embedded twice.  [NumberBillingEngine] is the
      engine as it runs, on IEEE 754 doubles with their rounding; the
      properties of its arithmetic are stated on it.  [BillingEngine] is the
      same code on exact rationals ([Q], compared with [==]); the handlers
      and the pages carry its totals.
    - A Prisma table is a finite map from the row id to the row.
    - A handler is a function from the request and the database to the
      response and the new database; a thrown exception is a value of [Exc]. *)

From Stdlib Require Import ZArith QArith Qround Qabs Lia SpecFloat.
From stdpp Require Import gmap strings list fin_maps.

Local Open Scope Z_scope.

(** ** JavaScript dates *)

Module JsDate.

(** [getTime d] is [None] exactly when JavaScript yields NaN. *)
Inductive Date : Type :=
| Instant (ms : Z)
| InvalidDate.

Definition getTime (d : Date) : option Z :=
  match d with
  | Instant ms => Some ms
  | InvalidDate => None
  end.

(** Relational operators on dates compare the time values; any comparison
    with NaN is false. *)
Definition lt (a b : Date) : bool :=
  match getTime a, getTime b with
  | Some x, Some y => bool_decide (x < y)
  | _, _ => false
  end.

Definition le (a b : Date) : bool :=
  match getTime a, getTime b with
  | Some x, Some y => bool_decide (x <= y)
  | _, _ => false
  end.

Definition msPerDay : Z := 1000 * 60 * 60 * 24.

(** Days from 1970-01-01 to the civil date [y-m-d] (proleptic Gregorian). *)
Definition days_from_civil (y m d : Z) : Z :=
  let y' := if bool_decide (m <= 2) then y - 1 else y in
  let era := y' / 400 in
  let yoe := y' - era * 400 in
  let mp := (m + 9) mod 12 in
  let doy := (153 * mp + 2) / 5 + d - 1 in
  let doe := yoe * 365 + yoe / 4 - yoe / 100 + doy in
  era * 146097 + doe - 719468.

(** [Date.UTC(y, m, d, hh, mi, ss)], with a one-based month; a year from 0
    to 99 stands for 1900 to 1999. *)
Definition UTC (y m d hh mi ss : Z) : Z :=
  let y := if bool_decide (0 <= y <= 99) then 1900 + y else y in
  (((days_from_civil y m d * 24 + hh) * 60 + mi) * 60 + ss) * 1000.

(** [new Date(Date.UTC(...))] *)
Definition Date_UTC (y m d hh mi ss : Z) : Date :=
  Instant (UTC y m d hh mi ss).

End JsDate.

(** ** The billing engine *)

Module BillingEngine.
Import JsDate.

Record TariffConfig : Type := {
  id : string;
  name : string;
  description : string;
  discount : Q  (* Positive = discount, Negative = surcharge *)
}.

(** The template strings of the breakdown, kept as data: the day count, the
    tariff name and the percentage are the interpolated values. *)
Inductive Description : Type :=
| BasePriceLine (days : Z) (pricePerDay : Q)
| DiscountLine (tariffName : string) (percent : Q)
| SurchargeLine (tariffName : string) (percent : Q).

Record BreakdownLine : Type := {
  line_description : Description;
  amount : Q
}.

Record BillingCalculation : Type := {
  basePrice : Q;
  tariffAdjustment : Q;
  totalPrice : Q;
  breakdown : list BreakdownLine
}.

Definition basic : TariffConfig :=
  {| id := "BASIC"; name := "Basic"; description := "Standard";
     discount := 0 |}.

Definition discounted : TariffConfig :=
  {| id := "DISCOUNTED"; name := "Discounted";
     description := "For students and seniors"; discount := 15 # 100 |}.

Definition exclusive : TariffConfig :=
  {| id := "EXCLUSIVE"; name := "Exclusive"; description := "Premium-Service";
     discount := - (25 # 100) |}.

Definition tariffs : list TariffConfig := [basic; discounted; exclusive].

(** [this.tariffs.find((t) => t.id === tariffId) || this.tariffs[0]] *)
Definition findTariff (tariffId : string) : TariffConfig :=
  match List.find (fun t => String.eqb (id t) tariffId) tariffs with
  | Some t => t
  | None => List.hd basic tariffs
  end.

Definition zeroResult : BillingCalculation :=
  {| basePrice := 0; tariffAdjustment := 0; totalPrice := 0; breakdown := [] |}.

(** [Math.max(1, Math.ceil(timeDiff / (1000 * 60 * 60 * 24)))] *)
Definition dayCount (timeDiff : Z) : Z :=
  Z.max 1 (Qceiling (inject_Z timeDiff / inject_Z msPerDay)).

Definition Qnonzero (q : Q) : bool := negb (Qeq_bool q 0).
Definition Qpositive (q : Q) : bool := negb (Qle_bool q 0).
Definition Qnegative (q : Q) : bool := negb (Qle_bool 0 q).

(** The body of [calculatePrice] once both time values are numbers and the
    tariff is looked up. *)
Definition priceFor (pricePerDay : Q) (startMs endMs : Z) (tariff : TariffConfig)
  : BillingCalculation :=
  let timeDiff := endMs - startMs in
  let days := dayCount timeDiff in
  let basePrice := (pricePerDay * inject_Z days)%Q in
  let breakdown0 :=
    [ {| line_description := BasePriceLine days pricePerDay;
         amount := basePrice |} ] in
  let tariffAdjustment :=
    if Qnonzero (discount tariff) then (basePrice * discount tariff)%Q else 0%Q in
  let breakdown :=
    if Qnonzero (discount tariff) then
      if Qpositive (discount tariff) then
        breakdown0 ++
        [ {| line_description :=
               DiscountLine (name tariff) (discount tariff * 100)%Q;
             amount := (- tariffAdjustment)%Q |} ]
      else
        breakdown0 ++
        [ {| line_description :=
               SurchargeLine (name tariff) (Qabs (discount tariff * 100))%Q;
             amount := Qabs tariffAdjustment |} ]
    else breakdown0 in
  let totalPrice :=
    (basePrice +
     (if Qnegative (discount tariff) then Qabs tariffAdjustment
      else - tariffAdjustment))%Q in
  {| basePrice := basePrice;
     tariffAdjustment := tariffAdjustment;
     totalPrice := totalPrice;
     breakdown := breakdown |}.

(** [calculatePrice(pricePerDay, startDate, endDate, tariffId)]; a [null] or
    [undefined] date is [None]. *)
Definition calculatePrice (pricePerDay : Q) (startDate endDate : option Date)
    (tariffId : string) : BillingCalculation :=
  match startDate, endDate with
  | Some s, Some e =>
      match getTime s, getTime e with
      | Some startMs, Some endMs =>
          priceFor pricePerDay startMs endMs (findTariff tariffId)
      | _, _ => zeroResult
      end
  | _, _ => zeroResult
  end.

Definition getTariffs : list TariffConfig := tariffs.

End BillingEngine.

(** ** JavaScript numbers *)

(** A JavaScript number is an IEEE 754 binary64 value.  The arithmetic is
    that of [SpecFloat], at precision 53 and maximal exponent 1024, with
    rounding to nearest, ties to even. *)
Module Double.

Definition prec : Z := 53.
Definition emax : Z := 1024.

Definition double : Type := spec_float.

Definition zero : double := S754_zero false.

Definition add : double -> double -> double := SFadd prec emax.
Definition sub : double -> double -> double := SFsub prec emax.
Definition mul : double -> double -> double := SFmul prec emax.
Definition div : double -> double -> double := SFdiv prec emax.
Definition opp : double -> double := SFopp.

(** [x < y], [x <= y] and [x === y]; all are false at NaN. *)
Definition ltb : double -> double -> bool := SFltb.
Definition leb : double -> double -> bool := SFleb.
Definition eqb : double -> double -> bool := SFeqb.

(** The number an integer literal or an integer time value denotes. *)
Definition of_Z (n : Z) : double := binary_normalize prec emax n 0 false.

(** The number a decimal literal [n / d] denotes, for [n] and [d] below
    [2 ^ 53]: the double nearest to the quotient. *)
Definition decimal (n d : Z) : double := div (of_Z n) (of_Z d).

(** [Math.abs(x)] *)
Definition Math_abs : double -> double := SFabs.

(** [Math.ceil(x)]: the least integer not below [x]; a negative [x] above
    [-1] gives [-0]. *)
Definition Math_ceil (x : double) : double :=
  match x with
  | S754_finite s m e =>
      if 0 <=? e then x
      else
        let w := 2 ^ (- e) in
        let q := Zpos m / w in
        if s then (if q =? 0 then S754_zero true else of_Z (- q))
        else if Zpos m mod w =? 0 then of_Z q else of_Z (q + 1)
  | _ => x
  end.

(** [Math.max(x, y)]: NaN if either is NaN, and [+0] is above [-0]. *)
Definition Math_max (x y : double) : double :=
  match x, y with
  | S754_nan, _ | _, S754_nan => S754_nan
  | S754_zero sx, S754_zero sy => S754_zero (sx && sy)
  | _, _ => if ltb x y then y else x
  end.

(** The sign bit of a number; NaN has none. *)
Definition signbit (x : double) : option bool :=
  match x with
  | S754_nan => None
  | S754_zero s | S754_infinity s | S754_finite s _ _ => Some s
  end.

(** The number of binary digits of a positive integer. *)
Definition digits (n : Z) : Z := Z.log2 n + 1.

(** [atLeast s k x]: [x] has the sign [s] and its absolute value is
    [2 ^ (k - 1)] or more. *)
Definition atLeast (s : bool) (k : Z) (x : double) : Prop :=
  match x with
  | S754_finite s' m e => s' = s /\ k <= digits (Zpos m) + e
  | S754_infinity s' => s' = s
  | _ => False
  end.

(** The least positive normal double, [2 ^ -1022]. *)
Definition minNormal : double := S754_finite false 4503599627370496 (-1074).

(** The representations that are doubles. *)
Definition valid (x : double) : bool := valid_binary prec emax x.

End Double.

(** ** The billing engine, on JavaScript numbers *)

(** [BillingEngine.calculatePrice] as it runs: prices, day counts and rates
    are doubles, and the time values of the two dates are integers that
    enter the arithmetic as doubles. *)
Module NumberBillingEngine.
Import JsDate Double.

Record TariffConfig : Type := {
  id : string;
  name : string;
  description : string;
  discount : double  (* Positive = discount, Negative = surcharge *)
}.

Inductive Description : Type :=
| BasePriceLine (days : double) (pricePerDay : double)
| DiscountLine (tariffName : string) (percent : double)
| SurchargeLine (tariffName : string) (percent : double).

Record BreakdownLine : Type := {
  line_description : Description;
  amount : double
}.

Record BillingCalculation : Type := {
  basePrice : double;
  tariffAdjustment : double;
  totalPrice : double;
  breakdown : list BreakdownLine
}.

Definition basic : TariffConfig :=
  {| id := "BASIC"; name := "Basic"; description := "Standard";
     discount := zero |}.

Definition discounted : TariffConfig :=
  {| id := "DISCOUNTED"; name := "Discounted";
     description := "For students and seniors"; discount := decimal 15 100 |}.

Definition exclusive : TariffConfig :=
  {| id := "EXCLUSIVE"; name := "Exclusive"; description := "Premium-Service";
     discount := opp (decimal 25 100) |}.

Definition tariffs : list TariffConfig := [basic; discounted; exclusive].

(** [this.tariffs.find((t) => t.id === tariffId) || this.tariffs[0]] *)
Definition findTariff (tariffId : string) : TariffConfig :=
  match List.find (fun t => String.eqb (id t) tariffId) tariffs with
  | Some t => t
  | None => List.hd basic tariffs
  end.

Definition zeroResult : BillingCalculation :=
  {| basePrice := zero; tariffAdjustment := zero; totalPrice := zero;
     breakdown := [] |}.

(** [1000 * 60 * 60 * 24] *)
Definition msPerDay : double :=
  mul (mul (mul (of_Z 1000) (of_Z 60)) (of_Z 60)) (of_Z 24).

(** [Math.max(1, Math.ceil(timeDiff / (1000 * 60 * 60 * 24)))] *)
Definition dayCount (timeDiff : double) : double :=
  Math_max (of_Z 1) (Math_ceil (div timeDiff msPerDay)).

(** The body of [calculatePrice] once both time values are numbers and the
    tariff is looked up. *)
Definition priceFor (pricePerDay : double) (startMs endMs : Z)
    (tariff : TariffConfig) : BillingCalculation :=
  let timeDiff := sub (of_Z endMs) (of_Z startMs) in
  let days := dayCount timeDiff in
  let basePrice := mul pricePerDay days in
  let breakdown0 :=
    [ {| line_description := BasePriceLine days pricePerDay;
         amount := basePrice |} ] in
  let tariffAdjustment :=
    if negb (eqb (discount tariff) zero) then mul basePrice (discount tariff)
    else zero in
  let breakdown :=
    if negb (eqb (discount tariff) zero) then
      if ltb zero (discount tariff) then
        breakdown0 ++
        [ {| line_description :=
               DiscountLine (name tariff) (mul (discount tariff) (of_Z 100));
             amount := opp tariffAdjustment |} ]
      else
        breakdown0 ++
        [ {| line_description :=
               SurchargeLine (name tariff)
                 (Math_abs (mul (discount tariff) (of_Z 100)));
             amount := Math_abs tariffAdjustment |} ]
    else breakdown0 in
  let totalPrice :=
    add basePrice
      (if ltb (discount tariff) zero then Math_abs tariffAdjustment
       else opp tariffAdjustment) in
  {| basePrice := basePrice;
     tariffAdjustment := tariffAdjustment;
     totalPrice := totalPrice;
     breakdown := breakdown |}.

(** [calculatePrice(pricePerDay, startDate, endDate, tariffId)]; a [null] or
    [undefined] date is [None]. *)
Definition calculatePrice (pricePerDay : double) (startDate endDate : option Date)
    (tariffId : string) : BillingCalculation :=
  match startDate, endDate with
  | Some s, Some e =>
      match getTime s, getTime e with
      | Some startMs, Some endMs =>
          priceFor pricePerDay startMs endMs (findTariff tariffId)
      | _, _ => zeroResult
      end
  | _, _ => zeroResult
  end.

(** The time values of valid dates: at most 8.64e15 milliseconds from the
    epoch. *)
Definition maxTime : Z := 8640000000000000.

Definition validTime (ms : Z) : Prop := - maxTime <= ms <= maxTime.

End NumberBillingEngine.

(** ** The Prisma schema *)

Module Schema.

Module Role.
Inductive t : Type := GUEST | MEMBER | EMPLOYEE | ADMIN.
Definition to_string (r : t) : string :=
  match r with
  | GUEST => "GUEST" | MEMBER => "MEMBER"
  | EMPLOYEE => "EMPLOYEE" | ADMIN => "ADMIN"
  end.
End Role.

Module ReservationStatus.
Inductive t : Type := PENDING | CONFIRMED | CANCELLED | COMPLETED.
Definition to_string (s : t) : string :=
  match s with
  | PENDING => "PENDING" | CONFIRMED => "CONFIRMED"
  | CANCELLED => "CANCELLED" | COMPLETED => "COMPLETED"
  end.
Definition all : list t := [PENDING; CONFIRMED; CANCELLED; COMPLETED].
(** Prisma accepts a string for an enum column only if it names a member. *)
Definition of_string (s : string) : option t :=
  List.find (fun x => String.eqb (to_string x) s) all.
End ReservationStatus.

Module TariffType.
Inductive t : Type := BASIC | DISCOUNTED | EXCLUSIVE.
Definition to_string (s : t) : string :=
  match s with
  | BASIC => "BASIC" | DISCOUNTED => "DISCOUNTED" | EXCLUSIVE => "EXCLUSIVE"
  end.
Definition all : list t := [BASIC; DISCOUNTED; EXCLUSIVE].
Definition of_string (s : string) : option t :=
  List.find (fun x => String.eqb (to_string x) s) all.
End TariffType.

Module PaymentMethod.
Inductive t : Type := CREDIT_CARD | PAYPAL | BANK_TRANSFER | BANK_DRAFT.
Definition to_string (s : t) : string :=
  match s with
  | CREDIT_CARD => "CREDIT_CARD" | PAYPAL => "PAYPAL"
  | BANK_TRANSFER => "BANK_TRANSFER" | BANK_DRAFT => "BANK_DRAFT"
  end.
Definition all : list t := [CREDIT_CARD; PAYPAL; BANK_TRANSFER; BANK_DRAFT].
Definition of_string (s : string) : option t :=
  List.find (fun x => String.eqb (to_string x) s) all.
End PaymentMethod.

Module PaymentStatus.
Inductive t : Type := PENDING | COMPLETED | FAILED | REFUNDED.
End PaymentStatus.

(** Rows.  The key [id] of a row is the key of its table; the columns
    [createdAt] and [updatedAt] and the columns of [User] and [Vehicle] that
    no handler below reads are left out. *)
Record User : Type := {
  role : Role.t
}.

Record Vehicle : Type := {
  vehicle_name : string;
  available : bool;
  pricePerDay : Q;
  location : string
}.

Record Reservation : Type := {
  startDate : Z;
  endDate : Z;
  startTime : string;
  endTime : string;
  pickupLocation : string;
  returnLocation : string;
  status : ReservationStatus.t;
  tariff : TariffType.t;
  totalPrice : Q;
  userId : string;
  vehicleId : string
}.

Record Payment : Type := {
  amount : Q;
  currency : string;
  paymentMethod : PaymentMethod.t;
  paymentStatus : PaymentStatus.t;
  transactionId : option string;
  payment_userId : string;
  reservationId : string  (* @unique *)
}.

Record DB : Type := {
  users : gmap string User;
  vehicles : gmap string Vehicle;
  reservations : gmap string Reservation;
  payments : gmap string Payment
}.

Definition with_reservations (f : gmap string Reservation -> gmap string Reservation)
    (db : DB) : DB :=
  {| users := users db; vehicles := vehicles db;
     reservations := f (reservations db); payments := payments db |}.

Definition with_payments (f : gmap string Payment -> gmap string Payment)
    (db : DB) : DB :=
  {| users := users db; vehicles := vehicles db;
     reservations := reservations db; payments := f (payments db) |}.

End Schema.

(** ** The Prisma client *)

Module Prisma.
Import Schema.

(** The outcome of a call that may throw. *)
Inductive Exc (A : Type) : Type :=
| Ok (a : A)
| Throw (message : string).
Arguments Ok {A} a.
Arguments Throw {A} message.

Definition reservation_findUnique (id : string) (db : DB) : option Reservation :=
  reservations db !! id.

Definition user_findUnique (id : string) (db : DB) : option User :=
  users db !! id.

Definition vehicle_findUnique (id : string) (db : DB) : option Vehicle :=
  vehicles db !! id.

Definition reservation_findMany (where_ : Reservation -> bool) (db : DB)
  : list (string * Reservation) :=
  List.filter (fun ir => where_ (snd ir)) (map_to_list (reservations db)).

Definition payment_findMany (where_ : Payment -> bool) (db : DB)
  : list (string * Payment) :=
  List.filter (fun ip => where_ (snd ip)) (map_to_list (payments db)).

(** [create]: the row key is a primary key and the relations are foreign
    keys; a violated constraint makes the call throw. *)
Definition reservation_create (id : string) (data : Reservation) (db : DB)
  : Exc DB :=
  match reservations db !! id with
  | Some _ => Throw "Unique constraint failed on the fields: (`id`)"
  | None =>
      match users db !! userId data, vehicles db !! vehicleId data with
      | Some _, Some _ => Ok (with_reservations (insert id data) db)
      | _, _ => Throw "Foreign key constraint failed"
      end
  end.

Definition payment_create (id : string) (data : Payment) (db : DB) : Exc DB :=
  match payments db !! id with
  | Some _ => Throw "Unique constraint failed on the fields: (`id`)"
  | None =>
      match payment_findMany
              (fun p => String.eqb (reservationId p) (reservationId data)) db with
      | _ :: _ => Throw "Unique constraint failed on the fields: (`reservationId`)"
      | [] =>
          match users db !! payment_userId data,
                reservations db !! reservationId data with
          | Some _, Some _ => Ok (with_payments (insert id data) db)
          | _, _ => Throw "Foreign key constraint failed"
          end
      end
  end.

#[global] Instance Exc_ret : MRet Exc := fun A a => Ok a.
#[global] Instance Exc_bind : MBind Exc := fun A B f x =>
  match x with
  | Ok a => f a
  | Throw m => Throw m
  end.

(** The [data] argument of [reservation.update]: a field is [None] when the
    object does not have it. *)
Record ReservationUpdateInput : Type := {
  set_status : option string;
  set_startDate : option JsDate.Date;
  set_endDate : option JsDate.Date;
  set_startTime : option string;
  set_endTime : option string;
  set_pickupLocation : option string;
  set_returnLocation : option string;
  set_tariff : option string;
  set_totalPrice : option Q
}.

(** Prisma validates the argument before it touches the table: an enum
    column takes a member of the enum, a DateTime column a valid Date. *)
Definition set_enum {A : Type} (of_string : string -> option A)
    (o : option string) (old : A) : Exc A :=
  match o with
  | None => Ok old
  | Some s =>
      match of_string s with
      | Some v => Ok v
      | None => Throw "Invalid value for argument: Expected an enum member"
      end
  end.

Definition set_date (o : option JsDate.Date) (old : Z) : Exc Z :=
  match o with
  | None => Ok old
  | Some d =>
      match JsDate.getTime d with
      | Some ms => Ok ms
      | None => Throw "Invalid value for argument: Provided Date object is invalid"
      end
  end.

Definition applyUpdate (data : ReservationUpdateInput) (r : Reservation)
  : Exc Reservation :=
  st ← set_enum ReservationStatus.of_string (set_status data) (status r);
  s ← set_date (set_startDate data) (startDate r);
  e ← set_date (set_endDate data) (endDate r);
  t ← set_enum TariffType.of_string (set_tariff data) (tariff r);
  mret {| startDate := s; endDate := e;
          startTime := default (startTime r) (set_startTime data);
          endTime := default (endTime r) (set_endTime data);
          pickupLocation := default (pickupLocation r) (set_pickupLocation data);
          returnLocation := default (returnLocation r) (set_returnLocation data);
          status := st; tariff := t;
          totalPrice := default (totalPrice r) (set_totalPrice data);
          userId := userId r; vehicleId := vehicleId r |}.

(** [update({ where: { id }, data })] *)
Definition reservation_update (id : string) (data : ReservationUpdateInput)
    (db : DB) : Exc DB :=
  match reservations db !! id with
  | Some r =>
      r' ← applyUpdate data r;
      mret (with_reservations (insert id r') db)
  | None => Throw "Record to update not found."
  end.

Definition payment_updateMany (where_ : Payment -> bool)
    (data : Payment -> Payment) (db : DB) : DB :=
  with_payments (fmap (fun p => if where_ p then data p else p)) db.

(** [$transaction(body)]: the writes of [body] are kept if it returns and
    discarded if it throws. *)
Definition transaction {A : Type} (body : DB -> Exc (A * DB)) (db : DB)
  : Exc A * DB :=
  match body db with
  | Ok (a, db') => (Ok a, db')
  | Throw m => (Throw m, db)
  end.

End Prisma.

(** ** The route handlers *)

Module Api.
Import JsDate Schema Prisma.

(** The session of next-auth, reduced to [session.user.id] and
    [session.user.role]. *)
Record Session : Type := {
  session_user_id : string;
  session_user_role : string
}.

(** JavaScript truthiness of a string; an absent JSON field is the empty
    string, an absent number is [0]: every use below is a truthiness test. *)
Definition truthy (s : string) : bool := negb (String.eqb s "").

Definition includes (xs : list string) (x : string) : bool :=
  existsb (String.eqb x) xs.

Definition hasRequiredRole (session : Session) (allowedRoles : list string)
  : bool :=
  truthy (session_user_role session)
  && includes allowedRoles (session_user_role session).

Inductive Body : Type :=
| Null
| Error (error : string)
| ErrorDetails (error details : string)
| Conflict (error : string) (conflictingReservations : list (string * Z * Z))
| Message (message : string)
| ReservationJson (id : string) (reservation : Reservation)
    (payment : option Payment)
| VehicleIds (ids : list string).

Record Response : Type := {
  response_body : Body;
  response_status : Z
}.

Definition json (b : Body) (st : Z) : Response :=
  {| response_body := b; response_status := st |}.

(** [status: { in: ["PENDING", "CONFIRMED"] }] *)
Definition statusActive (r : Reservation) : bool :=
  includes ["PENDING"; "CONFIRMED"] (ReservationStatus.to_string (status r)).

(** The [OR] of the three date conditions of both overlap queries. *)
Definition overlapOR (start end_ : Z) (r : Reservation) : bool :=
  ((startDate r <=? start) && (endDate r >=? start))
  || ((startDate r <=? end_) && (endDate r >=? end_))
  || ((startDate r >=? start) && (endDate r <=? end_)).

(** The [payment] relation of a reservation, as [include] loads it. *)
Definition payment_of (id : string) (db : DB) : option Payment :=
  snd <$> List.head (payment_findMany (fun p => String.eqb (reservationId p) id) db).

(** *** Create: [POST /api/reservations] *)

Module PostBody.
Record t : Type := {
  vehicleId : string;
  startDate : option Date;  (* [None]: falsy; [Some d]: [new Date(startDate)] *)
  endDate : option Date;
  startTime : string;
  endTime : string;
  pickupLocation : string;
  returnLocation : string;
  tariff : string;
  totalPrice : Q;
  paymentMethod : string
}.
End PostBody.

(** The local variables of [POST] that are live when the transaction starts. *)
Record Admission : Type := {
  adm_actualUserId : string;
  adm_vehicleId : string;
  adm_start : Z;
  adm_end : Z;
  adm_startTime : string;
  adm_endTime : string;
  adm_pickupLocation : string;
  adm_returnLocation : string;
  adm_tariff : string;
  adm_totalPrice : Q;
  adm_paymentMethod : string
}.

Definition conflictSummary (ir : string * Reservation) : string * Z * Z :=
  (fst ir, startDate (snd ir), endDate (snd ir)).

(** [POST] from its first line to the last check before [$transaction]. *)
Definition POST_admit (session : option Session) (b : PostBody.t) (now : Z)
    (db : DB) : Response + Admission :=
  match session with
  | None => inl (json (Error "Unauthorized") 401)
  | Some session =>
  if negb (hasRequiredRole session ["MEMBER"; "EMPLOYEE"; "ADMIN"])
  then inl (json (Error "Unauthorized") 401) else
  match PostBody.startDate b, PostBody.endDate b with
  | Some start, Some end_ =>
    if negb (truthy (PostBody.vehicleId b)
             && truthy (PostBody.startTime b) && truthy (PostBody.endTime b)
             && truthy (PostBody.pickupLocation b)
             && truthy (PostBody.returnLocation b)
             && truthy (PostBody.tariff b)
             && BillingEngine.Qnonzero (PostBody.totalPrice b)
             && truthy (PostBody.paymentMethod b))
    then inl (json (Error "Missing required fields") 400) else
    if JsDate.lt start (Instant now)
    then inl (json (Error "Start date cannot be in the past") 400) else
    if JsDate.le end_ start
    then inl (json (Error "End date must be after start date") 400) else
    let actualUserId := session_user_id session in
    match user_findUnique actualUserId db with
    | None => inl (json (Error "User not found") 400)
    | Some user =>
    match vehicle_findUnique (PostBody.vehicleId b) db with
    | None => inl (json (Error "Vehicle not found") 400)
    | Some vehicle =>
    if negb (available vehicle)
    then inl (json (Error "Vehicle not available") 400) else
    match getTime start, getTime end_ with
    | Some s, Some e =>
      let overlappingReservations :=
        reservation_findMany
          (fun r => String.eqb (vehicleId r) (PostBody.vehicleId b)
                    && statusActive r && overlapOR s e r) db in
      if (0 <? Z.of_nat (length overlappingReservations))
      then inl (json (Conflict "Vehicle already reserved for this time period"
                        (map conflictSummary overlappingReservations)) 400)
      else
      let validTariffs := ["BASIC"; "DISCOUNTED"; "EXCLUSIVE"] in
      let validPaymentMethods := ["CREDIT_CARD"; "PAYPAL"; "BANK_TRANSFER"] in
      if negb (includes validTariffs (PostBody.tariff b))
      then inl (json (Error "Invalid tariff") 400) else
      if negb (includes validPaymentMethods (PostBody.paymentMethod b))
      then inl (json (Error "Invalid payment method") 400) else
      inr {| adm_actualUserId := actualUserId;
             adm_vehicleId := PostBody.vehicleId b;
             adm_start := s; adm_end := e;
             adm_startTime := PostBody.startTime b;
             adm_endTime := PostBody.endTime b;
             adm_pickupLocation := PostBody.pickupLocation b;
             adm_returnLocation := PostBody.returnLocation b;
             adm_tariff := PostBody.tariff b;
             adm_totalPrice := PostBody.totalPrice b;
             adm_paymentMethod := PostBody.paymentMethod b |}
    | _, _ =>
      (* Prisma rejects an invalid Date in the query; the handler catches *)
      inl (json (ErrorDetails "Error creating reservation"
                   "Invalid value for argument: Provided Date object is invalid")
             500)
    end end end
  | _, _ => inl (json (Error "Missing required fields") 400)
  end end.

(** The [data] of the two [create] calls of the transaction. *)
Definition reservationData (a : Admission) (tariff : TariffType.t) : Reservation :=
  {| startDate := adm_start a; endDate := adm_end a;
     startTime := adm_startTime a; endTime := adm_endTime a;
     pickupLocation := adm_pickupLocation a;
     returnLocation := adm_returnLocation a;
     status := ReservationStatus.PENDING;
     tariff := tariff;
     totalPrice := adm_totalPrice a;
     userId := adm_actualUserId a;
     vehicleId := adm_vehicleId a |}.

Definition paymentData (a : Admission) (paymentMethod : PaymentMethod.t)
    (reservation_id : string) : Payment :=
  {| amount := adm_totalPrice a; currency := "EUR";
     paymentMethod := paymentMethod;
     paymentStatus := PaymentStatus.PENDING;
     transactionId := None;
     payment_userId := adm_actualUserId a;
     reservationId := reservation_id |}.

(** The body of the transaction: both [create] calls on the client [tx]. *)
Definition POST_tx (a : Admission) (tariff : TariffType.t)
    (paymentMethod : PaymentMethod.t) (ids : string * string) (tx : DB)
  : Exc ((string * string) * DB) :=
  tx1 ← reservation_create (fst ids) (reservationData a tariff) tx;
  tx2 ← payment_create (snd ids) (paymentData a paymentMethod (fst ids)) tx1;
  mret (ids, tx2).

(** [POST] from [$transaction] to its end; [ids] are the keys that the
    [@default(cuid())] columns of the two new rows receive. *)
Definition POST_persist (a : Admission) (ids : string * string) (db : DB)
  : Response * DB :=
  match TariffType.of_string (adm_tariff a),
        PaymentMethod.of_string (adm_paymentMethod a) with
  | Some tariff, Some paymentMethod =>
      match transaction (POST_tx a tariff paymentMethod ids) db with
      | (Ok result, db') =>
          match reservation_findUnique (fst result) db' with
          | Some r =>
              (json (ReservationJson (fst result) r (payment_of (fst result) db'))
                 201, db')
          | None => (json Null 201, db')
          end
      | (Throw m, db') =>
          (json (ErrorDetails "Error creating reservation" m) 500, db')
      end
  | _, _ =>
      (json (ErrorDetails "Error creating reservation"
               "Invalid value for argument: Expected an enum member") 500, db)
  end.

Definition POST (session : option Session) (b : PostBody.t) (now : Z)
    (ids : string * string) (db : DB) : Response * DB :=
  match POST_admit session b now db with
  | inl response => (response, db)
  | inr a => POST_persist a ids db
  end.

(** *** Edit: [PUT /api/reservations/:id] *)

Module PutBody.
Record t : Type := {
  startDate : option Date;
  endDate : option Date;
  startTime : string;
  endTime : string;
  pickupLocation : string;
  returnLocation : string;
  tariff : string;
  totalPrice : Q;
  paymentMethod : string;
  status : string
}.
End PutBody.

Definition ifTruthy (s : string) : option string :=
  if truthy s then Some s else None.

Definition PUT (session : option Session) (id : string) (b : PutBody.t)
    (db : DB) : Response * DB :=
  match session with
  | None => (json (Error "Unauthorized") 401, db)
  | Some session =>
  match reservation_findUnique id db with
  | None => (json (Error "Reservation not found") 404, db)
  | Some existingReservation =>
  (* [include: { user: true }]: the [payment] relation is not loaded *)
  let existingReservation_payment : option Payment := None in
  let isAdmin := hasRequiredRole session ["ADMIN"; "EMPLOYEE"] in
  let isOwner :=
    String.eqb (session_user_id session) (userId existingReservation) in
  if negb isAdmin && negb isOwner
  then (json (Error "Access denied") 403, db) else
  if negb isAdmin
     && negb (includes ["PENDING"; "CONFIRMED"]
                (ReservationStatus.to_string (status existingReservation)))
  then (json (Error ("Cannot edit reservation with status: "
                     +:+ ReservationStatus.to_string
                           (status existingReservation))) 400, db)
  else
  let updateData :=
    {| set_status :=
         if isAdmin && truthy (PutBody.status b)
         then Some (PutBody.status b) else None;
       set_startDate := PutBody.startDate b;
       set_endDate := PutBody.endDate b;
       set_startTime := ifTruthy (PutBody.startTime b);
       set_endTime := ifTruthy (PutBody.endTime b);
       set_pickupLocation := ifTruthy (PutBody.pickupLocation b);
       set_returnLocation := ifTruthy (PutBody.returnLocation b);
       set_tariff := ifTruthy (PutBody.tariff b);
       set_totalPrice :=
         if BillingEngine.Qnonzero (PutBody.totalPrice b)
         then Some (PutBody.totalPrice b) else None |} in
  match reservation_update id updateData db with
  | Throw _ => (json (Error "Failed to update reservation") 500, db)
  | Ok db' =>
      let updatedReservation :=
        match reservation_findUnique id db' with
        | Some r => ReservationJson id r (payment_of id db')
        | None => Null
        end in
      let db'' :=
        if truthy (PutBody.paymentMethod b)
           && bool_decide (is_Some existingReservation_payment)
        then
          match PaymentMethod.of_string (PutBody.paymentMethod b) with
          | Some m =>
              payment_updateMany (fun p => String.eqb (reservationId p) id)
                (fun p => {| amount := amount p; currency := currency p;
                             paymentMethod := m;
                             paymentStatus := paymentStatus p;
                             transactionId := transactionId p;
                             payment_userId := payment_userId p;
                             reservationId := reservationId p |}) db'
          | None => db'
          end
        else db' in
      (json updatedReservation 200, db'')
  end end end.

(** *** Cancel: [DELETE /api/reservations/:id] *)

Definition refund (p : Payment) : Payment :=
  {| amount := amount p; currency := currency p;
     paymentMethod := paymentMethod p;
     paymentStatus := PaymentStatus.REFUNDED;
     transactionId := transactionId p;
     payment_userId := payment_userId p;
     reservationId := reservationId p |}.

Definition DELETE (session : option Session) (id : string) (db : DB)
  : Response * DB :=
  match session with
  | None => (json (Error "Unauthorized") 401, db)
  | Some session =>
  match reservation_findUnique id db with
  | None => (json (Error "Reservation not found") 404, db)
  | Some existingReservation =>
  let isAdmin := hasRequiredRole session ["ADMIN"; "EMPLOYEE"] in
  let isOwner :=
    String.eqb (session_user_id session) (userId existingReservation) in
  if negb isAdmin && negb isOwner
  then (json (Error "Access denied") 403, db) else
  if negb (includes ["PENDING"; "CONFIRMED"]
             (ReservationStatus.to_string (status existingReservation)))
  then (json (Error ("Cannot cancel reservation with status: "
                     +:+ ReservationStatus.to_string
                           (status existingReservation))) 400, db)
  else
  let db' :=
    payment_updateMany (fun p => String.eqb (reservationId p) id) refund db in
  (json (Message "Reservation cancelled successfully, payment refunded!") 200,
   db')
  end end.

(** *** Fleet availability: [GET /api/vehicles/availability] *)

Definition GET_availability (startDate endDate : option Date) (db : DB)
  : Response :=
  match startDate, endDate with
  | Some start, Some end_ =>
      match getTime start, getTime end_ with
      | Some s, Some e =>
          let overlappingReservations :=
            reservation_findMany
              (fun r => statusActive r && overlapOR s e r) db in
          let bookedVehicleIds :=
            map (fun ir => vehicleId (snd ir)) overlappingReservations in
          json (VehicleIds bookedVehicleIds) 200
      | _, _ => json (Error "Failed to check availability") 500
      end
  | _, _ => json (Error "Start and end dates are required") 400
  end.

End Api.

(** ** Requests that interleave *)

Module EventLoop.
Import Schema Prisma Api.

(** A running [POST] handler.  Every [await] of the handler hands control
    back to the event loop; the state below keeps the two stretches that
    matter for a booking: the checks, which read the database, and the
    transaction, which writes it.  A database call is one step. *)
Inductive Handler : Type :=
| Received (session : option Session) (b : PostBody.t) (now : Z)
    (ids : string * string)
| Checked (a : Admission) (ids : string * string)
| Responded (response : Response).

Definition resume (h : Handler) (db : DB) : Handler * DB :=
  match h with
  | Received session b now ids =>
      match POST_admit session b now db with
      | inl response => (Responded response, db)
      | inr a => (Checked a ids, db)
      end
  | Checked a ids =>
      let '(response, db') := POST_persist a ids db in
      (Responded response, db')
  | Responded response => (Responded response, db)
  end.

Inductive Turn : Type := First | Second.

(** Two handlers served by one event loop, resumed in the order [schedule]. *)
Fixpoint serve (schedule : list Turn) (h1 h2 : Handler) (db : DB)
  : Handler * Handler * DB :=
  match schedule with
  | [] => (h1, h2, db)
  | First :: rest =>
      let '(h1', db') := resume h1 db in serve rest h1' h2 db'
  | Second :: rest =>
      let '(h2', db') := resume h2 db in serve rest h1 h2' db'
  end.

Definition statusOf (h : Handler) : option Z :=
  match h with
  | Responded response => Some (response_status response)
  | _ => None
  end.

End EventLoop.

(** ** Consistency properties of the database *)

Module Consistency.
Import Schema Prisma Api.

(** The closed-interval predicate in the words of the specification:
    [a] and [b] overlap iff [a.start <= b.end AND a.end >= b.start]. *)
Definition overlaps (a b : Z * Z) : bool :=
  (fst a <=? snd b) && (snd a >=? fst b).

Definition range (r : Reservation) : Z * Z := (startDate r, endDate r).

Definition double_booked (r1 r2 : Reservation) : Prop :=
  vehicleId r1 = vehicleId r2 /\ statusActive r1 /\ statusActive r2
  /\ overlaps (range r1) (range r2).

(** No two distinct active reservations of one vehicle overlap. *)
Definition no_double_booking (db : DB) : Prop :=
  map_Forall (fun i ri =>
    map_Forall (fun j rj => i <> j -> ~ double_booked ri rj) (reservations db))
    (reservations db).

#[global] Instance double_booked_dec r1 r2 : Decision (double_booked r1 r2).
Proof. unfold double_booked. apply _. Defined.

#[global] Instance no_double_booking_dec db : Decision (no_double_booking db).
Proof. unfold no_double_booking. apply _. Defined.

(** Every reservation has its payment row. *)
Definition has_payment (db : DB) (id : string) : Prop :=
  map_Exists (fun _ p => reservationId p = id) (payments db).

Definition every_reservation_paid (db : DB) : Prop :=
  map_Forall (fun i _ => has_payment db i) (reservations db).

#[global] Instance every_reservation_paid_dec db
  : Decision (every_reservation_paid db).
Proof. unfold every_reservation_paid, has_payment. apply _. Defined.

(** One request served to its end. *)
Inductive request (db : DB) : DB -> Prop :=
| request_POST session b now ids :
    request db (snd (POST session b now ids db))
| request_PUT session id b :
    request db (snd (PUT session id b db))
| request_DELETE session id :
    request db (snd (DELETE session id db)).

End Consistency.

(** ** The seed data of [setup.sql] and some requests *)

Module Seed.
Import JsDate Schema Api.

Definition db : DB :=
  {| users :=
       {[ "user-1" := {| role := Role.ADMIN |};
          "user-2" := {| role := Role.MEMBER |};
          "user-3" := {| role := Role.EMPLOYEE |} ]};
     vehicles :=
       {[ "vehicle-1" := {| vehicle_name := "VW Golf"; available := true;
                            pricePerDay := 35; location := "Berlin Central" |};
          "vehicle-6" := {| vehicle_name := "Audi A4"; available := true;
                            pricePerDay := 55; location := "Berlin Central" |} ]};
     reservations :=
       {[ "res-1" :=
            {| startDate := UTC 2025 7 20 0 0 0;
               endDate := UTC 2025 7 25 0 0 0;
               startTime := "10:00"; endTime := "18:00";
               pickupLocation := "Berlin Central";
               returnLocation := "Berlin Central";
               status := ReservationStatus.CONFIRMED;
               tariff := TariffType.BASIC; totalPrice := 175;
               userId := "user-2"; vehicleId := "vehicle-1" |};
          "res-2" :=
            {| startDate := UTC 2025 7 28 0 0 0;
               endDate := UTC 2025 8 2 0 0 0;
               startTime := "09:00"; endTime := "17:00";
               pickupLocation := "Berlin Central";
               returnLocation := "Berlin Central";
               status := ReservationStatus.PENDING;
               tariff := TariffType.DISCOUNTED; totalPrice := 450;
               userId := "user-2"; vehicleId := "vehicle-6" |} ]};
     payments :=
       {[ "pay-123" :=
            {| amount := 175; currency := "EUR";
               paymentMethod := PaymentMethod.CREDIT_CARD;
               paymentStatus := PaymentStatus.COMPLETED;
               transactionId := Some "TXN-123456789";
               payment_userId := "user-2"; reservationId := "res-1" |};
          "pay-456" :=
            {| amount := 450; currency := "EUR";
               paymentMethod := PaymentMethod.PAYPAL;
               paymentStatus := PaymentStatus.PENDING;
               transactionId := Some "TXN-987654321";
               payment_userId := "user-2"; reservationId := "res-2" |} ]} |}.

Definition dom_ : Session :=
  {| session_user_id := "user-2"; session_user_role := "MEMBER" |}.

Definition yb : Session :=
  {| session_user_id := "user-3"; session_user_role := "EMPLOYEE" |}.

(** The moment the requests below are served. *)
Definition now : Z := UTC 2025 7 1 0 0 0.

(** A booking of the VW Golf from [startDate] to [endDate]. *)
Definition book (startDate endDate : Date) : PostBody.t :=
  {| PostBody.vehicleId := "vehicle-1";
     PostBody.startDate := Some startDate;
     PostBody.endDate := Some endDate;
     PostBody.startTime := "10:00"; PostBody.endTime := "18:00";
     PostBody.pickupLocation := "Berlin Central";
     PostBody.returnLocation := "Berlin Central";
     PostBody.tariff := "BASIC"; PostBody.totalPrice := 140;
     PostBody.paymentMethod := "PAYPAL" |}.

(** An edit that only moves the dates. *)
Definition move (startDate endDate : Date) : PutBody.t :=
  {| PutBody.startDate := Some startDate;
     PutBody.endDate := Some endDate;
     PutBody.startTime := ""; PutBody.endTime := "";
     PutBody.pickupLocation := ""; PutBody.returnLocation := "";
     PutBody.tariff := ""; PutBody.totalPrice := 0;
     PutBody.paymentMethod := ""; PutBody.status := "" |}.

(** The seed data after user-2 has booked the VW Golf for 1 to 5 August:
    reservation "res-3" with payment "pay-789". *)
Definition booked : DB :=
  snd (POST (Some dom_)
         (book (Date_UTC 2025 8 1 0 0 0) (Date_UTC 2025 8 5 0 0 0))
         now ("res-3", "pay-789") db).

End Seed.

(** ** The itemized total of a calculation *)

Module Pricing.
Import BillingEngine.

(** The sum of the amounts of the breakdown lines. *)
Definition itemizedTotal (c : BillingCalculation) : Q :=
  fold_right (fun line acc => (amount line + acc)%Q) 0%Q (breakdown c).

End Pricing.

(** ** The conditions under which [POST] creates a reservation *)

Module Gates.
Import JsDate Schema Prisma Api.

(** Every gate of [POST], in the order of the handler, and the constraints of
    the two inserts on the keys [ids] of the new rows. *)
Definition admissible (session : option Session) (b : PostBody.t) (now : Z)
    (ids : string * string) (db : DB) : Prop :=
  exists (s : Session) (startMs endMs : Z) (v : Vehicle),
    session = Some s
    /\ hasRequiredRole s ["MEMBER"; "EMPLOYEE"; "ADMIN"] = true
    /\ PostBody.startDate b = Some (Instant startMs)
    /\ PostBody.endDate b = Some (Instant endMs)
    /\ truthy (PostBody.vehicleId b) = true
    /\ truthy (PostBody.startTime b) = true
    /\ truthy (PostBody.endTime b) = true
    /\ truthy (PostBody.pickupLocation b) = true
    /\ truthy (PostBody.returnLocation b) = true
    /\ ~ (PostBody.totalPrice b == 0)%Q
    /\ now <= startMs
    /\ startMs < endMs
    /\ is_Some (users db !! session_user_id s)
    /\ vehicles db !! PostBody.vehicleId b = Some v
    /\ available v = true
    /\ (forall i r, reservations db !! i = Some r ->
          vehicleId r = PostBody.vehicleId b -> statusActive r = true ->
          overlapOR startMs endMs r = false)
    /\ PostBody.tariff b ∈ ["BASIC"; "DISCOUNTED"; "EXCLUSIVE"]
    /\ PostBody.paymentMethod b ∈ ["CREDIT_CARD"; "PAYPAL"; "BANK_TRANSFER"]
    /\ reservations db !! fst ids = None
    /\ payments db !! snd ids = None
    /\ (forall k p, payments db !! k = Some p -> reservationId p <> fst ids).

End Gates.

(** ** The update that [PUT] sends to the database *)

Module Edit.
Import JsDate Schema Prisma Api.

(** The object [updateData] of [PUT], for a caller who is or is not staff. *)
Definition updateDataOf (isAdmin : bool) (b : PutBody.t) : ReservationUpdateInput :=
  {| set_status :=
       if isAdmin && truthy (PutBody.status b)
       then Some (PutBody.status b) else None;
     set_startDate := PutBody.startDate b;
     set_endDate := PutBody.endDate b;
     set_startTime := ifTruthy (PutBody.startTime b);
     set_endTime := ifTruthy (PutBody.endTime b);
     set_pickupLocation := ifTruthy (PutBody.pickupLocation b);
     set_returnLocation := ifTruthy (PutBody.returnLocation b);
     set_tariff := ifTruthy (PutBody.tariff b);
     set_totalPrice :=
       if BillingEngine.Qnonzero (PutBody.totalPrice b)
       then Some (PutBody.totalPrice b) else None |}.

(** The two gates of [PUT] after the reservation is found: staff, or the
    owner of a reservation that is PENDING or CONFIRMED. *)
Definition mayEdit (s : Session) (r : Reservation) : bool :=
  hasRequiredRole s ["ADMIN"; "EMPLOYEE"]
  || (String.eqb (session_user_id s) (userId r) && statusActive r).

(** A body without any truthy field. *)
Definition emptyBody : PutBody.t :=
  {| PutBody.startDate := None; PutBody.endDate := None;
     PutBody.startTime := ""; PutBody.endTime := "";
     PutBody.pickupLocation := ""; PutBody.returnLocation := "";
     PutBody.tariff := ""; PutBody.totalPrice := 0;
     PutBody.paymentMethod := ""; PutBody.status := "" |}.

(** The body that the staff page sends to change a status:
    [JSON.stringify({ status: newStatus })]. *)
Definition statusOnly (newStatus : string) : PutBody.t :=
  {| PutBody.startDate := None; PutBody.endDate := None;
     PutBody.startTime := ""; PutBody.endTime := "";
     PutBody.pickupLocation := ""; PutBody.returnLocation := "";
     PutBody.tariff := ""; PutBody.totalPrice := 0;
     PutBody.paymentMethod := ""; PutBody.status := newStatus |}.

Definition withStatus (st : ReservationStatus.t) (r : Reservation) : Reservation :=
  {| startDate := startDate r; endDate := endDate r;
     startTime := startTime r; endTime := endTime r;
     pickupLocation := pickupLocation r; returnLocation := returnLocation r;
     status := st; tariff := tariff r; totalPrice := totalPrice r;
     userId := userId r; vehicleId := vehicleId r |}.

End Edit.

(** ** Reading reservations *)

Module Reads.
Import JsDate Schema Prisma Api.

(** [GET /api/reservations/:id].  Of the relations that [include] loads, the
    body keeps the payment, here as the row; [GET_reservation_json] below
    applies the [select]. *)
Definition GET_reservation (session : option Session) (id : string) (db : DB)
  : Response :=
  match session with
  | None => json (Error "Unauthorized") 401
  | Some session =>
      match reservation_findUnique id db with
      | None => json (Error "Reservation not found") 404
      | Some reservation =>
          if String.eqb (session_user_role session) "MEMBER"
             && negb (String.eqb (userId reservation) (session_user_id session))
          then json (Error "Access denied") 403
          else json (ReservationJson id reservation (payment_of id db)) 200
      end
  end.

Inductive ListBody : Type :=
| ListError (error : string)
| Reservations (rows : list (string * Reservation)).

Record ListResponse : Type := {
  list_body : ListBody;
  list_status : Z
}.

(** [GET /api/reservations].  The rows carry no [createdAt]; the order that
    [orderBy: { createdAt: "desc" }] gives the result is the parameter
    [orderByCreatedAtDesc]. *)
Definition GET_reservations
    (orderByCreatedAtDesc :
       list (string * Reservation) -> list (string * Reservation))
    (session : option Session) (db : DB) : ListResponse :=
  match session with
  | None => {| list_body := ListError "Unauthorized"; list_status := 401 |}
  | Some session =>
      let isAdmin := hasRequiredRole session ["ADMIN"; "EMPLOYEE"] in
      let reservations :=
        orderByCreatedAtDesc
          (reservation_findMany
             (fun r => if isAdmin then true
                       else String.eqb (userId r) (session_user_id session)) db) in
      {| list_body := Reservations reservations; list_status := 200 |}
  end.

(** [payment: { select: { paymentMethod: true, paymentStatus: true } }], the
    [select] of [GET /api/reservations/:id]. *)
Record PaymentSelect : Type := {
  select_paymentMethod : PaymentMethod.t;
  select_paymentStatus : PaymentStatus.t
}.

Definition selectPayment (p : Payment) : PaymentSelect :=
  {| select_paymentMethod := paymentMethod p;
     select_paymentStatus := paymentStatus p |}.

(** The reservation and the payment in the body of [GET_reservation], as the
    route serialises them. *)
Definition GET_reservation_json (session : option Session) (id : string)
    (db : DB) : option (string * Reservation * option PaymentSelect) :=
  match response_body (GET_reservation session id db) with
  | ReservationJson id' reservation payment =>
      Some (id', reservation, selectPayment <$> payment)
  | _ => None
  end.

(** [payment: { select: { id, paymentMethod, paymentStatus, amount,
    currency } }], the [select] of [GET /api/reservations]. *)
Record ListedPayment : Type := {
  listed_id : string;
  listed_paymentMethod : PaymentMethod.t;
  listed_paymentStatus : PaymentStatus.t;
  listed_amount : Q;
  listed_currency : string
}.

Definition listPayment (kp : string * Payment) : ListedPayment :=
  {| listed_id := fst kp;
     listed_paymentMethod := paymentMethod (snd kp);
     listed_paymentStatus := paymentStatus (snd kp);
     listed_amount := amount (snd kp);
     listed_currency := currency (snd kp) |}.

(** A row of the list with the payment that [include] loads for it. *)
Definition listed (db : DB) (ir : string * Reservation)
  : string * Reservation * option ListedPayment :=
  (fst ir, snd ir,
   listPayment
     <$> List.head (payment_findMany
                      (fun p => String.eqb (reservationId p) (fst ir)) db)).

(** The reservations and their payments in the body of [GET_reservations],
    as the route serialises them. *)
Definition GET_reservations_json
    (orderByCreatedAtDesc :
       list (string * Reservation) -> list (string * Reservation))
    (session : option Session) (db : DB)
  : option (list (string * Reservation * option ListedPayment)) :=
  match list_body (GET_reservations orderByCreatedAtDesc session db) with
  | Reservations rows => Some (map (listed db) rows)
  | ListError _ => None
  end.

End Reads.

(** ** The vehicle listing page *)

Module VehiclesPage.
Import JsDate Schema Prisma Api.

(** [xs.forEach(x => { available[x] = value })] *)
Definition setAll (value : bool) (xs : list string) (available : gmap string bool)
  : gmap string bool :=
  foldl (fun acc x => <[x := value]> acc) available xs.

(** [response.ok] *)
Definition ok (response : Response) : bool :=
  (200 <=? response_status response) && (response_status response <=? 299).

(** [checkAvailability]: the object given to [setAvailability], for the ids
    of the vehicles on the page.  [toISOString] throws on an invalid date and
    a response that is not ok is thrown too; the [catch] block marks every
    vehicle of the page available. *)
Definition checkAvailability (vehicles : list string)
    (startDate endDate : option Date) (db : DB) : gmap string bool :=
  match startDate, endDate with
  | Some start, Some end_ =>
      let available := setAll true vehicles ∅ in
      match getTime start, getTime end_ with
      | Some _, Some _ =>
          let res := GET_availability (Some start) (Some end_) db in
          if ok res then
            match response_body res with
            | VehicleIds bookedVehicleIds => setAll false bookedVehicleIds available
            | _ => setAll true vehicles available
            end
          else setAll true vehicles available
      | _, _ => setAll true vehicles available
      end
  | _, _ => ∅
  end.

End VehiclesPage.

(** ** The reservation forms *)

Module ReservationForm.
Import JsDate Schema Api.

(** The state of the page that creates a reservation. *)
Record NewForm : Type := {
  new_vehicleId : string;          (* [searchParams.get("vehicleId")] *)
  new_vehicle : option Vehicle;    (* loaded from [/api/vehicles/:id] *)
  new_startDate : option Date;
  new_endDate : option Date;
  new_startTime : string;
  new_endTime : string;
  new_pickupLocation : string;
  new_returnLocation : string;
  new_tariff : string;
  new_paymentMethod : string
}.


(** [JSON.stringify] writes a date as its ISO string, which [new Date] reads
    back as the same instant; an invalid date is written as [null]. *)
Definition sent (d : Date) : option Date :=
  match d with
  | Instant ms => Some (Instant ms)
  | InvalidDate => None
  end.

Definition calculateTotalPrice (vehicle : option Vehicle)
    (startDate endDate : option Date) (tariff : string) : Q :=
  match vehicle, startDate, endDate with
  | Some v, Some s, Some e =>
      BillingEngine.totalPrice
        (BillingEngine.calculatePrice (pricePerDay v) (Some s) (Some e) tariff)
  | _, _, _ => 0%Q
  end.

(** What [handleSubmit] does: a toast with a description, or a request. *)
Inductive Submitted (Body : Type) : Type :=
| Toast (description : string)
| Fetch (body : Body).
Arguments Toast {Body} description.
Arguments Fetch {Body} body.

(** [handleSubmit] of the page that creates a reservation, up to [fetch]. *)
Definition handleSubmitNew (f : NewForm) (now : Z) : Submitted PostBody.t :=
  match new_startDate f, new_endDate f with
  | Some startDate, Some endDate =>
      if JsDate.lt endDate startDate
      then Toast "End date must be after start date." else
      if JsDate.lt startDate (Instant now)
      then Toast "Start date must be in the future." else
      if negb (truthy (new_pickupLocation f))
         || negb (truthy (new_returnLocation f))
      then Toast "Please select pickup and return locations." else
      Fetch {| PostBody.vehicleId := new_vehicleId f;
               PostBody.startDate := sent startDate;
               PostBody.endDate := sent endDate;
               PostBody.startTime := new_startTime f;
               PostBody.endTime := new_endTime f;
               PostBody.pickupLocation := new_pickupLocation f;
               PostBody.returnLocation := new_returnLocation f;
               PostBody.tariff := new_tariff f;
               PostBody.totalPrice :=
                 calculateTotalPrice (new_vehicle f) (new_startDate f)
                   (new_endDate f) (new_tariff f);
               PostBody.paymentMethod := new_paymentMethod f |}
  | _, _ => Toast "Please select both start and end dates."
  end.


End ReservationForm.

(** ** Forms filled in for the seed data *)

Module SeedForm.
Import JsDate Schema Api ReservationForm.

(** The form for the VW Golf, as the page fills it after loading the
    vehicle. *)
Definition golf (startDate endDate : Date) : NewForm :=
  {| new_vehicleId := "vehicle-1";
     new_vehicle := vehicles Seed.db !! "vehicle-1";
     new_startDate := Some startDate;
     new_endDate := Some endDate;
     new_startTime := "09:00"; new_endTime := "18:00";
     new_pickupLocation := "Berlin Central";
     new_returnLocation := "Berlin Central";
     new_tariff := "BASIC"; new_paymentMethod := "PAYPAL" |}.

End SeedForm.

(** ** The route protection middleware *)

Module Middleware.
Import Api.

(** The JWT that [getToken] returns, reduced to [token.role]. *)
Record Token : Type := {
  token_role : string
}.

Inductive NextResponse : Type :=
| next
| redirect (url : string).

(** [s.startsWith(prefix)] *)
Definition startsWith (s prefix_ : string) : bool := String.prefix prefix_ s.

(** A block of the middleware either returns a response or falls through to
    the next block. *)
Definition admin (token : option Token) (pathname : string)
  : option NextResponse :=
  if startsWith pathname "/admin" then
    match token with
    | None => Some (redirect "/login")
    | Some token =>
        if negb (String.eqb (token_role token) "ADMIN")
           && negb (String.eqb (token_role token) "EMPLOYEE")
        then Some (redirect "/login")
        else None
    end
  else None.

Definition reservations_ (token : option Token) (pathname : string)
  : option NextResponse :=
  if startsWith pathname "/reservations" then
    match token with
    | None =>
        if String.eqb pathname "/reservations" then Some next
        else if negb (String.eqb pathname "/reservations/new")
             then Some (redirect "/login")
             else None
    | Some _ => None
    end
  else None.

Definition login (token : option Token) (pathname : string)
  : option NextResponse :=
  if startsWith pathname "/login" || startsWith pathname "/register" then
    match token with
    | Some _ => Some (redirect "/")
    | None => None
    end
  else None.

Definition middleware (token : option Token) (pathname : string) : NextResponse :=
  match admin token pathname with
  | Some response => response
  | None =>
      match reservations_ token pathname with
      | Some response => response
      | None =>
          match login token pathname with
          | Some response => response
          | None => next
          end
      end
  end.

(** [export const config = { matcher: [...] }] *)
Definition matcher : list string :=
  ["/admin/:path*"; "/reservations/:path*"; "/login"; "/register"].

(** What Next.js does with a request: it calls [middleware] when a pattern of
    [config.matcher] matches the path of the request, and lets the request
    pass otherwise.  How a pattern matches a path is the framework's; it is
    the parameter [matches]. *)
Definition handle (matches : string -> string -> bool) (token : option Token)
    (pathname : string) : NextResponse :=
  if existsb (fun source => matches source pathname) matcher
  then middleware token pathname
  else next.

(** The role of the token is ADMIN or EMPLOYEE. *)
Definition staff (token : option Token) : bool :=
  match token with
  | None => false
  | Some token =>
      String.eqb (token_role token) "ADMIN"
      || String.eqb (token_role token) "EMPLOYEE"
  end.

End Middleware.

(** ** Deleting rows: [onDelete: Cascade] *)

Module Cascade.
Import Schema Prisma.

(** [user.delete({ where: { id } })].  Every relation of the schema is
    declared [onDelete: Cascade]: the reservations and the payments of the
    user go with the row, and with each reservation its payment. *)
Definition user_delete (id : string) (db : DB) : Exc DB :=
  match users db !! id with
  | None => Throw "Record to delete does not exist."
  | Some _ =>
      let gone :=
        filter (fun ir : string * Reservation => userId ir.2 = id)
          (reservations db) in
      Ok {| users := delete id (users db);
            vehicles := vehicles db;
            reservations :=
              filter (fun ir : string * Reservation => userId ir.2 <> id)
                (reservations db);
            payments :=
              filter (fun ip : string * Payment =>
                        payment_userId ip.2 <> id
                        /\ gone !! reservationId ip.2 = None)
                (payments db) |}
  end.

(** [vehicle.delete({ where: { id } })] *)
Definition vehicle_delete (id : string) (db : DB) : Exc DB :=
  match vehicles db !! id with
  | None => Throw "Record to delete does not exist."
  | Some _ =>
      let gone :=
        filter (fun ir : string * Reservation => vehicleId ir.2 = id)
          (reservations db) in
      Ok {| users := users db;
            vehicles := delete id (vehicles db);
            reservations :=
              filter (fun ir : string * Reservation => vehicleId ir.2 <> id)
                (reservations db);
            payments :=
              filter (fun ip : string * Payment =>
                        gone !! reservationId ip.2 = None)
                (payments db) |}
  end.

End Cascade.

(** ** The constraints of the schema *)

Module Integrity.
Import Schema.

(** The foreign keys: a reservation names a user and a vehicle of the
    database, a payment a user and a reservation. *)
Definition foreign_keys (db : DB) : Prop :=
  map_Forall (fun _ r => is_Some (users db !! userId r)
                         /\ is_Some (vehicles db !! vehicleId r))
    (reservations db)
  /\ map_Forall (fun _ p => is_Some (users db !! payment_userId p)
                            /\ is_Some (reservations db !! reservationId p))
       (payments db).

(** [reservationId String @unique]: no two payments of one reservation. *)
Definition reservationId_unique (db : DB) : Prop :=
  map_Forall (fun k1 p1 =>
    map_Forall (fun k2 p2 => reservationId p1 = reservationId p2 -> k1 = k2)
      (payments db))
    (payments db).

Definition constraints (db : DB) : Prop :=
  foreign_keys db /\ reservationId_unique db.

#[global] Instance constraints_dec db : Decision (constraints db).
Proof. unfold constraints, foreign_keys, reservationId_unique. apply _. Defined.

End Integrity.

(** ** The fleet: [DELETE /api/vehicles/:id] *)

Module Fleet.
Import Schema Prisma Api Cascade.

Definition DELETE (session : option Session) (id : string) (db : DB)
  : Response * DB :=
  match session with
  | None => (json (Error "Unauthorized") 401, db)
  | Some session =>
      if negb (hasRequiredRole session ["ADMIN"])
      then (json (Error "Unauthorized") 401, db)
      else
        match vehicle_delete id db with
        | Ok db' => (json (Message "Vehicle deleted successfully") 200, db')
        | Throw _ => (json (Error "Failed to delete vehicle") 500, db)
        end
  end.

End Fleet.

(** ** The page of a member's reservations *)

Module ReservationsPage.
Import Schema Prisma Api VehiclesPage Edit Reads.

Inductive Toast : Type :=
| Cancelled    (* "Reservation cancelled" *)
| Failed.      (* "Failed to cancel reservation. Please try again." *)

(** An item of the state [reservations] of the page: a reservation of the
    list that the page has loaded, with its payment. *)
Definition Item : Type := string * Reservation * option ListedPayment.

(** [{ ...reservation, status: "CANCELLED" }] *)
Definition cancelled (reservation : Item) : Item :=
  (fst (fst reservation),
   withStatus ReservationStatus.CANCELLED (snd (fst reservation)),
   snd reservation).

(** [handleCancelReservation]: the state [reservations] of the page and the
    toast after the click, and the database after the request. *)
Definition handleCancelReservation (session : option Session) (id : string)
    (reservations : list Item) (db : DB) : list Item * Toast * DB :=
  let (response, db') := DELETE session id db in
  if negb (ok response) then (reservations, Failed, db')
  else
    (map (fun reservation : Item =>
            if String.eqb (fst (fst reservation)) id
            then cancelled reservation
            else reservation) reservations,
     Cancelled, db').

(** A payment of the list after a refund. *)
Definition refunded (p : ListedPayment) : ListedPayment :=
  {| listed_id := listed_id p;
     listed_paymentMethod := listed_paymentMethod p;
     listed_paymentStatus := PaymentStatus.REFUNDED;
     listed_amount := listed_amount p;
     listed_currency := listed_currency p |}.

End ReservationsPage.

(** ** Accounts: registration, sign-in, profile and user management *)

Module Accounts.
Import JsDate Schema Prisma Api Cascade.

(** The columns of [User] that the account routes read and write, beside
    the [role] of [Schema.User].  A row of the table is the [User] of [users]
    and the [Profile] of [profiles] under one key. *)
Record Profile : Type := {
  name : string;
  email : string;                  (* @unique *)
  password : string;               (* the bcrypt hash *)
  phone : option string;
  address : option string;
  city : option string;
  country : string;
  birthDate : Z;
  driversLicenseNumber : string    (* @unique *)
}.

Record Store : Type := {
  tables : DB;
  profiles : gmap string Profile
}.

Definition with_users (f : gmap string User -> gmap string User) (db : DB) : DB :=
  {| users := f (users db); vehicles := vehicles db;
     reservations := reservations db; payments := payments db |}.

(** bcryptjs.  [hash(password, 10)] draws a salt, here its second argument. *)
Record Bcrypt : Type := {
  hash : string -> string -> string;
  compare : string -> string -> bool
}.

(** [compare] accepts a password against each of its hashes. *)
Definition sound (B : Bcrypt) : Prop :=
  forall password_ salt, compare B password_ (hash B password_ salt) = true.

(** *** The [user] model of the client *)

Definition rows (st : Store) : gmap string (User * Profile) :=
  map_zip (users (tables st)) (profiles st).

Definition user_findUnique (id : string) (st : Store) : option (User * Profile) :=
  rows st !! id.

(** [findUnique({ where: { column: value } })] on a [@unique] column. *)
Definition user_findUnique_by (column : Profile -> string) (value : string)
    (st : Store) : option (string * (User * Profile)) :=
  List.find (fun iu : string * (User * Profile) =>
               String.eqb (column (snd (snd iu))) value)
    (map_to_list (rows st)).

Definition user_create (id : string) (user : User) (profile : Profile)
    (st : Store) : Exc Store :=
  match users (tables st) !! id, profiles st !! id with
  | None, None =>
      match user_findUnique_by email (email profile) st,
            user_findUnique_by driversLicenseNumber
              (driversLicenseNumber profile) st with
      | None, None =>
          Ok {| tables := with_users (insert id user) (tables st);
                profiles := <[id := profile]> (profiles st) |}
      | Some _, _ => Throw "Unique constraint failed on the fields: (`email`)"
      | _, _ =>
          Throw "Unique constraint failed on the fields: (`driversLicenseNumber`)"
      end
  | _, _ => Throw "Unique constraint failed on the fields: (`id`)"
  end.

(** [update]: none of the routes writes [email] or [driversLicenseNumber]. *)
Definition user_update (id : string)
    (data : User * Profile -> Exc (User * Profile)) (st : Store)
  : Exc (User * Profile * Store) :=
  match user_findUnique id st with
  | None => Throw "Record to update not found."
  | Some row =>
      row' ← data row;
      mret (row',
            {| tables := with_users (insert id (fst row')) (tables st);
               profiles := <[id := snd row']> (profiles st) |})
  end.

Definition user_delete (id : string) (st : Store) : Exc Store :=
  match user_findUnique id st with
  | None => Throw "Record to delete does not exist."
  | Some _ =>
      db ← Cascade.user_delete id (tables st);
      mret {| tables := db; profiles := delete id (profiles st) |}
  end.

(** *** Responses *)

Inductive AccountBody : Type :=
| AccountError (error : string)
| AccountMessage (message : string)
| Success                                      (* [{ success: true }] *)
| UserJson (id name_ email_ : string) (role_ : Role.t).

Record AccountResponse : Type := {
  account_body : AccountBody;
  account_status : Z
}.

Definition reply (b : AccountBody) (st : Z) : AccountResponse :=
  {| account_body := b; account_status := st |}.

(** Of the selected columns the body keeps [id], [name], [email], [role]. *)
Definition userJson (id : string) (row : User * Profile) : AccountBody :=
  UserJson id (name (snd row)) (email (snd row)) (role (fst row)).

(** *** Registration: [POST /api/register] *)

(** The fields are strings when they are there; [None] is a field that is
    absent or null, and for [birthDate] also the empty string. *)
Record RegisterBody : Type := {
  reg_name : option string;
  reg_email : string;
  reg_password : string;
  reg_birthDate : option Date;   (* [Some d]: [new Date(birthDate)] *)
  reg_driversLicenseNumber : option string
}.

(** [365.25 * 24 * 60 * 60 * 1000] *)
Definition msPerYear : Z := 31557600000.

(** [Math.floor((Date.now() - birth) / msPerYear)]; the quotient of the two
    integers is taken exactly. *)
Definition age (now birth : Z) : Z := (now - birth) / msPerYear.

(** [age < 18], which is false when [age] is NaN *)
Definition minor (now : Z) (birth : Date) : bool :=
  match getTime birth with
  | Some ms => age now ms <? 18
  | None => false
  end.

(** [length]: one character of a string of the model for each code unit. *)
Definition shorter (s : string) (n : nat) : bool := (String.length s <? n)%nat.

Definition register (B : Bcrypt) (b : RegisterBody) (now : Z)
    (id salt : string) (st : Store) : AccountResponse * Store :=
  if negb (truthy (reg_email b))
  then (reply (AccountError "Email is required") 400, st) else
  if negb (truthy (reg_password b))
  then (reply (AccountError "Password is required") 400, st) else
  if shorter (reg_password b) 5
  then (reply (AccountError "Password must be at least 5 characters long") 400,
        st) else
  match user_findUnique_by email (reg_email b) st with
  | Some _ =>
      (reply (AccountError "User with this email already exists") 400, st)
  | None =>
  match reg_driversLicenseNumber b with
  | None =>   (* [findUnique] throws on a [where] without a value *)
      (reply (AccountError "Error creating user") 500, st)
  | Some license =>
  match user_findUnique_by driversLicenseNumber license st with
  | Some _ =>
      (reply (AccountError "Driver's license number already in use") 400, st)
  | None =>
  match reg_birthDate b with
  | None => (reply (AccountError "Birth date is required") 400, st)
  | Some birth =>
  if minor now birth
  then (reply (AccountError "You must be at least 18 years old") 400, st) else
  if negb (truthy license)
  then (reply (AccountError "Driver's license number is required") 400, st) else
  if shorter license 5
  then (reply (AccountError
                 "Driver's license number must be at least 5 characters long")
          400, st) else
  let hashedPassword := hash B (reg_password b) salt in
  match reg_name b, getTime birth with
  | Some name_, Some birthMs =>
      let user := {| role := Role.MEMBER |} in
      let profile :=
        {| name := name_; email := reg_email b; password := hashedPassword;
           phone := None; address := None; city := None;
           country := "Germany"; birthDate := birthMs;
           driversLicenseNumber := license |} in
      match user_create id user profile st with
      | Ok st' => (reply (userJson id (user, profile)) 201, st')
      | Throw _ => (reply (AccountError "Error creating user") 500, st)
      end
  | _, _ =>   (* [create] refuses a missing name and an invalid date *)
      (reply (AccountError "Error creating user") 500, st)
  end
  end end end end.

(** *** Sign-in: [authorize] and the callbacks [jwt] and [session] *)

Record AuthUser : Type := {
  auth_id : string;
  auth_email : string;
  auth_name : string;
  auth_role : Role.t
}.

Definition authorize (B : Bcrypt) (email_ password_ : string) (st : Store)
  : option AuthUser :=
  if negb (truthy email_) || negb (truthy password_) then None else
  match user_findUnique_by email email_ st with
  | None => None
  | Some (id, (user, profile)) =>
      if compare B password_ (password profile)
      then Some {| auth_id := id; auth_email := email profile;
                   auth_name := name profile; auth_role := role user |}
      else None
  end.

(** [session.user.id] and [session.user.role] are [token.id] and
    [token.role], which are [user.id] and [user.role] of [authorize]. *)
Definition session_of (user : AuthUser) : Session :=
  {| session_user_id := auth_id user;
     session_user_role := Role.to_string (auth_role user) |}.

(** *** Password change: [PUT /api/profile/password] *)

Record PasswordBody : Type := {
  currentPassword : option string;
  newPassword : string
}.

Definition withPassword (hashedPassword : string) (p : Profile) : Profile :=
  {| name := name p; email := email p; password := hashedPassword;
     phone := phone p; address := address p; city := city p;
     country := country p; birthDate := birthDate p;
     driversLicenseNumber := driversLicenseNumber p |}.

(** [data: { password: hashedPassword }] *)
Definition setPassword (hashedPassword : string) (row : User * Profile)
  : Exc (User * Profile) :=
  Ok (fst row, withPassword hashedPassword (snd row)).

Definition password_PUT (B : Bcrypt) (session : option Session)
    (b : PasswordBody) (salt : string) (st : Store) : AccountResponse * Store :=
  match session with
  | None => (reply (AccountError "Unauthorized") 401, st)
  | Some session =>
  match user_findUnique (session_user_id session) st with
  | None => (reply (AccountError "User not found") 404, st)
  | Some user =>
  match currentPassword b with
  | None =>   (* [compare] throws without a password *)
      (reply (AccountError "Error changing password") 500, st)
  | Some current =>
  if negb (compare B current (password (snd user)))
  then (reply (AccountError "Current password is incorrect") 400, st) else
  if negb (truthy (newPassword b))
  then (reply (AccountError "New password is required") 400, st) else
  if shorter (newPassword b) 5
  then (reply (AccountError
                 "New password must be at least 5 characters long") 400, st)
  else
  let hashedPassword := hash B (newPassword b) salt in
  match user_update (session_user_id session) (setPassword hashedPassword) st with
  | Ok (_, st') => (reply Success 200, st')
  | Throw _ => (reply (AccountError "Error changing password") 500, st)
  end
  end end end.

(** *** The own profile: [/api/profile] *)

Definition profile_GET (session : option Session) (st : Store)
  : AccountResponse :=
  match session with
  | None => reply (AccountError "Unauthorized") 401
  | Some session =>
      match user_findUnique (session_user_id session) st with
      | None => reply (AccountError "User not found") 404
      | Some user => reply (userJson (session_user_id session) user) 200
      end
  end.

(** A field of a JSON body that is a string when it is there. *)
Inductive Field : Type :=
| undefined
| null
| str (s : string).

Record ProfileBody : Type := {
  put_name : Field;
  put_phone : Field;
  put_address : Field;
  put_city : Field;
  put_country : Field;
  put_birthDate : option Date  (* [None]: falsy; [Some d]: [new Date(birthDate)] *)
}.

(** A required column keeps its value for [undefined] and cannot be null. *)
Definition set_required (f : Field) (old : string) : Exc string :=
  match f with
  | undefined => Ok old
  | null => Throw "Argument must not be null"
  | str s => Ok s
  end.

Definition set_optional (f : Field) (old : option string) : option string :=
  match f with
  | undefined => old
  | null => None
  | str s => Some s
  end.

Definition setProfile (b : ProfileBody) (row : User * Profile)
  : Exc (User * Profile) :=
  name_ ← set_required (put_name b) (name (snd row));
  country_ ← set_required (put_country b) (country (snd row));
  birthDate_ ← set_date (put_birthDate b) (birthDate (snd row));
  mret (fst row,
        {| name := name_; email := email (snd row);
           password := password (snd row);
           phone := set_optional (put_phone b) (phone (snd row));
           address := set_optional (put_address b) (address (snd row));
           city := set_optional (put_city b) (city (snd row));
           country := country_; birthDate := birthDate_;
           driversLicenseNumber := driversLicenseNumber (snd row) |}).

Definition profile_PUT (session : option Session) (b : ProfileBody)
    (st : Store) : AccountResponse * Store :=
  match session with
  | None => (reply (AccountError "Unauthorized") 401, st)
  | Some session =>
      match user_update (session_user_id session) (setProfile b) st with
      | Ok (user, st') =>
          (reply (userJson (session_user_id session) user) 200, st')
      | Throw _ => (reply (AccountError "Error updating profile") 500, st)
      end
  end.

Definition profile_DELETE (session : option Session) (st : Store)
  : AccountResponse * Store :=
  match session with
  | None => (reply (AccountError "Unauthorized") 401, st)
  | Some session =>
      if negb (String.eqb (session_user_role session) "MEMBER")
      then (reply (AccountError "Only members can delete their accounts") 403,
            st)
      else
        match user_delete (session_user_id session) st with
        | Ok st' => (reply (AccountMessage "Account deleted successfully") 200,
                     st')
        | Throw _ => (reply (AccountError "Failed to delete account") 500, st)
        end
  end.

(** *** User management: [/api/users/:id] *)

(** The [hasRequiredRole] of this route file: [roles.includes(role)]. *)
Definition hasRequiredRole_ (session : Session) (roles : list string) : bool :=
  includes roles (session_user_role session).

Definition Role_all : list Role.t :=
  [Role.GUEST; Role.MEMBER; Role.EMPLOYEE; Role.ADMIN].

Definition Role_of_string (s : string) : option Role.t :=
  List.find (fun x => String.eqb (Role.to_string x) s) Role_all.

Definition users_GET (session : option Session) (id : string) (st : Store)
  : AccountResponse :=
  match session with
  | None => reply (AccountError "Unauthorized") 401
  | Some session =>
      if negb (String.eqb (session_user_role session) "ADMIN")
      then reply (AccountError "Unauthorized") 401
      else
        match user_findUnique id st with
        | None => reply (AccountError "User not found") 404
        | Some user => reply (userJson id user) 200
        end
  end.

Definition setRole (role_ : string) (row : User * Profile)
  : Exc (User * Profile) :=
  match Role_of_string role_ with
  | Some r => Ok ({| role := r |}, snd row)
  | None => Throw "Invalid value for argument: Expected an enum member"
  end.

Definition users_PUT (session : option Session) (id role_ : string)
    (st : Store) : AccountResponse * Store :=
  match session with
  | None => (reply (AccountError "Unauthorized") 401, st)
  | Some session =>
      if negb (hasRequiredRole_ session ["ADMIN"])
      then (reply (AccountError "Unauthorized") 401, st) else
      if negb (includes ["MEMBER"; "EMPLOYEE"; "ADMIN"] role_)
      then (reply (AccountError "Invalid role") 400, st)
      else
        match user_update id (setRole role_) st with
        | Ok (user, st') => (reply (userJson id user) 200, st')
        | Throw _ => (reply (AccountError "Failed to update user") 500, st)
        end
  end.

Definition users_DELETE (session : option Session) (id : string) (st : Store)
  : AccountResponse * Store :=
  match session with
  | None => (reply (AccountError "Unauthorized") 401, st)
  | Some session =>
      if negb (hasRequiredRole_ session ["ADMIN"])
      then (reply (AccountError "Unauthorized") 401, st) else
      if String.eqb (session_user_id session) id
      then (reply (AccountError "Cannot delete your own account") 400, st)
      else
        match user_delete id st with
        | Ok st' => (reply (AccountMessage "User deleted successfully") 200, st')
        | Throw _ => (reply (AccountError "Failed to delete user") 500, st)
        end
  end.

(** *** The constraints on the user table *)

(** The two halves of the table have the same keys. *)
Definition same_keys (st : Store) : Prop :=
  dom (users (tables st)) = dom (profiles st).

Definition column_unique (column : Profile -> string) (st : Store) : Prop :=
  map_Forall (fun i p =>
    map_Forall (fun j q => column p = column q -> i = j) (profiles st))
    (profiles st).

Definition wellformed (st : Store) : Prop :=
  Integrity.constraints (tables st)
  /\ same_keys st
  /\ column_unique email st
  /\ column_unique driversLicenseNumber st.

#[global] Instance wellformed_dec st : Decision (wellformed st).
Proof. unfold wellformed, same_keys, column_unique. apply _. Defined.

(** One account request served to its end. *)
Inductive request (B : Bcrypt) (st : Store) : Store -> Prop :=
| request_register b now id salt :
    request B st (snd (register B b now id salt st))
| request_password session b salt :
    request B st (snd (password_PUT B session b salt st))
| request_profile_PUT session b :
    request B st (snd (profile_PUT session b st))
| request_profile_DELETE session :
    request B st (snd (profile_DELETE session st))
| request_users_PUT session id role_ :
    request B st (snd (users_PUT session id role_ st))
| request_users_DELETE session id :
    request B st (snd (users_DELETE session id st))
| request_reservation db :
    Consistency.request (tables st) db ->
    request B st {| tables := db; profiles := profiles st |}
| request_vehicle_DELETE session id :
    request B st {| tables := snd (Fleet.DELETE session id (tables st));
                    profiles := profiles st |}.

End Accounts.

(** ** Accounts for the seed data *)

Module SeedAccounts.
Import JsDate Schema Api Accounts.

(** A stand-in for bcryptjs in the examples: the hash is the password. *)
Definition plain : Bcrypt :=
  {| hash := fun password_ _ => password_; compare := String.eqb |}.

(** The users of [setup.sql], with passwords for [plain]. *)
Definition store : Store :=
  {| tables := Seed.db;
     profiles :=
       {[ "user-1" :=
            {| name := "Admin-Fab"; email := "fab@admin.com";
               password := "admin-password";
               phone := Some "+49 123 456789"; address := Some "Broadway 1";
               city := Some "Berlin"; country := "Germany";
               birthDate := UTC 1990 1 1 0 0 0;
               driversLicenseNumber := "F34T434" |};
          "user-2" :=
            {| name := "Dom"; email := "dom@user.com";
               password := "member-password";
               phone := Some "+49 987 654321"; address := Some "Wallstreet 2";
               city := Some "Munich"; country := "Germany";
               birthDate := UTC 1995 5 5 0 0 0;
               driversLicenseNumber := "F34T435" |};
          "user-3" :=
            {| name := "YB"; email := "yb@employee.com";
               password := "employee-password";
               phone := Some "+49 555 123456"; address := Some "Tree 3";
               city := Some "Hamburg"; country := "Germany";
               birthDate := UTC 1992 3 15 0 0 0;
               driversLicenseNumber := "F34T436" |} ]} |}.

Definition fab : Session :=
  {| session_user_id := "user-1"; session_user_role := "ADMIN" |}.

(** A registration on 1 July 2025 of a person born on 1 July 2007. *)
Definition newcomer : RegisterBody :=
  {| reg_name := Some "Eve"; reg_email := "eve@user.com";
     reg_password := "secret";
     reg_birthDate := Some (Date_UTC 2007 7 1 0 0 0);
     reg_driversLicenseNumber := Some "F34T437" |}.

End SeedAccounts.

(** * Properties *)

Import JsDate Schema Prisma Api EventLoop Consistency.

(** ** The billing engine *)

Section Billing.
Import BillingEngine.
Local Open Scope Q_scope.

Lemma Qnonzero_spec q : Qnonzero q = true <-> ~ q == 0.
Proof.
  unfold Qnonzero. rewrite negb_true_iff, <- not_true_iff_false, Qeq_bool_iff.
  reflexivity.
Qed.

Lemma Qpositive_spec q : Qpositive q = true <-> 0 < q.
Proof.
  unfold Qpositive. rewrite negb_true_iff, <- not_true_iff_false, Qle_bool_iff.
  split; [apply Qnot_le_lt | apply Qlt_not_le].
Qed.

Lemma Qnegative_spec q : Qnegative q = true <-> q < 0.
Proof.
  unfold Qnegative. rewrite negb_true_iff, <- not_true_iff_false, Qle_bool_iff.
  split; [apply Qnot_le_lt | apply Qlt_not_le].
Qed.

(** The ceiling of the quotient, as an integer division. *)
Lemma dayCount_div (timeDiff : Z) :
  dayCount timeDiff = Z.max 1 (- ((- timeDiff) / msPerDay))%Z.
Proof.
  unfold dayCount, Qceiling, Qfloor, Qdiv, Qinv, Qmult, Qopp, inject_Z, msPerDay.
  cbn -[Z.div Z.mul Z.max]. rewrite Z.mul_1_r. reflexivity.
Qed.

(** [dayCount] is the least number of whole days, at least one, that
    covers the time difference. *)
Lemma dayCount_least (timeDiff : Z) :
  (1 <= dayCount timeDiff)%Z
  /\ (timeDiff <= dayCount timeDiff * msPerDay)%Z
  /\ (forall n : Z, (1 <= n)%Z -> (timeDiff <= n * msPerDay)%Z ->
                    (dayCount timeDiff <= n)%Z).
Proof.
  rewrite dayCount_div. unfold msPerDay.
  pose proof (Z.div_mod (- timeDiff) 86400000 ltac:(lia)).
  pose proof (Z.mod_pos_bound (- timeDiff) 86400000 ltac:(lia)).
  change (1000 * 60 * 60 * 24)%Z with 86400000%Z.
  repeat split; lia.
Qed.

Lemma inject_Z_dayCount_pos (timeDiff : Z) : 0 < inject_Z (dayCount timeDiff).
Proof.
  destruct (dayCount_least timeDiff) as [H _].
  change 0 with (inject_Z 0). rewrite <- Zlt_Qlt. lia.
Qed.

(** The three shapes of the result, by the sign of the rate. *)
Lemma priceFor_discount p s e t :
  let b := p * inject_Z (dayCount (e - s)) in
  0 < discount t ->
  priceFor p s e t =
  {| basePrice := b;
     tariffAdjustment := b * discount t;
     totalPrice := b + - (b * discount t);
     breakdown :=
       [ {| line_description := BasePriceLine (dayCount (e - s)) p; amount := b |};
         {| line_description := DiscountLine (name t) (discount t * 100);
            amount := - (b * discount t) |} ] |}.
Proof.
  intros b Hr. unfold priceFor. fold b.
  assert (Qnonzero (discount t) = true) as ->.
  { apply Qnonzero_spec. intros E. rewrite E in Hr. discriminate Hr. }
  assert (Qpositive (discount t) = true) as -> by (apply Qpositive_spec, Hr).
  assert (Qnegative (discount t) = false) as ->.
  { apply not_true_iff_false. rewrite Qnegative_spec.
    apply Qle_not_lt, Qlt_le_weak, Hr. }
  reflexivity.
Qed.

Lemma priceFor_surcharge p s e t :
  let b := p * inject_Z (dayCount (e - s)) in
  discount t < 0 ->
  priceFor p s e t =
  {| basePrice := b;
     tariffAdjustment := b * discount t;
     totalPrice := b + Qabs (b * discount t);
     breakdown :=
       [ {| line_description := BasePriceLine (dayCount (e - s)) p; amount := b |};
         {| line_description := SurchargeLine (name t) (Qabs (discount t * 100));
            amount := Qabs (b * discount t) |} ] |}.
Proof.
  intros b Hr. unfold priceFor. fold b.
  assert (Qnonzero (discount t) = true) as ->.
  { apply Qnonzero_spec. intros E. rewrite E in Hr. discriminate Hr. }
  assert (Qpositive (discount t) = false) as ->.
  { apply not_true_iff_false. rewrite Qpositive_spec.
    apply Qle_not_lt, Qlt_le_weak, Hr. }
  assert (Qnegative (discount t) = true) as -> by (apply Qnegative_spec, Hr).
  reflexivity.
Qed.

Lemma priceFor_flat p s e t :
  let b := p * inject_Z (dayCount (e - s)) in
  discount t = 0 ->
  priceFor p s e t =
  {| basePrice := b;
     tariffAdjustment := 0;
     totalPrice := b + - 0;
     breakdown :=
       [ {| line_description := BasePriceLine (dayCount (e - s)) p; amount := b |} ] |}.
Proof. intros b Hr. unfold priceFor. fold b. rewrite Hr. reflexivity. Qed.

(** A tariff id outside the table falls back to its first entry. *)
Lemma findTariff_unknown tariffId :
  tariffId ∉ ["BASIC"; "DISCOUNTED"; "EXCLUSIVE"] ->
  findTariff tariffId = basic.
Proof.
  intros Hn. unfold findTariff, tariffs. cbn [List.find id basic discounted exclusive].
  destruct (String.eqb_spec "BASIC" tariffId) as [<-|_]; [set_solver|].
  destruct (String.eqb_spec "DISCOUNTED" tariffId) as [<-|_]; [set_solver|].
  destruct (String.eqb_spec "EXCLUSIVE" tariffId) as [<-|_]; [set_solver|].
  reflexivity.
Qed.

(** C9: an unknown tariff id.  The result is the result for ["BASIC"]: no
    adjustment, a total equal to the base price and one breakdown line. *)
Theorem calculatePrice_unknown_tariff :
  forall (pricePerDay : Q) (startDate endDate : option Date) (tariffId : string),
    tariffId ∉ ["BASIC"; "DISCOUNTED"; "EXCLUSIVE"] ->
    calculatePrice pricePerDay startDate endDate tariffId
    = calculatePrice pricePerDay startDate endDate "BASIC"
    /\ (forall startMs endMs : Z,
           startDate = Some (Instant startMs) -> endDate = Some (Instant endMs) ->
           let c := calculatePrice pricePerDay startDate endDate tariffId in
           tariffAdjustment c = 0
           /\ totalPrice c == basePrice c
           /\ length (breakdown c) = 1%nat).
Proof.
  intros p sd ed tariffId Hn.
  split.
  - unfold calculatePrice. rewrite (findTariff_unknown _ Hn). reflexivity.
  - intros s e -> -> c. subst c. cbn [calculatePrice getTime].
    rewrite (findTariff_unknown _ Hn), priceFor_flat by reflexivity.
    cbn [basePrice tariffAdjustment totalPrice breakdown length].
    repeat split. ring.
Qed.

Lemma calculatePrice_unknown_tariff_witness :
  calculatePrice 50 (Some (Date_UTC 2025 1 1 0 0 0)) (Some (Date_UTC 2025 1 2 0 0 0))
    "UNKNOWN"
  = calculatePrice 50 (Some (Date_UTC 2025 1 1 0 0 0)) (Some (Date_UTC 2025 1 2 0 0 0))
      "BASIC".
Proof.
  apply (calculatePrice_unknown_tariff 50 (Some (Date_UTC 2025 1 1 0 0 0))
           (Some (Date_UTC 2025 1 2 0 0 0)) "UNKNOWN").
  vm_compute. intros H. repeat (apply elem_of_cons in H as [H|H]; [discriminate H|]).
  inversion H.
Defined.

(** C10: an end date that is not after the start date.  One day is billed,
    the result is that of a one-day rental and it is not the zero result;
    the zero result is returned exactly when a date is missing or invalid. *)
Theorem calculatePrice_end_not_after_start :
  forall (pricePerDay : Q) (startMs endMs : Z) (tariffId : string),
    (endMs <= startMs)%Z ->
    let c := calculatePrice pricePerDay (Some (Instant startMs))
               (Some (Instant endMs)) tariffId in
    let r := discount (findTariff tariffId) in
    dayCount (endMs - startMs) = 1%Z
    /\ basePrice c = pricePerDay * 1
    /\ tariffAdjustment c == basePrice c * r
    /\ totalPrice c
       == basePrice c + (if Qnegative r then Qabs (tariffAdjustment c)
                         else - tariffAdjustment c)
    /\ c = calculatePrice pricePerDay (Some (Instant startMs))
             (Some (Instant (startMs + msPerDay))) tariffId
    /\ c <> zeroResult
    /\ (forall (p : Q) (startDate endDate : option Date) (t : string),
           calculatePrice p startDate endDate t = zeroResult <->
           ~ exists s e, startDate = Some (Instant s) /\ endDate = Some (Instant e)).
Proof.
  intros p s e tariffId Hle c r.
  assert (dayCount (e - s) = 1%Z) as Hone.
  { destruct (dayCount_least (e - s)) as (H1 & _ & H3).
    specialize (H3 1%Z). unfold msPerDay in *. lia. }
  assert (dayCount (s + msPerDay - s) = 1%Z) as Hday.
  { replace (s + msPerDay - s)%Z with msPerDay by lia. reflexivity. }
  assert (forall q a b t, breakdown (priceFor q a b t) <> []) as Hne.
  { intros q a b t. unfold priceFor. cbn [breakdown].
    destruct (Qnonzero _); [destruct (Qpositive _)|]; discriminate. }
  subst c. cbn [calculatePrice getTime].
  split; [exact Hone|]. split.
  { unfold priceFor. cbn [basePrice]. rewrite Hone. reflexivity. }
  split.
  { unfold priceFor. cbn [basePrice tariffAdjustment]. fold r.
    destruct (Qnonzero r) eqn:Hnz; [reflexivity|].
    apply not_true_iff_false in Hnz. rewrite Qnonzero_spec in Hnz.
    assert (r == 0) as -> by (destruct (Qeq_dec r 0); tauto). ring. }
  split; [reflexivity|]. split.
  { unfold priceFor. rewrite Hone, Hday. reflexivity. }
  split.
  { intros E. apply (Hne p s e (findTariff tariffId)). rewrite E. reflexivity. }
  intros q sd ed t. unfold calculatePrice. split.
  - intros E (a & b & -> & ->). cbn [getTime] in E.
    apply (Hne q a b (findTariff t)). rewrite E. reflexivity.
  - intros Hno. destruct sd as [[a|]|], ed as [[b|]|]; cbn [getTime];
      try reflexivity.
    exfalso. apply Hno. eauto.
Qed.

Lemma calculatePrice_end_not_after_start_witness :
  dayCount (UTC 2025 1 1 0 0 0 - UTC 2025 1 3 0 0 0) = 1%Z.
Proof.
  apply (calculatePrice_end_not_after_start 50 (UTC 2025 1 3 0 0 0)
           (UTC 2025 1 1 0 0 0) "DISCOUNTED").
  vm_compute. discriminate.
Defined.

End Billing.

(** ** Binary64 arithmetic *)

Section DoubleFacts.
Import Double.

Lemma fexp_spec e : fexp prec emax e = Z.max (e - 53) (-1074).
Proof. reflexivity. Qed.

(** [digits2_pos p] is the number of binary digits of [p]. *)
Lemma digits2_pos_bounds p :
  2 ^ (Zpos (digits2_pos p) - 1) <= Zpos p < 2 ^ Zpos (digits2_pos p).
Proof.
  induction p as [p IH|p IH|]; cbn [digits2_pos].
  - rewrite Pos2Z.inj_succ.
    replace (Z.succ (Zpos (digits2_pos p)) - 1) with (Z.succ (Zpos (digits2_pos p) - 1)) by lia.
    rewrite !Z.pow_succ_r by lia. lia.
  - rewrite Pos2Z.inj_succ.
    replace (Z.succ (Zpos (digits2_pos p)) - 1) with (Z.succ (Zpos (digits2_pos p) - 1)) by lia.
    rewrite !Z.pow_succ_r by lia. lia.
  - cbn. lia.
Qed.

Lemma digits2_pos_unique p d :
  2 ^ (d - 1) <= Zpos p < 2 ^ d -> Zpos (digits2_pos p) = d.
Proof.
  intros [Hlo Hhi]. pose proof (digits2_pos_bounds p) as [Hlo' Hhi'].
  assert (0 < d).
  { destruct (Z_lt_le_dec 0 d); [assumption|].
    assert (2 ^ d <= 2 ^ 0) by (apply Z.pow_le_mono_r; lia).
    change (2 ^ 0) with 1 in *. lia. }
  destruct (Z.lt_trichotomy (Zpos (digits2_pos p)) d) as [Hlt|[Heq|Hgt]];
    [|exact Heq|].
  - assert (2 ^ Zpos (digits2_pos p) <= 2 ^ (d - 1))
      by (apply Z.pow_le_mono_r; lia). lia.
  - assert (2 ^ d <= 2 ^ (Zpos (digits2_pos p) - 1))
      by (apply Z.pow_le_mono_r; lia). lia.
Qed.

Lemma digits_spec n : 0 < n -> 2 ^ (digits n - 1) <= n < 2 ^ digits n.
Proof.
  intros Hn. unfold digits. pose proof (Z.log2_spec n Hn) as H.
  rewrite <- Z.add_1_r in H. replace (Z.log2 n + 1 - 1) with (Z.log2 n) by lia.
  exact H.
Qed.

Lemma digits_unique n d : 2 ^ (d - 1) <= n < 2 ^ d -> 0 < d -> digits n = d.
Proof.
  intros H Hd. unfold digits.
  rewrite (Z.log2_unique n (d - 1)); [lia|lia|].
  replace (Z.succ (d - 1)) with d by lia. exact H.
Qed.

Lemma digits_pos n : 0 < n -> 0 < digits n.
Proof. intros Hn. unfold digits. pose proof (Z.log2_nonneg n). lia. Qed.

Lemma digits2_pos_digits p : Zpos (digits2_pos p) = digits (Zpos p).
Proof. apply digits2_pos_unique, digits_spec. lia. Qed.

Lemma Zdigits2_digits n : 0 < n -> Zdigits2 n = digits n.
Proof. destruct n as [|p|p]; try lia. intros _. apply digits2_pos_digits. Qed.

Lemma digits_le n m : 0 < n -> n <= m -> digits n <= digits m.
Proof. intros Hn Hle. unfold digits. pose proof (Z.log2_le_mono n m Hle). lia. Qed.

Lemma digits_mul_pow2 n k : 0 < n -> 0 <= k -> digits (n * 2 ^ k) = digits n + k.
Proof.
  intros Hn Hk. pose proof (digits_spec n Hn) as [Hlo Hhi].
  pose proof (digits_pos n Hn).
  apply digits_unique; [|lia].
  replace (digits n + k - 1) with (digits n - 1 + k) by lia.
  rewrite !Z.pow_add_r by lia.
  assert (0 < 2 ^ k) by (apply Z.pow_pos_nonneg; lia). nia.
Qed.

Lemma digits_div_pow2 n k :
  0 < n -> 0 <= k < digits n -> digits (n / 2 ^ k) = digits n - k
  /\ 0 < n / 2 ^ k.
Proof.
  intros Hn Hk. pose proof (digits_spec n Hn) as [Hlo Hhi].
  assert (0 < 2 ^ k) as Hp by (apply Z.pow_pos_nonneg; lia).
  assert (2 ^ (digits n - k - 1) <= n / 2 ^ k < 2 ^ (digits n - k)) as Hb.
  { split.
    - apply Z.div_le_lower_bound; [lia|].
      rewrite <- Z.pow_add_r by lia.
      replace (k + (digits n - k - 1)) with (digits n - 1) by lia. exact Hlo.
    - apply Z.div_lt_upper_bound; [lia|].
      rewrite <- Z.pow_add_r by lia.
      replace (k + (digits n - k)) with (digits n) by lia. exact Hhi. }
  split.
  - apply digits_unique; [exact Hb|lia].
  - assert (0 < 2 ^ (digits n - k - 1)) by (apply Z.pow_pos_nonneg; lia). lia.
Qed.

Lemma digits_mul n m : 0 < n -> 0 < m -> digits n + digits m - 1 <= digits (n * m).
Proof.
  intros Hn Hm.
  pose proof (digits_spec n Hn) as [Hn1 _]. pose proof (digits_spec m Hm) as [Hm1 _].
  pose proof (digits_pos n Hn). pose proof (digits_pos m Hm).
  assert (0 < n * m) as Hnm by nia.
  pose proof (digits_spec (n * m) Hnm) as [_ Hhi].
  destruct (Z_lt_le_dec (digits (n * m)) (digits n + digits m - 1)) as [Hlt|]; [|lia].
  exfalso.
  assert (2 ^ digits (n * m) <= 2 ^ (digits n - 1 + (digits m - 1)))
    by (apply Z.pow_le_mono_r; lia).
  rewrite Z.pow_add_r in * by lia.
  assert (0 < 2 ^ (digits n - 1)) by (apply Z.pow_pos_nonneg; lia).
  assert (0 < 2 ^ (digits m - 1)) by (apply Z.pow_pos_nonneg; lia).
  nia.
Qed.

Lemma iter_xO p k : Zpos (Pos.iter xO p k) = Zpos p * 2 ^ Zpos k.
Proof.
  revert p. induction k as [|k IH] using Pos.peano_ind; intros p.
  - cbn. lia.
  - rewrite Pos.iter_succ. rewrite Pos2Z.inj_xO, IH, Pos2Z.inj_succ, Z.pow_succ_r by lia.
    lia.
Qed.

(** *** Shifting the mantissa right *)

(** One step of [shr] halves the mantissa and remembers what it drops. *)
Lemma shr_1_spec m r s :
  0 <= m ->
  shr_1 {| shr_m := m; shr_r := r; shr_s := s |}
  = {| shr_m := m / 2; shr_r := Z.odd m; shr_s := r || s |}.
Proof.
  intros Hm. rewrite <- Z.div2_div.
  destruct m as [|[p|p|]|p]; try lia; reflexivity.
Qed.

Lemma iter_pos_nat {A} (f : A -> A) p x :
  SpecFloat.iter_pos f p x = Nat.iter (Pos.to_nat p) f x.
Proof.
  revert x. induction p as [p IH|p IH|]; intros x; cbn [SpecFloat.iter_pos].
  - rewrite !IH, Pos2Nat.inj_xI.
    replace (2 * Pos.to_nat p)%nat with (Pos.to_nat p + Pos.to_nat p)%nat by lia.
    rewrite Nat.iter_succ_r, Nat.iter_add. reflexivity.
  - rewrite !IH, Pos2Nat.inj_xO.
    replace (2 * Pos.to_nat p)%nat with (Pos.to_nat p + Pos.to_nat p)%nat by lia.
    rewrite Nat.iter_add. reflexivity.
  - reflexivity.
Qed.

(** Shifting out zero bits is exact. *)
Lemma shr_exact_nat (k : nat) m :
  0 <= m ->
  Nat.iter k shr_1 {| shr_m := m * 2 ^ Z.of_nat k; shr_r := false; shr_s := false |}
  = {| shr_m := m; shr_r := false; shr_s := false |}.
Proof.
  intros Hm. induction k as [|k IH].
  - cbn. f_equal. lia.
  - rewrite Nat.iter_succ_r, shr_1_spec by (apply Z.mul_nonneg_nonneg; lia).
    rewrite Nat2Z.inj_succ, Z.pow_succ_r by lia.
    replace (m * (2 * 2 ^ Z.of_nat k) / 2) with (m * 2 ^ Z.of_nat k)
      by (rewrite (Z.mul_comm 2), Z.mul_assoc, Z.div_mul; lia).
    replace (Z.odd (m * (2 * 2 ^ Z.of_nat k))) with false.
    + exact IH.
    + symmetry. rewrite (Z.mul_comm 2), Z.mul_assoc, Z.mul_comm.
      apply Z.odd_even.
Qed.

Lemma shr_exact m e k :
  0 <= m -> 0 <= k ->
  shr {| shr_m := m * 2 ^ k; shr_r := false; shr_s := false |} e k
  = ({| shr_m := m; shr_r := false; shr_s := false |}, e + k).
Proof.
  intros Hm Hk. unfold shr. destruct k as [|p|p]; [| |lia].
  - rewrite Z.mul_1_r, Z.add_0_r. reflexivity.
  - rewrite iter_pos_nat. rewrite <- (positive_nat_Z p) at 1.
    rewrite shr_exact_nat by exact Hm. reflexivity.
Qed.

(** In general the mantissa is divided by the power of two. *)
Lemma shr_nat_m (k : nat) mrs :
  0 <= shr_m mrs ->
  shr_m (Nat.iter k shr_1 mrs) = shr_m mrs / 2 ^ Z.of_nat k.
Proof.
  revert mrs. induction k as [|k IH]; intros [m r s] Hm; cbn [shr_m] in *.
  - cbn. rewrite Z.div_1_r. reflexivity.
  - rewrite Nat.iter_succ_r, shr_1_spec by exact Hm.
    rewrite IH by (cbn [shr_m]; apply Z.div_pos; lia). cbn [shr_m].
    rewrite Nat2Z.inj_succ, Z.pow_succ_r by lia.
    rewrite Z.div_div by (try lia; apply Z.pow_pos_nonneg; lia). reflexivity.
Qed.

Lemma shr_m_spec mrs e k :
  0 <= shr_m mrs ->
  shr_m (fst (shr mrs e k)) = shr_m mrs / 2 ^ Z.max 0 k
  /\ snd (shr mrs e k) = e + Z.max 0 k.
Proof.
  intros Hm. unfold shr. destruct k as [|p|p]; cbn [fst snd Z.max].
  - change (Z.max 0 0) with 0. rewrite Z.div_1_r. split; [reflexivity|lia].
  - rewrite iter_pos_nat, shr_nat_m, positive_nat_Z by exact Hm.
    replace (Z.max 0 (Zpos p)) with (Zpos p) by lia. split; reflexivity.
  - replace (Z.max 0 (Zneg p)) with 0 by lia. rewrite Z.div_1_r. split; [reflexivity|lia].
Qed.

End DoubleFacts.

Section Rounding.
Import Double.

(** *** Rounding *)

Lemma shr_fexp_unfold m e l :
  shr_fexp prec emax m e l
  = shr (shr_record_of_loc m l) e (fexp prec emax (Zdigits2 m + e) - e).
Proof. reflexivity. Qed.

Lemma binary_round_aux_unfold s m e l :
  binary_round_aux prec emax s m e l
  = let mrs' := fst (shr_fexp prec emax m e l) in
    let e' := snd (shr_fexp prec emax m e l) in
    let m1 := round_nearest_even (shr_m mrs') (loc_of_shr_record mrs') in
    let mrs'' := fst (shr_fexp prec emax m1 e' loc_Exact) in
    let e'' := snd (shr_fexp prec emax m1 e' loc_Exact) in
    match shr_m mrs'' with
    | Z0 => S754_zero s
    | Zpos m => if e'' <=? emax - prec then S754_finite s m e'' else S754_infinity s
    | Zneg _ => S754_nan
    end.
Proof.
  unfold binary_round_aux.
  destruct (shr_fexp prec emax m e l) as [mrs' e'] eqn:E1. cbn [fst snd].
  destruct (shr_fexp prec emax _ e' loc_Exact) as [mrs'' e''] eqn:E2. reflexivity.
Qed.

(** A mantissa whose low bits are zero is rounded without error. *)
Lemma binary_round_aux_exact s m e mc k :
  Zpos m = Zpos mc * 2 ^ k -> 0 <= k -> digits (Zpos mc) = 53 ->
  -1074 <= e + k <= 971 ->
  binary_round_aux prec emax s (Zpos m) e loc_Exact = S754_finite s mc (e + k).
Proof.
  intros Hm Hk Hd He.
  assert (shr_fexp prec emax (Zpos m) e loc_Exact
          = ({| shr_m := Zpos mc; shr_r := false; shr_s := false |}, e + k)) as E1.
  { rewrite shr_fexp_unfold, Zdigits2_digits, Hm, digits_mul_pow2, Hd, fexp_spec by lia.
    replace (Z.max (53 + k + e - 53) (-1074) - e) with k by lia.
    cbn [shr_record_of_loc]. apply shr_exact; lia. }
  assert (shr_fexp prec emax (Zpos mc) (e + k) loc_Exact
          = ({| shr_m := Zpos mc; shr_r := false; shr_s := false |}, e + k)) as E2.
  { rewrite shr_fexp_unfold, Zdigits2_digits, Hd, fexp_spec by lia.
    replace (Z.max (53 + (e + k) - 53) (-1074) - (e + k)) with 0 by lia.
    reflexivity. }
  rewrite binary_round_aux_unfold, E1. cbn [fst snd shr_m loc_of_shr_record round_nearest_even].
  cbv zeta. rewrite E2. cbn [fst snd shr_m].
  unfold emax, prec. destruct (Z.leb_spec (e + k) (1024 - 53)); [reflexivity|lia].
Qed.

Lemma shl_align_spec m e e' :
  e' <= e ->
  Zpos (fst (shl_align m e e')) = Zpos m * 2 ^ (e - e')
  /\ snd (shl_align m e e') = e'.
Proof.
  intros Hle. unfold shl_align. destruct (e' - e) as [|d|d] eqn:E; cbn [fst snd].
  - replace (e - e') with 0 by lia. split; lia.
  - lia.
  - rewrite iter_xO. replace (e - e') with (Zpos d) by lia. split; [reflexivity|lia].
Qed.

Lemma shl_align_id m e e' : e <= e' -> shl_align m e e' = (m, e).
Proof.
  intros Hle. unfold shl_align. destruct (e' - e) as [|d|d] eqn:E; try reflexivity. lia.
Qed.

(** The double with mantissa [mc] of 53 digits and exponent [ec] is what
    rounding yields on any other representation of the same value. *)
Lemma binary_round_canonical s m e mc ec :
  digits (Zpos mc) = 53 -> -1074 <= ec <= 971 ->
  Zpos m * 2 ^ (e - Z.min e ec) = Zpos mc * 2 ^ (ec - Z.min e ec) ->
  binary_round prec emax s m e = S754_finite s mc ec.
Proof.
  intros Hd Hec Hv. unfold binary_round. rewrite digits2_pos_digits.
  destruct (Z_le_gt_dec ec e) as [Hle|Hgt].
  - replace (Z.min e ec) with ec in Hv by lia.
    rewrite Z.sub_diag, Z.mul_1_r in Hv.
    assert (digits (Zpos m) + (e - ec) = 53) as Hdm.
    { rewrite <- Hd, <- Hv. symmetry. apply digits_mul_pow2; lia. }
    rewrite fexp_spec. replace (Z.max (digits (Zpos m) + e - 53) (-1074)) with ec by lia.
    pose proof (shl_align_spec m e ec Hle) as [H1 H2].
    destruct (shl_align m e ec) as [mz ez]. cbn [fst snd] in H1, H2. subst ez.
    rewrite (binary_round_aux_exact s mz ec mc 0); [f_equal; lia| |lia|exact Hd|lia].
    rewrite H1, Hv. lia.
  - replace (Z.min e ec) with e in Hv by lia.
    rewrite Z.sub_diag, Z.mul_1_r in Hv.
    assert (digits (Zpos m) = 53 + (ec - e)) as Hdm.
    { rewrite Hv, <- Hd. apply digits_mul_pow2; lia. }
    rewrite fexp_spec, Hdm.
    replace (Z.max (53 + (ec - e) + e - 53) (-1074)) with ec by lia.
    rewrite shl_align_id by lia.
    rewrite (binary_round_aux_exact s m e mc (ec - e));
      [f_equal; lia|exact Hv|lia|exact Hd|lia].
Qed.

(** The sign is carried through rounding. *)
Lemma binary_round_aux_opp s m e l :
  binary_round_aux prec emax (negb s) m e l
  = SFopp (binary_round_aux prec emax s m e l).
Proof.
  rewrite !binary_round_aux_unfold. cbv zeta.
  destruct (shr_m _); [reflexivity| |reflexivity].
  destruct (_ <=? _); reflexivity.
Qed.

Lemma binary_round_opp s m e :
  binary_round prec emax (negb s) m e = SFopp (binary_round prec emax s m e).
Proof.
  unfold binary_round. destruct (shl_align _ _ _) as [mz ez].
  apply binary_round_aux_opp.
Qed.

Lemma of_Z_opp n : n <> 0 -> of_Z (- n) = opp (of_Z n).
Proof.
  intros Hn. unfold of_Z, opp. destruct n as [|p|p]; cbn [Z.opp binary_normalize].
  - lia.
  - apply (binary_round_opp false).
  - exact (binary_round_opp true p 0).
Qed.

End Rounding.

Section Signs.
Import Double.

(** *** Signs *)

Lemma shr_record_of_loc_m m l : shr_m (shr_record_of_loc m l) = m.
Proof. destruct l as [|[]]; reflexivity. Qed.

Lemma round_nearest_even_bounds m l :
  m <= round_nearest_even m l <= m + 1.
Proof. destruct l as [|[]]; cbn [round_nearest_even]; try destruct (Z.even m); lia. Qed.

Lemma shr_fexp_m m e l :
  0 <= m ->
  let k := Z.max 0 (fexp prec emax (Zdigits2 m + e) - e) in
  shr_m (fst (shr_fexp prec emax m e l)) = m / 2 ^ k
  /\ snd (shr_fexp prec emax m e l) = e + k.
Proof.
  intros Hm k. rewrite shr_fexp_unfold.
  pose proof (shr_m_spec (shr_record_of_loc m l) e
                (fexp prec emax (Zdigits2 m + e) - e)) as H.
  rewrite shr_record_of_loc_m in H. exact (H Hm).
Qed.

(** Rounding a non-negative mantissa gives a zero, a finite number or an
    infinity of the given sign. *)
Lemma binary_round_aux_sign s m e l :
  0 <= m -> signbit (binary_round_aux prec emax s m e l) = Some s.
Proof.
  intros Hm. rewrite binary_round_aux_unfold. cbv zeta.
  pose proof (shr_fexp_m m e l Hm) as [H1 _]. cbv zeta in H1.
  set (mrs' := fst (shr_fexp prec emax m e l)) in *.
  set (e' := snd (shr_fexp prec emax m e l)) in *.
  set (m1 := round_nearest_even (shr_m mrs') (loc_of_shr_record mrs')).
  assert (0 <= m1) as Hm1.
  { pose proof (round_nearest_even_bounds (shr_m mrs') (loc_of_shr_record mrs')).
    assert (0 <= shr_m mrs'); [|subst m1; lia].
    rewrite H1. apply Z.div_pos; [lia|]. apply Z.pow_pos_nonneg; lia. }
  pose proof (shr_fexp_m m1 e' loc_Exact Hm1) as [H2 _]. cbv zeta in H2.
  assert (0 <= shr_m (fst (shr_fexp prec emax m1 e' loc_Exact))) as H3.
  { rewrite H2. apply Z.div_pos; [lia|]. apply Z.pow_pos_nonneg; lia. }
  destruct (shr_m (fst (shr_fexp prec emax m1 e' loc_Exact))); [reflexivity| |lia].
  destruct (_ <=? _); reflexivity.
Qed.

Lemma binary_round_sign s m e : signbit (binary_round prec emax s m e) = Some s.
Proof.
  unfold binary_round. destruct (shl_align _ _ _) as [mz ez].
  apply binary_round_aux_sign. lia.
Qed.

Lemma binary_normalize_sign m e :
  signbit (binary_normalize prec emax m e false) = Some (m <? 0).
Proof.
  destruct m as [|p|p]; cbn [binary_normalize]; [reflexivity| |];
    apply binary_round_sign.
Qed.

Lemma of_Z_sign n : signbit (of_Z n) = Some (n <? 0).
Proof. apply binary_normalize_sign. Qed.

Lemma mul_sign x y sx sy :
  signbit x = Some sx -> signbit y = Some sy ->
  signbit (mul x y) = Some (xorb sx sy) \/ mul x y = S754_nan.
Proof.
  destruct x as [a|a| |a mx ex], y as [b|b| |b my ey]; cbn [signbit];
    intros Hx Hy; try discriminate; injection Hx as <-; injection Hy as <-;
    cbn [mul SFmul signbit]; auto.
  left. apply binary_round_aux_sign. lia.
Qed.

Lemma SFdiv_core_binary_nonneg m1 e1 m2 e2 :
  0 <= fst (fst (SFdiv_core_binary prec emax (Zpos m1) e1 (Zpos m2) e2)).
Proof.
  unfold SFdiv_core_binary.
  set (s := _ - _ - Z.min _ _).
  set (m' := match s with Z0 => Zpos m1 | Zpos _ => Z.shiftl (Zpos m1) s | Zneg _ => 0 end).
  assert (0 <= m') as Hm'.
  { subst m'. destruct s; [lia| |lia]. apply Z.shiftl_nonneg. lia. }
  pose proof (Z_div_mod m' (Zpos m2) ltac:(lia)) as H.
  destruct (Z.div_eucl m' (Zpos m2)) as [q r]. cbn [fst]. nia.
Qed.

Lemma div_sign x sx sy my ey :
  signbit x = Some sx ->
  signbit (div x (S754_finite sy my ey)) = Some (xorb sx sy).
Proof.
  destruct x as [a|a| |a mx ex]; cbn [signbit]; intros Hx; try discriminate;
    injection Hx as <-; cbn [div SFdiv signbit]; try reflexivity.
  pose proof (SFdiv_core_binary_nonneg mx ex my ey) as H.
  destruct (SFdiv_core_binary prec emax (Zpos mx) ex (Zpos my) ey) as [[mz ez] lz].
  apply binary_round_aux_sign. exact H.
Qed.

Lemma Math_ceil_sign x s : signbit x = Some s -> signbit (Math_ceil x) = Some s.
Proof.
  destruct x as [a|a| |a m e]; cbn [signbit]; intros Hx; try discriminate;
    injection Hx as <-; cbn [Math_ceil signbit]; try reflexivity.
  destruct (Z.leb_spec 0 e); [reflexivity|]. cbv zeta.
  assert (0 < 2 ^ (- e)) as Hw by (apply Z.pow_pos_nonneg; lia).
  pose proof (Z.div_pos (Zpos m) (2 ^ (- e)) ltac:(lia) Hw) as Hq.
  destruct a.
  - destruct (Z.eqb_spec (Zpos m / 2 ^ (- e)) 0); [reflexivity|].
    rewrite of_Z_sign. f_equal. lia.
  - destruct (_ =? 0); rewrite of_Z_sign; f_equal; lia.
Qed.

(** [Math.max(1, y)] is 1 unless [y] is above 1. *)
Lemma Math_max_one y s :
  signbit y = Some s ->
  Math_max (of_Z 1) y = of_Z 1
  \/ Math_max (of_Z 1) y = y /\ ltb (of_Z 1) y = true.
Proof.
  intros Hy. change (of_Z 1) with (S754_finite false 4503599627370496 (-52)).
  destruct y as [a|a| |a m e]; try discriminate; cbn [Math_max].
  - left. reflexivity.
  - destruct (ltb _ _) eqn:E; [right|left]; auto.
  - destruct (ltb _ _) eqn:E; [right|left]; auto.
Qed.

Lemma Math_max_one_nonpos y :
  signbit y = Some true -> Math_max (of_Z 1) y = of_Z 1.
Proof.
  change (of_Z 1) with (S754_finite false 4503599627370496 (-52)).
  destruct y as [a|a| |a m e]; try discriminate; cbn [signbit];
    intros [= ->]; reflexivity.
Qed.

End Signs.

Section Integers.
Import Double.

(** *** Integers *)

Lemma digits_below n : 0 < n < 2 ^ 53 -> 0 < digits n <= 53.
Proof.
  intros [Hn Hlt]. pose proof (digits_spec n Hn) as [Hlo Hhi].
  pose proof (digits_pos n Hn). split; [assumption|].
  destruct (Z_le_gt_dec (digits n) 53); [assumption|].
  assert (2 ^ 53 <= 2 ^ (digits n - 1)) by (apply Z.pow_le_mono_r; lia). lia.
Qed.

(** Every representation of a positive integer below [2 ^ 53] is rounded
    to the same double: the integer itself, with a mantissa of 53 digits. *)
Lemma binary_round_integer s p n k :
  0 < n < 2 ^ 53 -> 0 <= k -> Zpos p = n * 2 ^ k ->
  exists m e,
    binary_round prec emax s p (- k) = S754_finite s m e
    /\ digits (Zpos m) = 53 /\ e = digits n - 53 /\ Zpos m = n * 2 ^ (- e).
Proof.
  intros Hn Hk Hp. pose proof (digits_below n Hn) as Hd.
  set (e := digits n - 53).
  assert (0 < 2 ^ (- e)) as Hpow by (apply Z.pow_pos_nonneg; lia).
  assert (0 < n * 2 ^ (- e)) as Hpos by nia.
  exists (Z.to_pos (n * 2 ^ (- e))), e.
  rewrite Z2Pos.id by exact Hpos.
  assert (digits (n * 2 ^ (- e)) = 53) as Hd53
      by (rewrite digits_mul_pow2 by lia; lia).
  split; [|auto].
  apply binary_round_canonical; rewrite ?Z2Pos.id by exact Hpos;
    [exact Hd53|lia|].
  rewrite Hp. destruct (Z_le_gt_dec (- k) e).
  - replace (Z.min (- k) e) with (- k) by lia. rewrite Z.sub_diag, Z.mul_1_r.
    rewrite <- Z.mul_assoc, <- Z.pow_add_r by lia. do 2 f_equal. lia.
  - replace (Z.min (- k) e) with e by lia. rewrite Z.sub_diag, Z.mul_1_r.
    rewrite <- Z.mul_assoc, <- Z.pow_add_r by lia. do 2 f_equal. lia.
Qed.

Lemma of_Z_pos n :
  0 < n < 2 ^ 53 ->
  exists m e,
    of_Z n = S754_finite false m e
    /\ digits (Zpos m) = 53 /\ e = digits n - 53 /\ Zpos m = n * 2 ^ (- e).
Proof.
  intros Hn. destruct n as [|p|p]; try lia.
  apply (binary_round_integer false p (Zpos p) 0); lia.
Qed.

Lemma of_Z_shape a :
  a <> 0 -> Z.abs a < 2 ^ 53 ->
  exists m e,
    of_Z a = S754_finite (a <? 0) m e
    /\ digits (Zpos m) = 53 /\ -52 <= e <= 0 /\ Zpos m = Z.abs a * 2 ^ (- e).
Proof.
  intros Ha Hlt. destruct (Z.ltb_spec a 0) as [Hneg|Hpos].
  - destruct (of_Z_pos (- a) ltac:(lia)) as (m & e & E & Hd & He & Hm).
    pose proof (digits_below (- a) ltac:(lia)).
    exists m, e. replace a with (- - a) at 1 by lia.
    rewrite of_Z_opp, E by lia. replace (Z.abs a) with (- a) by lia.
    repeat split; auto; lia.
  - destruct (of_Z_pos a ltac:(lia)) as (m & e & E & Hd & He & Hm).
    pose proof (digits_below a ltac:(lia)).
    exists m, e. replace (Z.abs a) with a by lia.
    repeat split; auto; lia.
Qed.

Lemma binary_normalize_integer n k :
  0 <= k -> Z.abs n < 2 ^ 53 ->
  binary_normalize prec emax (n * 2 ^ k) (- k) false = of_Z n.
Proof.
  intros Hk Hn. assert (0 < 2 ^ k) as Hpow by (apply Z.pow_pos_nonneg; lia).
  destruct n as [|p|p].
  - reflexivity.
  - destruct (Zpos p * 2 ^ k) as [|q|q] eqn:E; try lia. cbn [binary_normalize of_Z].
    destruct (binary_round_integer false q (Zpos p) k) as (m & e & -> & _ & He & Hm);
      [lia|lia|lia|].
    destruct (binary_round_integer false p (Zpos p) 0) as (m' & e' & E' & _ & He' & Hm');
      [lia|lia|lia|].
    unfold of_Z. cbn [binary_normalize]. change (- 0) with 0 in E'. rewrite E'.
    subst e e'. f_equal. lia.
  - destruct (Zneg p * 2 ^ k) as [|q|q] eqn:E; try lia. cbn [binary_normalize of_Z].
    destruct (binary_round_integer true q (Zpos p) k) as (m & e & -> & _ & He & Hm);
      [lia|lia|lia|].
    destruct (binary_round_integer true p (Zpos p) 0) as (m' & e' & E' & _ & He' & Hm');
      [lia|lia|lia|].
    unfold of_Z. cbn [binary_normalize]. change (- 0) with 0 in E'. rewrite E'.
    subst e e'. f_equal. lia.
Qed.

Lemma cond_Zopp_abs a x : cond_Zopp (a <? 0) (Z.abs a * x) = a * x.
Proof. unfold cond_Zopp. destruct (Z.ltb_spec a 0); lia. Qed.

(** The difference of two integers below [2 ^ 53] is their exact difference,
    written with some scale, and rounded. *)
Lemma sub_of_Z a b :
  Z.abs a < 2 ^ 53 -> Z.abs b < 2 ^ 53 ->
  exists k, 0 <= k
    /\ sub (of_Z a) (of_Z b) = binary_normalize prec emax ((a - b) * 2 ^ k) (- k) false.
Proof.
  intros Ha Hb.
  destruct (Z.eq_dec a 0) as [->|Ha0], (Z.eq_dec b 0) as [->|Hb0].
  - exists 0. split; [lia|reflexivity].
  - exists 0. split; [lia|]. rewrite Z.mul_1_r. change (0 - b) with (- b).
    change (binary_normalize prec emax (- b) (- 0) false) with (of_Z (- b)).
    rewrite of_Z_opp by exact Hb0.
    destruct (of_Z_shape b Hb0 Hb) as (m & e & -> & _). reflexivity.
  - exists 0. split; [lia|]. rewrite Z.mul_1_r, Z.sub_0_r.
    destruct (of_Z_shape a Ha0 Ha) as (m & e & E & _).
    change (binary_normalize prec emax a (- 0) false) with (of_Z a).
    rewrite E. reflexivity.
  - destruct (of_Z_shape a Ha0 Ha) as (ma & ea & -> & _ & Hea & Hma).
    destruct (of_Z_shape b Hb0 Hb) as (mb & eb & -> & _ & Heb & Hmb).
    exists (- Z.min ea eb). split; [lia|].
    cbn [sub SFsub]. cbv zeta. rewrite Z.opp_involutive.
    pose proof (shl_align_spec ma ea (Z.min ea eb) ltac:(lia)) as [-> _].
    pose proof (shl_align_spec mb eb (Z.min ea eb) ltac:(lia)) as [-> _].
    rewrite Hma, Hmb, <- !Z.mul_assoc, <- !Z.pow_add_r by lia.
    replace (- ea + (ea - Z.min ea eb)) with (- Z.min ea eb) by lia.
    replace (- eb + (eb - Z.min ea eb)) with (- Z.min ea eb) by lia.
    rewrite !cond_Zopp_abs. f_equal. lia.
Qed.

Lemma sub_of_Z_exact a b :
  Z.abs a < 2 ^ 53 -> Z.abs b < 2 ^ 53 -> Z.abs (a - b) < 2 ^ 53 ->
  sub (of_Z a) (of_Z b) = of_Z (a - b).
Proof.
  intros Ha Hb Hab. destruct (sub_of_Z a b Ha Hb) as (k & Hk & ->).
  apply binary_normalize_integer; assumption.
Qed.

Lemma sub_of_Z_sign a b :
  Z.abs a < 2 ^ 53 -> Z.abs b < 2 ^ 53 ->
  signbit (sub (of_Z a) (of_Z b)) = Some (a <? b).
Proof.
  intros Ha Hb. destruct (sub_of_Z a b Ha Hb) as (k & Hk & ->).
  rewrite binary_normalize_sign. f_equal.
  assert (0 < 2 ^ k) by (apply Z.pow_pos_nonneg; lia).
  destruct (Z.ltb_spec a b), (Z.ltb_spec ((a - b) * 2 ^ k) 0); try reflexivity; nia.
Qed.

End Integers.

Section Division.
Import Double.

(** *** Rounding a quotient *)

Lemma loc_of_shr_record_of_loc m l : loc_of_shr_record (shr_record_of_loc m l) = l.
Proof. destruct l as [|[]]; reflexivity. Qed.

(** The second pass of [binary_round_aux], after a carry at most. *)
Lemma shr_fexp_carry m e :
  2 ^ 52 <= m <= 2 ^ 53 -> -1074 <= e ->
  exists mf ef,
    shr_fexp prec emax m e loc_Exact
    = ({| shr_m := Zpos mf; shr_r := false; shr_s := false |}, ef)
    /\ e <= ef <= e + 1 /\ Zpos mf * 2 ^ (ef - e) = m.
Proof.
  intros Hm He. rewrite shr_fexp_unfold, Zdigits2_digits, fexp_spec by lia.
  cbn [shr_record_of_loc].
  destruct (Z.eq_dec m (2 ^ 53)) as [->|Hne].
  - exists (4503599627370496%positive), (e + 1).
    replace (digits (2 ^ 53)) with 54 by reflexivity.
    replace (Z.max (54 + e - 53) (-1074) - e) with 1 by lia.
    split; [reflexivity|]. split; [lia|].
    replace (e + 1 - e) with 1 by lia. reflexivity.
  - assert (digits m = 53) as Hd by (apply digits_unique; lia).
    exists (Z.to_pos m), e. rewrite Z2Pos.id by lia. rewrite Hd.
    replace (Z.max (53 + e - 53) (-1074) - e) with 0 by lia.
    split; [reflexivity|]. split; [lia|]. rewrite Z.sub_diag. lia.
Qed.

(** Rounding a mantissa of 53 or 54 digits moves it by one unit at most,
    and below only from a tie. *)
Lemma binary_round_aux_near s q e l :
  2 ^ 52 <= q < 2 ^ 54 -> -1074 <= e <= 900 ->
  exists mf ef,
    binary_round_aux prec emax s q e l = S754_finite s mf ef
    /\ e <= ef <= e + 2
    /\ q - 1 <= Zpos mf * 2 ^ (ef - e) <= q + 1
    /\ (l <> loc_Exact -> q <= Zpos mf * 2 ^ (ef - e))
    /\ (l = loc_Exact -> Z.even q = true -> Zpos mf * 2 ^ (ef - e) = q).
Proof.
  intros Hq He. rewrite binary_round_aux_unfold. cbv zeta.
  destruct (Z_lt_le_dec q (2 ^ 53)) as [Hlt|Hge].
  - (* 53 digits: no first shift *)
    assert (shr_fexp prec emax q e l = (shr_record_of_loc q l, e)) as ->.
    { rewrite shr_fexp_unfold, Zdigits2_digits, fexp_spec by lia.
      replace (digits q) with 53 by (symmetry; apply digits_unique; lia).
      replace (Z.max (53 + e - 53) (-1074) - e) with 0 by lia. reflexivity. }
    cbn [fst snd]. rewrite shr_record_of_loc_m, loc_of_shr_record_of_loc.
    pose proof (round_nearest_even_bounds q l) as Hr.
    destruct (shr_fexp_carry (round_nearest_even q l) e ltac:(lia) ltac:(lia))
      as (mf & ef & -> & Hef & Hv).
    exists mf, ef. cbn [fst snd shr_m].
    destruct (Z.leb_spec ef (emax - prec)); [|unfold emax, prec in *; lia].
    split; [reflexivity|]. split; [lia|]. rewrite Hv.
    split; [lia|]. split; [lia|]. intros -> _. reflexivity.
  - (* 54 digits: one bit is shifted out *)
    assert (shr_fexp prec emax q e l = (shr_1 (shr_record_of_loc q l), e + 1)) as ->.
    { rewrite shr_fexp_unfold, Zdigits2_digits, fexp_spec by lia.
      replace (digits q) with 54 by (symmetry; apply digits_unique; lia).
      replace (Z.max (54 + e - 53) (-1074) - e) with 1 by lia. reflexivity. }
    cbn [fst snd].
    set (m1 := round_nearest_even _ _).
    assert (q / 2 <= m1 <= q / 2 + 1
            /\ (l <> loc_Exact -> q <= 2 * m1)
            /\ (q - 1 <= 2 * m1 <= q + 1)
            /\ (l = loc_Exact -> Z.even q = true -> 2 * m1 = q)) as Hm1.
    { subst m1. pose proof (Z.div_mod q 2 ltac:(lia)) as Hdm.
      pose proof (Zmod_odd q) as Hodd.
      destruct l as [|[]]; cbn [shr_record_of_loc]; rewrite shr_1_spec by lia;
        cbn [shr_m loc_of_shr_record orb]; rewrite <- Z.negb_odd;
        destruct (Z.odd q); cbn [loc_of_shr_record round_nearest_even negb];
        try destruct (Z.even (q / 2)); repeat split; intros; try congruence; lia. }
    destruct Hm1 as (Hb & Hne & Hnear & Hex).
    assert (2 ^ 52 <= q / 2 < 2 ^ 53) as Hhalf.
    { split; [apply Z.div_le_lower_bound|apply Z.div_lt_upper_bound]; lia. }
    destruct (shr_fexp_carry m1 (e + 1) ltac:(lia) ltac:(lia))
      as (mf & ef & -> & Hef & Hv).
    exists mf, ef. cbn [fst snd shr_m].
    destruct (Z.leb_spec ef (emax - prec)); [|unfold emax, prec in *; lia].
    split; [reflexivity|]. split; [lia|].
    replace (ef - e) with (ef - (e + 1) + 1) by lia.
    rewrite Z.pow_add_r, Z.mul_assoc, Hv by lia. change (2 ^ 1) with 2.
    repeat split; intros; try lia.
    + pose proof (Hne ltac:(assumption)). lia.
    + pose proof (Hex ltac:(assumption) ltac:(assumption)). lia.
Qed.

(** *** Whole days *)

Lemma msPerDay_eq :
  NumberBillingEngine.msPerDay = S754_finite false 5798205849600000 (-26).
Proof. reflexivity. Qed.

(** The quotient of a 53 digit mantissa by that of [msPerDay]. *)
Lemma SFdiv_core_binary_day m1 e1 :
  digits (Zpos m1) = 53 -> -52 <= e1 <= 0 ->
  exists l,
    SFdiv_core_binary prec emax (Zpos m1) e1 5798205849600000 (-26)
    = (Zpos m1 * 2 ^ 53 / 5798205849600000, e1 - 27, l)
    /\ (l = loc_Exact <-> (Zpos m1 * 2 ^ 53) mod 5798205849600000 = 0).
Proof.
  intros Hd He. unfold SFdiv_core_binary.
  rewrite Zdigits2_digits, Hd by lia.
  change (Zdigits2 5798205849600000) with 53. rewrite fexp_spec.
  replace (Z.min (Z.max (53 + e1 - (53 + -26) - 53) (-1074)) (e1 - -26))
    with (e1 - 27) by lia.
  replace (e1 - -26 - (e1 - 27)) with 53 by lia. cbv iota.
  rewrite Z.shiftl_mul_pow2 by lia.
  unfold Z.div, Z.modulo.
  destruct (Z.div_eucl (Zpos m1 * 2 ^ 53) 5798205849600000) as [q r].
  exists (new_location 5798205849600000 r). split; [reflexivity|].
  unfold new_location. change (Z.even 5798205849600000) with true. cbv iota.
  unfold new_location_even. destruct (Z.eqb_spec r 0); split; intros; congruence.
Qed.

Lemma ceiling_div n y :
  0 < y ->
  - ((- n) / y) = if Z.eq_dec (n mod y) 0 then n / y else n / y + 1.
Proof.
  intros Hy. pose proof (Z.div_mod n y ltac:(lia)).
  pose proof (Z.mod_pos_bound n y Hy).
  pose proof (Z.div_mod (- n) y ltac:(lia)).
  pose proof (Z.mod_pos_bound (- n) y Hy).
  destruct (Z.eq_dec (n mod y) 0); nia.
Qed.

End Division.

Section WholeDays.
Import Double.

(** The quotient of a positive time difference below [2 ^ 53] by a day,
    rounded up by [Math.ceil], is the exact ceiling: the double quotient is
    never so close to a whole number that the ceiling changes. *)
Lemma Math_ceil_div_day n :
  0 < n < 2 ^ 53 ->
  Math_ceil (div (of_Z n) NumberBillingEngine.msPerDay)
  = of_Z (- ((- n) / 86400000)).
Proof.
  intros Hn. rewrite msPerDay_eq.
  destruct (of_Z_pos n Hn) as (m1 & e1 & -> & Hd & He1 & Hm1).
  pose proof (digits_below n Hn) as Hdn.
  pose proof (digits_spec (Zpos m1) ltac:(lia)) as Hb1. rewrite Hd in Hb1.
  destruct (SFdiv_core_binary_day m1 e1 Hd ltac:(lia)) as (l & Hcore & Hl).
  cbn [div SFdiv xorb]. rewrite Hcore.
  set (q := Zpos m1 * 2 ^ 53 / 5798205849600000) in *.
  assert (2 ^ 52 <= q < 2 ^ 54) as Hq.
  { subst q. split; [apply Z.div_le_lower_bound|apply Z.div_lt_upper_bound]; lia. }
  destruct (binary_round_aux_near false q (e1 - 27) l Hq ltac:(lia))
    as (mf & ef & -> & Hef & Hnear & Hne & Hex).
  cbn [Math_ceil]. destruct (Z.leb_spec 0 ef) as [|_]; [lia|]. cbv zeta.
  set (J := 2 ^ (ef - (e1 - 27))) in *.
  set (w := 2 ^ (- ef)).
  set (W := 2 ^ (27 - e1)).
  assert (W = w * J) as HW.
  { subst W w J. rewrite <- Z.pow_add_r by lia. f_equal. lia. }
  assert (0 < w) as Hw by (apply Z.pow_pos_nonneg; lia).
  assert (0 < J) as HJ by (apply Z.pow_pos_nonneg; lia).
  assert (2 ^ 27 <= W) as HW27 by (apply Z.pow_le_mono_r; lia).
  assert (Zpos m1 * 2 ^ 53 = n * W * 2 ^ 26) as Hscale.
  { rewrite Hm1. subst W. rewrite <- !Z.mul_assoc, <- !Z.pow_add_r by lia.
    do 2 f_equal. lia. }
  assert (q = n * W / 86400000) as Hq_eq.
  { subst q. rewrite Hscale. change 5798205849600000 with (86400000 * 2 ^ 26).
    apply Z.div_mul_cancel_r; lia. }
  assert (l = loc_Exact <-> (n * W) mod 86400000 = 0) as Hloc.
  { rewrite Hl, Hscale. change 5798205849600000 with (86400000 * 2 ^ 26).
    rewrite Z.mul_mod_distr_r by lia. lia. }
  clearbody q. clear Hcore Hl Hscale.
  rewrite ceiling_div by lia.
  pose proof (Z.div_mod n 86400000 ltac:(lia)) as Hdm.
  pose proof (Z.mod_pos_bound n 86400000 ltac:(lia)) as Hf.
  set (K := n / 86400000) in *. set (f := n mod 86400000) in *.
  clearbody K f.
  destruct (Z.eq_dec f 0) as [Hf0|Hf0].
  - (* a whole number of days *)
    assert (n * W = K * W * 86400000) as HnW by nia.
    assert (q = K * W) as HqK by (rewrite Hq_eq, HnW; apply Z.div_mul; lia).
    assert (l = loc_Exact) as Hexact
        by (apply Hloc; rewrite HnW; apply Z.mod_mul; lia).
    assert (Z.even q = true) as Heven.
    { rewrite HqK. subst W. replace (27 - e1) with (Z.succ (26 - e1)) by lia.
      rewrite Z.pow_succ_r, Z.mul_assoc, (Z.mul_comm (K * 2)), Z.mul_assoc by lia.
      rewrite Z.even_mul, Z.even_mul. cbn. apply orb_true_r. }
    specialize (Hex Hexact Heven).
    assert (Zpos mf = K * w) as Hmf by nia.
    rewrite Hmf, Z.div_mul, Z.mod_mul by lia. reflexivity.
  - (* a fraction of a day is left *)
    pose proof (Z.div_mod (f * W) 86400000 ltac:(lia)) as Hg.
    pose proof (Z.mod_pos_bound (f * W) 86400000 ltac:(lia)) as Hgr.
    assert (n * W = K * W * 86400000 + f * W) as HnW by nia.
    assert (q = K * W + f * W / 86400000) as HqK.
    { rewrite Hq_eq, HnW. apply Z.div_add_l. lia. }
    assert ((n * W) mod 86400000 = (f * W) mod 86400000) as Hmod.
    { rewrite HnW, Z.add_comm. apply Z.mod_add. lia. }
    rewrite Hmod in Hloc.
    set (g := f * W / 86400000) in *. set (r := (f * W) mod 86400000) in *.
    clearbody g r.
    assert (W <= f * W) as Hlo by nia.
    assert (f * W <= 86399999 * W) as Hhi by nia.
    set (fW := f * W) in *. clearbody fW.
    assert (K * W + 1 <= Zpos mf * J <= K * W + W - 1) as HR.
    { destruct (Z.eq_dec r 0) as [Hr0|Hr0].
      - lia.
      - assert (l <> loc_Exact) as Hl' by (intros E; apply Hloc in E; lia).
        specialize (Hne Hl'). lia. }
    assert (K * w < Zpos mf < (K + 1) * w) as Hmf by nia.
    assert (Zpos mf / w = K) as HK.
    { symmetry. apply (Z.div_unique _ _ _ (Zpos mf - K * w)); lia. }
    assert (Zpos mf mod w <> 0) as Hrem.
    { rewrite Z.mod_eq, HK by lia. lia. }
    rewrite HK. destruct (Z.eqb_spec (Zpos mf mod w) 0); [lia|reflexivity].
Qed.

(** Above 1, integers compare as they are. *)
Lemma ltb_one_of_Z c : 1 < c < 2 ^ 53 -> ltb (of_Z 1) (of_Z c) = true.
Proof.
  intros Hc. destruct (of_Z_pos c ltac:(lia)) as (m & e & -> & Hd & He & Hm).
  pose proof (digits_below c ltac:(lia)).
  assert (2 <= digits c).
  { unfold digits. pose proof (Z.log2_le_mono 2 c ltac:(lia)).
    change (Z.log2 2) with 1 in *. lia. }
  change (of_Z 1) with (S754_finite false 4503599627370496 (-52)).
  unfold ltb, SFltb, SFcompare.
  destruct (Z.compare_spec (-52) e); [lia|reflexivity|lia].
Qed.

Lemma Math_max_one_of_Z c :
  1 <= c < 2 ^ 53 -> Math_max (of_Z 1) (of_Z c) = of_Z c.
Proof.
  intros Hc. destruct (Z.eq_dec c 1) as [->|Hne]; [reflexivity|].
  pose proof (ltb_one_of_Z c ltac:(lia)) as Hlt.
  destruct (of_Z_pos c ltac:(lia)) as (m & e & E & _). rewrite E in *.
  change (of_Z 1) with (S754_finite false 4503599627370496 (-52)) in *.
  cbn [Math_max]. rewrite Hlt. reflexivity.
Qed.

(** The day count of the engine on an exact time difference. *)
Lemma dayCount_of_Z n :
  n < 2 ^ 53 ->
  NumberBillingEngine.dayCount (of_Z n)
  = of_Z (Z.max 1 (- ((- n) / 86400000))).
Proof.
  intros Hn. unfold NumberBillingEngine.dayCount.
  destruct (Z.lt_trichotomy n 0) as [Hneg|[->|Hpos]].
  - assert (- ((- n) / 86400000) <= 0).
    { pose proof (Z.div_pos (- n) 86400000 ltac:(lia) ltac:(lia)). lia. }
    replace (Z.max 1 (- (- n / 86400000))) with 1 by lia.
    apply Math_max_one_nonpos. apply Math_ceil_sign.
    rewrite msPerDay_eq, (div_sign _ (n <? 0)) by apply of_Z_sign.
    destruct (Z.ltb_spec n 0); [reflexivity|lia].
  - reflexivity.
  - rewrite Math_ceil_div_day by lia.
    pose proof (Z.div_mod (- n) 86400000 ltac:(lia)).
    pose proof (Z.mod_pos_bound (- n) 86400000 ltac:(lia)).
    replace (Z.max 1 (- (- n / 86400000))) with (- (- n / 86400000)) by lia.
    apply Math_max_one_of_Z. lia.
Qed.

End WholeDays.

Section Magnitude.
Import Double.

(** *** No underflow *)

Lemma fexp_below x : -1073 <= x -> fexp prec emax x < x.
Proof. rewrite fexp_spec. lia. Qed.

Lemma atLeast_le s k k' x : atLeast s k x -> k' <= k -> atLeast s k' x.
Proof. destruct x; cbn [atLeast]; intros H Hle; try tauto. split; [tauto|lia]. Qed.

(** One pass of [shr_fexp] keeps a mantissa positive and does not lower
    the magnitude. *)
Lemma shr_fexp_magnitude m e l :
  0 < m -> -1073 <= digits m + e ->
  let m' := shr_m (fst (shr_fexp prec emax m e l)) in
  let e' := snd (shr_fexp prec emax m e l) in
  0 < m' /\ digits m' + e' = digits m + e.
Proof.
  intros Hm HM. cbv zeta.
  pose proof (shr_fexp_m m e l ltac:(lia)) as [-> ->]. cbv zeta.
  rewrite Zdigits2_digits by exact Hm.
  pose proof (fexp_below _ HM) as Hf.
  set (k := Z.max 0 (fexp prec emax (digits m + e) - e)).
  pose proof (digits_pos m Hm).
  destruct (digits_div_pow2 m k Hm ltac:(lia)) as [Hd Hp].
  split; [exact Hp|lia].
Qed.

(** A value of at least the least positive double is not rounded to zero,
    nor below the power of two it starts from. *)
Lemma binary_round_aux_atLeast s m e l :
  0 < m -> -1073 <= digits m + e ->
  atLeast s (digits m + e) (binary_round_aux prec emax s m e l).
Proof.
  intros Hm HM. rewrite binary_round_aux_unfold. cbv zeta.
  pose proof (shr_fexp_magnitude m e l Hm HM) as [Hp1 Hd1]. cbv zeta in Hp1, Hd1.
  set (mrs' := fst (shr_fexp prec emax m e l)) in *.
  set (e' := snd (shr_fexp prec emax m e l)) in *.
  set (m1 := round_nearest_even (shr_m mrs') (loc_of_shr_record mrs')).
  pose proof (round_nearest_even_bounds (shr_m mrs') (loc_of_shr_record mrs')) as Hr.
  fold m1 in Hr.
  assert (0 < m1) as Hm1 by lia.
  pose proof (digits_le (shr_m mrs') m1 Hp1 ltac:(lia)) as Hle.
  pose proof (shr_fexp_magnitude m1 e' loc_Exact Hm1 ltac:(lia)) as [Hp2 Hd2].
  cbv zeta in Hp2, Hd2.
  destruct (shr_m (fst (shr_fexp prec emax m1 e' loc_Exact))) as [|mf|mf] eqn:E;
    [lia| |lia].
  destruct (_ <=? _); cbn [atLeast]; [|reflexivity].
  split; [reflexivity|lia].
Qed.

Lemma binary_round_atLeast s m e :
  -1073 <= digits (Zpos m) + e ->
  atLeast s (digits (Zpos m) + e) (binary_round prec emax s m e).
Proof.
  intros HM. unfold binary_round. rewrite digits2_pos_digits.
  set (e0 := fexp prec emax (digits (Zpos m) + e)).
  destruct (Z_le_gt_dec e0 e) as [Hle|Hgt].
  - pose proof (shl_align_spec m e e0 Hle) as [H1 H2].
    destruct (shl_align m e e0) as [mz ez]. cbn [fst snd] in H1, H2. subst ez.
    assert (digits (Zpos mz) + e0 = digits (Zpos m) + e) as Hd.
    { rewrite H1, digits_mul_pow2 by lia. lia. }
    rewrite <- Hd. apply binary_round_aux_atLeast; lia.
  - rewrite shl_align_id by lia. apply binary_round_aux_atLeast; lia.
Qed.

Lemma of_Z_atLeast n : 0 < n -> atLeast false 1 (of_Z n).
Proof.
  intros Hn. destruct n as [|p|p]; try lia. unfold of_Z. cbn [binary_normalize].
  pose proof (digits_pos (Zpos p) ltac:(lia)).
  apply (atLeast_le _ (digits (Zpos p) + 0)); [|lia].
  apply binary_round_atLeast. lia.
Qed.

Lemma mul_atLeast s1 k1 x s2 k2 y :
  atLeast s1 k1 x -> atLeast s2 k2 y -> -1072 <= k1 + k2 ->
  atLeast (xorb s1 s2) (k1 + k2 - 1) (mul x y).
Proof.
  destruct x as [a|a| |a mx ex], y as [b|b| |b my ey]; cbn [atLeast];
    try tauto; cbn [mul SFmul atLeast].
  - intros -> ->. reflexivity.
  - intros -> [-> _]. reflexivity.
  - intros [-> _] ->. reflexivity.
  - intros [-> Hx] [-> Hy] Hk.
    pose proof (digits_mul (Zpos mx) (Zpos my) ltac:(lia) ltac:(lia)) as Hd.
    rewrite Pos2Z.inj_mul.
    apply (atLeast_le _ (digits (Zpos mx * Zpos my) + (ex + ey))); [|lia].
    apply binary_round_aux_atLeast; lia.
Qed.

Lemma atLeast_positive k x : atLeast false k x -> ltb zero x = true.
Proof. destruct x as [a|a| |a m e]; cbn [atLeast]; try tauto; [intros ->|intros [-> _]]; reflexivity. Qed.

Lemma atLeast_negative k x : atLeast true k x -> ltb x zero = true.
Proof. destruct x as [a|a| |a m e]; cbn [atLeast]; try tauto; [intros ->|intros [-> _]]; reflexivity. Qed.

(** A positive normal double is at least [2 ^ -1022]. *)
Lemma normal_atLeast p :
  valid p = true -> leb minNormal p = true -> atLeast false (-1021) p.
Proof.
  destruct p as [a|a| |a m e]; cbn [atLeast]; try discriminate.
  - destruct a; [discriminate|reflexivity].
  - unfold valid, valid_binary, bounded, canonical_mantissa, minNormal, leb, SFleb,
      SFcompare.
    rewrite digits2_pos_digits, fexp_spec.
    intros Hv Hle. apply andb_prop in Hv as [Hc _]. apply Z.eqb_eq in Hc.
    destruct a; [discriminate|]. split; [reflexivity|].
    destruct (Z.compare_spec (-1074) e) as [<-|Hlt|Hgt]; [|lia|discriminate].
    assert (4503599627370496 <= Zpos m) as Hm.
    { destruct (Pos.compare_cont Eq 4503599627370496 m) eqn:E; try discriminate;
        change (Pos.compare_cont Eq 4503599627370496 m) with (4503599627370496 ?= m)%positive in E.
      - apply Pos.compare_eq in E. lia.
      - pose proof (proj1 (Pos.compare_lt_iff _ _) E) as Hlt. lia. }
    pose proof (digits_le 4503599627370496 (Zpos m) ltac:(lia) Hm) as Hd.
    change (digits 4503599627370496) with 53 in Hd. lia.
Qed.

(** *** The day count is a number of at least 1 *)

Lemma Math_ceil_integer x :
  signbit x = Some false ->
  Math_ceil x = S754_zero false \/ atLeast false 1 (Math_ceil x).
Proof.
  destruct x as [a|a| |a m e]; cbn [signbit]; intros [= ->]; cbn [Math_ceil].
  - left. reflexivity.
  - right. reflexivity.
  - right. destruct (Z.leb_spec 0 e) as [He|He].
    + cbn [atLeast]. split; [reflexivity|].
      pose proof (digits_pos (Zpos m) ltac:(lia)). lia.
    + cbv zeta. assert (0 < 2 ^ (- e)) as Hw by (apply Z.pow_pos_nonneg; lia).
      pose proof (Z.div_mod (Zpos m) (2 ^ (- e)) ltac:(lia)) as Hdm.
      pose proof (Z.div_pos (Zpos m) (2 ^ (- e)) ltac:(lia) Hw) as Hq.
      destruct (Z.eqb_spec (Zpos m mod 2 ^ (- e)) 0) as [E|E];
        apply of_Z_atLeast; [|lia].
      rewrite E in Hdm. nia.
Qed.

Lemma Math_max_one_atLeast y :
  atLeast false 1 y -> atLeast false 1 (Math_max (of_Z 1) y).
Proof.
  change (of_Z 1) with (S754_finite false 4503599627370496 (-52)).
  destruct y as [a|a| |a m e]; cbn [atLeast]; try tauto.
  - intros ->. reflexivity.
  - intros [-> Hd]. cbn [Math_max]. destruct (ltb _ _); cbn [atLeast].
    + split; [reflexivity|exact Hd].
    + split; [reflexivity|]. change (digits 4503599627370496) with 53. lia.
Qed.

Lemma dayCount_atLeast x s :
  signbit x = Some s -> atLeast false 1 (NumberBillingEngine.dayCount x).
Proof.
  intros Hx. unfold NumberBillingEngine.dayCount.
  pose proof (div_sign x s false 5798205849600000 (-26) Hx) as Hd.
  rewrite <- msPerDay_eq in Hd. rewrite xorb_false_r in Hd.
  destruct s.
  - rewrite Math_max_one_nonpos by (apply Math_ceil_sign; exact Hd).
    apply of_Z_atLeast. lia.
  - destruct (Math_ceil_integer _ Hd) as [->|H].
    + apply (of_Z_atLeast 1). lia.
    + apply Math_max_one_atLeast, H.
Qed.

(** The day count is never negative, whatever the time difference. *)
Lemma dayCount_not_negative x : ltb (NumberBillingEngine.dayCount x) zero = false.
Proof.
  unfold NumberBillingEngine.dayCount.
  change (of_Z 1) with (S754_finite false 4503599627370496 (-52)).
  destruct (Math_ceil _) as [a|a| |a m e]; cbn [Math_max]; try reflexivity.
  - destruct a; reflexivity.
  - destruct (ltb _ (S754_finite a m e)) eqn:E; [|reflexivity].
    destruct a; [discriminate E|reflexivity].
Qed.

End Magnitude.

Section NumberBilling.
Import Double NumberBillingEngine.

(** ** The billing engine on doubles *)

Lemma positive_rate r : ltb zero r = true -> eqb r zero = false /\ ltb r zero = false.
Proof. destruct r as [a|a| |a m e]; try discriminate; destruct a; try discriminate; split; reflexivity. Qed.

Lemma negative_rate r : ltb r zero = true -> eqb r zero = false /\ ltb zero r = false.
Proof. destruct r as [a|a| |a m e]; try discriminate; destruct a; try discriminate; split; reflexivity. Qed.

(** [x + (-y)] is [x - y]. *)
Lemma add_opp x y : add x (opp y) = sub x y.
Proof.
  destruct x as [a|a| |a mx ex], y as [b|b| |b my ey]; try reflexivity;
    destruct a, b; reflexivity.
Qed.

(** The sign of a product. *)
Lemma mul_negative x y :
  ltb (mul x y) zero = true ->
  ltb x zero = true /\ ltb zero y = true \/ ltb zero x = true /\ ltb y zero = true.
Proof.
  destruct x as [a|a| |a mx ex], y as [b|b| |b my ey]; try discriminate;
    try (destruct a, b; cbn; intros; try discriminate; auto; fail).
  cbn [mul SFmul]. intros H.
  pose proof (binary_round_aux_sign (xorb a b) (Zpos (mx * my)) (ex + ey) loc_Exact
                ltac:(lia)) as Hs.
  destruct (binary_round_aux _ _ _ _ _ _) as [c|c| |c m e]; try discriminate;
    cbn [signbit] in Hs; injection Hs as ->;
    destruct a, b; cbn in H |- *; try discriminate; auto.
Qed.

Lemma mul_positive x y :
  ltb zero (mul x y) = true ->
  ltb zero x = true /\ ltb zero y = true \/ ltb x zero = true /\ ltb y zero = true.
Proof.
  destruct x as [a|a| |a mx ex], y as [b|b| |b my ey]; try discriminate;
    try (destruct a, b; cbn; intros; try discriminate; auto; fail).
  cbn [mul SFmul]. intros H.
  pose proof (binary_round_aux_sign (xorb a b) (Zpos (mx * my)) (ex + ey) loc_Exact
                ltac:(lia)) as Hs.
  destruct (binary_round_aux _ _ _ _ _ _) as [c|c| |c m e]; try discriminate;
    cbn [signbit] in Hs; injection Hs as ->;
    destruct a, b; cbn in H |- *; try discriminate; auto.
Qed.

Lemma not_both_signs x : ltb zero x = true -> ltb x zero = true -> False.
Proof. destruct x as [a|a| |a m e]; try discriminate; destruct a; discriminate. Qed.

(** The three shapes of the result, by the sign of the rate. *)
Lemma priceFor_positive_rate p s e t :
  let days := dayCount (sub (of_Z e) (of_Z s)) in
  let b := mul p days in
  ltb zero (discount t) = true ->
  priceFor p s e t =
  {| basePrice := b;
     tariffAdjustment := mul b (discount t);
     totalPrice := add b (opp (mul b (discount t)));
     breakdown :=
       [ {| line_description := BasePriceLine days p; amount := b |};
         {| line_description := DiscountLine (name t) (mul (discount t) (of_Z 100));
            amount := opp (mul b (discount t)) |} ] |}.
Proof.
  intros days b Hr. destruct (positive_rate _ Hr) as [Hne Hneg].
  unfold priceFor. rewrite Hne, Hr, Hneg. reflexivity.
Qed.

Lemma priceFor_negative_rate p s e t :
  let days := dayCount (sub (of_Z e) (of_Z s)) in
  let b := mul p days in
  ltb (discount t) zero = true ->
  priceFor p s e t =
  {| basePrice := b;
     tariffAdjustment := mul b (discount t);
     totalPrice := add b (Math_abs (mul b (discount t)));
     breakdown :=
       [ {| line_description := BasePriceLine days p; amount := b |};
         {| line_description :=
              SurchargeLine (name t) (Math_abs (mul (discount t) (of_Z 100)));
            amount := Math_abs (mul b (discount t)) |} ] |}.
Proof.
  intros days b Hr. destruct (negative_rate _ Hr) as [Hne Hpos].
  unfold priceFor. rewrite Hne, Hr, Hpos. reflexivity.
Qed.

Lemma basePrice_not_negative p x :
  ltb p zero = false -> ltb (mul p (dayCount x)) zero = false.
Proof.
  intros Hp. apply not_true_iff_false. intros H.
  apply mul_negative in H as [[H _]|[_ H]].
  - congruence.
  - rewrite dayCount_not_negative in H. discriminate.
Qed.

(** For a positive normal daily rate and valid dates, the base price is at
    least [2 ^ -1022]. *)
Lemma basePrice_atLeast p s e :
  valid p = true -> leb minNormal p = true -> validTime s -> validTime e ->
  atLeast false (-1021) (mul p (dayCount (sub (of_Z e) (of_Z s)))).
Proof.
  intros Hv Hn Hs He. unfold validTime, maxTime in *.
  pose proof (sub_of_Z_sign e s ltac:(lia) ltac:(lia)) as Hsign.
  pose proof (dayCount_atLeast _ _ Hsign) as Hd.
  pose proof (mul_atLeast _ _ _ _ _ _ (normal_atLeast p Hv Hn) Hd ltac:(lia)) as H.
  exact H.
Qed.

Lemma Qceiling_days n :
  Qceiling (inject_Z n / inject_Z (1000 * 60 * 60 * 24)) = - ((- n) / 86400000).
Proof.
  unfold Qceiling, Qfloor, Qdiv, Qinv, Qmult, Qopp, inject_Z.
  cbn -[Z.div Z.mul]. rewrite Z.mul_1_r. reflexivity.
Qed.

Lemma dayCount_negative x :
  signbit x = Some true -> dayCount x = of_Z 1.
Proof.
  intros Hx. unfold dayCount. apply Math_max_one_nonpos, Math_ceil_sign.
  rewrite msPerDay_eq. apply (div_sign x true false). exact Hx.
Qed.

(** The day count of two valid dates less than [2 ^ 53] milliseconds
    apart. *)
Lemma dayCount_valid s e :
  validTime s -> validTime e -> e - s < 2 ^ 53 ->
  dayCount (sub (of_Z e) (of_Z s))
  = of_Z (Z.max 1 (- ((- (e - s)) / 86400000))).
Proof.
  intros Hs He Hlt. unfold validTime, maxTime in *.
  destruct (Z_lt_le_dec (- 2 ^ 53) (e - s)) as [Hlo|Hlo].
  - rewrite sub_of_Z_exact by lia. apply dayCount_of_Z. exact Hlt.
  - rewrite dayCount_negative.
    + pose proof (Z.div_pos (- (e - s)) 86400000 ltac:(lia) ltac:(lia)).
      f_equal. lia.
    + rewrite sub_of_Z_sign by lia. f_equal. lia.
Qed.

(** C7: sign convention of the tariff adjustment, in the arithmetic of
    JavaScript numbers.  For a tariff with a positive rate the adjustment is
    the product [basePrice * rate], it is subtracted from the base price and
    the breakdown has two lines; for a tariff with a negative rate the
    adjustment is [basePrice * rate] and its absolute value is added.  For
    a daily rate that is not negative, the adjustment of a discount is never
    negative and that of a surcharge never positive.  For valid dates and a
    daily rate that is a positive normal number, the adjustment of
    DISCOUNTED is positive and that of EXCLUSIVE negative.  The two examples
    of the specification follow. *)
Theorem calculatePrice_adjustment_sign :
  (forall (pricePerDay : double) (startMs endMs : Z) (tariffId : string),
      calculatePrice pricePerDay (Some (JsDate.Instant startMs))
        (Some (JsDate.Instant endMs)) tariffId
      = priceFor pricePerDay startMs endMs (findTariff tariffId))
  /\ (forall (pricePerDay : double) (startMs endMs : Z) (tariff : TariffConfig),
         let c := priceFor pricePerDay startMs endMs tariff in
         let r := discount tariff in
         (ltb zero r = true ->
          tariffAdjustment c = mul (basePrice c) r
          /\ totalPrice c = sub (basePrice c) (tariffAdjustment c)
          /\ length (breakdown c) = 2%nat
          /\ (ltb pricePerDay zero = false -> ltb (tariffAdjustment c) zero = false))
         /\ (ltb r zero = true ->
             tariffAdjustment c = mul (basePrice c) r
             /\ totalPrice c = add (basePrice c) (Math_abs (tariffAdjustment c))
             /\ length (breakdown c) = 2%nat
             /\ (ltb pricePerDay zero = false -> ltb zero (tariffAdjustment c) = false)))
  /\ findTariff "DISCOUNTED" = discounted /\ ltb zero (discount discounted) = true
  /\ findTariff "EXCLUSIVE" = exclusive /\ ltb (discount exclusive) zero = true
  /\ (forall (pricePerDay : double) (startMs endMs : Z),
         valid pricePerDay = true -> leb minNormal pricePerDay = true ->
         validTime startMs -> validTime endMs ->
         ltb zero (tariffAdjustment (priceFor pricePerDay startMs endMs discounted))
         = true
         /\ ltb (tariffAdjustment (priceFor pricePerDay startMs endMs exclusive)) zero
            = true)
  /\ (let c := calculatePrice (of_Z 40) (Some (JsDate.Date_UTC 2025 1 1 0 0 0))
                 (Some (JsDate.Date_UTC 2025 1 6 0 0 0)) "DISCOUNTED" in
      line_description <$> head (breakdown c)
      = Some (BasePriceLine (of_Z 5) (of_Z 40))
      /\ basePrice c = of_Z 200 /\ tariffAdjustment c = of_Z 30
      /\ totalPrice c = of_Z 170 /\ length (breakdown c) = 2%nat)
  /\ (let c := calculatePrice (of_Z 100) (Some (JsDate.Date_UTC 2025 1 1 0 0 0))
                 (Some (JsDate.Date_UTC 2025 1 3 0 0 0)) "EXCLUSIVE" in
      line_description <$> head (breakdown c)
      = Some (BasePriceLine (of_Z 2) (of_Z 100))
      /\ basePrice c = of_Z 200 /\ tariffAdjustment c = of_Z (-50)
      /\ totalPrice c = of_Z 250).
Proof.
  split; [reflexivity|].
  split; [|split; [reflexivity|split; [reflexivity|split; [reflexivity|
           split; [reflexivity|split; [|split; vm_compute; repeat split; reflexivity]]]]]].
  - intros p s e t c r. subst c. split; intros Hr.
    + rewrite priceFor_positive_rate by exact Hr.
      cbn [basePrice tariffAdjustment totalPrice breakdown length]. fold r.
      split; [reflexivity|]. split; [apply add_opp|]. split; [reflexivity|].
      intros Hp. apply not_true_iff_false. intros H.
      apply mul_negative in H as [[H _]|[_ H]].
      * rewrite basePrice_not_negative in H by exact Hp. discriminate.
      * exact (not_both_signs _ Hr H).
    + rewrite priceFor_negative_rate by exact Hr.
      cbn [basePrice tariffAdjustment totalPrice breakdown length]. fold r.
      split; [reflexivity|]. split; [reflexivity|]. split; [reflexivity|].
      intros Hp. apply not_true_iff_false. intros H.
      apply mul_positive in H as [[_ H]|[H _]].
      * exact (not_both_signs _ H Hr).
      * rewrite basePrice_not_negative in H by exact Hp. discriminate.
  - intros p s e Hv Hn Hs He.
    pose proof (basePrice_atLeast p s e Hv Hn Hs He) as Hb.
    split.
    + rewrite priceFor_positive_rate by reflexivity. cbn [tariffAdjustment].
      apply (atLeast_positive (-1021 + -2 - 1)).
      apply (mul_atLeast false _ _ false); [exact Hb| |lia].
      split; [reflexivity|]. vm_compute. discriminate.
    + rewrite priceFor_negative_rate by reflexivity. cbn [tariffAdjustment].
      apply (atLeast_negative (-1021 + -1 - 1)).
      apply (mul_atLeast false _ _ true); [exact Hb| |lia].
      split; [reflexivity|]. vm_compute. discriminate.
Qed.

(** DISCOUNTED and EXCLUSIVE at 40 a day, for five days. *)
Lemma calculatePrice_adjustment_sign_witness :
  ltb zero (tariffAdjustment (priceFor (of_Z 40) 0 432000000 discounted)) = true
  /\ ltb (tariffAdjustment (priceFor (of_Z 40) 0 432000000 exclusive)) zero = true.
Proof.
  destruct calculatePrice_adjustment_sign as (_ & _ & _ & _ & _ & _ & Hsign & _).
  apply (Hsign (of_Z 40) 0 432000000); try reflexivity;
    unfold validTime, maxTime; lia.
Defined.

(** C7 fails as stated: a positive rate does not make the adjustment
    positive.  At a daily rate of 0, DISCOUNTED yields the adjustment 0; at
    the least positive double as daily rate, for one day, the product
    underflows and the adjustment is 0 as well. *)
Lemma calculatePrice_adjustment_zero :
  ltb zero (discount (findTariff "DISCOUNTED")) = true
  /\ (let c := calculatePrice zero (Some (JsDate.Date_UTC 2025 1 1 0 0 0))
                 (Some (JsDate.Date_UTC 2025 1 6 0 0 0)) "DISCOUNTED" in
      tariffAdjustment c = zero /\ ltb zero (tariffAdjustment c) = false)
  /\ (let tiny := S754_finite false 1 (-1074) in
      let c := calculatePrice tiny (Some (JsDate.Date_UTC 2025 1 1 0 0 0))
                 (Some (JsDate.Date_UTC 2025 1 2 0 0 0)) "DISCOUNTED" in
      valid tiny = true /\ ltb zero tiny = true
      /\ tariffAdjustment c = zero /\ ltb zero (tariffAdjustment c) = false).
Proof. vm_compute. repeat split; reflexivity. Qed.

(** C8: the billed day count, in the arithmetic of JavaScript numbers.
    For valid dates whose end is less than [2 ^ 53] milliseconds after the
    start, the engine's day count is the ceiling of the millisecond
    difference over 24 hours, raised to 1, the base price is the product of
    the daily rate and that count, and the count is the least whole number
    of days, at least one, that covers the rental: 24 hours or less is one
    day, and anything beyond [k] whole days is more than [k] days.  A 59
    second rental at 50 a day costs 50. *)
Theorem calculatePrice_day_count :
  (forall (pricePerDay : double) (startMs endMs : Z) (tariffId : string),
      validTime startMs -> validTime endMs -> endMs - startMs < 2 ^ 53 ->
      let c := calculatePrice pricePerDay (Some (JsDate.Instant startMs))
                 (Some (JsDate.Instant endMs)) tariffId in
      let timeDiff := endMs - startMs in
      let days :=
        Z.max 1 (Qceiling (inject_Z timeDiff / inject_Z (1000 * 60 * 60 * 24))) in
      dayCount (sub (of_Z endMs) (of_Z startMs)) = of_Z days
      /\ basePrice c = mul pricePerDay (of_Z days)
      /\ line_description <$> head (breakdown c)
         = Some (BasePriceLine (of_Z days) pricePerDay)
      /\ 1 <= days
      /\ timeDiff <= days * 86400000
      /\ (forall n : Z, 1 <= n -> timeDiff <= n * 86400000 -> days <= n)
      /\ (timeDiff <= 86400000 -> days = 1)
      /\ (forall k : Z, 1 <= k -> k * 86400000 < timeDiff -> k + 1 <= days))
  /\ (let c := calculatePrice (of_Z 50) (Some (JsDate.Date_UTC 2025 1 1 12 30 0))
                 (Some (JsDate.Date_UTC 2025 1 1 12 30 59)) "BASIC" in
      basePrice c = of_Z 50 /\ totalPrice c = of_Z 50).
Proof.
  split; [|vm_compute; split; reflexivity].
  intros p s e tariffId Hs He Hlt c timeDiff days.
  assert (dayCount (sub (of_Z e) (of_Z s)) = of_Z days) as Hdays.
  { subst days timeDiff. rewrite Qceiling_days. apply dayCount_valid; assumption. }
  assert (days = Z.max 1 (- ((- timeDiff) / 86400000))) as Hd
      by (subst days; rewrite Qceiling_days; reflexivity).
  clearbody days.
  pose proof (Z.div_mod (- timeDiff) 86400000 ltac:(lia)).
  pose proof (Z.mod_pos_bound (- timeDiff) 86400000 ltac:(lia)).
  split; [exact Hdays|]. split.
  { subst c. cbn [calculatePrice JsDate.getTime]. unfold priceFor.
    cbn [basePrice]. rewrite Hdays. reflexivity. }
  split.
  { subst c. cbn [calculatePrice JsDate.getTime]. unfold priceFor. cbn [breakdown].
    rewrite Hdays.
    destruct (negb _); [destruct (ltb zero _)|]; reflexivity. }
  repeat split; intros; lia.
Qed.

(** A rental of 23 hours is one day; one of 24 hours and a millisecond is
    two. *)
Lemma calculatePrice_day_count_witness :
  dayCount (sub (of_Z 82800000) (of_Z 0)) = of_Z 1
  /\ dayCount (sub (of_Z 86400001) (of_Z 0)) = of_Z 2.
Proof.
  assert (validTime 0) as H0 by (unfold validTime, maxTime; lia).
  assert (validTime 82800000) as H1 by (unfold validTime, maxTime; lia).
  assert (validTime 86400001) as H2 by (unfold validTime, maxTime; lia).
  split.
  - exact (proj1 (proj1 calculatePrice_day_count (of_Z 50) 0 82800000 "BASIC"
                    H0 H1 ltac:(lia))).
  - exact (proj1 (proj1 calculatePrice_day_count (of_Z 50) 0 86400001 "BASIC"
                    H0 H2 ltac:(lia))).
Defined.

(** C8 fails as stated for valid dates further apart.  The first whole
    number of days above [2 ^ 53] milliseconds is 104249992; for two valid
    dates one millisecond more than that apart the subtraction of the time
    values rounds the millisecond away and 104249992 days are billed, not
    104249993.  The same happens 150000000 days and a millisecond apart. *)
Lemma calculatePrice_day_count_far_apart :
  (let startMs := -4503599654400000 in
   let endMs := 4503599654400001 in
   let c := calculatePrice (of_Z 50) (Some (JsDate.Instant startMs))
              (Some (JsDate.Instant endMs)) "BASIC" in
   validTime startMs /\ validTime endMs
   /\ Z.max 1 (Qceiling (inject_Z (endMs - startMs) / inject_Z (1000 * 60 * 60 * 24)))
      = 104249993
   /\ dayCount (sub (of_Z endMs) (of_Z startMs)) = of_Z 104249992
   /\ basePrice c = mul (of_Z 50) (of_Z 104249992)
   /\ basePrice c <> mul (of_Z 50) (of_Z 104249993))
  /\ (let startMs := -6480000000000000 in
      let endMs := 6480000000000001 in
      let c := calculatePrice (of_Z 50) (Some (JsDate.Instant startMs))
                 (Some (JsDate.Instant endMs)) "BASIC" in
      validTime startMs /\ validTime endMs
      /\ Z.max 1 (Qceiling (inject_Z (endMs - startMs) / inject_Z (1000 * 60 * 60 * 24)))
         = 150000001
      /\ dayCount (sub (of_Z endMs) (of_Z startMs)) = of_Z 150000000
      /\ basePrice c = mul (of_Z 50) (of_Z 150000000)
      /\ basePrice c <> mul (of_Z 50) (of_Z 150000001)).
Proof.
  split; cbv zeta; (split; [unfold validTime, maxTime; lia|]);
    (split; [unfold validTime, maxTime; lia|]);
    (split; [reflexivity|]); (split; [vm_compute; reflexivity|]);
    (split; [vm_compute; reflexivity|]); vm_compute; discriminate.
Qed.

End NumberBilling.

Section Totals.
Import Double NumberBillingEngine.

(** *** The total is not negative *)

Lemma digits_mul_le n m : 0 < n -> 0 < m -> digits (n * m) <= digits n + digits m.
Proof.
  intros Hn Hm.
  pose proof (digits_spec n Hn) as [_ Hn1]. pose proof (digits_spec m Hm) as [_ Hm1].
  pose proof (digits_pos n Hn). pose proof (digits_pos m Hm).
  assert (0 < n * m) as Hnm by nia.
  pose proof (digits_spec (n * m) Hnm) as [Hlo _].
  destruct (Z_le_gt_dec (digits (n * m)) (digits n + digits m)) as [|Hgt]; [assumption|].
  exfalso.
  assert (2 ^ (digits n + digits m) <= 2 ^ (digits (n * m) - 1))
    by (apply Z.pow_le_mono_r; lia).
  rewrite Z.pow_add_r in * by lia. nia.
Qed.

(** Rounding to a double: the result is a double, and it exceeds the value
    that is rounded by less than one unit of the first shift. *)
Lemma binary_round_aux_upper s m e l :
  0 < m ->
  let k := Z.max 0 (fexp prec emax (digits m + e) - e) in
  match binary_round_aux prec emax s m e l with
  | S754_zero s' => s' = s
  | S754_infinity s' => s' = s /\ 971 <= e + k
  | S754_nan => False
  | S754_finite s' mf ef =>
      s' = s /\ -1074 <= ef <= 971 /\ Zpos mf < 2 ^ 53
      /\ exists j, 0 <= j /\ ef = e + k + j /\ Zpos mf * 2 ^ (k + j) <= m + 2 ^ k
  end.
Proof.
  intros Hm k. rewrite binary_round_aux_unfold. cbv zeta.
  pose proof (shr_fexp_m m e l ltac:(lia)) as [H1 H1e]. cbv zeta in H1, H1e.
  rewrite Zdigits2_digits in H1, H1e by exact Hm. fold k in H1, H1e.
  set (mrs' := fst (shr_fexp prec emax m e l)) in *.
  set (e' := snd (shr_fexp prec emax m e l)) in *.
  set (m1 := round_nearest_even (shr_m mrs') (loc_of_shr_record mrs')).
  pose proof (round_nearest_even_bounds (shr_m mrs') (loc_of_shr_record mrs')) as Hr.
  fold m1 in Hr. rewrite H1 in Hr.
  assert (0 <= k) as Hk by lia.
  assert (0 < 2 ^ k) as Hpk by (apply Z.pow_pos_nonneg; lia).
  pose proof (Z.div_pos m (2 ^ k) ltac:(lia) Hpk) as Hq.
  pose proof (Z.mul_div_le m (2 ^ k) Hpk) as Hfl.
  assert (-1074 <= e') as He'.
  { rewrite H1e. subst k. rewrite fexp_spec. lia. }
  assert (m / 2 ^ k < 2 ^ 53) as Hm'.
  { apply Z.div_lt_upper_bound; [lia|]. rewrite <- Z.pow_add_r by lia.
    pose proof (digits_spec m Hm) as [_ Hhi].
    apply (Z.lt_le_trans _ _ _ Hhi). apply Z.pow_le_mono_r; [lia|].
    subst k. rewrite fexp_spec. lia. }
  pose proof (shr_fexp_m m1 e' loc_Exact ltac:(lia)) as [H2 H2e]. cbv zeta in H2, H2e.
  set (j := Z.max 0 (fexp prec emax (Zdigits2 m1 + e') - e')) in *.
  assert (0 <= j) as Hj by lia.
  assert (j <= 1 /\ m1 / 2 ^ j < 2 ^ 53) as [Hj1 Hmf].
  { destruct (Z.eq_dec m1 (2 ^ 53)) as [E|Hne].
    - assert (j = 1) as ->; [|rewrite E; split; [lia|reflexivity]].
      subst j. rewrite E, fexp_spec. change (Zdigits2 (2 ^ 53)) with 54. lia.
    - assert (m1 / 2 ^ j <= m1).
      { apply Z.div_le_upper_bound; [apply Z.pow_pos_nonneg; lia|].
        assert (0 < 2 ^ j) by (apply Z.pow_pos_nonneg; lia). nia. }
      split; [|lia].
      destruct (Z.eq_dec m1 0) as [E|Hne0];
        [subst j; rewrite E; cbn [Zdigits2]; rewrite fexp_spec; lia|].
      subst j. rewrite Zdigits2_digits, fexp_spec by lia.
      pose proof (digits_le m1 (2 ^ 53 - 1) ltac:(lia) ltac:(lia)) as Hd.
      replace (digits (2 ^ 53 - 1)) with 53 in Hd by reflexivity. lia. }
  assert (0 < 2 ^ j) as Hpj by (apply Z.pow_pos_nonneg; lia).
  pose proof (Z.mul_div_le m1 (2 ^ j) Hpj) as Hfl2.
  rewrite H2e. rewrite H2.
  destruct (m1 / 2 ^ j) as [|mf|mf] eqn:E;
    [reflexivity| |pose proof (Z.div_pos m1 (2 ^ j) ltac:(lia) Hpj); lia].
  destruct (Z.leb_spec (e' + j) (emax - prec)) as [Hle|Hgt]; unfold emax, prec in *.
  - split; [reflexivity|]. split; [lia|]. split; [exact Hmf|].
    exists j. split; [exact Hj|]. split; [lia|].
    rewrite Z.pow_add_r by lia. nia.
  - split; [reflexivity|lia].
Qed.

(** Every finite product is a double. *)
Lemma mul_finite x y s m e :
  mul x y = S754_finite s m e -> -1074 <= e <= 971 /\ Zpos m < 2 ^ 53.
Proof.
  destruct x as [a|a| |a mx ex], y as [b|b| |b my ey]; try discriminate.
  cbn [mul SFmul]. intros E.
  pose proof (binary_round_aux_upper (xorb a b) (Zpos (mx * my)) (ex + ey) loc_Exact
                ltac:(lia)) as H.
  cbv zeta in H. rewrite E in H. tauto.
Qed.

Lemma signbit_not_negative x : signbit x = Some false -> ltb x zero = false.
Proof. destruct x as [a|a| |a m e]; cbn [signbit]; intros [= ->]; reflexivity. Qed.

(** A difference whose second term is not the larger one is not negative. *)
Lemma sub_not_negative mb eb ma ea :
  Zpos ma * 2 ^ (ea - Z.min eb ea) <= Zpos mb * 2 ^ (eb - Z.min eb ea) ->
  ltb (sub (S754_finite false mb eb) (S754_finite false ma ea)) zero = false.
Proof.
  intros Hle. cbn [sub SFsub]. cbv zeta.
  pose proof (shl_align_spec mb eb (Z.min eb ea) ltac:(lia)) as [-> _].
  pose proof (shl_align_spec ma ea (Z.min eb ea) ltac:(lia)) as [-> _].
  cbn [cond_Zopp]. apply signbit_not_negative.
  rewrite binary_normalize_sign. f_equal. lia.
Qed.

(** The discount of DISCOUNTED is not more than the base price. *)
Lemma discount_le_basePrice_aux mb eb :
  -1074 <= eb <= 971 -> Zpos mb < 2 ^ 53 -> (eb = -1074 -> 2 <= Zpos mb) ->
  ltb (sub (S754_finite false mb eb)
         (mul (S754_finite false mb eb) (discount discounted))) zero = false.
Proof.
  intros Heb Hmb Htiny.
  change (discount discounted) with (S754_finite false 5404319552844595 (-55)).
  cbn [mul SFmul xorb]. rewrite Pos2Z.inj_mul.
  set (P := Zpos mb * 5404319552844595).
  assert (0 < P) as HP by (subst P; lia).
  pose proof (binary_round_aux_upper false P (eb + -55) loc_Exact HP) as H.
  cbv zeta in H. rewrite fexp_spec in H.
  pose proof (digits_mul_le (Zpos mb) 5404319552844595 ltac:(lia) ltac:(lia)) as Hd.
  change (digits 5404319552844595) with 53 in Hd. fold P in Hd.
  pose proof (digits_spec (Zpos mb) ltac:(lia)) as [Hlo _].
  pose proof (digits_pos (Zpos mb) ltac:(lia)) as Hdp.
  pose proof (digits_le (Zpos mb) (2 ^ 53 - 1) ltac:(lia) ltac:(lia)) as Hd53.
  replace (digits (2 ^ 53 - 1)) with 53 in Hd53 by reflexivity.
  set (k := Z.max 0 (Z.max (digits P + (eb + -55) - 53) (-1074) - (eb + -55))) in *.
  assert (0 < 2 ^ k) as Hpk by (apply Z.pow_pos_nonneg; lia).
  assert (2 ^ k <= 3 * Zpos mb * 2 ^ 53) as Hk.
  { destruct (Z_le_gt_dec k (digits (Zpos mb))) as [Hkd|Hkd].
    - assert (2 ^ k <= 2 ^ digits (Zpos mb)) by (apply Z.pow_le_mono_r; lia).
      replace (digits (Zpos mb)) with (Z.succ (digits (Zpos mb) - 1)) in H0 by lia.
      rewrite Z.pow_succ_r in H0 by lia. lia.
    - destruct (Z.eq_dec eb (-1074)) as [E|Hne].
      + specialize (Htiny E).
        assert (2 ^ k <= 2 ^ 55) by (apply Z.pow_le_mono_r; lia). lia.
      + assert (2 ^ k <= 2 ^ 54) by (apply Z.pow_le_mono_r; lia). lia. }
  destruct (binary_round_aux prec emax false P (eb + -55) loc_Exact)
    as [a|a| |a mf ef].
  - subst a. reflexivity.
  - lia.
  - tauto.
  - destruct H as (-> & Hef & Hmf & j & Hj & -> & Hv). apply sub_not_negative.
    assert (Zpos mf * 2 ^ (k + j) <= Zpos mb * 2 ^ 55) as Hv' by (subst P; lia).
    clear Hv.
    destruct (Z_le_gt_dec 55 (k + j)) as [Hge|Hlt].
    + replace (Z.min eb (eb + -55 + k + j)) with eb by lia.
      replace (eb + -55 + k + j - eb) with (k + j - 55) by lia.
      rewrite Z.sub_diag, Z.mul_1_r.
      apply (Z.mul_le_mono_pos_r _ _ (2 ^ 55)); [lia|].
      rewrite <- Z.mul_assoc, <- Z.pow_add_r by lia.
      replace (k + j - 55 + 55) with (k + j) by lia. exact Hv'.
    + replace (Z.min eb (eb + -55 + k + j)) with (eb + -55 + k + j) by lia.
      replace (eb - (eb + -55 + k + j)) with (55 - (k + j)) by lia.
      rewrite Z.sub_diag, Z.mul_1_r.
      apply (Z.mul_le_mono_pos_r _ _ (2 ^ (k + j)));
        [apply Z.pow_pos_nonneg; lia|].
      rewrite <- Z.mul_assoc, <- Z.pow_add_r by lia.
      replace (55 - (k + j) + (k + j)) with 55 by lia. exact Hv'.
Qed.

Lemma discount_le_basePrice mb eb :
  -1074 <= eb <= 971 -> Zpos mb < 2 ^ 53 ->
  ltb (sub (S754_finite false mb eb)
         (mul (S754_finite false mb eb) (discount discounted))) zero = false.
Proof.
  intros Heb Hmb.
  destruct (Z.eq_dec eb (-1074)) as [->|Hne];
    [destruct (Pos.eq_dec mb 1%positive) as [->|Hne]; [reflexivity|]|];
    apply discount_le_basePrice_aux; lia.
Qed.

(** A sum of numbers that are not negative is not negative. *)
Lemma add_not_negative x y :
  ltb x zero = false -> ltb y zero = false -> ltb (add x y) zero = false.
Proof.
  destruct x as [a|a| |a mx ex], y as [b|b| |b my ey]; try reflexivity;
    try (destruct a, b; (discriminate || reflexivity)).
  destruct a, b; try discriminate. intros _ _.
  cbn [add SFadd cond_Zopp]. cbv zeta.
  apply signbit_not_negative. rewrite binary_normalize_sign. reflexivity.
Qed.

Lemma Math_abs_not_negative x : ltb (Math_abs x) zero = false.
Proof. destruct x as [a|a| |a m e]; reflexivity. Qed.

Lemma add_negative_zero x : add x (S754_zero true) = x.
Proof. destruct x as [[]|[]| |a m e]; reflexivity. Qed.

(** The tariff of an id: the entry of the table with that id, or the
    first entry. *)
Lemma findTariff_by_id tariffId :
  findTariff tariffId
  = if String.eqb tariffId "DISCOUNTED" then discounted
    else if String.eqb tariffId "EXCLUSIVE" then exclusive
    else basic.
Proof.
  unfold findTariff, tariffs.
  cbn [List.find id basic discounted exclusive List.hd].
  rewrite (String.eqb_sym "DISCOUNTED"), (String.eqb_sym "EXCLUSIVE").
  destruct (String.eqb_spec "BASIC" tariffId) as [<-|_]; [reflexivity|].
  destruct (tariffId =? "DISCOUNTED")%string; [reflexivity|].
  destruct (tariffId =? "EXCLUSIVE")%string; reflexivity.
Qed.

Lemma priceFor_zero_rate p s e t :
  discount t = zero ->
  priceFor p s e t =
  let days := dayCount (sub (of_Z e) (of_Z s)) in
  {| basePrice := mul p days;
     tariffAdjustment := zero;
     totalPrice := mul p days;
     breakdown :=
       [ {| line_description := BasePriceLine days p; amount := mul p days |} ] |}.
Proof.
  intros Hr. unfold priceFor. rewrite Hr. cbn [eqb SFeqb SFcompare zero negb ltb SFltb].
  cbv zeta. cbn [opp SFopp negb]. rewrite add_negative_zero. reflexivity.
Qed.

Lemma totalPrice_discounted p s e :
  ltb p zero = false ->
  ltb (totalPrice (priceFor p s e discounted)) zero = false.
Proof.
  intros Hp. rewrite priceFor_positive_rate by reflexivity. cbn [totalPrice].
  rewrite add_opp.
  pose proof (basePrice_not_negative p (sub (of_Z e) (of_Z s)) Hp) as Hb.
  pose proof (mul_finite p (dayCount (sub (of_Z e) (of_Z s)))) as Hfin.
  destruct (mul p (dayCount (sub (of_Z e) (of_Z s)))) as [a|a| |a mb eb].
  - destruct a; reflexivity.
  - destruct a; [discriminate Hb|reflexivity].
  - reflexivity.
  - destruct a; [discriminate Hb|].
    destruct (Hfin false mb eb eq_refl) as [He Hm].
    apply discount_le_basePrice; assumption.
Qed.

Lemma totalPrice_exclusive p s e :
  ltb p zero = false ->
  ltb (totalPrice (priceFor p s e exclusive)) zero = false.
Proof.
  intros Hp. rewrite priceFor_negative_rate by reflexivity. cbn [totalPrice].
  apply add_not_negative; [|apply Math_abs_not_negative].
  apply basePrice_not_negative, Hp.
Qed.

(** X2: the total is never negative.  For a daily rate that is not
    negative, whatever the dates and the tariff id, the base price and the
    total price that [calculatePrice] returns are not negative, also for
    DISCOUNTED, where the total is the base price minus the rounded product
    of the base price and 0.15.  For BASIC and for every tariff id other
    than DISCOUNTED and EXCLUSIVE, the adjustment is 0 and the total is the
    base price itself. *)
Theorem totalPrice_not_negative :
  forall (pricePerDay : double) (startDate endDate : option JsDate.Date)
         (tariffId : string),
    ltb pricePerDay zero = false ->
    let c := calculatePrice pricePerDay startDate endDate tariffId in
    ltb (basePrice c) zero = false
    /\ ltb (totalPrice c) zero = false
    /\ (tariffId <> "DISCOUNTED" -> tariffId <> "EXCLUSIVE" ->
        tariffAdjustment c = zero /\ totalPrice c = basePrice c).
Proof.
  intros p sd ed tariffId Hp c. subst c. unfold calculatePrice.
  destruct sd as [[s|]|], ed as [[e|]|]; cbn [JsDate.getTime];
    try (repeat split; reflexivity).
  rewrite findTariff_by_id.
  destruct (String.eqb_spec tariffId "DISCOUNTED") as [->|Hd];
    [|destruct (String.eqb_spec tariffId "EXCLUSIVE") as [->|He]].
  - split; [|split; [apply totalPrice_discounted, Hp|congruence]].
    rewrite priceFor_positive_rate by reflexivity. apply basePrice_not_negative, Hp.
  - split; [|split; [apply totalPrice_exclusive, Hp|congruence]].
    rewrite priceFor_negative_rate by reflexivity. apply basePrice_not_negative, Hp.
  - rewrite priceFor_zero_rate by reflexivity.
    cbn [basePrice totalPrice tariffAdjustment].
    pose proof (basePrice_not_negative p (sub (of_Z e) (of_Z s)) Hp).
    repeat split; assumption.
Qed.

(** 19.99 a day for five days at DISCOUNTED. *)
Lemma totalPrice_not_negative_witness :
  ltb (totalPrice (calculatePrice (decimal 1999 100)
                     (Some (JsDate.Date_UTC 2025 1 1 0 0 0))
                     (Some (JsDate.Date_UTC 2025 1 6 0 0 0)) "DISCOUNTED")) zero
  = false.
Proof.
  apply (totalPrice_not_negative (decimal 1999 100)
           (Some (JsDate.Date_UTC 2025 1 1 0 0 0))
           (Some (JsDate.Date_UTC 2025 1 6 0 0 0)) "DISCOUNTED").
  reflexivity.
Defined.

End Totals.

(** ** Availability and admission *)

Section Admission.
Local Open Scope Z_scope.

(** C5: the candidate condition of the overlap queries.  For ranges with
    start <= end it is the closed-interval predicate
    [a.start <= b.end AND a.end >= b.start]; both queries therefore return
    the rows that predicate selects.  The predicate is symmetric, and a range
    that ends on the day another starts overlaps it. *)
Theorem overlapOR_closed_interval :
  (forall (start end_ : Z) (r : Reservation),
      startDate r <= endDate r -> start <= end_ ->
      overlapOR start end_ r = overlaps (range r) (start, end_))
  /\ (forall (db : DB) (vehicle : string) (start end_ : Z),
         map_Forall (fun _ r => startDate r <= endDate r) (reservations db) ->
         start <= end_ ->
         reservation_findMany
           (fun r => String.eqb (vehicleId r) vehicle && statusActive r
                     && overlapOR start end_ r) db
         = reservation_findMany
             (fun r => String.eqb (vehicleId r) vehicle && statusActive r
                       && overlaps (range r) (start, end_)) db
         /\ reservation_findMany
              (fun r => statusActive r && overlapOR start end_ r) db
            = reservation_findMany
                (fun r => statusActive r && overlaps (range r) (start, end_)) db)
  /\ (forall a b : Z * Z, overlaps a b = overlaps b a)
  /\ (forall s d e : Z, s <= d -> d <= e -> overlaps (s, d) (d, e) = true)
  /\ overlaps (UTC 2025 1 1 0 0 0, UTC 2025 1 3 0 0 0)
       (UTC 2025 1 3 0 0 0, UTC 2025 1 5 0 0 0) = true
  /\ overlaps (UTC 2025 1 1 0 0 0, UTC 2025 1 3 0 0 0)
       (UTC 2025 1 4 0 0 0, UTC 2025 1 6 0 0 0) = false.
Proof.
  assert (forall start end_ r, startDate r <= endDate r -> start <= end_ ->
            overlapOR start end_ r = overlaps (range r) (start, end_)) as Hcore.
  { intros start end_ r Hr Hq. unfold overlapOR, overlaps, range. cbn [fst snd].
    rewrite !Z.geb_leb.
    repeat case Z.leb_spec; intros; cbn; try reflexivity; lia. }
  split; [exact Hcore|]. split.
  { intros db vehicle start end_ Hwf Hq. unfold reservation_findMany.
    split; apply List.filter_ext_in; intros [i r] Hin; cbn [snd];
      apply list_elem_of_In, elem_of_map_to_list in Hin;
      rewrite (Hcore start end_ r (Hwf i r Hin) Hq); reflexivity. }
  split.
  { intros [a1 a2] [b1 b2]. unfold overlaps. cbn [fst snd].
    rewrite !Z.geb_leb. apply andb_comm. }
  split.
  { intros s d e Hs He. unfold overlaps. cbn [fst snd]. rewrite Z.geb_leb.
    apply andb_true_intro. split; apply Z.leb_le; lia. }
  split; reflexivity.
Qed.

Lemma overlapOR_closed_interval_witness :
  overlapOR (UTC 2025 1 3 0 0 0) (UTC 2025 1 5 0 0 0)
    (reservationData
       {| adm_actualUserId := "user-2"; adm_vehicleId := "vehicle-1";
          adm_start := UTC 2025 1 1 0 0 0; adm_end := UTC 2025 1 3 0 0 0;
          adm_startTime := "10:00"; adm_endTime := "18:00";
          adm_pickupLocation := "Berlin Central";
          adm_returnLocation := "Berlin Central";
          adm_tariff := "BASIC"; adm_totalPrice := 70;
          adm_paymentMethod := "PAYPAL" |} TariffType.BASIC)
  = true.
Proof.
  rewrite (proj1 overlapOR_closed_interval); [reflexivity | | ];
    vm_compute; discriminate.
Defined.

(** *** What each handler does to the database *)

Lemma POST_admit_rejects session b now db response :
  POST_admit session b now db = inl response ->
  response_status response <> 201.
Proof.
  unfold POST_admit. intros H.
  repeat case_match; simplify_eq; cbn; lia.
Qed.

Lemma POST_admit_checked session b now db a :
  POST_admit session b now db = inr a ->
  adm_vehicleId a = PostBody.vehicleId b
  /\ adm_totalPrice a = PostBody.totalPrice b
  /\ adm_start a < adm_end a
  /\ reservation_findMany
       (fun r => String.eqb (vehicleId r) (adm_vehicleId a) && statusActive r
                 && overlapOR (adm_start a) (adm_end a) r) db = [].
Proof.
  unfold POST_admit. intros H.
  repeat case_match; simplify_eq; cbn [adm_vehicleId adm_totalPrice adm_start adm_end].
  repeat split.
  - match goal with H : le _ _ = false |- _ => unfold le in H end.
    repeat case_match; simplify_eq.
    match goal with H : bool_decide _ = false |- _ =>
      apply bool_decide_eq_false in H end.
    lia.
  - match goal with H : (0 <? _) = false |- _ => apply Z.ltb_ge in H end.
    destruct (reservation_findMany _ db); [reflexivity | cbn in *; lia].
Qed.

(** The transaction either leaves the database as it was, or adds exactly
    the reservation row and the payment row. *)
Lemma POST_persist_outcome a ids db :
  (snd (POST_persist a ids db) = db
   /\ response_status (fst (POST_persist a ids db)) = 500)
  \/ (exists t m,
         TariffType.of_string (adm_tariff a) = Some t
         /\ PaymentMethod.of_string (adm_paymentMethod a) = Some m
         /\ reservations db !! fst ids = None
         /\ payments db !! snd ids = None
         /\ snd (POST_persist a ids db)
            = with_payments (insert (snd ids) (paymentData a m (fst ids)))
                (with_reservations (insert (fst ids) (reservationData a t)) db)
         /\ response_status (fst (POST_persist a ids db)) = 201).
Proof.
  unfold POST_persist.
  destruct (TariffType.of_string (adm_tariff a)) as [t|]; [|left; split; reflexivity].
  destruct (PaymentMethod.of_string (adm_paymentMethod a)) as [m|];
    [|left; split; reflexivity].
  unfold transaction, POST_tx, reservation_create.
  destruct (reservations db !! fst ids) eqn:Hrid; [left; split; reflexivity|].
  destruct (users db !! userId (reservationData a t)) eqn:Hu;
    [|left; split; reflexivity].
  destruct (vehicles db !! vehicleId (reservationData a t)) eqn:Hv;
    [|left; split; reflexivity].
  cbn [mbind Exc_bind]. unfold payment_create.
  cbn [payments with_reservations].
  destruct (payments db !! snd ids) eqn:Hpid; [left; split; reflexivity|].
  destruct (payment_findMany _ _); [|left; split; reflexivity].
  cbn [users reservations payment_userId reservationId paymentData
       with_reservations userId reservationData] in *.
  rewrite Hu.
  rewrite lookup_insert_eq. cbn [mbind Exc_bind mret Exc_ret fst snd].
  right. exists t, m. unfold reservation_findUnique.
  cbn [reservations with_payments with_reservations].
  rewrite lookup_insert_eq. cbn [fst snd response_status json].
  repeat split; reflexivity || assumption.
Qed.

Lemma PUT_outcome session id b db :
  snd (PUT session id b db) = db
  \/ (exists r r', reservations db !! id = Some r
                   /\ snd (PUT session id b db)
                      = with_reservations (insert id r') db).
Proof.
  unfold PUT, reservation_update, reservation_findUnique.
  destruct session as [session|]; [|left; reflexivity].
  destruct (reservations db !! id) as [r|] eqn:Hr; [|left; reflexivity].
  destruct (negb _ && negb _); [left; reflexivity|].
  destruct (negb _ && negb _); [left; reflexivity|].
  destruct (applyUpdate _ r) as [r'|]; [|left; reflexivity].
  cbn [mbind Exc_bind mret Exc_ret].
  right. exists r, r'. split; [reflexivity|].
  rewrite andb_false_r. reflexivity.
Qed.

Lemma DELETE_outcome session id db :
  snd (DELETE session id db) = db
  \/ snd (DELETE session id db)
     = payment_updateMany (fun p => String.eqb (reservationId p) id) refund db.
Proof.
  unfold DELETE.
  repeat case_match; cbn [snd]; auto.
Qed.

(** *** Reservation and payment are written together *)

Lemma POST_outcome session b now ids db :
  (snd (POST session b now ids db) = db
   /\ response_status (fst (POST session b now ids db)) <> 201)
  \/ (exists a t m,
         POST_admit session b now db = inr a
         /\ reservations db !! fst ids = None
         /\ payments db !! snd ids = None
         /\ snd (POST session b now ids db)
            = with_payments (insert (snd ids) (paymentData a m (fst ids)))
                (with_reservations (insert (fst ids) (reservationData a t)) db)
         /\ response_status (fst (POST session b now ids db)) = 201).
Proof.
  unfold POST.
  destruct (POST_admit session b now db) as [response|a] eqn:Hadm.
  - left. split; [reflexivity|]. exact (POST_admit_rejects _ _ _ _ _ Hadm).
  - destruct (POST_persist_outcome a ids db)
      as [[-> ->]|(t & m & _ & _ & Hr & Hp & -> & ->)].
    + left. split; [reflexivity | lia].
    + right. exists a, t, m. repeat split; assumption.
Qed.

Lemma has_payment_insert db i j p :
  payments db !! j = None ->
  has_payment db i -> has_payment (with_payments (insert j p) db) i.
Proof.
  intros Hj (k & q & Hk & Hq). exists k, q. split; [|exact Hq].
  cbn [payments with_payments]. rewrite lookup_insert_ne; [exact Hk|].
  intros ->. rewrite Hj in Hk. discriminate Hk.
Qed.

Lemma request_paid db db' :
  request db db' -> every_reservation_paid db -> every_reservation_paid db'.
Proof.
  intros Hreq Hinv. destruct Hreq as [session b now ids|session id b|session id].
  - destruct (POST_outcome session b now ids db)
      as [[-> _]|(a & t & m & _ & Hr & Hp & -> & _)]; [exact Hinv|].
    intros i r. cbn [reservations with_payments with_reservations].
    destruct (decide (i = fst ids)) as [->|Hne].
    + intros _. exists (snd ids), (paymentData a m (fst ids)).
      cbn [payments with_payments]. rewrite lookup_insert_eq. split; reflexivity.
    + rewrite lookup_insert_ne by congruence. intros Hi.
      apply has_payment_insert; [exact Hp|]. exact (Hinv i r Hi).
  - destruct (PUT_outcome session id b db) as [->|(r & r' & Hr & ->)];
      [exact Hinv|].
    intros i ri. cbn [reservations with_reservations].
    destruct (decide (i = id)) as [->|Hne].
    + intros _. exact (Hinv id r Hr).
    + rewrite lookup_insert_ne by congruence. exact (Hinv i ri).
  - destruct (DELETE_outcome session id db) as [->| ->]; [exact Hinv|].
    intros i ri Hi. destruct (Hinv i ri Hi) as (k & q & Hk & Hq).
    unfold payment_updateMany.
    exists k, (if String.eqb (reservationId q) id then refund q else q).
    cbn [payments with_payments]. rewrite lookup_fmap, Hk. split; [reflexivity|].
    destruct (String.eqb (reservationId q) id); exact Hq.
Qed.

(** C6: the reservation and its payment are written as one unit.  A [POST]
    either leaves the database unchanged and does not answer 201, or answers
    201 and adds exactly one reservation row, PENDING, and one payment row,
    PENDING, for that reservation and of the same amount.  Hence, whatever
    requests are served, every reservation keeps a payment row. *)
Theorem POST_reservation_with_payment :
  (forall (session : option Session) (b : PostBody.t) (now : Z)
          (ids : string * string) (db : DB),
      let response := fst (POST session b now ids db) in
      let db' := snd (POST session b now ids db) in
      (db' = db /\ response_status response <> 201)
      \/ (exists r p,
             response_status response = 201
             /\ reservations db !! fst ids = None
             /\ payments db !! snd ids = None
             /\ users db' = users db /\ vehicles db' = vehicles db
             /\ reservations db' = <[fst ids := r]> (reservations db)
             /\ payments db' = <[snd ids := p]> (payments db)
             /\ status r = ReservationStatus.PENDING
             /\ paymentStatus p = PaymentStatus.PENDING
             /\ reservationId p = fst ids
             /\ amount p = totalPrice r
             /\ totalPrice r = PostBody.totalPrice b))
  /\ (forall db db' : DB,
         every_reservation_paid db -> rtc request db db' ->
         every_reservation_paid db').
Proof.
  split.
  - intros session b now ids db response db'. subst response db'.
    destruct (POST_outcome session b now ids db)
      as [H|(a & t & m & Hadm & Hr & Hp & -> & ->)]; [left; exact H|].
    right. exists (reservationData a t), (paymentData a m (fst ids)).
    destruct (POST_admit_checked _ _ _ _ _ Hadm) as (_ & Hprice & _).
    repeat split; try reflexivity; assumption.
  - intros db db' Hinv Hsteps. induction Hsteps as [|x y z Hxy _ IH]; [exact Hinv|].
    apply IH. exact (request_paid x y Hxy Hinv).
Qed.

(** The seed data stays paid after a booking and a cancellation. *)
Lemma POST_reservation_with_payment_witness :
  every_reservation_paid
    (snd (DELETE (Some Seed.dom_) "res-1"
            (snd (POST (Some Seed.dom_)
                    (Seed.book (Date_UTC 2025 8 1 0 0 0) (Date_UTC 2025 8 5 0 0 0))
                    Seed.now ("res-3", "pay-789") Seed.db)))).
Proof.
  apply (proj2 POST_reservation_with_payment Seed.db).
  - apply (bool_decide_unpack (every_reservation_paid Seed.db)).
    vm_compute. exact I.
  - eapply rtc_l; [apply request_POST|].
    eapply rtc_l; [apply request_DELETE|]. apply rtc_refl.
Defined.

(** *** Double booking *)

Lemma reservation_findMany_nil where_ db :
  reservation_findMany where_ db = [] ->
  forall i r, reservations db !! i = Some r -> where_ r = false.
Proof.
  unfold reservation_findMany. intros Hnil i r Hi.
  destruct (where_ r) eqn:Hw; [|reflexivity].
  assert (In (i, r) (List.filter (fun ir => where_ ir.2) (map_to_list (reservations db))))
    as Hin.
  { apply List.filter_In. split; [|exact Hw].
    apply list_elem_of_In, elem_of_map_to_list, Hi. }
  rewrite Hnil in Hin. destruct Hin.
Qed.

(** A row that the closed-interval predicate selects is selected by the
    query condition, whatever the order of its two dates. *)
Lemma overlaps_overlapOR start end_ r :
  overlaps (range r) (start, end_) = true -> overlapOR start end_ r = true.
Proof.
  unfold overlapOR, overlaps, range. cbn [fst snd]. rewrite !Z.geb_leb.
  repeat case Z.leb_spec; intros; cbn in *; try reflexivity; try discriminate; lia.
Qed.

Lemma overlaps_sym a b : overlaps a b = overlaps b a.
Proof.
  destruct a, b. unfold overlaps. cbn [fst snd]. rewrite !Z.geb_leb.
  apply andb_comm.
Qed.

Lemma double_booked_sym r1 r2 : double_booked r1 r2 -> double_booked r2 r1.
Proof.
  intros (Hv & H1 & H2 & Ho). repeat split; try assumption; [congruence|].
  rewrite overlaps_sym. exact Ho.
Qed.

(** Creation keeps the vehicles free of double bookings. *)
Lemma POST_keeps_no_double_booking session b now ids db :
  no_double_booking db ->
  no_double_booking (snd (POST session b now ids db)).
Proof.
  intros Hinv.
  destruct (POST_outcome session b now ids db)
    as [[-> _]|(a & t & m & Hadm & Hr & _ & -> & _)]; [exact Hinv|].
  destruct (POST_admit_checked _ _ _ _ _ Hadm) as (_ & _ & _ & Hnil).
  pose proof (reservation_findMany_nil _ _ Hnil) as Hfree. cbn beta in Hfree.
  assert (forall j rj, reservations db !! j = Some rj ->
                       ~ double_booked (reservationData a t) rj) as Hnew.
  { intros j rj Hj (Hv & _ & Hact & Ho).
    specialize (Hfree j rj Hj). cbn [vehicleId reservationData] in Hv.
    rewrite overlaps_sym in Ho. apply Is_true_true, overlaps_overlapOR in Ho.
    cbn [range startDate endDate reservationData] in Ho.
    apply Is_true_true in Hact.
    rewrite Ho, Hact, <- Hv, String.eqb_refl in Hfree. discriminate Hfree. }
  intros i ri Hi j rj Hj Hne.
  cbn [reservations with_payments with_reservations] in Hi, Hj.
  destruct (decide (i = fst ids)) as [->|Hi'].
  - rewrite lookup_insert_eq in Hi. rewrite lookup_insert_ne in Hj by congruence.
    injection Hi as <-. exact (Hnew j rj Hj).
  - rewrite lookup_insert_ne in Hi by congruence.
    destruct (decide (j = fst ids)) as [->|Hj'].
    + rewrite lookup_insert_eq in Hj. injection Hj as <-.
      intros Hd. exact (Hnew i ri Hi (double_booked_sym _ _ Hd)).
    + rewrite lookup_insert_ne in Hj by congruence.
      exact (Hinv i ri Hi j rj Hj Hne).
Qed.

(** Cancellation does not touch the reservation table. *)
Lemma DELETE_reservations session id db :
  reservations (snd (DELETE session id db)) = reservations db.
Proof.
  destruct (DELETE_outcome session id db) as [-> | ->]; reflexivity.
Qed.

Lemma DELETE_keeps_no_double_booking session id db :
  no_double_booking db -> no_double_booking (snd (DELETE session id db)).
Proof.
  unfold no_double_booking. rewrite DELETE_reservations. trivial.
Qed.

(** An edit is never answered with the conflict response of creation. *)
Lemma PUT_never_conflict session id b db error conflicts :
  response_body (fst (PUT session id b db)) <> Conflict error conflicts.
Proof.
  unfold PUT. repeat case_match; cbn; discriminate.
Qed.

(** A handler resumed twice has run [POST] to its end. *)
Lemma serve_alone session b now ids h2 db :
  serve [First; First] (Received session b now ids) h2 db
  = (Responded (fst (POST session b now ids db)), h2,
     snd (POST session b now ids db)).
Proof.
  unfold POST. cbn [serve resume].
  destruct (POST_admit session b now db) as [response|a]; cbn [resume].
  - reflexivity.
  - destruct (POST_persist a ids db). reflexivity.
Qed.

(** C1: which operations keep the vehicles free of double bookings.
    Creation and cancellation do, from every database.  The edit path does
    not: in the seed data the VW Golf is reserved from 20 to 25 July ("res-1")
    and, after a booking, from 1 to 5 August ("res-3"), and no two active
    reservations overlap; the owner's edit of "res-3" to 22-24 July is
    answered 200, and afterwards "res-1" and "res-3" are active, on the same
    vehicle, and overlap. *)
Theorem PUT_double_books :
  (forall session b now ids db,
      no_double_booking db ->
      no_double_booking (snd (POST session b now ids db)))
  /\ (forall session id db,
         no_double_booking db -> no_double_booking (snd (DELETE session id db)))
  /\ (let edit := PUT (Some Seed.dom_) "res-3"
                    (Seed.move (Date_UTC 2025 7 22 0 0 0) (Date_UTC 2025 7 24 0 0 0))
                    Seed.booked in
      no_double_booking Seed.db
      /\ no_double_booking Seed.booked
      /\ response_status (fst edit) = 200
      /\ ~ no_double_booking (snd edit)
      /\ (exists r1 r3,
             reservations (snd edit) !! "res-1" = Some r1
             /\ reservations (snd edit) !! "res-3" = Some r3
             /\ double_booked r1 r3)).
Proof.
  split; [exact POST_keeps_no_double_booking|].
  split; [exact DELETE_keeps_no_double_booking|].
  cbv zeta. split.
  { apply (bool_decide_unpack (no_double_booking Seed.db)). vm_compute. exact I. }
  split.
  { apply (bool_decide_unpack (no_double_booking Seed.booked)).
    vm_compute. exact I. }
  split; [vm_compute; reflexivity|]. split.
  { intros H. apply (bool_decide_pack _) in H. vm_compute in H. exact H. }
  eexists _, _. split; [vm_compute; reflexivity|].
  split; [vm_compute; reflexivity|].
  apply (bool_decide_unpack (double_booked _ _)). vm_compute. exact I.
Qed.

(** The booking of 1 to 5 August and the cancellation of "res-1" keep the
    seed data free of double bookings. *)
Lemma PUT_double_books_witness :
  no_double_booking Seed.booked
  /\ no_double_booking (snd (DELETE (Some Seed.dom_) "res-1" Seed.db)).
Proof.
  assert (no_double_booking Seed.db) as Hseed.
  { apply (bool_decide_unpack (no_double_booking Seed.db)). vm_compute. exact I. }
  split.
  - exact (proj1 PUT_double_books (Some Seed.dom_)
             (Seed.book (Date_UTC 2025 8 1 0 0 0) (Date_UTC 2025 8 5 0 0 0))
             Seed.now ("res-3", "pay-789") Seed.db Hseed).
  - exact (proj1 (proj2 PUT_double_books) (Some Seed.dom_) "res-1" Seed.db Hseed).
Defined.

(** The owner's edit of the dates of an active reservation is stored as sent,
    whatever else is in the reservation table. *)
Lemma PUT_move_accepted session id db r s e :
  reservations db !! id = Some r ->
  String.eqb (session_user_id session) (userId r) = true ->
  statusActive r = true ->
  let edit := PUT (Some session) id (Seed.move (Instant s) (Instant e)) db in
  response_status (fst edit) = 200
  /\ exists r', snd edit = with_reservations (insert id r') db
                /\ range r' = (s, e)
                /\ status r' = status r /\ vehicleId r' = vehicleId r.
Proof.
  intros Hr Hown Hact. unfold statusActive in Hact.
  unfold PUT, reservation_update, reservation_findUnique. rewrite Hr.
  rewrite Hown, Hact. rewrite !andb_false_r.
  cbn [Seed.move PutBody.startDate PutBody.endDate PutBody.status PutBody.tariff
       PutBody.startTime PutBody.endTime PutBody.pickupLocation
       PutBody.returnLocation PutBody.totalPrice PutBody.paymentMethod
       truthy ifTruthy String.eqb negb andb].
  unfold applyUpdate.
  cbn [set_status set_startDate set_endDate set_tariff set_enum set_date getTime
       mbind Exc_bind mret Exc_ret].
  cbn [fst snd json response_status]. split; [reflexivity|].
  eexists. split; [reflexivity|]. repeat split.
Qed.

(** C2: the edit path runs no availability check.  The owner's edit of the
    dates of an active reservation is answered 200 and stored for every
    database, so also when the new range lies on another active reservation
    of the vehicle: on the same database, creating a reservation of the VW
    Golf for 22-24 July is rejected with the conflict response naming "res-1",
    while editing "res-3" to that range is accepted.  An edit is never
    answered with the conflict response.  An edit that overlaps only the
    edited reservation succeeds. *)
Theorem PUT_no_availability_check :
  (forall (session : Session) (id : string) (db : DB) (r : Reservation) (s e : Z),
      reservations db !! id = Some r ->
      String.eqb (session_user_id session) (userId r) = true ->
      statusActive r = true ->
      let edit := PUT (Some session) id (Seed.move (Instant s) (Instant e)) db in
      response_status (fst edit) = 200
      /\ range <$> reservations (snd edit) !! id = Some (s, e))
  /\ (let start := Date_UTC 2025 7 22 0 0 0 in
      let end_ := Date_UTC 2025 7 24 0 0 0 in
      let edit := PUT (Some Seed.dom_) "res-3" (Seed.move start end_) Seed.booked in
      fst (POST (Some Seed.yb) (Seed.book start end_) Seed.now ("res-4", "pay-4")
             Seed.booked)
      = json (Conflict "Vehicle already reserved for this time period"
                [("res-1", UTC 2025 7 20 0 0 0, UTC 2025 7 25 0 0 0)]) 400
      /\ response_status (fst edit) = 200
      /\ range <$> reservations (snd edit) !! "res-3"
         = Some (UTC 2025 7 22 0 0 0, UTC 2025 7 24 0 0 0)
      /\ response_status
           (fst (PUT (Some Seed.dom_) "res-3"
                   (Seed.move (Date_UTC 2025 8 2 0 0 0) (Date_UTC 2025 8 4 0 0 0))
                   Seed.booked)) = 200)
  /\ (forall session id b db error conflicts,
         response_body (fst (PUT session id b db)) <> Conflict error conflicts).
Proof.
  split.
  { intros session id db r s e Hr Hown Hact edit.
    destruct (PUT_move_accepted session id db r s e Hr Hown Hact)
      as (H200 & r' & Hdb & Hrange & _).
    fold edit in H200, Hdb. split; [exact H200|].
    rewrite Hdb. cbn [reservations with_reservations].
    rewrite lookup_insert_eq. cbn [fmap option_fmap option_map]. congruence. }
  split; [|exact PUT_never_conflict].
  cbv zeta. split; [vm_compute; reflexivity|]. split; [vm_compute; reflexivity|].
  split; vm_compute; reflexivity.
Qed.

(** The edit of "res-3" onto the days of "res-1". *)
Lemma PUT_no_availability_check_witness :
  response_status
    (fst (PUT (Some Seed.dom_) "res-3"
            (Seed.move (Instant (UTC 2025 7 22 0 0 0)) (Instant (UTC 2025 7 24 0 0 0)))
            Seed.booked)) = 200.
Proof.
  eapply (proj1 PUT_no_availability_check Seed.dom_ "res-3" Seed.booked);
    vm_compute; reflexivity.
Defined.

(** A permitted cancellation: the answer, the payments, the reservations. *)
Lemma DELETE_permitted session id db r :
  reservations db !! id = Some r ->
  hasRequiredRole session ["ADMIN"; "EMPLOYEE"]
  || String.eqb (session_user_id session) (userId r) = true ->
  statusActive r = true ->
  DELETE (Some session) id db
  = (json (Message "Reservation cancelled successfully, payment refunded!") 200,
     payment_updateMany (fun p => String.eqb (reservationId p) id) refund db).
Proof.
  intros Hr Hauth Hact. unfold statusActive in Hact.
  unfold DELETE, reservation_findUnique. rewrite Hr, Hact.
  rewrite <- negb_orb, Hauth. reflexivity.
Qed.

(** C3: cancellation refunds the payment and leaves the reservation status.
    For the owner or staff and a PENDING or CONFIRMED reservation the answer
    is 200 and every payment of the reservation becomes REFUNDED; any other
    status is answered 400 and a caller who is neither is answered 403, with
    the database unchanged.  But no cancellation changes the reservation
    table: the status stays what it was, and the same cancellation is answered
    200 again.  In the seed data: the owner cancels the CONFIRMED "res-1",
    "pay-123" becomes REFUNDED, "res-1" is still CONFIRMED, and the second
    cancellation is answered 200. *)
Theorem DELETE_keeps_status :
  (forall (session : Session) (id : string) (db : DB) (r : Reservation),
      reservations db !! id = Some r ->
      let isStaffOrOwner :=
        hasRequiredRole session ["ADMIN"; "EMPLOYEE"]
        || String.eqb (session_user_id session) (userId r) in
      let first := DELETE (Some session) id db in
      let second := DELETE (Some session) id (snd first) in
      (isStaffOrOwner = false ->
       response_status (fst first) = 403 /\ snd first = db)
      /\ (isStaffOrOwner = true -> statusActive r = false ->
          response_status (fst first) = 400 /\ snd first = db)
      /\ (isStaffOrOwner = true -> statusActive r = true ->
          response_status (fst first) = 200
          /\ (forall k p, payments db !! k = Some p -> reservationId p = id ->
                paymentStatus <$> payments (snd first) !! k
                = Some PaymentStatus.REFUNDED)
          /\ reservations (snd first) !! id = Some r
          /\ response_status (fst second) = 200))
  /\ (let first := DELETE (Some Seed.dom_) "res-1" Seed.db in
      let second := DELETE (Some Seed.dom_) "res-1" (snd first) in
      status <$> reservations Seed.db !! "res-1" = Some ReservationStatus.CONFIRMED
      /\ fst first
         = json (Message "Reservation cancelled successfully, payment refunded!") 200
      /\ paymentStatus <$> payments (snd first) !! "pay-123"
         = Some PaymentStatus.REFUNDED
      /\ status <$> reservations (snd first) !! "res-1"
         = Some ReservationStatus.CONFIRMED
      /\ response_status (fst second) = 200)
  /\ (forall session id db,
         reservations (snd (DELETE session id db)) = reservations db).
Proof.
  split.
  { intros session id db r Hr isStaffOrOwner first second.
    split; [|split].
    - intros Hno. subst first. unfold DELETE, reservation_findUnique.
      rewrite Hr, <- negb_orb. fold isStaffOrOwner. rewrite Hno. split; reflexivity.
    - intros Hyes Hact. subst first. unfold DELETE, reservation_findUnique.
      rewrite Hr, <- negb_orb. fold isStaffOrOwner. rewrite Hyes.
      unfold statusActive in Hact. rewrite Hact. split; reflexivity.
    - intros Hyes Hact.
      subst first second.
      rewrite (DELETE_permitted session id db r Hr Hyes Hact). cbn [fst snd].
      rewrite (DELETE_permitted session id (payment_updateMany _ refund db) r
                 Hr Hyes Hact).
      cbn [fst snd json response_status]. repeat split; try assumption.
      intros k p Hk Hp. unfold payment_updateMany. cbn [payments with_payments].
      rewrite lookup_fmap, Hk. cbn [fmap option_fmap option_map].
      rewrite Hp, String.eqb_refl. reflexivity. }
  split; [|exact DELETE_reservations].
  cbv zeta. split; [vm_compute; reflexivity|]. split; [vm_compute; reflexivity|].
  split; [vm_compute; reflexivity|]. split; vm_compute; reflexivity.
Qed.

(** The owner cancels "res-1" twice. *)
Lemma DELETE_keeps_status_witness :
  reservations (snd (DELETE (Some Seed.dom_) "res-1" Seed.db)) !! "res-1"
  = Seed.db.(reservations) !! "res-1"
  /\ response_status
       (fst (DELETE (Some Seed.dom_) "res-1"
               (snd (DELETE (Some Seed.dom_) "res-1" Seed.db)))) = 200.
Proof.
  assert (exists r, reservations Seed.db !! "res-1" = Some r) as [r Hr]
      by (eexists; vm_compute; reflexivity).
  destruct (proj1 DELETE_keeps_status Seed.dom_ "res-1" Seed.db r Hr)
    as (_ & _ & Hok).
  assert (hasRequiredRole Seed.dom_ ["ADMIN"; "EMPLOYEE"]
          || String.eqb (session_user_id Seed.dom_) (userId r) = true) as Hauth.
  { vm_compute in Hr. injection Hr as <-. vm_compute. reflexivity. }
  assert (statusActive r = true) as Hact.
  { vm_compute in Hr. injection Hr as <-. vm_compute. reflexivity. }
  destruct (Hok Hauth Hact) as (_ & _ & Hsame & Hagain).
  split; [rewrite Hr; exact Hsame | exact Hagain].
Defined.

Lemma serve_app l1 l2 h1 h2 db :
  serve (l1 ++ l2) h1 h2 db
  = serve l2 (fst (fst (serve l1 h1 h2 db))) (snd (fst (serve l1 h1 h2 db)))
      (snd (serve l1 h1 h2 db)).
Proof.
  revert h1 h2 db. induction l1 as [|turn l1 IH]; intros h1 h2 db; [reflexivity|].
  destruct turn; cbn [app serve].
  - destruct (resume h1 db) as [h1' db']. apply IH.
  - destruct (resume h2 db) as [h2' db']. apply IH.
Qed.

Lemma serve_alone_second h1 session b now ids db :
  serve [Second; Second] h1 (Received session b now ids) db
  = (h1, Responded (fst (POST session b now ids db)),
     snd (POST session b now ids db)).
Proof.
  unfold POST. cbn [serve resume].
  destruct (POST_admit session b now db) as [response|a]; cbn [resume].
  - reflexivity.
  - destruct (POST_persist a ids db). reflexivity.
Qed.

Lemma serve_queued s1 b1 now1 ids1 s2 b2 now2 ids2 db :
  snd (serve [First; First; Second; Second]
         (Received s1 b1 now1 ids1) (Received s2 b2 now2 ids2) db)
  = snd (POST s2 b2 now2 ids2 (snd (POST s1 b1 now1 ids1 db))).
Proof.
  change [First; First; Second; Second] with ([First; First] ++ [Second; Second]).
  rewrite serve_app, serve_alone. cbn [fst snd].
  rewrite serve_alone_second. reflexivity.
Qed.

(** C4: two bookings of one vehicle that race.  Served one after the other,
    two [POST] requests keep every database free of double bookings.  Served
    by one event loop so that both handlers run their checks before either
    runs its transaction, they do not: two requests for the VW Golf, 1-5
    August and 3-8 August, are both answered 201 and both reservations are
    stored, although they overlap; no constraint of the schema rejects the
    second insert.  The same two requests served one after the other: the
    second is rejected with 400. *)
Theorem POST_race_double_books :
  (forall s1 b1 now1 ids1 s2 b2 now2 ids2 db,
      no_double_booking db ->
      no_double_booking
        (snd (serve [First; First; Second; Second]
                (Received s1 b1 now1 ids1) (Received s2 b2 now2 ids2) db)))
  /\ (let h1 := Received (Some Seed.dom_)
                  (Seed.book (Date_UTC 2025 8 1 0 0 0) (Date_UTC 2025 8 5 0 0 0))
                  Seed.now ("res-3", "pay-789") in
      let h2 := Received (Some Seed.yb)
                  (Seed.book (Date_UTC 2025 8 3 0 0 0) (Date_UTC 2025 8 8 0 0 0))
                  Seed.now ("res-4", "pay-790") in
      let raced := serve [First; Second; First; Second] h1 h2 Seed.db in
      let queued := serve [First; First; Second; Second] h1 h2 Seed.db in
      no_double_booking Seed.db
      /\ statusOf (fst (fst raced)) = Some 201
      /\ statusOf (snd (fst raced)) = Some 201
      /\ ~ no_double_booking (snd raced)
      /\ (exists r3 r4,
             reservations (snd raced) !! "res-3" = Some r3
             /\ reservations (snd raced) !! "res-4" = Some r4
             /\ double_booked r3 r4)
      /\ statusOf (fst (fst queued)) = Some 201
      /\ statusOf (snd (fst queued)) = Some 400).
Proof.
  split.
  { intros s1 b1 now1 ids1 s2 b2 now2 ids2 db Hinv. rewrite serve_queued.
    apply POST_keeps_no_double_booking, POST_keeps_no_double_booking, Hinv. }
  cbv zeta. split.
  { apply (bool_decide_unpack (no_double_booking Seed.db)). vm_compute. exact I. }
  split; [vm_compute; reflexivity|]. split; [vm_compute; reflexivity|]. split.
  { intros H. apply (bool_decide_pack _) in H. vm_compute in H. exact H. }
  split.
  { eexists _, _. split; [vm_compute; reflexivity|].
    split; [vm_compute; reflexivity|].
    apply (bool_decide_unpack (double_booked _ _)). vm_compute. exact I. }
  split; vm_compute; reflexivity.
Qed.

(** The two requests for the VW Golf, served one after the other. *)
Lemma POST_race_double_books_witness :
  no_double_booking
    (snd (serve [First; First; Second; Second]
            (Received (Some Seed.dom_)
               (Seed.book (Date_UTC 2025 8 1 0 0 0) (Date_UTC 2025 8 5 0 0 0))
               Seed.now ("res-3", "pay-789"))
            (Received (Some Seed.yb)
               (Seed.book (Date_UTC 2025 8 3 0 0 0) (Date_UTC 2025 8 8 0 0 0))
               Seed.now ("res-4", "pay-790"))
            Seed.db)).
Proof.
  apply (proj1 POST_race_double_books).
  apply (bool_decide_unpack (no_double_booking Seed.db)). vm_compute. exact I.
Defined.

End Admission.

(** ** More on the billing engine *)

Section BillingMore.
Import BillingEngine Pricing.
Local Open Scope Q_scope.


Lemma rate_sign_cases r :
  (Qnonzero r = false /\ Qnegative r = false /\ r == 0)
  \/ (Qnonzero r = true /\ Qpositive r = true /\ Qnegative r = false /\ 0 < r)
  \/ (Qnonzero r = true /\ Qpositive r = false /\ Qnegative r = true /\ r < 0).
Proof.
  destruct (Q_dec r 0) as [[Hlt|Hgt]|Heq].
  - right. right. repeat split; [| | |exact Hlt].
    + apply Qnonzero_spec. intros E. rewrite E in Hlt. discriminate Hlt.
    + apply not_true_iff_false. rewrite Qpositive_spec.
      apply Qle_not_lt, Qlt_le_weak, Hlt.
    + apply Qnegative_spec, Hlt.
  - right. left. repeat split; [| | |exact Hgt].
    + apply Qnonzero_spec. intros E. rewrite E in Hgt. discriminate Hgt.
    + apply Qpositive_spec, Hgt.
    + apply not_true_iff_false. rewrite Qnegative_spec.
      apply Qle_not_lt, Qlt_le_weak, Hgt.
  - left. repeat split; [| |exact Heq].
    + apply not_true_iff_false. rewrite Qnonzero_spec. tauto.
    + apply not_true_iff_false. rewrite Qnegative_spec, Heq. discriminate.
Qed.

(** X1: the breakdown adds up.  For every daily rate, pair of dates and
    tariff id, the amounts of the breakdown lines sum to the total price; this
    also holds for any tariff record and for the zero result. *)
Theorem breakdown_sums_to_total :
  (forall (pricePerDay : Q) (startDate endDate : option Date) (tariffId : string),
      let c := calculatePrice pricePerDay startDate endDate tariffId in
      itemizedTotal c == totalPrice c)
  /\ (forall (pricePerDay : Q) (startMs endMs : Z) (tariff : TariffConfig),
         let c := priceFor pricePerDay startMs endMs tariff in
         itemizedTotal c == totalPrice c).
Proof.
  assert (forall p s e t, itemizedTotal (priceFor p s e t)
                          == totalPrice (priceFor p s e t)) as Hfor.
  { intros p s e t. unfold priceFor, itemizedTotal.
    destruct (rate_sign_cases (discount t))
      as [(-> & -> & _)|[(-> & -> & -> & _)|(-> & -> & -> & _)]];
      cbn [breakdown totalPrice fold_right amount app]; ring. }
  split; [|exact Hfor].
  intros p sd ed tariffId c. subst c. unfold calculatePrice.
  destruct sd as [[s|]|], ed as [[e|]|]; cbn [getTime]; try reflexivity.
  apply Hfor.
Qed.

(** The total as a multiple of the base price. *)
Lemma priceFor_total p s e t :
  0 <= p ->
  totalPrice (priceFor p s e t)
  == p * inject_Z (dayCount (e - s)) * (1 - discount t).
Proof.
  intros Hp. pose proof (inject_Z_dayCount_pos (e - s)) as Hd.
  assert (0 <= p * inject_Z (dayCount (e - s))) as Hb.
  { apply Qmult_le_0_compat; [exact Hp | apply Qlt_le_weak, Hd]. }
  unfold priceFor. cbn [totalPrice].
  destruct (rate_sign_cases (discount t))
    as [(-> & -> & E)|[(-> & _ & -> & _)|(-> & _ & -> & Hr)]].
  - rewrite E. ring.
  - ring.
  - rewrite Qabs_neg.
    + ring.
    + rewrite Qmult_comm.
      apply (Qle_trans _ (0 * (p * inject_Z (dayCount (e - s))))).
      * apply Qmult_le_compat_r; [apply Qlt_le_weak, Hr | exact Hb].
      * rewrite Qmult_0_l. apply Qle_refl.
Qed.





End BillingMore.

(** ** More on creation *)

Section CreateMore.
Import Gates.
Local Open Scope Z_scope.

Lemma includes_elem (xs : list string) (x : string) :
  includes xs x = true <-> x ∈ xs.
Proof.
  unfold includes. rewrite existsb_exists. split.
  - intros (y & Hin & Heq). apply String.eqb_eq in Heq. subst y.
    apply list_elem_of_In, Hin.
  - intros Hin. exists x. split; [apply list_elem_of_In, Hin|].
    apply String.eqb_refl.
Qed.

Lemma reservation_findMany_In where_ db i r :
  In (i, r) (reservation_findMany where_ db)
  <-> reservations db !! i = Some r /\ where_ r = true.
Proof.
  unfold reservation_findMany. rewrite List.filter_In. cbn [snd].
  rewrite <- list_elem_of_In, elem_of_map_to_list. reflexivity.
Qed.

Lemma payment_findMany_In where_ db k p :
  In (k, p) (payment_findMany where_ db)
  <-> payments db !! k = Some p /\ where_ p = true.
Proof.
  unfold payment_findMany. rewrite List.filter_In. cbn [snd].
  rewrite <- list_elem_of_In, elem_of_map_to_list. reflexivity.
Qed.

Lemma reservation_findMany_nil_iff where_ db :
  reservation_findMany where_ db = []
  <-> forall i r, reservations db !! i = Some r -> where_ r = false.
Proof.
  split; [apply reservation_findMany_nil|].
  intros Hall. destruct (reservation_findMany where_ db) as [|[i r] l] eqn:E;
    [reflexivity|].
  assert (In (i, r) (reservation_findMany where_ db)) as Hin
      by (rewrite E; left; reflexivity).
  apply reservation_findMany_In in Hin as [Hi Hw].
  rewrite (Hall i r Hi) in Hw. discriminate Hw.
Qed.

Lemma payment_findMany_nil_iff where_ db :
  payment_findMany where_ db = []
  <-> forall k p, payments db !! k = Some p -> where_ p = false.
Proof.
  split.
  - intros Hnil k p Hk. destruct (where_ p) eqn:Hw; [|reflexivity].
    assert (In (k, p) (payment_findMany where_ db)) as Hin
        by (apply payment_findMany_In; auto).
    rewrite Hnil in Hin. destruct Hin.
  - intros Hall. destruct (payment_findMany where_ db) as [|[k p] l] eqn:E;
      [reflexivity|].
    assert (In (k, p) (payment_findMany where_ db)) as Hin
        by (rewrite E; left; reflexivity).
    apply payment_findMany_In in Hin as [Hk Hw].
    rewrite (Hall k p Hk) in Hw. discriminate Hw.
Qed.

(** The handler reaches the transaction exactly when every check passes. *)
Lemma POST_admit_inr_iff session b now db a :
  POST_admit session b now db = inr a
  <-> exists (s : Session) (startMs endMs : Z) (v : Vehicle),
      session = Some s
      /\ hasRequiredRole s ["MEMBER"; "EMPLOYEE"; "ADMIN"] = true
      /\ PostBody.startDate b = Some (Instant startMs)
      /\ PostBody.endDate b = Some (Instant endMs)
      /\ truthy (PostBody.vehicleId b) = true
      /\ truthy (PostBody.startTime b) = true
      /\ truthy (PostBody.endTime b) = true
      /\ truthy (PostBody.pickupLocation b) = true
      /\ truthy (PostBody.returnLocation b) = true
      /\ truthy (PostBody.tariff b) = true
      /\ BillingEngine.Qnonzero (PostBody.totalPrice b) = true
      /\ truthy (PostBody.paymentMethod b) = true
      /\ now <= startMs
      /\ startMs < endMs
      /\ is_Some (users db !! session_user_id s)
      /\ vehicles db !! PostBody.vehicleId b = Some v
      /\ available v = true
      /\ reservation_findMany
           (fun r => String.eqb (vehicleId r) (PostBody.vehicleId b)
                     && statusActive r && overlapOR startMs endMs r) db = []
      /\ includes ["BASIC"; "DISCOUNTED"; "EXCLUSIVE"] (PostBody.tariff b) = true
      /\ includes ["CREDIT_CARD"; "PAYPAL"; "BANK_TRANSFER"]
           (PostBody.paymentMethod b) = true
      /\ a = {| adm_actualUserId := session_user_id s;
                adm_vehicleId := PostBody.vehicleId b;
                adm_start := startMs; adm_end := endMs;
                adm_startTime := PostBody.startTime b;
                adm_endTime := PostBody.endTime b;
                adm_pickupLocation := PostBody.pickupLocation b;
                adm_returnLocation := PostBody.returnLocation b;
                adm_tariff := PostBody.tariff b;
                adm_totalPrice := PostBody.totalPrice b;
                adm_paymentMethod := PostBody.paymentMethod b |}.
Proof.
  split.
  - unfold POST_admit, user_findUnique, vehicle_findUnique. intros H.
    repeat case_match; simplify_eq.
    repeat match goal with
           | H : negb _ = false |- _ => apply negb_false_iff in H
           | H : _ && _ = true |- _ => apply andb_prop in H as [H ?]
           end.
    repeat match goal with
           | d : Date |- _ => destruct d; cbn [getTime] in *; simplify_eq
           end.
    unfold lt, le in *. cbn [getTime] in *.
    repeat match goal with
           | H : bool_decide _ = false |- _ => apply bool_decide_eq_false in H
           | H : (0 <? _) = false |- _ => apply Z.ltb_ge in H
           end.
    eexists _, _, _, _. repeat split; try eassumption; try reflexivity; try lia.
    + eauto.
    + destruct (reservation_findMany _ db); [reflexivity | cbn in *; lia].
  - intros (s & startMs & endMs & v & -> & Hrole & Hsd & Hed & H1 & H2 & H3 & H4
            & H5 & H6 & H7 & H8 & Hnow & Hlt & [u Hu] & Hv & Hav & Hnil & Ht & Hm
            & ->).
    unfold POST_admit, user_findUnique, vehicle_findUnique.
    rewrite Hrole, Hsd, Hed, H1, H2, H3, H4, H5, H6, H7, H8, Hu, Hv, Hav.
    unfold lt, le. cbn [getTime negb andb].
    rewrite !bool_decide_eq_false_2 by lia.
    rewrite Hnil, Ht, Hm. reflexivity.
Qed.

(** The transaction commits exactly when no constraint of the schema is
    violated by the two inserts. *)
Lemma POST_persist_201_iff a ids db :
  response_status (fst (POST_persist a ids db)) = 201
  <-> is_Some (TariffType.of_string (adm_tariff a))
      /\ is_Some (PaymentMethod.of_string (adm_paymentMethod a))
      /\ reservations db !! fst ids = None
      /\ is_Some (users db !! adm_actualUserId a)
      /\ is_Some (vehicles db !! adm_vehicleId a)
      /\ payments db !! snd ids = None
      /\ payment_findMany (fun p => String.eqb (reservationId p) (fst ids)) db = [].
Proof.
  unfold POST_persist.
  destruct (TariffType.of_string (adm_tariff a)) as [t|];
    [|split; [intros [=] | intros ([? [=]] & _)]].
  destruct (PaymentMethod.of_string (adm_paymentMethod a)) as [m|];
    [|split; [intros [=] | intros (_ & [? [=]] & _)]].
  unfold transaction, POST_tx, reservation_create.
  destruct (reservations db !! fst ids) eqn:Hrid;
    [split; [intros [=] | intros (_ & _ & [=] & _)]|].
  cbn [userId vehicleId reservationData].
  destruct (users db !! adm_actualUserId a) eqn:Hu;
    [|split; [intros [=] | intros (_ & _ & _ & [? [=]] & _)]].
  destruct (vehicles db !! adm_vehicleId a) eqn:Hv;
    [|split; [intros [=] | intros (_ & _ & _ & _ & [? [=]] & _)]].
  cbn [mbind Exc_bind]. unfold payment_create.
  cbn [payments with_reservations].
  destruct (payments db !! snd ids) eqn:Hpid;
    [split; [intros [=] | intros (_ & _ & _ & _ & _ & [=] & _)]|].
  change (payment_findMany
            (fun p => String.eqb (reservationId p)
                        (reservationId (paymentData a m (fst ids))))
            (with_reservations (insert (fst ids) (reservationData a t)) db))
    with (payment_findMany (fun p => String.eqb (reservationId p) (fst ids)) db).
  destruct (payment_findMany _ db) eqn:Hpay;
    [|split; [intros [=] | intros (_ & _ & _ & _ & _ & _ & [=])]].
  cbn [users reservations payment_userId reservationId paymentData
       with_reservations].
  rewrite Hu, lookup_insert_eq. cbn [mbind Exc_bind mret Exc_ret fst snd].
  unfold reservation_findUnique. cbn [reservations with_payments with_reservations].
  rewrite lookup_insert_eq. cbn [fst snd response_status json].
  split; [|reflexivity]. intros _. repeat split; eauto.
Qed.

Lemma POST_201_gates session b now ids db :
  response_status (fst (POST session b now ids db)) = 201 ->
  admissible session b now ids db.
Proof.
  unfold POST, admissible.
  destruct (POST_admit session b now db) as [response|a] eqn:Hadm.
  { intros H. exfalso. exact (POST_admit_rejects _ _ _ _ _ Hadm H). }
  intros H201. apply POST_persist_201_iff in H201
    as (_ & _ & Hrid & _ & _ & Hpid & Hpay).
  apply POST_admit_inr_iff in Hadm
    as (s & startMs & endMs & v & -> & Hrole & Hsd & Hed & H1 & H2 & H3 & H4
        & H5 & H6 & H7 & H8 & Hnow & Hlt & Hu & Hv & Hav & Hnil & Ht & Hm & ->).
  exists s, startMs, endMs, v.
  repeat split; try assumption.
  + apply Qnonzero_spec, H7.
  + intros i r Hi Hveh Hact.
    pose proof (proj1 (reservation_findMany_nil_iff _ _) Hnil i r Hi) as Hw.
    cbn beta in Hw. rewrite Hveh, String.eqb_refl, Hact in Hw. exact Hw.
  + apply includes_elem, Ht.
  + apply includes_elem, Hm.
  + intros k p Hk Heq.
    pose proof (proj1 (payment_findMany_nil_iff _ _) Hpay k p Hk) as Hw.
    cbn beta in Hw. rewrite Heq, String.eqb_refl in Hw. discriminate Hw.
Qed.

Lemma POST_gates_201 session b now ids db :
  admissible session b now ids db ->
  response_status (fst (POST session b now ids db)) = 201.
Proof.
  unfold POST, admissible.
  intros (s & startMs & endMs & v & -> & Hrole & Hsd & Hed & H1 & H2 & H3 & H4
          & H5 & H7 & Hnow & Hlt & Hu & Hv & Hav & Hfree & Ht & Hm & Hrid & Hpid
          & Hpay).
  apply includes_elem in Ht as Ht'. apply includes_elem in Hm as Hm'.
  assert (truthy (PostBody.tariff b) = true) as H6.
  { repeat (apply elem_of_cons in Ht as [-> | Ht]; [reflexivity|]).
    inversion Ht. }
  assert (truthy (PostBody.paymentMethod b) = true) as H8.
  { repeat (apply elem_of_cons in Hm as [-> | Hm]; [reflexivity|]).
    inversion Hm. }
  assert (POST_admit (Some s) b now db
          = inr {| adm_actualUserId := session_user_id s;
                   adm_vehicleId := PostBody.vehicleId b;
                   adm_start := startMs; adm_end := endMs;
                   adm_startTime := PostBody.startTime b;
                   adm_endTime := PostBody.endTime b;
                   adm_pickupLocation := PostBody.pickupLocation b;
                   adm_returnLocation := PostBody.returnLocation b;
                   adm_tariff := PostBody.tariff b;
                   adm_totalPrice := PostBody.totalPrice b;
                   adm_paymentMethod := PostBody.paymentMethod b |}) as ->.
  { apply POST_admit_inr_iff. exists s, startMs, endMs, v.
    repeat split; try assumption.
    - apply Qnonzero_spec, H7.
    - apply reservation_findMany_nil_iff. intros i r Hi.
      destruct (String.eqb_spec (vehicleId r) (PostBody.vehicleId b)) as [E|_];
        [|reflexivity].
      destruct (statusActive r) eqn:Hact; [|reflexivity].
      cbn [andb]. exact (Hfree i r Hi E Hact). }
  apply POST_persist_201_iff.
  cbn [adm_tariff adm_paymentMethod adm_actualUserId adm_vehicleId].
  repeat split; try assumption.
  + repeat (apply elem_of_cons in Ht as [-> | Ht]; [eexists; reflexivity|]).
    inversion Ht.
  + repeat (apply elem_of_cons in Hm as [-> | Hm]; [eexists; reflexivity|]).
    inversion Hm.
  + eauto.
  + apply payment_findMany_nil_iff. intros k p Hk.
    apply String.eqb_neq. exact (Hpay k p Hk).
Qed.

(** X4: when a booking is created.  [POST] answers 201 exactly when the
    caller holds a role that may reserve, every field is present, the dates
    are valid with now <= start < end, the caller and the vehicle exist, the
    vehicle is available, no active reservation of the vehicle meets the
    range, tariff and payment method are members of their lists, and the keys
    of the two new rows are free. *)
Theorem POST_created_iff_admissible :
  forall (session : option Session) (b : PostBody.t) (now : Z)
         (ids : string * string) (db : DB),
    response_status (fst (POST session b now ids db)) = 201
    <-> admissible session b now ids db.
Proof.
  intros session b now ids db. split.
  - apply POST_201_gates.
  - apply POST_gates_201.
Qed.

(** The booking of 1 to 5 August in the seed data. *)
Lemma POST_created_iff_admissible_witness :
  admissible (Some Seed.dom_)
    (Seed.book (Date_UTC 2025 8 1 0 0 0) (Date_UTC 2025 8 5 0 0 0))
    Seed.now ("res-3", "pay-789") Seed.db.
Proof.
  apply (proj1 (POST_created_iff_admissible _ _ _ _ _)).
  vm_compute. reflexivity.
Defined.

Lemma POST_persist_never_conflict a ids db error conflicts :
  response_body (fst (POST_persist a ids db)) <> Conflict error conflicts.
Proof.
  unfold POST_persist. repeat case_match; cbn; discriminate.
Qed.

Lemma POST_conflict_inv session b now ids db error conflicts :
  response_body (fst (POST session b now ids db)) = Conflict error conflicts ->
  exists startMs endMs : Z,
    PostBody.startDate b = Some (Instant startMs)
    /\ PostBody.endDate b = Some (Instant endMs)
    /\ POST session b now ids db = (json (Conflict error conflicts) 400, db)
    /\ conflicts
       = map conflictSummary
           (reservation_findMany
              (fun r => String.eqb (vehicleId r) (PostBody.vehicleId b)
                        && statusActive r && overlapOR startMs endMs r) db)
    /\ conflicts <> [].
Proof.
  unfold POST.
  destruct (POST_admit session b now db) as [response|a] eqn:Hadm;
    [|intros H; exfalso; exact (POST_persist_never_conflict _ _ _ _ _ H)].
  cbn [fst snd]. intros Hbody.
  unfold POST_admit in Hadm.
  repeat case_match; simplify_eq; cbn [response_body json] in Hbody;
    try discriminate Hbody.
  injection Hbody as <- <-.
  repeat match goal with
         | d : Date |- _ => destruct d; cbn [getTime] in *; simplify_eq
         end.
  eexists _, _. split; [reflexivity|]. split; [reflexivity|].
  split; [reflexivity|]. split; [reflexivity|].
  match goal with H : (0 <? _) = true |- _ => apply Z.ltb_lt in H; rename H into Hlen end.
  intros E. apply map_eq_nil in E. rewrite E in Hlen. cbn in Hlen. lia.
Qed.

(** X5: what the conflict response reports.  When [POST] answers with the
    conflict body, the status is 400, nothing is written, and the reported
    list is not empty and holds exactly the active reservations of the
    requested vehicle whose dates satisfy the overlap condition for the
    requested range, each with its id, start and end.  Reservations that are
    CANCELLED or COMPLETED, or of another vehicle, are never reported. *)
Theorem POST_conflict_report :
  forall (session : option Session) (b : PostBody.t) (now : Z)
         (ids : string * string) (db : DB) (error : string)
         (conflicts : list (string * Z * Z)),
    response_body (fst (POST session b now ids db)) = Conflict error conflicts ->
    exists startMs endMs : Z,
      PostBody.startDate b = Some (Instant startMs)
      /\ PostBody.endDate b = Some (Instant endMs)
      /\ response_status (fst (POST session b now ids db)) = 400
      /\ snd (POST session b now ids db) = db
      /\ conflicts <> []
      /\ forall (i : string) (s e : Z),
           In (i, s, e) conflicts
           <-> exists r, reservations db !! i = Some r
                         /\ vehicleId r = PostBody.vehicleId b
                         /\ statusActive r = true
                         /\ overlapOR startMs endMs r = true
                         /\ startDate r = s /\ endDate r = e.
Proof.
  intros session b now ids db error conflicts Hbody.
  destruct (POST_conflict_inv _ _ _ _ _ _ _ Hbody)
    as (startMs & endMs & Hs & He & Hpost & Hlist & Hne).
  exists startMs, endMs. rewrite Hpost. cbn [fst snd response_status json].
  split; [exact Hs|]. split; [exact He|]. split; [reflexivity|].
  split; [reflexivity|]. split; [exact Hne|].
  intros i s' e'. rewrite Hlist, in_map_iff. split.
  - intros ([j r] & Hsum & Hin). unfold conflictSummary in Hsum.
    cbn [fst snd] in Hsum. injection Hsum as -> <- <-.
    apply reservation_findMany_In in Hin as [Hi Hw].
    apply andb_prop in Hw as [Hw Ho]. apply andb_prop in Hw as [Hv Ha].
    apply String.eqb_eq in Hv. exists r. repeat split; assumption.
  - intros (r & Hi & Hv & Ha & Ho & <- & <-). exists (i, r).
    split; [reflexivity|]. apply reservation_findMany_In. split; [exact Hi|].
    rewrite Hv, String.eqb_refl, Ha, Ho. reflexivity.
Qed.

(** The request for 22 to 24 July on the booked seed data. *)
Lemma POST_conflict_report_witness :
  exists r, reservations Seed.booked !! "res-1" = Some r
            /\ statusActive r = true.
Proof.
  destruct (POST_conflict_report (Some Seed.yb)
              (Seed.book (Date_UTC 2025 7 22 0 0 0) (Date_UTC 2025 7 24 0 0 0))
              Seed.now ("res-4", "pay-4") Seed.booked
              "Vehicle already reserved for this time period"
              [("res-1", UTC 2025 7 20 0 0 0, UTC 2025 7 25 0 0 0)])
    as (startMs & endMs & _ & _ & _ & _ & _ & Hlist);
    [vm_compute; reflexivity|].
  destruct (proj1 (Hlist "res-1" (UTC 2025 7 20 0 0 0) (UTC 2025 7 25 0 0 0)))
    as (r & Hr & _ & Hact & _); [left; reflexivity|].
  exists r. split; assumption.
Defined.

End CreateMore.

(** ** More on editing *)

Section EditMore.
Import Edit.
Local Open Scope Z_scope.

(** The two ways [PUT] ends: nothing written and no 200, or the row replaced
    by the validated update and 200. *)
Lemma PUT_cases session id b db :
  (snd (PUT session id b db) = db
   /\ response_status (fst (PUT session id b db)) <> 200
   /\ ~ (exists s r r',
            session = Some s /\ reservations db !! id = Some r
            /\ mayEdit s r = true
            /\ applyUpdate
                 (updateDataOf (hasRequiredRole s ["ADMIN"; "EMPLOYEE"]) b) r
               = Ok r'))
  \/ (exists s r r',
         session = Some s /\ reservations db !! id = Some r
         /\ mayEdit s r = true
         /\ applyUpdate
              (updateDataOf (hasRequiredRole s ["ADMIN"; "EMPLOYEE"]) b) r
            = Ok r'
         /\ PUT session id b db
            = (json (ReservationJson id r'
                       (payment_of id (with_reservations (insert id r') db))) 200,
               with_reservations (insert id r') db)).
Proof.
  unfold PUT, reservation_update, reservation_findUnique, mayEdit, statusActive.
  destruct session as [s|];
    [|left; split; [reflexivity|split; [discriminate|]];
      intros (? & ? & ? & [=] & _)].
  destruct (reservations db !! id) as [r|] eqn:Hr;
    [|left; split; [reflexivity|split; [discriminate|]];
      intros (? & ? & ? & _ & [=] & _)].
  destruct (hasRequiredRole s ["ADMIN"; "EMPLOYEE"]) eqn:Hadmin;
    cbn [negb andb orb].
  - change (applyUpdate _ r) with (applyUpdate (updateDataOf true b) r).
    destruct (applyUpdate (updateDataOf true b) r) as [r'|m] eqn:Hupd.
    + right. exists s, r, r'. cbn [mbind Exc_bind mret Exc_ret].
      split; [reflexivity|]. split; [reflexivity|].
      split; [rewrite Hadmin; reflexivity|].
      split; [rewrite Hadmin; exact Hupd|].
      cbn [reservations with_reservations].
      rewrite lookup_insert_eq, andb_false_r. reflexivity.
    + left. cbn [mbind Exc_bind]. split; [reflexivity|]. split; [discriminate|].
      intros (s' & r0 & r' & [= <-] & [= <-] & _ & Hok).
      rewrite Hadmin, Hupd in Hok. discriminate Hok.
  - destruct (String.eqb (session_user_id s) (userId r)) eqn:Hown; cbn [negb andb].
    + destruct (includes ["PENDING"; "CONFIRMED"]
                  (ReservationStatus.to_string (status r))) eqn:Hact; cbn [negb].
      * change (applyUpdate _ r) with (applyUpdate (updateDataOf false b) r).
        destruct (applyUpdate (updateDataOf false b) r) as [r'|m] eqn:Hupd.
        -- right. exists s, r, r'. cbn [mbind Exc_bind mret Exc_ret].
           split; [reflexivity|]. split; [reflexivity|].
           split; [rewrite Hadmin, Hown, Hact; reflexivity|].
           split; [rewrite Hadmin; exact Hupd|].
           cbn [reservations with_reservations].
           rewrite lookup_insert_eq, andb_false_r. reflexivity.
        -- left. cbn [mbind Exc_bind]. split; [reflexivity|].
           split; [discriminate|].
           intros (s' & r0 & r' & [= <-] & [= <-] & _ & Hok).
           rewrite Hadmin, Hupd in Hok. discriminate Hok.
      * left. split; [reflexivity|]. split; [discriminate|].
        intros (s' & r0 & r' & [= <-] & [= <-] & Hmay & _).
        rewrite Hadmin, Hown, Hact in Hmay. discriminate Hmay.
    + left. split; [reflexivity|]. split; [discriminate|].
      intros (s' & r0 & r' & [= <-] & [= <-] & Hmay & _).
      rewrite Hadmin, Hown in Hmay. discriminate Hmay.
Qed.

Lemma ReservationStatus_of_string_Some st v :
  ReservationStatus.of_string st = Some v <-> ReservationStatus.to_string v = st.
Proof.
  unfold ReservationStatus.of_string, ReservationStatus.all. cbn [List.find].
  repeat match goal with
         | |- context [String.eqb ?a st] => destruct (String.eqb_spec a st)
         end;
    split; intros H; simplify_eq; try reflexivity; destruct v; cbn in *; congruence.
Qed.

Lemma TariffType_of_string_Some st v :
  TariffType.of_string st = Some v <-> TariffType.to_string v = st.
Proof.
  unfold TariffType.of_string, TariffType.all. cbn [List.find].
  repeat match goal with
         | |- context [String.eqb ?a st] => destruct (String.eqb_spec a st)
         end;
    split; intros H; simplify_eq; try reflexivity; destruct v; cbn in *; congruence.
Qed.

Lemma set_enum_Ok {A} (of_string : string -> option A) o old v :
  set_enum of_string o old = Ok v
  <-> (o = None /\ v = old) \/ (exists st, o = Some st /\ of_string st = Some v).
Proof.
  unfold set_enum. destruct o as [st|].
  - destruct (of_string st) as [w|] eqn:E; split.
    + intros [= ->]. right. eauto.
    + intros [[[=] _]|(st' & [= <-] & H)]. congruence.
    + intros [=].
    + intros [[[=] _]|(st' & [= <-] & H)]. congruence.
  - split.
    + intros [= ->]. left. auto.
    + intros [[_ ->]|(st' & [=] & _)]. reflexivity.
Qed.

Lemma set_date_Ok o old v :
  set_date o old = Ok v
  <-> (o = None /\ v = old) \/ o = Some (Instant v).
Proof.
  unfold set_date. destruct o as [[ms|]|]; cbn [getTime]; split.
  - intros [= ->]. right. reflexivity.
  - intros [[[=] _]|[= ->]]. reflexivity.
  - intros [=].
  - intros [[[=] _]|[=]].
  - intros [= ->]. left. auto.
  - intros [[_ ->]|[=]]. reflexivity.
Qed.

(** The row that a validated update produces. *)
Lemma applyUpdate_Ok data r r' :
  applyUpdate data r = Ok r'
  <-> exists st s e t,
      set_enum ReservationStatus.of_string (set_status data) (status r) = Ok st
      /\ set_date (set_startDate data) (startDate r) = Ok s
      /\ set_date (set_endDate data) (endDate r) = Ok e
      /\ set_enum TariffType.of_string (set_tariff data) (tariff r) = Ok t
      /\ r' = {| startDate := s; endDate := e;
                 startTime := default (startTime r) (set_startTime data);
                 endTime := default (endTime r) (set_endTime data);
                 pickupLocation :=
                   default (pickupLocation r) (set_pickupLocation data);
                 returnLocation :=
                   default (returnLocation r) (set_returnLocation data);
                 status := st; tariff := t;
                 totalPrice := default (totalPrice r) (set_totalPrice data);
                 userId := userId r; vehicleId := vehicleId r |}.
Proof.
  unfold applyUpdate.
  destruct (set_enum ReservationStatus.of_string _ _) as [st|] eqn:E1;
    cbn [mbind Exc_bind];
    [|split; [intros [=] | intros (? & ? & ? & ? & [=] & _)]].
  destruct (set_date (set_startDate data) _) as [s|] eqn:E2;
    cbn [mbind Exc_bind];
    [|split; [intros [=] | intros (? & ? & ? & ? & _ & [=] & _)]].
  destruct (set_date (set_endDate data) _) as [e|] eqn:E3;
    cbn [mbind Exc_bind];
    [|split; [intros [=] | intros (? & ? & ? & ? & _ & _ & [=] & _)]].
  destruct (set_enum TariffType.of_string _ _) as [t|] eqn:E4;
    cbn [mbind Exc_bind mret Exc_ret];
    [|split; [intros [=] | intros (? & ? & ? & ? & _ & _ & _ & [=] & _)]].
  split.
  - intros [= <-]. exists st, s, e, t. repeat split.
  - intros (? & ? & ? & ? & [= <-] & [= <-] & [= <-] & [= <-] & ->). reflexivity.
Qed.

Lemma TariffType_member st :
  (exists v, TariffType.of_string st = Some v)
  <-> st ∈ ["BASIC"; "DISCOUNTED"; "EXCLUSIVE"].
Proof.
  split.
  - intros [v Hv]. apply TariffType_of_string_Some in Hv as <-.
    destruct v; cbn; set_solver.
  - intros H. repeat (apply elem_of_cons in H as [-> | H]; [eexists; reflexivity|]).
    inversion H.
Qed.

Lemma ReservationStatus_member st :
  (exists v, ReservationStatus.of_string st = Some v)
  <-> st ∈ ["PENDING"; "CONFIRMED"; "CANCELLED"; "COMPLETED"].
Proof.
  split.
  - intros [v Hv]. apply ReservationStatus_of_string_Some in Hv as <-.
    destruct v; cbn; set_solver.
  - intros H. repeat (apply elem_of_cons in H as [-> | H]; [eexists; reflexivity|]).
    inversion H.
Qed.

Lemma applyUpdate_valid isAdmin b r :
  (exists r', applyUpdate (updateDataOf isAdmin b) r = Ok r')
  <-> PutBody.startDate b <> Some InvalidDate
      /\ PutBody.endDate b <> Some InvalidDate
      /\ (truthy (PutBody.tariff b) = true ->
          PutBody.tariff b ∈ ["BASIC"; "DISCOUNTED"; "EXCLUSIVE"])
      /\ (isAdmin = true -> truthy (PutBody.status b) = true ->
          PutBody.status b ∈ ["PENDING"; "CONFIRMED"; "CANCELLED"; "COMPLETED"]).
Proof.
  split.
  - intros (r' & Hok). apply applyUpdate_Ok in Hok
      as (st & s & e & t & Hst & Hs & He & Ht & _).
    cbn [updateDataOf set_status set_startDate set_endDate set_tariff] in *.
    apply set_date_Ok in Hs, He. apply set_enum_Ok in Hst, Ht.
    repeat split.
    + destruct Hs as [[-> _]| ->]; discriminate.
    + destruct He as [[-> _]| ->]; discriminate.
    + intros Htruthy. unfold ifTruthy in Ht. rewrite Htruthy in Ht.
      destruct Ht as [[[=] _]|(x & [= <-] & Hx)].
      apply TariffType_member. eauto.
    + intros -> Htruthy. rewrite Htruthy in Hst. cbn [andb] in Hst.
      destruct Hst as [[[=] _]|(x & [= <-] & Hx)].
      apply ReservationStatus_member. eauto.
  - intros (Hs & He & Ht & Hst).
    assert (exists s, set_date (PutBody.startDate b) (startDate r) = Ok s) as [s Hs'].
    { destruct (PutBody.startDate b) as [[ms|]|]; cbn; eauto. congruence. }
    assert (exists e, set_date (PutBody.endDate b) (endDate r) = Ok e) as [e He'].
    { destruct (PutBody.endDate b) as [[ms|]|]; cbn; eauto. congruence. }
    assert (exists t, set_enum TariffType.of_string (ifTruthy (PutBody.tariff b))
                        (tariff r) = Ok t) as [t Ht'].
    { unfold ifTruthy. destruct (truthy (PutBody.tariff b)); cbn [set_enum];
        [|eauto].
      destruct (proj2 (TariffType_member _) (Ht eq_refl)) as [v ->]. eauto. }
    assert (exists st, set_enum ReservationStatus.of_string
                         (if isAdmin && truthy (PutBody.status b)
                          then Some (PutBody.status b) else None)
                         (status r) = Ok st) as [st Hst'].
    { destruct isAdmin; cbn [andb]; [|cbn [set_enum]; eauto].
      destruct (truthy (PutBody.status b)); cbn [set_enum]; [|eauto].
      destruct (proj2 (ReservationStatus_member _) (Hst eq_refl eq_refl)) as [v ->].
      eauto. }
    eexists. apply applyUpdate_Ok. exists st, s, e, t.
    cbn [updateDataOf set_status set_startDate set_endDate set_tariff].
    repeat split; assumption.
Qed.

(** X6: when an edit is accepted.  [PUT] answers 200 exactly when there is a
    session, the reservation exists, the caller is staff or the owner of a
    PENDING or CONFIRMED reservation, and the fields sent are well-formed:
    dates that parse, a tariff of the enumeration, and, for staff, a status
    of the enumeration.  Whenever the answer is not 200 the database is
    unchanged. *)
Theorem PUT_accepted_iff :
  forall (session : option Session) (id : string) (b : PutBody.t) (db : DB),
    (response_status (fst (PUT session id b db)) = 200
     <-> exists s r,
         session = Some s /\ reservations db !! id = Some r
         /\ mayEdit s r = true
         /\ PutBody.startDate b <> Some InvalidDate
         /\ PutBody.endDate b <> Some InvalidDate
         /\ (truthy (PutBody.tariff b) = true ->
             PutBody.tariff b ∈ ["BASIC"; "DISCOUNTED"; "EXCLUSIVE"])
         /\ (hasRequiredRole s ["ADMIN"; "EMPLOYEE"] = true ->
             truthy (PutBody.status b) = true ->
             PutBody.status b
             ∈ ["PENDING"; "CONFIRMED"; "CANCELLED"; "COMPLETED"]))
    /\ (response_status (fst (PUT session id b db)) <> 200 ->
        snd (PUT session id b db) = db).
Proof.
  intros session id b db.
  destruct (PUT_cases session id b db)
    as [(Hdb & Hne & Hno)|(s & r & r' & -> & Hr & Hmay & Hok & Hput)].
  - split; [|intros _; exact Hdb]. split; [intros H; contradiction|].
    intros (s & r & -> & Hr & Hmay & Hvalid). exfalso. apply Hno.
    destruct (proj2 (applyUpdate_valid _ b r) Hvalid) as [r' Hok]. eauto 10.
  - rewrite Hput. cbn [fst snd response_status json].
    split; [|intros H; contradiction]. split; [|reflexivity]. intros _.
    exists s, r. split; [reflexivity|]. split; [exact Hr|]. split; [exact Hmay|].
    apply (applyUpdate_valid _ b r). eauto.
Qed.

Lemma with_reservations_insert_id id r db :
  reservations db !! id = Some r -> with_reservations (insert id r) db = db.
Proof.
  intros Hr. destruct db as [u v rs ps]. unfold with_reservations.
  cbn [users vehicles reservations payments] in *. rewrite (insert_id rs id r Hr).
  reflexivity.
Qed.

(** X7: what an edit leaves alone.  [PUT] never changes the user, vehicle or
    payment tables (a payment method in the body is ignored), never changes
    another reservation, never adds or removes a reservation, and never
    changes the owner or the vehicle of the edited reservation. *)
Theorem PUT_frame :
  forall (session : option Session) (id : string) (b : PutBody.t) (db : DB),
    let db' := snd (PUT session id b db) in
    users db' = users db
    /\ vehicles db' = vehicles db
    /\ payments db' = payments db
    /\ (forall j, j <> id -> reservations db' !! j = reservations db !! j)
    /\ (forall j, is_Some (reservations db' !! j) <-> is_Some (reservations db !! j))
    /\ (forall r r', reservations db !! id = Some r ->
                     reservations db' !! id = Some r' ->
                     userId r' = userId r /\ vehicleId r' = vehicleId r).
Proof.
  intros session id b db db'. subst db'.
  destruct (PUT_cases session id b db)
    as [(-> & _)|(s & r & r' & -> & Hr & _ & Hok & ->)].
  - repeat split; try reflexivity; try tauto; congruence.
  - cbn [snd users vehicles payments reservations with_reservations].
    split; [reflexivity|]. split; [reflexivity|]. split; [reflexivity|].
    split; [intros j Hj; apply lookup_insert_ne; congruence|]. split.
    + intros j. destruct (decide (j = id)) as [->|Hj].
      * rewrite lookup_insert_eq, Hr. split; eauto.
      * rewrite lookup_insert_ne by congruence. reflexivity.
    + intros r0 r1 Hr0. rewrite lookup_insert_eq. intros [= <-].
      assert (r0 = r) as -> by congruence.
      apply applyUpdate_Ok in Hok as (? & ? & ? & ? & _ & _ & _ & _ & ->).
      split; reflexivity.
Qed.

(** The edit of "res-3" in the booked seed data leaves "res-1" as it is. *)
Lemma PUT_frame_witness :
  reservations
    (snd (PUT (Some Seed.dom_) "res-3"
            (Seed.move (Date_UTC 2025 7 22 0 0 0) (Date_UTC 2025 7 24 0 0 0))
            Seed.booked)) !! "res-1"
  = reservations Seed.booked !! "res-1".
Proof.
  apply (PUT_frame (Some Seed.dom_) "res-3"
           (Seed.move (Date_UTC 2025 7 22 0 0 0) (Date_UTC 2025 7 24 0 0 0))
           Seed.booked).
  discriminate.
Defined.

(** X8: who changes a status, and to what.  A caller who is not staff never
    changes the status of a reservation, whatever the body says.  Staff who
    send only a status of the enumeration get 200 and the reservation takes
    that status from any current status - also from CANCELLED or COMPLETED -
    with every other field kept. *)
Theorem PUT_status_change :
  (forall (s : Session) (id : string) (b : PutBody.t) (db : DB)
          (r r' : Reservation),
      hasRequiredRole s ["ADMIN"; "EMPLOYEE"] = false ->
      reservations db !! id = Some r ->
      reservations (snd (PUT (Some s) id b db)) !! id = Some r' ->
      status r' = status r)
  /\ (forall (s : Session) (id : string) (db : DB) (r : Reservation)
             (st : ReservationStatus.t),
         hasRequiredRole s ["ADMIN"; "EMPLOYEE"] = true ->
         reservations db !! id = Some r ->
         PUT (Some s) id (statusOnly (ReservationStatus.to_string st)) db
         = (json (ReservationJson id (withStatus st r)
                    (payment_of id
                       (with_reservations (insert id (withStatus st r)) db))) 200,
            with_reservations (insert id (withStatus st r)) db)).
Proof.
  split.
  - intros s id b db r r' Hrole Hr Hr'.
    destruct (PUT_cases (Some s) id b db)
      as [(Hdb & _)|(s0 & r0 & r1 & [= <-] & Hr0 & _ & Hok & Hput)].
    + rewrite Hdb in Hr'. congruence.
    + rewrite Hput in Hr'. cbn [snd reservations with_reservations] in Hr'.
      rewrite lookup_insert_eq in Hr'. injection Hr' as <-.
      assert (r0 = r) as -> by congruence.
      rewrite Hrole in Hok.
      apply applyUpdate_Ok in Hok as (st & ? & ? & ? & Hst & _ & _ & _ & ->).
      cbn [updateDataOf set_status andb set_enum] in Hst.
      injection Hst as <-. reflexivity.
  - intros s id db r st Hrole Hr.
    destruct (PUT_cases (Some s) id (statusOnly (ReservationStatus.to_string st)) db)
      as [(_ & _ & Hno)|(s0 & r0 & r1 & [= <-] & Hr0 & _ & Hok & Hput)].
    + exfalso. apply Hno. exists s, r, (withStatus st r).
      split; [reflexivity|]. split; [exact Hr|]. split.
      { unfold mayEdit. rewrite Hrole. reflexivity. }
      rewrite Hrole. destruct st; reflexivity.
    + assert (r0 = r) as -> by congruence.
      rewrite Hrole in Hok.
      assert (r1 = withStatus st r) as ->; [|exact Hput].
      destruct st; cbn in Hok; injection Hok as <-; reflexivity.
Qed.

(** A member's status request on "res-3", and staff reviving "res-1" after
    marking it CANCELLED. *)
Lemma PUT_status_change_witness :
  (forall r', reservations
                (snd (PUT (Some Seed.dom_) "res-3" (statusOnly "CONFIRMED")
                        Seed.booked)) !! "res-3" = Some r' ->
              status r' = ReservationStatus.PENDING)
  /\ response_status
       (fst (PUT (Some Seed.yb) "res-1" (statusOnly "CANCELLED") Seed.db)) = 200.
Proof.
  destruct PUT_status_change as [Hmember Hstaff]. split.
  - intros r' Hr'.
    assert (exists r, reservations Seed.booked !! "res-3" = Some r
                      /\ status r = ReservationStatus.PENDING) as (r & Hr & <-)
        by (eexists; split; vm_compute; reflexivity).
    apply (Hmember Seed.dom_ "res-3" (statusOnly "CONFIRMED") Seed.booked r r');
      [vm_compute; reflexivity | exact Hr | exact Hr'].
  - assert (exists r, reservations Seed.db !! "res-1" = Some r) as (r & Hr)
        by (eexists; vm_compute; reflexivity).
    pose proof (Hstaff Seed.yb "res-1" Seed.db r ReservationStatus.CANCELLED
                  ltac:(vm_compute; reflexivity) Hr) as H.
    cbn [ReservationStatus.to_string] in H. rewrite H. reflexivity.
Defined.

(** X9: what an accepted edit stores.  After a 200 every field of the
    reservation holds the value sent when that value is truthy and its old
    value otherwise: times, locations, total price, tariff and the two dates.
    An edit with an empty body by an authorised caller is answered 200 and
    changes nothing. *)
Theorem PUT_stores_fields :
  (forall (session : option Session) (id : string) (b : PutBody.t) (db : DB)
          (r' : Reservation),
      response_status (fst (PUT session id b db)) = 200 ->
      reservations (snd (PUT session id b db)) !! id = Some r' ->
      exists r,
        reservations db !! id = Some r
        /\ startTime r'
           = (if truthy (PutBody.startTime b) then PutBody.startTime b
              else startTime r)
        /\ endTime r'
           = (if truthy (PutBody.endTime b) then PutBody.endTime b else endTime r)
        /\ pickupLocation r'
           = (if truthy (PutBody.pickupLocation b) then PutBody.pickupLocation b
              else pickupLocation r)
        /\ returnLocation r'
           = (if truthy (PutBody.returnLocation b) then PutBody.returnLocation b
              else returnLocation r)
        /\ totalPrice r'
           = (if BillingEngine.Qnonzero (PutBody.totalPrice b)
              then PutBody.totalPrice b else totalPrice r)
        /\ startDate r'
           = match PutBody.startDate b with
             | Some (Instant t) => t
             | _ => startDate r
             end
        /\ endDate r'
           = match PutBody.endDate b with
             | Some (Instant t) => t
             | _ => endDate r
             end
        /\ (if truthy (PutBody.tariff b)
            then TariffType.to_string (tariff r') = PutBody.tariff b
            else tariff r' = tariff r))
  /\ (forall (s : Session) (id : string) (db : DB) (r : Reservation),
         reservations db !! id = Some r ->
         mayEdit s r = true ->
         PUT (Some s) id emptyBody db
         = (json (ReservationJson id r (payment_of id db)) 200, db)).
Proof.
  split.
  - intros session id b db r1 H200 Hr1.
    destruct (PUT_cases session id b db)
      as [(_ & Hne & _)|(s & r & r' & -> & Hr & _ & Hok & Hput)];
      [contradiction|].
    rewrite Hput in Hr1. cbn [snd reservations with_reservations] in Hr1.
    rewrite lookup_insert_eq in Hr1. injection Hr1 as <-.
    exists r. split; [exact Hr|].
    apply applyUpdate_Ok in Hok as (st & s0 & e0 & t & _ & Hs & He & Ht & ->).
    cbn [updateDataOf set_startDate set_endDate set_tariff set_startTime
         set_endTime set_pickupLocation set_returnLocation set_totalPrice
         startTime endTime pickupLocation returnLocation totalPrice startDate
         endDate tariff] in *.
    unfold ifTruthy in *.
    repeat split.
    + destruct (truthy (PutBody.startTime b)); reflexivity.
    + destruct (truthy (PutBody.endTime b)); reflexivity.
    + destruct (truthy (PutBody.pickupLocation b)); reflexivity.
    + destruct (truthy (PutBody.returnLocation b)); reflexivity.
    + destruct (BillingEngine.Qnonzero (PutBody.totalPrice b)); reflexivity.
    + apply set_date_Ok in Hs as [[-> ->]| ->]; reflexivity.
    + apply set_date_Ok in He as [[-> ->]| ->]; reflexivity.
    + destruct (truthy (PutBody.tariff b));
        apply set_enum_Ok in Ht as [[E ->]|(x & [= <-] & Hx)];
        try discriminate E; try reflexivity.
      apply TariffType_of_string_Some, Hx.
  - intros s id db r Hr Hmay.
    destruct (PUT_cases (Some s) id emptyBody db)
      as [(_ & _ & Hno)|(s0 & r0 & r1 & [= <-] & Hr0 & _ & Hok & Hput)].
    + exfalso. apply Hno. exists s, r, r. split; [reflexivity|].
      split; [exact Hr|]. split; [exact Hmay|].
      destruct (hasRequiredRole s ["ADMIN"; "EMPLOYEE"]), r; reflexivity.
    + assert (r0 = r) as -> by congruence.
      assert (r1 = r) as ->.
      { destruct (hasRequiredRole s ["ADMIN"; "EMPLOYEE"]), r; cbn in Hok;
          injection Hok as <-; reflexivity. }
      rewrite Hput, (with_reservations_insert_id id r db Hr). reflexivity.
Qed.

(** The owner's empty edit of "res-3". *)
Lemma PUT_stores_fields_witness :
  snd (PUT (Some Seed.dom_) "res-3" emptyBody Seed.booked) = Seed.booked.
Proof.
  assert (exists r, reservations Seed.booked !! "res-3" = Some r
                    /\ mayEdit Seed.dom_ r = true) as (r & Hr & Hmay)
      by (eexists; split; vm_compute; reflexivity).
  rewrite (proj2 PUT_stores_fields Seed.dom_ "res-3" Seed.booked r Hr Hmay).
  reflexivity.
Defined.

End EditMore.

(** ** More on cancellation *)

Section CancelMore.
Local Open Scope Z_scope.

Lemma refund_refund p : refund (refund p) = refund p.
Proof. reflexivity. Qed.

Lemma payment_updateMany_refund_twice id db :
  payment_updateMany (fun p => String.eqb (reservationId p) id) refund
    (payment_updateMany (fun p => String.eqb (reservationId p) id) refund db)
  = payment_updateMany (fun p => String.eqb (reservationId p) id) refund db.
Proof.
  unfold payment_updateMany, with_payments.
  cbn [users vehicles reservations payments]. f_equal.
  rewrite <- map_fmap_compose. apply map_fmap_ext. intros k p _.
  cbn [compose]. destruct (String.eqb (reservationId p) id) eqn:E.
  - cbn [refund reservationId]. rewrite E. reflexivity.
  - rewrite E. reflexivity.
Qed.

Lemma DELETE_cases session id db :
  (snd (DELETE session id db) = db
   /\ response_status (fst (DELETE session id db)) <> 200)
  \/ (exists s r,
         session = Some s /\ reservations db !! id = Some r
         /\ hasRequiredRole s ["ADMIN"; "EMPLOYEE"]
            || String.eqb (session_user_id s) (userId r) = true
         /\ statusActive r = true).
Proof.
  unfold DELETE, reservation_findUnique, statusActive.
  destruct session as [s|]; [|left; split; [reflexivity | discriminate]].
  destruct (reservations db !! id) as [r|] eqn:Hr;
    [|left; split; [reflexivity | discriminate]].
  rewrite <- negb_orb.
  destruct (hasRequiredRole s ["ADMIN"; "EMPLOYEE"]
            || String.eqb (session_user_id s) (userId r)) eqn:Hauth;
    [|left; split; [reflexivity | discriminate]].
  destruct (includes _ _) eqn:Hact; [|left; split; [reflexivity | discriminate]].
  right. exists s, r. auto.
Qed.

(** X10: a cancellation only refunds, and only once.  [DELETE] changes no
    table but the payments.  Answered 200, it replaces every payment of the
    cancelled reservation by the same payment with status REFUNDED, whatever
    the status was, and leaves all other payments; answered otherwise, it
    changes nothing.  Repeating the same request changes nothing more. *)
Theorem DELETE_refunds_only :
  forall (session : option Session) (id : string) (db : DB),
    let db' := snd (DELETE session id db) in
    users db' = users db
    /\ vehicles db' = vehicles db
    /\ reservations db' = reservations db
    /\ (forall k, is_Some (payments db' !! k) <-> is_Some (payments db !! k))
    /\ (forall k p, payments db !! k = Some p -> reservationId p <> id ->
                    payments db' !! k = Some p)
    /\ (forall k p, payments db !! k = Some p -> reservationId p = id ->
                    response_status (fst (DELETE session id db)) = 200 ->
                    payments db' !! k = Some (refund p))
    /\ (response_status (fst (DELETE session id db)) <> 200 -> db' = db)
    /\ snd (DELETE session id db') = db'.
Proof.
  intros session id db db'. subst db'.
  destruct (DELETE_cases session id db)
    as [[E Hne]|(s & r & -> & Hr & Hauth & Hact)].
  - rewrite !E. repeat split; auto; try tauto; intros; contradiction.
  - rewrite (DELETE_permitted s id db r Hr Hauth Hact). cbn [fst snd].
    rewrite (DELETE_permitted s id (payment_updateMany _ refund db) r
               Hr Hauth Hact). cbn [snd].
    rewrite payment_updateMany_refund_twice.
    unfold payment_updateMany.
    cbn [users vehicles reservations payments with_payments response_status json].
    split; [reflexivity|]. split; [reflexivity|]. split; [reflexivity|]. split.
    { intros k. rewrite lookup_fmap.
      destruct (payments db !! k); cbn; split; eauto; intros [? [=]]. }
    split.
    { intros k p Hk Hne. rewrite lookup_fmap, Hk. cbn.
      apply String.eqb_neq in Hne. rewrite Hne. reflexivity. }
    split; [|split; [intros H; contradiction | reflexivity]].
    intros k p Hk He _. rewrite lookup_fmap, Hk. cbn.
    rewrite He, String.eqb_refl. reflexivity.
Qed.

(** The cancellation of "res-1" leaves the payment of "res-2". *)
Lemma DELETE_refunds_only_witness :
  payments (snd (DELETE (Some Seed.dom_) "res-1" Seed.db)) !! "pay-456"
  = payments Seed.db !! "pay-456".
Proof.
  assert (exists p, payments Seed.db !! "pay-456" = Some p
                    /\ reservationId p <> "res-1") as (p & Hp & Hne).
  { eexists. split; [vm_compute; reflexivity | vm_compute; discriminate]. }
  destruct (DELETE_refunds_only (Some Seed.dom_) "res-1" Seed.db)
    as (_ & _ & _ & _ & Hother & _).
  rewrite Hp. exact (Hother "pay-456" p Hp Hne).
Defined.

End CancelMore.

(** ** Reading reservations *)

Section ReadMore.
Import Reads Edit Gates.
Local Open Scope Z_scope.

(** X11: who may read a reservation.  [GET] of one reservation answers 200
    exactly when there is a session, the reservation exists, and the caller's
    role is not MEMBER or the caller owns the reservation; the body is then
    the stored reservation with its payment.  A member never reads another
    user's reservation. *)
Theorem GET_reservation_access :
  forall (session : option Session) (id : string) (db : DB),
    (response_status (GET_reservation session id db) = 200
     <-> exists s r,
         session = Some s /\ reservations db !! id = Some r
         /\ (session_user_role s = "MEMBER" -> userId r = session_user_id s))
    /\ (forall id' r p,
           response_body (GET_reservation session id db) = ReservationJson id' r p ->
           id' = id /\ reservations db !! id = Some r /\ p = payment_of id db).
Proof.
  intros session id db. unfold GET_reservation, reservation_findUnique.
  destruct session as [s|];
    [|split; [split; [intros [=] | intros (? & ? & [=] & _)] | intros ? ? ? [=]]].
  destruct (reservations db !! id) as [r|] eqn:Hr;
    [|split; [split; [intros [=] | intros (? & ? & _ & [=] & _)]
             | intros ? ? ? [=]]].
  destruct (String.eqb_spec (session_user_role s) "MEMBER") as [Hrole|Hrole];
    cbn [andb].
  - destruct (String.eqb_spec (userId r) (session_user_id s)) as [Hown|Hown];
      cbn [negb].
    + split; [|intros ? ? ? [= <- <- <-]; auto].
      split; [|reflexivity]. intros _. exists s, r. auto.
    + split; [|intros ? ? ? [=]].
      split; [intros [=]|]. intros (s' & r' & [= <-] & [= <-] & Himp).
      exfalso. auto.
  - split; [|intros ? ? ? [= <- <- <-]; auto].
    split; [|reflexivity]. intros _. exists s, r.
    split; [reflexivity|]. split; [reflexivity|]. intros E. contradiction.
Qed.

(** X12: what the list of reservations shows.  For any order of the rows,
    [GET] of the list without a session answers 401; for staff it lists every
    reservation of the database, for every other caller exactly the caller's
    own reservations; no reservation is listed twice. *)
Theorem GET_reservations_rows :
  forall (orderBy : list (string * Reservation) -> list (string * Reservation)),
    (forall l, Permutation (orderBy l) l) ->
    forall (db : DB),
      list_status (GET_reservations orderBy None db) = 401
      /\ forall (s : Session),
        exists rows,
          GET_reservations orderBy (Some s) db
          = {| list_body := Reservations rows; list_status := 200 |}
          /\ NoDup rows
          /\ forall i r,
               In (i, r) rows
               <-> reservations db !! i = Some r
                   /\ (hasRequiredRole s ["ADMIN"; "EMPLOYEE"] = true
                       \/ userId r = session_user_id s).
Proof.
  intros orderBy Hperm db. split; [reflexivity|]. intros s.
  unfold GET_reservations. eexists. split; [reflexivity|]. split.
  - rewrite (Hperm _). unfold reservation_findMany.
    apply NoDup_ListNoDup, List.NoDup_filter, NoDup_ListNoDup, NoDup_map_to_list.
  - intros i r. rewrite <- !list_elem_of_In, (Hperm _), list_elem_of_In.
    rewrite reservation_findMany_In.
    destruct (hasRequiredRole s ["ADMIN"; "EMPLOYEE"]).
    + split; [intros [H _]; auto | intros [H _]; auto].
    + rewrite String.eqb_eq. split.
      * intros [H E]. auto.
      * intros [H [[=]|E]]. auto.
Qed.

(** Without a session the list is refused, whatever the order of the rows. *)
Lemma GET_reservations_rows_witness :
  list_status (GET_reservations (fun l => l) None Seed.db) = 401.
Proof.
  apply (GET_reservations_rows (fun l => l)). intros l. reflexivity.
Defined.

(** The payment that [include] loads, when one payment row refers to the
    reservation. *)
Lemma payment_of_unique id d k p :
  payments d !! k = Some p ->
  reservationId p = id ->
  (forall k' q, payments d !! k' = Some q -> reservationId q = id ->
                k' = k /\ q = p) ->
  payment_of id d = Some p.
Proof.
  intros Hk Hp Huniq. unfold payment_of.
  destruct (payment_findMany (fun q => String.eqb (reservationId q) id) d)
    as [|[k' q] l] eqn:E.
  - assert (In (k, p) (payment_findMany
                         (fun q => String.eqb (reservationId q) id) d)) as Hin.
    { apply payment_findMany_In. split; [exact Hk|].
      rewrite Hp. apply String.eqb_refl. }
    rewrite E in Hin. destruct Hin.
  - assert (In (k', q) (payment_findMany
                          (fun q => String.eqb (reservationId q) id) d)) as Hin
        by (rewrite E; left; reflexivity).
    apply payment_findMany_In in Hin as [Hk' Hq]. apply String.eqb_eq in Hq.
    destruct (Huniq k' q Hk' Hq) as [_ ->]. reflexivity.
Qed.

Lemma POST_persist_created a ids db :
  response_status (fst (POST_persist a ids db)) = 201 ->
  exists t m,
    TariffType.of_string (adm_tariff a) = Some t
    /\ PaymentMethod.of_string (adm_paymentMethod a) = Some m
    /\ POST_persist a ids db
       = (json (ReservationJson (fst ids) (reservationData a t)
                  (payment_of (fst ids)
                     (with_payments (insert (snd ids) (paymentData a m (fst ids)))
                        (with_reservations
                           (insert (fst ids) (reservationData a t)) db)))) 201,
          with_payments (insert (snd ids) (paymentData a m (fst ids)))
            (with_reservations (insert (fst ids) (reservationData a t)) db)).
Proof.
  intros H201. pose proof H201 as Hiff.
  apply POST_persist_201_iff in Hiff
    as ([t Ht] & [m Hm] & Hrid & [u Hu] & [v Hv] & Hpid & Hpay).
  exists t, m. split; [exact Ht|]. split; [exact Hm|].
  unfold POST_persist. rewrite Ht, Hm.
  unfold transaction, POST_tx, reservation_create. rewrite Hrid.
  cbn [userId vehicleId reservationData]. rewrite Hu, Hv.
  cbn [mbind Exc_bind]. unfold payment_create.
  cbn [payments with_reservations]. rewrite Hpid.
  change (payment_findMany
            (fun p => String.eqb (reservationId p)
                        (reservationId (paymentData a m (fst ids))))
            (with_reservations (insert (fst ids) (reservationData a t)) db))
    with (payment_findMany (fun p => String.eqb (reservationId p) (fst ids)) db).
  rewrite Hpay.
  cbn [users reservations payment_userId reservationId paymentData
       with_reservations].
  rewrite Hu, lookup_insert_eq. cbn [mbind Exc_bind mret Exc_ret fst snd].
  unfold reservation_findUnique. cbn [reservations with_payments with_reservations].
  rewrite lookup_insert_eq. reflexivity.
Qed.

(** X13: create, then read.  When [POST] answers 201, its body is the created
    reservation - PENDING, owned by the caller - together with exactly its new
    PENDING payment of the same amount, and a following [GET] of that
    reservation by the same caller is answered 200 with the same reservation
    and, of the payment, the two fields that [GET] selects: the method and
    the status, PENDING. *)
Theorem POST_then_GET :
  forall (s : Session) (b : PostBody.t) (now : Z) (ids : string * string)
         (db : DB),
    response_status (fst (POST (Some s) b now ids db)) = 201 ->
    exists r p,
      response_body (fst (POST (Some s) b now ids db))
      = ReservationJson (fst ids) r (Some p)
      /\ status r = ReservationStatus.PENDING
      /\ userId r = session_user_id s
      /\ vehicleId r = PostBody.vehicleId b
      /\ totalPrice r = PostBody.totalPrice b
      /\ reservationId p = fst ids
      /\ paymentStatus p = PaymentStatus.PENDING
      /\ amount p = totalPrice r
      /\ PaymentMethod.to_string (paymentMethod p) = PostBody.paymentMethod b
      /\ response_status
           (GET_reservation (Some s) (fst ids)
              (snd (POST (Some s) b now ids db))) = 200
      /\ GET_reservation_json (Some s) (fst ids)
           (snd (POST (Some s) b now ids db))
         = Some (fst ids, r,
                 Some {| select_paymentMethod := paymentMethod p;
                         select_paymentStatus := PaymentStatus.PENDING |}).
Proof.
  intros s b now ids db H201.
  pose proof (POST_201_gates _ _ _ _ _ H201)
    as (s' & startMs & endMs & v & [= <-] & _ & _ & _ & _ & _ & _ & _ & _ & _ & _
        & _ & _ & _ & _ & _ & _ & _ & _ & Hpid & Hpay).
  unfold POST in *.
  destruct (POST_admit (Some s) b now db) as [response|a] eqn:Hadm.
  { exfalso. exact (POST_admit_rejects _ _ _ _ _ Hadm H201). }
  destruct (POST_persist_created a ids db H201) as (t & m & Ht & Hm & Hput).
  apply POST_admit_inr_iff in Hadm
    as (s' & ? & ? & ? & [= <-] & _ & _ & _ & _ & _ & _ & _ & _ & _ & _ & _ & _ & _
        & _ & _ & _ & _ & _ & _ & ->).
  cbn [adm_tariff adm_paymentMethod] in Ht, Hm.
  set (a := {| adm_actualUserId := session_user_id s |}) in *.
  assert (payment_of (fst ids)
            (with_payments (insert (snd ids) (paymentData a m (fst ids)))
               (with_reservations (insert (fst ids) (reservationData a t)) db))
          = Some (paymentData a m (fst ids))) as Hpayment.
  { apply (payment_of_unique _ _ (snd ids)).
    - cbn [payments with_payments with_reservations]. apply lookup_insert_eq.
    - reflexivity.
    - intros k' q. cbn [payments with_payments with_reservations].
      destruct (decide (k' = snd ids)) as [->|Hk].
      + rewrite lookup_insert_eq. intros [= <-] _. auto.
      + rewrite lookup_insert_ne by congruence. intros Hq Hid.
        exfalso. exact (Hpay k' q Hq Hid). }
  rewrite Hput, Hpayment. cbn [fst snd response_body json].
  exists (reservationData a t), (paymentData a m (fst ids)).
  do 8 (split; [reflexivity|]). split.
  - cbn [paymentMethod paymentData]. revert Hm.
    unfold PaymentMethod.of_string, PaymentMethod.all. cbn [List.find].
    repeat match goal with
           | |- context [String.eqb ?x (PostBody.paymentMethod b)] =>
               destruct (String.eqb_spec x (PostBody.paymentMethod b))
           end; intros [= <-]; assumption.
  - assert (GET_reservation (Some s) (fst ids)
              (with_payments (insert (snd ids) (paymentData a m (fst ids)))
                 (with_reservations (insert (fst ids) (reservationData a t)) db))
            = json (ReservationJson (fst ids) (reservationData a t)
                      (Some (paymentData a m (fst ids)))) 200) as Hget.
    { unfold GET_reservation, reservation_findUnique.
      cbn [reservations with_payments with_reservations].
      rewrite lookup_insert_eq. cbn [userId reservationData adm_actualUserId a].
      rewrite String.eqb_refl, andb_false_r, Hpayment. reflexivity. }
    unfold GET_reservation_json. rewrite Hget. split; reflexivity.
Qed.

(** The booking of 1 to 5 August, read back by its owner. *)
Lemma POST_then_GET_witness :
  response_status
    (GET_reservation (Some Seed.dom_) "res-3" Seed.booked) = 200.
Proof.
  destruct (POST_then_GET Seed.dom_
              (Seed.book (Date_UTC 2025 8 1 0 0 0) (Date_UTC 2025 8 5 0 0 0))
              Seed.now ("res-3", "pay-789") Seed.db)
    as (r & p & _ & _ & _ & _ & _ & _ & _ & _ & _ & Hget & _);
    [vm_compute; reflexivity|].
  exact Hget.
Defined.

Lemma staff_not_member s :
  hasRequiredRole s ["ADMIN"; "EMPLOYEE"] = true ->
  String.eqb (session_user_role s) "MEMBER" = false.
Proof.
  unfold hasRequiredRole. intros H. apply andb_prop in H as [_ H].
  apply includes_elem in H.
  repeat (apply elem_of_cons in H as [-> | H]; [reflexivity|]). inversion H.
Qed.

(** X14: edit, then read.  When [PUT] answers 200, a following [GET] of that
    reservation by the same caller is answered with the same response: the
    caller reads back exactly the reservation the edit returned. *)
Theorem PUT_then_GET :
  forall (s : Session) (id : string) (b : PutBody.t) (db : DB),
    response_status (fst (PUT (Some s) id b db)) = 200 ->
    GET_reservation (Some s) id (snd (PUT (Some s) id b db))
    = fst (PUT (Some s) id b db).
Proof.
  intros s id b db H200.
  destruct (PUT_cases (Some s) id b db)
    as [(_ & Hne & _)|(s0 & r & r' & [= <-] & Hr & Hmay & Hok & Hput)];
    [contradiction|].
  rewrite Hput. cbn [fst snd].
  unfold GET_reservation, reservation_findUnique.
  cbn [reservations with_reservations]. rewrite lookup_insert_eq.
  assert (userId r' = userId r) as Huser.
  { apply applyUpdate_Ok in Hok as (? & ? & ? & ? & _ & _ & _ & _ & ->).
    reflexivity. }
  assert (String.eqb (session_user_role s) "MEMBER"
          && negb (String.eqb (userId r') (session_user_id s)) = false) as ->;
    [|reflexivity].
  unfold mayEdit in Hmay. apply orb_prop in Hmay as [Hstaff|Hown].
  - rewrite (staff_not_member s Hstaff). reflexivity.
  - apply andb_prop in Hown as [Hown _]. apply String.eqb_eq in Hown.
    rewrite Huser, <- Hown, String.eqb_refl. apply andb_false_r.
Qed.

(** The owner's edit of "res-3", read back. *)
Lemma PUT_then_GET_witness :
  response_status
    (GET_reservation (Some Seed.dom_) "res-3"
       (snd (PUT (Some Seed.dom_) "res-3"
               (Seed.move (Date_UTC 2025 8 2 0 0 0) (Date_UTC 2025 8 4 0 0 0))
               Seed.booked))) = 200.
Proof.
  rewrite (PUT_then_GET Seed.dom_ "res-3"
             (Seed.move (Date_UTC 2025 8 2 0 0 0) (Date_UTC 2025 8 4 0 0 0))
             Seed.booked); vm_compute; reflexivity.
Defined.

End ReadMore.

(** ** Availability *)

Section AvailabilityMore.
Import VehiclesPage.
Local Open Scope Z_scope.

Lemma overlapOR_wellformed start end_ r :
  startDate r <= endDate r -> start <= end_ ->
  overlapOR start end_ r = overlaps (range r) (start, end_).
Proof.
  intros Hr Hq. unfold overlapOR, overlaps, range. cbn [fst snd].
  rewrite !Z.geb_leb.
  repeat case Z.leb_spec; intros; cbn; try reflexivity; lia.
Qed.

Lemma booked_ids_In startMs endMs db v :
  In v (map (fun ir : string * Reservation => vehicleId ir.2)
          (reservation_findMany
             (fun r => statusActive r && overlapOR startMs endMs r) db))
  <-> exists i r, reservations db !! i = Some r /\ vehicleId r = v
                  /\ statusActive r = true
                  /\ overlapOR startMs endMs r = true.
Proof.
  rewrite in_map_iff. split.
  - intros ([i r] & <- & Hin). apply reservation_findMany_In in Hin as [Hi Hw].
    apply andb_prop in Hw as [Ha Ho]. exists i, r. auto.
  - intros (i & r & Hi & <- & Ha & Ho). exists (i, r). split; [reflexivity|].
    apply reservation_findMany_In. rewrite Ha, Ho. auto.
Qed.

(** X15: the fleet-wide availability query.  Without one of the dates the
    answer is 400, with a date that does not parse 500; otherwise it is 200
    and a vehicle id is in the answer exactly when the vehicle has an active
    reservation that satisfies the overlap condition - for ranges with
    start <= end, one that overlaps the range as closed intervals. *)
Theorem GET_availability_booked :
  (forall (startDate endDate : option Date) (db : DB),
      (startDate = None \/ endDate = None) ->
      response_status (GET_availability startDate endDate db) = 400)
  /\ (forall (start end_ : Date) (db : DB),
         (start = InvalidDate \/ end_ = InvalidDate) ->
         response_status (GET_availability (Some start) (Some end_) db) = 500)
  /\ (forall (startMs endMs : Z) (db : DB),
         exists ids,
           GET_availability (Some (Instant startMs)) (Some (Instant endMs)) db
           = json (VehicleIds ids) 200
           /\ (forall v, In v ids
                         <-> exists i r, reservations db !! i = Some r
                                         /\ vehicleId r = v
                                         /\ statusActive r = true
                                         /\ overlapOR startMs endMs r = true)
           /\ (startMs <= endMs ->
               map_Forall (fun _ r => startDate r <= endDate r) (reservations db) ->
               forall v, In v ids
                         <-> exists i r, reservations db !! i = Some r
                                         /\ vehicleId r = v
                                         /\ statusActive r = true
                                         /\ overlaps (range r) (startMs, endMs)
                                            = true)).
Proof.
  split; [|split].
  - intros sd ed db [-> | ->]; [reflexivity|]. destruct sd; reflexivity.
  - intros start end_ db [-> | ->]; [reflexivity|]. destruct start; reflexivity.
  - intros startMs endMs db. eexists. split; [reflexivity|].
    pose proof (booked_ids_In startMs endMs db) as Hin.
    split; [exact Hin|].
    intros Hle Hwf v. rewrite Hin. split.
    + intros (i & r & Hi & Hv & Ha & Ho). exists i, r.
      rewrite <- (overlapOR_wellformed startMs endMs r (Hwf i r Hi) Hle).
      auto.
    + intros (i & r & Hi & Hv & Ha & Ho). exists i, r.
      rewrite (overlapOR_wellformed startMs endMs r (Hwf i r Hi) Hle).
      auto.
Qed.

(** A query without its end date, and one with an unparsable start. *)
Lemma GET_availability_booked_witness :
  response_status (GET_availability (Some (Date_UTC 2025 7 22 0 0 0)) None Seed.db)
  = 400
  /\ response_status
       (GET_availability (Some InvalidDate) (Some (Date_UTC 2025 7 22 0 0 0))
          Seed.db) = 500.
Proof.
  destruct GET_availability_booked as (Hmissing & Hinvalid & _). split.
  - apply Hmissing. right. reflexivity.
  - apply Hinvalid. left. reflexivity.
Defined.

Lemma setAll_lookup value xs m k :
  setAll value xs m !! k = if decide (k ∈ xs) then Some value else m !! k.
Proof.
  unfold setAll. revert m. induction xs as [|x xs IH]; intros m; cbn [foldl].
  - destruct (decide (k ∈ [])) as [H|_]; [inversion H | reflexivity].
  - rewrite IH. destruct (decide (k ∈ xs)) as [Hin|Hnin].
    + rewrite decide_True by (right; exact Hin). reflexivity.
    + destruct (decide (k = x)) as [->|Hne].
      * rewrite decide_True by left. apply lookup_insert_eq.
      * rewrite decide_False; [apply lookup_insert_ne; congruence|].
        intros H. apply elem_of_cons in H as [H|H]; contradiction.
Qed.

(** X16: the listing page agrees with admission.  For dates that parse, the
    page marks a vehicle unavailable exactly when it has an active
    reservation satisfying the overlap condition, and marks every other
    vehicle of the page available.  On the same database a booking request
    for those dates is answered with the conflict response only for a vehicle
    marked unavailable, and is never answered 201 for such a vehicle. *)
Theorem checkAvailability_agrees_with_POST :
  forall (vehicles : list string) (startMs endMs : Z) (db : DB),
    let shown := checkAvailability vehicles (Some (Instant startMs))
                   (Some (Instant endMs)) db in
    (forall v, shown !! v = Some false
               <-> exists i r, reservations db !! i = Some r /\ vehicleId r = v
                               /\ statusActive r = true
                               /\ overlapOR startMs endMs r = true)
    /\ (forall v, shown !! v = Some true <-> v ∈ vehicles /\ shown !! v <> Some false)
    /\ (forall session b now ids error conflicts,
           PostBody.startDate b = Some (Instant startMs) ->
           PostBody.endDate b = Some (Instant endMs) ->
           response_body (fst (POST session b now ids db)) = Conflict error conflicts ->
           shown !! PostBody.vehicleId b = Some false)
    /\ (forall session b now ids,
           PostBody.startDate b = Some (Instant startMs) ->
           PostBody.endDate b = Some (Instant endMs) ->
           shown !! PostBody.vehicleId b = Some false ->
           response_status (fst (POST session b now ids db)) <> 201).
Proof.
  intros vehicles startMs endMs db shown.
  set (ids := map (fun ir : string * Reservation => vehicleId ir.2)
                (reservation_findMany
                   (fun r => statusActive r && overlapOR startMs endMs r) db)).
  pose proof (booked_ids_In startMs endMs db) as Hin. fold ids in Hin.
  assert (shown = setAll false ids (setAll true vehicles ∅)) as Hshown
      by reflexivity.
  assert (forall v, shown !! v = Some false
                    <-> exists i r, reservations db !! i = Some r /\ vehicleId r = v
                                    /\ statusActive r = true
                                    /\ overlapOR startMs endMs r = true) as Hfalse.
  { intros v. rewrite <- Hin, Hshown, !setAll_lookup, <- list_elem_of_In.
    destruct (decide (v ∈ ids)); [tauto|].
    destruct (decide (v ∈ vehicles)); [|rewrite lookup_empty];
      split; intros H; try discriminate H; contradiction. }
  split; [exact Hfalse|]. split.
  { intros v. rewrite Hshown, !setAll_lookup.
    destruct (decide (v ∈ ids)).
    - split; [intros [=] | intros [_ H]; contradiction].
    - destruct (decide (v ∈ vehicles)); [|rewrite lookup_empty].
      + split; [intros _; split; [assumption | discriminate] | reflexivity].
      + split; [intros [=] | intros [H _]; contradiction]. }
  split.
  - intros session b now ids' error conflicts Hs He Hbody.
    destruct (POST_conflict_inv session b now ids' db error conflicts Hbody)
      as (s' & e' & Hs' & He' & _ & Hlist & Hne).
    rewrite Hs in Hs'. rewrite He in He'. injection Hs' as <-. injection He' as <-.
    destruct (reservation_findMany
                (fun r => String.eqb (vehicleId r) (PostBody.vehicleId b)
                          && statusActive r && overlapOR startMs endMs r) db)
      as [|[i r] l] eqn:E; [contradiction|].
    assert (In (i, r) (reservation_findMany
                (fun r => String.eqb (vehicleId r) (PostBody.vehicleId b)
                          && statusActive r && overlapOR startMs endMs r) db))
      as Hir by (rewrite E; left; reflexivity).
    apply reservation_findMany_In in Hir as [Hi Hw].
    apply andb_prop in Hw as [Hw Ho]. apply andb_prop in Hw as [Hv Ha].
    apply String.eqb_eq in Hv. apply Hfalse. eauto 10.
  - intros session b now ids' Hs He Hshow H201.
    apply Hfalse in Hshow as (i & r & Hi & Hv & Ha & Ho).
    apply POST_201_gates in H201
      as (s' & s0 & e0 & v & _ & _ & Hs' & He' & _ & _ & _ & _ & _ & _ & _ & _
          & _ & _ & _ & Hfree & _).
    rewrite Hs in Hs'. rewrite He in He'. injection Hs' as <-. injection He' as <-.
    rewrite (Hfree i r Hi Hv Ha) in Ho. discriminate Ho.
Qed.

(** With "res-3" booked for 1 to 5 August, the page shows the VW Golf as
    taken for 2 to 3 August. *)
Lemma checkAvailability_agrees_with_POST_witness :
  checkAvailability ["vehicle-1"; "vehicle-6"]
    (Some (Instant (UTC 2025 8 2 0 0 0))) (Some (Instant (UTC 2025 8 3 0 0 0)))
    Seed.booked !! "vehicle-1" = Some false.
Proof.
  destruct (checkAvailability_agrees_with_POST ["vehicle-1"; "vehicle-6"]
              (UTC 2025 8 2 0 0 0) (UTC 2025 8 3 0 0 0) Seed.booked)
    as (Hfalse & _).
  apply Hfalse. eexists "res-3", _.
  split; [vm_compute; reflexivity|]. repeat split.
Defined.

End AvailabilityMore.

(** ** The forms and the handlers *)

Section FormMore.
Import ReservationForm Gates Edit.
Local Open Scope Z_scope.

(** X17: a booking made through the form.  If the form sends its request and
    [POST] answers 201, then the form held a vehicle and two dates with
    start < end, and the stored reservation has those dates and, as total
    price, the total that the billing engine computes for the daily rate of
    the vehicle on the form, the dates and the tariff; the payment has the
    same amount.  In particular a form with equal dates, or with a vehicle
    whose price computes to 0, passes the checks of the form but is never
    booked. *)
Theorem form_booking_priced_by_engine :
  forall (f : NewForm) (now : Z) (b : PostBody.t) (s : Session) (now' : Z)
         (ids : string * string) (db : DB),
    handleSubmitNew f now = Fetch b ->
    response_status (fst (POST (Some s) b now' ids db)) = 201 ->
    exists (v : Vehicle) (startMs endMs : Z) (r : Reservation) (p : Payment),
      new_vehicle f = Some v
      /\ new_startDate f = Some (Instant startMs)
      /\ new_endDate f = Some (Instant endMs)
      /\ startMs < endMs
      /\ reservations (snd (POST (Some s) b now' ids db)) !! fst ids = Some r
      /\ payments (snd (POST (Some s) b now' ids db)) !! snd ids = Some p
      /\ startDate r = startMs /\ endDate r = endMs
      /\ totalPrice r
         = BillingEngine.totalPrice
             (BillingEngine.calculatePrice (pricePerDay v)
                (Some (Instant startMs)) (Some (Instant endMs)) (new_tariff f))
      /\ amount p = totalPrice r
      /\ ~ (totalPrice r == 0)%Q.
Proof.
  intros f now b s now' ids db Hsubmit H201.
  pose proof (POST_201_gates _ _ _ _ _ H201)
    as (s' & startMs & endMs & v0 & [= <-] & _ & Hsd & Hed & _ & _ & _ & _ & _
        & Hprice & _ & Hlt & _).
  unfold handleSubmitNew in Hsubmit.
  destruct (new_startDate f) as [sd|] eqn:Hfs; [|discriminate Hsubmit].
  destruct (new_endDate f) as [ed|] eqn:Hfe; [|destruct sd; discriminate Hsubmit].
  repeat case_match; try discriminate Hsubmit. injection Hsubmit as <-.
  cbn [PostBody.startDate PostBody.endDate PostBody.totalPrice PostBody.tariff]
    in *.
  destruct sd as [t1|]; [|discriminate Hsd].
  destruct ed as [t2|]; [|discriminate Hed].
  cbn [sent] in Hsd, Hed. injection Hsd as ->. injection Hed as ->.
  unfold calculateTotalPrice in *.
  destruct (new_vehicle f) as [v|] eqn:Hv; [|exfalso; apply Hprice; reflexivity].
  unfold POST in *.
  destruct (POST_admit (Some s) _ now' db) as [response|a] eqn:Hadm.
  { exfalso. exact (POST_admit_rejects _ _ _ _ _ Hadm H201). }
  destruct (POST_persist_created a ids db H201) as (t & m & _ & _ & Hput).
  apply POST_admit_inr_iff in Hadm
    as (? & ? & ? & ? & _ & _ & [= <-] & [= <-] & _ & _ & _ & _ & _ & _ & _ & _ & _
        & _ & _ & _ & _ & _ & _ & _ & ->).
  rewrite Hput. cbn [snd reservations payments with_payments with_reservations].
  rewrite !lookup_insert_eq.
  eexists v, startMs, endMs, _, _.
  do 3 (split; [reflexivity|]). split; [exact Hlt|].
  do 6 (split; [reflexivity|]). exact Hprice.
Qed.

(** The form for the VW Golf, 1 to 5 August, sent and accepted. *)
Lemma form_booking_priced_by_engine_witness :
  exists b r,
    handleSubmitNew
      (SeedForm.golf (Date_UTC 2025 8 1 0 0 0) (Date_UTC 2025 8 5 0 0 0)) Seed.now
    = Fetch b
    /\ reservations (snd (POST (Some Seed.dom_) b Seed.now ("res-3", "pay-789")
                            Seed.db)) !! "res-3" = Some r
    /\ (totalPrice r == 140)%Q.
Proof.
  eexists. 
  assert (handleSubmitNew
            (SeedForm.golf (Date_UTC 2025 8 1 0 0 0) (Date_UTC 2025 8 5 0 0 0))
            Seed.now = Fetch _) as Hsubmit by (vm_compute; reflexivity).
  destruct (form_booking_priced_by_engine _ _ _ Seed.dom_ Seed.now
              ("res-3", "pay-789") Seed.db Hsubmit)
    as (v & startMs & endMs & r & p & Hv & Hs & He & _ & Hr & _ & _ & _ & Hprice & _);
    [vm_compute; reflexivity|].
  exists r. split; [exact Hsubmit|]. split; [exact Hr|].
  rewrite Hprice. vm_compute in Hv, Hs, He.
  injection Hv as <-. injection Hs as <-. injection He as <-. reflexivity.
Defined.

(** X18: what the form lets through and the handler refuses.  A form whose
    end date equals its start date, not in the past and with both locations,
    sends its request; for a caller who may reserve and a request with every
    field present, [POST] answers 400 "End date must be after start date".
    A form whose computed price is 0 - no vehicle loaded, or a daily rate of
    0 - sends a request that [POST] answers with 400 "Missing required
    fields".  Neither request is ever answered 201. *)
Theorem form_requests_refused :
  (forall (f : NewForm) (now t : Z),
      new_startDate f = Some (Instant t) ->
      new_endDate f = Some (Instant t) ->
      now <= t ->
      truthy (new_pickupLocation f) = true ->
      truthy (new_returnLocation f) = true ->
      exists b,
        handleSubmitNew f now = Fetch b
        /\ forall (s : Session) (now' : Z) (ids : string * string) (db : DB),
            response_status (fst (POST (Some s) b now' ids db)) <> 201
            /\ (hasRequiredRole s ["MEMBER"; "EMPLOYEE"; "ADMIN"] = true ->
                truthy (new_vehicleId f) = true ->
                truthy (new_startTime f) = true ->
                truthy (new_endTime f) = true ->
                truthy (new_tariff f) = true ->
                truthy (new_paymentMethod f) = true ->
                ~ (PostBody.totalPrice b == 0)%Q ->
                now' <= t ->
                POST (Some s) b now' ids db
                = (json (Error "End date must be after start date") 400, db)))
  /\ (forall (f : NewForm) (now : Z) (b : PostBody.t),
         handleSubmitNew f now = Fetch b ->
         (PostBody.totalPrice b == 0)%Q ->
         forall (s : Session) (now' : Z) (ids : string * string) (db : DB),
           hasRequiredRole s ["MEMBER"; "EMPLOYEE"; "ADMIN"] = true ->
           POST (Some s) b now' ids db
           = (json (Error "Missing required fields") 400, db))
  /\ (forall (f : NewForm) (now : Z) (b : PostBody.t) (v : Vehicle),
         handleSubmitNew f now = Fetch b ->
         new_vehicle f = Some v ->
         (pricePerDay v == 0)%Q ->
         (PostBody.totalPrice b == 0)%Q).
Proof.
  split; [|split].
  - intros f now t Hs He Hnow Hp Hr. eexists. split.
    { unfold handleSubmitNew. rewrite Hs, He, Hp, Hr. unfold lt. cbn [getTime].
      rewrite !bool_decide_eq_false_2 by lia. reflexivity. }
    intros s now' ids db. split.
    + intros H201. apply POST_201_gates in H201
        as (? & startMs & endMs & ? & _ & _ & Hsd & Hed & _ & _ & _ & _ & _ & _ & _
            & Hlt & _).
      cbn [PostBody.startDate PostBody.endDate sent] in Hsd, Hed.
      injection Hsd as <-. injection Hed as <-. lia.
    + intros Hrole H1 H2 H3 H4 H5 Hprice Hnow'.
      apply Qnonzero_spec in Hprice.
      unfold POST, POST_admit.
      cbn [PostBody.startDate PostBody.endDate PostBody.vehicleId
           PostBody.startTime PostBody.endTime PostBody.pickupLocation
           PostBody.returnLocation PostBody.tariff PostBody.totalPrice
           PostBody.paymentMethod sent] in *.
      rewrite Hrole, H1, H2, H3, Hp, Hr, H4, Hprice, H5. unfold lt, le.
      cbn [getTime negb andb].
      rewrite bool_decide_eq_false_2 by lia.
      rewrite bool_decide_eq_true_2 by lia. reflexivity.
  - intros f now b Hsubmit Hzero s now' ids db Hrole.
    assert (BillingEngine.Qnonzero (PostBody.totalPrice b) = false) as Hnz.
    { apply not_true_iff_false. rewrite Qnonzero_spec. tauto. }
    unfold POST, POST_admit. rewrite Hrole, Hnz. cbn [negb].
    rewrite !andb_false_r. cbn [negb andb].
    destruct (PostBody.startDate b), (PostBody.endDate b); reflexivity.
  - intros f now b v Hsubmit Hv Hfree. unfold handleSubmitNew in Hsubmit.
    repeat case_match; try discriminate Hsubmit. injection Hsubmit as <-.
    cbn [PostBody.totalPrice]. unfold calculateTotalPrice.
    rewrite Hv.
    match goal with
    | |- (BillingEngine.totalPrice (BillingEngine.calculatePrice _ ?x ?y _) == 0)%Q =>
        destruct x as [[sm|]|]; destruct y as [[em|]|]; try reflexivity
    end.
    cbn [BillingEngine.calculatePrice getTime].
    rewrite priceFor_total by (rewrite Hfree; discriminate).
    rewrite Hfree. ring.
Qed.

(** The form for the VW Golf with 1 August as both dates. *)
Lemma form_requests_refused_witness :
  exists b,
    handleSubmitNew
      (SeedForm.golf (Date_UTC 2025 8 1 0 0 0) (Date_UTC 2025 8 1 0 0 0)) Seed.now
    = Fetch b
    /\ response_status
         (fst (POST (Some Seed.dom_) b Seed.now ("res-3", "pay-789") Seed.db))
       <> 201.
Proof.
  destruct (proj1 form_requests_refused
              (SeedForm.golf (Date_UTC 2025 8 1 0 0 0) (Date_UTC 2025 8 1 0 0 0))
              Seed.now (UTC 2025 8 1 0 0 0))
    as (b & Hsubmit & Hpost); try reflexivity.
  { vm_compute. discriminate. }
  exists b. split; [exact Hsubmit|].
  exact (proj1 (Hpost Seed.dom_ Seed.now ("res-3", "pay-789") Seed.db)).
Defined.



End FormMore.

(** ** The middleware *)

Section MiddlewareMore.
Import Middleware.

Lemma startsWith_inv pathname a q :
  startsWith pathname (String a q) = true ->
  exists p, pathname = String a p /\ startsWith p q = true.
Proof.
  unfold startsWith. destruct pathname as [|c p]; [discriminate|].
  change (String.prefix (String a q) (String c p))
    with (if Ascii.ascii_dec a c then String.prefix q p else false).
  destruct (Ascii.ascii_dec a c) as [<-|]; [eauto|discriminate].
Qed.

Lemma startsWith_differ pathname a b b' q q' :
  b <> b' ->
  startsWith pathname (String a (String b q)) = true ->
  startsWith pathname (String a (String b' q')) = false.
Proof.
  intros Hb H. destruct (startsWith pathname (String a (String b' q'))) eqn:H';
    [|reflexivity].
  apply startsWith_inv in H as (p & -> & H).
  apply startsWith_inv in H as (p0 & -> & _).
  apply startsWith_inv in H' as (p' & [= <-] & H').
  apply startsWith_inv in H' as (p1 & [= -> _] & _). contradiction.
Qed.

(** Two paths that differ in their second character share no prefix. *)
Lemma startsWith_admin_exclusive pathname :
  startsWith pathname "/admin" = true ->
  startsWith pathname "/reservations" = false
  /\ startsWith pathname "/login" = false
  /\ startsWith pathname "/register" = false.
Proof.
  intros H. repeat split;
    (eapply startsWith_differ; [|exact H]; discriminate).
Qed.

Lemma startsWith_reservations_exclusive pathname :
  startsWith pathname "/reservations" = true ->
  startsWith pathname "/login" = false.
Proof.
  intros H. eapply startsWith_differ; [|exact H]; discriminate.
Qed.

Lemma startsWith_reservations_register pathname :
  startsWith pathname "/reservations" = true ->
  startsWith pathname "/register" = false.
Proof.
  intros H. destruct (startsWith pathname "/register") eqn:H'; [|reflexivity].
  do 4 (apply startsWith_inv in H as (? & -> & H)).
  apply startsWith_inv in H' as (? & [= <-] & H').
  apply startsWith_inv in H' as (? & [= <-] & H').
  apply startsWith_inv in H' as (? & [= <-] & H').
  apply startsWith_inv in H' as (? & [=] & H').
Qed.

Lemma startsWith_eq pathname prefix_ :
  pathname = prefix_ -> startsWith pathname prefix_ = true.
Proof.
  intros ->. unfold startsWith. induction prefix_ as [|c p IH]; cbn.
  - reflexivity.
  - change (String.prefix (String c p) (String c p))
      with (if Ascii.ascii_dec c c then String.prefix p p else false).
    destruct (Ascii.ascii_dec c c); [exact IH|contradiction].
Qed.

(** The decisions of the function [middleware], for whatever path it is
    called with. *)
Lemma middleware_table :
  forall (token : option Token) (pathname : string),
    (middleware token pathname = redirect "/login"
     <-> (startsWith pathname "/admin" = true /\ staff token = false)
         \/ (token = None /\ startsWith pathname "/reservations" = true
             /\ pathname <> "/reservations"
             /\ pathname <> "/reservations/new"))
    /\ (middleware token pathname = redirect "/"
        <-> token <> None
            /\ (startsWith pathname "/login" = true
                \/ startsWith pathname "/register" = true))
    /\ (forall url, middleware token pathname = redirect url ->
                    url = "/login" \/ url = "/").
Proof.
  intros token pathname.
  unfold middleware, admin, reservations_, login, staff.
  destruct (startsWith pathname "/admin") eqn:Ha.
  - destruct (startsWith_admin_exclusive _ Ha) as (-> & -> & ->).
    destruct token as [t|]; cbn [orb].
    + destruct (String.eqb (token_role t) "ADMIN"),
               (String.eqb (token_role t) "EMPLOYEE"); cbn;
        (split; [split; [try discriminate; intros _; left; auto
                        | intros [[_ H]|[H _]]; (reflexivity || discriminate H)]|]);
        (split; [split; [try discriminate | intros [_ [H|H]]; discriminate H]|]);
        intros url [=]; auto.
    + split; [split; [intros _; left; auto|reflexivity]|].
      split; [split; [discriminate | intros [H _]; contradiction]|].
      intros url [= <-]; auto.
  - destruct (startsWith pathname "/reservations") eqn:Hr.
    + rewrite (startsWith_reservations_exclusive _ Hr).
      rewrite (startsWith_reservations_register _ Hr).
      cbn [orb]. destruct token as [t|].
      * split; [split; [discriminate | intros [[H _]|[H _]]; discriminate H]|].
        split; [split; [discriminate | intros [_ [H|H]]; discriminate H]|].
        intros url [=].
      * destruct (String.eqb pathname "/reservations") eqn:E1.
        { apply String.eqb_eq in E1.
          split; [split; [discriminate
                         | intros [[H _]|(_ & _ & H & _)];
                           [discriminate H|contradiction]]|].
          split; [split; [discriminate | intros [H _]; contradiction]|].
          intros url [=]. }
        apply String.eqb_neq in E1.
        destruct (String.eqb pathname "/reservations/new") eqn:E2; cbn [negb].
        { apply String.eqb_eq in E2.
          split; [split; [discriminate
                         | intros [[H _]|(_ & _ & _ & H)];
                           [discriminate H|contradiction]]|].
          split; [split; [discriminate | intros [H _]; contradiction]|].
          intros url [=]. }
        apply String.eqb_neq in E2.
        split; [split; [intros _; right; auto | reflexivity]|].
        split; [split; [discriminate | intros [H _]; contradiction]|].
        intros url [= <-]; auto.
    + destruct (startsWith pathname "/login" || startsWith pathname "/register")
        eqn:Hl.
      * destruct token as [t|].
        { split; [split; [discriminate | intros [[H _]|[H _]]; discriminate H]|].
          split; [split; [intros _; split; [discriminate|];
                          apply orb_prop in Hl; exact Hl
                         | reflexivity]|].
          intros url [= <-]; auto. }
        split; [split; [discriminate
                       | intros [[H _]|(_ & H & _)]; discriminate H]|].
        split; [split; [discriminate | intros [H _]; contradiction]|].
        intros url [=].
      * apply orb_false_elim in Hl as [Hl1 Hl2].
        cbv beta iota.
        split; [split; [discriminate
                       | intros [[H _]|(_ & H & _)]; discriminate H]|].
        split; [split; [discriminate
                       | intros [_ [H|H]]; congruence]|].
        intros url [=].
Qed.

(** X20: the decisions of the middleware.  Whatever way the framework
    matches the patterns of [config.matcher], a request whose path none of
    them matches passes.  A request that is matched is sent to the login page
    exactly when it asks for a path that starts with /admin without a staff
    token, or has no token and asks for a path that starts with /reservations
    other than /reservations itself and /reservations/new.  It is sent to the
    home page exactly when it has a token, of whatever role, and asks for a
    path that starts with /login or /register.  Every other request passes;
    the middleware redirects nowhere else. *)
Theorem middleware_decisions :
  forall (matches : string -> string -> bool) (token : option Token)
         (pathname : string),
    let selected := existsb (fun source => matches source pathname) matcher in
    (selected = false -> handle matches token pathname = next)
    /\ (handle matches token pathname = redirect "/login"
        <-> selected = true
            /\ ((startsWith pathname "/admin" = true /\ staff token = false)
                \/ (token = None /\ startsWith pathname "/reservations" = true
                    /\ pathname <> "/reservations"
                    /\ pathname <> "/reservations/new")))
    /\ (handle matches token pathname = redirect "/"
        <-> selected = true /\ token <> None
            /\ (startsWith pathname "/login" = true
                \/ startsWith pathname "/register" = true))
    /\ (forall url, handle matches token pathname = redirect url ->
                    url = "/login" \/ url = "/").
Proof.
  intros matches token pathname selected.
  destruct (middleware_table token pathname) as (Hlogin & Hhome & Hurl).
  unfold handle. fold selected. destruct selected.
  - split; [discriminate|].
    split; [rewrite Hlogin; tauto|]. split; [rewrite Hhome; tauto | exact Hurl].
  - split; [reflexivity|].
    split; [split; [discriminate | intros [H _]; discriminate H]|].
    split; [split; [discriminate | intros [H _]; discriminate H]|].
    intros url [=].
Qed.

End MiddlewareMore.

(** ** The constraints of the schema *)

Section IntegrityMore.
Import Integrity Gates Edit.

Lemma POST_keeps_constraints session b now ids db :
  constraints db -> constraints (snd (POST session b now ids db)).
Proof.
  intros [[Hres Hpay] Huniq].
  destruct (POST_outcome session b now ids db)
    as [[-> _]|(a & t & m & Hadm & Hr & Hp & Hdb & H201)];
    [split; [split|]; assumption|].
  assert (response_status (fst (POST_persist a ids db)) = 201) as Hpersist.
  { unfold POST in H201. rewrite Hadm in H201. exact H201. }
  apply POST_persist_201_iff in Hpersist
    as (_ & _ & _ & Hu & Hv & _ & Hnone).
  rewrite payment_findMany_nil_iff in Hnone.
  rewrite Hdb. split; [split|].
  - intros i r. cbn [reservations users vehicles with_payments with_reservations].
    destruct (decide (i = fst ids)) as [->|Hne].
    + rewrite lookup_insert_eq. intros [= <-]. split; assumption.
    + rewrite lookup_insert_ne by congruence. apply Hres.
  - intros k p. cbn [payments reservations users with_payments with_reservations].
    destruct (decide (k = snd ids)) as [->|Hne].
    + rewrite lookup_insert_eq. intros [= <-].
      cbn [payment_userId reservationId paymentData].
      split; [exact Hu|]. rewrite lookup_insert_eq. eauto.
    + rewrite lookup_insert_ne by congruence. intros Hk.
      destruct (Hpay k p Hk) as [Hpu Hpr]. split; [exact Hpu|].
      destruct (decide (reservationId p = fst ids)) as [->|Hne'].
      * rewrite lookup_insert_eq. eauto.
      * rewrite lookup_insert_ne by congruence. exact Hpr.
  - intros k1 p1 Hk1 k2 p2 Hk2 Heq.
    cbn [payments with_payments with_reservations] in Hk1, Hk2.
    destruct (decide (k1 = snd ids)) as [->|Hne1];
      destruct (decide (k2 = snd ids)) as [->|Hne2];
      [reflexivity| | |].
    + rewrite lookup_insert_eq in Hk1. injection Hk1 as <-.
      rewrite lookup_insert_ne in Hk2 by congruence.
      cbn [reservationId paymentData] in Heq.
      pose proof (Hnone k2 p2 Hk2) as Hw. cbn beta in Hw.
      apply String.eqb_neq in Hw. congruence.
    + rewrite lookup_insert_eq in Hk2. injection Hk2 as <-.
      rewrite lookup_insert_ne in Hk1 by congruence.
      cbn [reservationId paymentData] in Heq.
      pose proof (Hnone k1 p1 Hk1) as Hw. cbn beta in Hw.
      apply String.eqb_neq in Hw. congruence.
    + rewrite lookup_insert_ne in Hk1 by congruence.
      rewrite lookup_insert_ne in Hk2 by congruence.
      exact (Huniq k1 p1 Hk1 k2 p2 Hk2 Heq).
Qed.

Lemma PUT_keeps_constraints session id b db :
  constraints db -> constraints (snd (PUT session id b db)).
Proof.
  intros [[Hres Hpay] Huniq].
  destruct (PUT_cases session id b db)
    as [(-> & _)|(s & r & r' & _ & Hr & _ & Hok & ->)];
    [split; [split|]; assumption|].
  apply applyUpdate_Ok in Hok as (st & s1 & e1 & t & _ & _ & _ & _ & ->).
  cbn [snd]. split; [split|].
  - intros i ri. cbn [reservations users vehicles with_reservations].
    destruct (decide (i = id)) as [->|Hne].
    + rewrite lookup_insert_eq. intros [= <-]. cbn [userId vehicleId].
      exact (Hres id r Hr).
    + rewrite lookup_insert_ne by congruence. apply Hres.
  - intros k p Hk. cbn [payments reservations users with_reservations] in *.
    destruct (Hpay k p Hk) as [Hpu Hpr]. split; [exact Hpu|].
    destruct (decide (reservationId p = id)) as [->|Hne].
    + rewrite lookup_insert_eq. eauto.
    + rewrite lookup_insert_ne by congruence. exact Hpr.
  - exact Huniq.
Qed.

Lemma DELETE_keeps_constraints session id db :
  constraints db -> constraints (snd (DELETE session id db)).
Proof.
  intros [[Hres Hpay] Huniq].
  destruct (DELETE_outcome session id db) as [->| ->];
    [split; [split|]; assumption|].
  unfold payment_updateMany. split; [split|].
  - exact Hres.
  - intros k p. cbn [payments reservations users with_payments].
    rewrite lookup_fmap. destruct (payments db !! k) as [q|] eqn:Hk;
      [|discriminate]. intros [= <-].
    destruct (Hpay k q Hk) as [Hpu Hpr].
    destruct (String.eqb (reservationId q) id); split; assumption.
  - intros k1 p1 Hk1 k2 p2 Hk2 Heq.
    cbn [payments with_payments] in Hk1, Hk2.
    rewrite lookup_fmap in Hk1, Hk2.
    destruct (payments db !! k1) as [q1|] eqn:Hq1; [|discriminate].
    destruct (payments db !! k2) as [q2|] eqn:Hq2; [|discriminate].
    injection Hk1 as <-. injection Hk2 as <-.
    apply (Huniq k1 q1 Hq1 k2 q2 Hq2).
    destruct (String.eqb (reservationId q1) id),
             (String.eqb (reservationId q2) id); exact Heq.
Qed.

(** X21: Whatever reservation requests are served, in whatever order, the
    rows keep the constraints of the schema: every reservation names a user
    and a vehicle that exist, every payment a user and a reservation that
    exist, and no reservation has two payments. *)
Theorem requests_keep_constraints :
  forall db db' : DB,
    rtc request db db' -> constraints db -> constraints db'.
Proof.
  intros db db' Hrtc. induction Hrtc as [db|db db1 db' Hreq _ IH]; [auto|].
  intros Hc. apply IH.
  destruct Hreq as [session b now ids|session id b|session id].
  - apply POST_keeps_constraints, Hc.
  - apply PUT_keeps_constraints, Hc.
  - apply DELETE_keeps_constraints, Hc.
Qed.

(** The seed data meet the constraints, and so do they after user-2 has
    booked the VW Golf. *)
Lemma requests_keep_constraints_witness : constraints Seed.booked.
Proof.
  apply (requests_keep_constraints Seed.db Seed.booked).
  - apply rtc_once. apply request_POST.
  - apply (bool_decide_unpack (constraints Seed.db)). vm_compute. exact I.
Defined.

End IntegrityMore.

(** ** Deleting a vehicle *)

Section FleetMore.
Import Integrity Cascade.

Lemma hasRequiredRole_ADMIN s :
  hasRequiredRole s ["ADMIN"] = true <-> session_user_role s = "ADMIN".
Proof.
  unfold hasRequiredRole, includes, truthy. cbn [existsb]. rewrite orb_false_r.
  split.
  - intros H. apply andb_prop in H as [_ H]. apply String.eqb_eq in H. exact H.
  - intros ->. reflexivity.
Qed.

Lemma vehicle_delete_Ok id db db' :
  vehicle_delete id db = Ok db' ->
  is_Some (vehicles db !! id)
  /\ vehicles db' = delete id (vehicles db)
  /\ users db' = users db
  /\ (forall i r, reservations db' !! i = Some r
                  <-> reservations db !! i = Some r /\ vehicleId r <> id)
  /\ (forall k p, payments db' !! k = Some p
                  <-> payments db !! k = Some p
                      /\ forall r, reservations db !! reservationId p = Some r ->
                                   vehicleId r <> id).
Proof.
  unfold vehicle_delete. destruct (vehicles db !! id) as [v|]; [|discriminate].
  intros [= <-]. cbn [users vehicles reservations payments].
  split; [eauto|]. split; [reflexivity|]. split; [reflexivity|]. split.
  - intros i r. rewrite map_lookup_filter_Some. reflexivity.
  - intros k p. rewrite map_lookup_filter_Some. cbn [snd].
    rewrite map_lookup_filter_None. cbn [snd].
    split; intros [Hk Hkeep]; (split; [exact Hk|]).
    + intros r Hr. destruct Hkeep as [Hkeep|Hkeep]; [congruence|]. intros Hv.
      exact (Hkeep r Hr Hv).
    + right. intros r Hr Hv. exact (Hkeep r Hr Hv).
Qed.

Lemma vehicle_delete_constraints id db db' :
  vehicle_delete id db = Ok db' -> constraints db -> constraints db'.
Proof.
  intros Hdel [[Hres Hpay] Huniq].
  destruct (vehicle_delete_Ok _ _ _ Hdel) as (_ & Hvs & Hus & Hrs & Hps).
  split; [split|].
  - intros i r Hi. apply Hrs in Hi as [Hi Hne].
    destruct (Hres i r Hi) as [Hu Hveh]. rewrite Hus, Hvs.
    split; [exact Hu|]. rewrite lookup_delete_ne by congruence. exact Hveh.
  - intros k p Hk. apply Hps in Hk as [Hk Hkeep].
    destruct (Hpay k p Hk) as [Hu [r Hr]]. rewrite Hus.
    split; [exact Hu|]. exists r. apply Hrs. split; [exact Hr|].
    exact (Hkeep r Hr).
  - intros k1 p1 Hk1 k2 p2 Hk2. apply Hps in Hk1 as [Hk1 _].
    apply Hps in Hk2 as [Hk2 _]. exact (Huniq k1 p1 Hk1 k2 p2 Hk2).
Qed.

Lemma Fleet_DELETE_cases session id db :
  (snd (Fleet.DELETE session id db) = db
   /\ response_status (fst (Fleet.DELETE session id db)) <> 200
   /\ ~ (exists s, session = Some s /\ session_user_role s = "ADMIN"
                   /\ is_Some (vehicles db !! id)))
  \/ (exists s db',
         session = Some s /\ session_user_role s = "ADMIN"
         /\ vehicle_delete id db = Ok db'
         /\ Fleet.DELETE session id db
            = (json (Message "Vehicle deleted successfully") 200, db')).
Proof.
  unfold Fleet.DELETE. destruct session as [s|].
  - destruct (hasRequiredRole s ["ADMIN"]) eqn:Hrole; cbn [negb].
    + apply hasRequiredRole_ADMIN in Hrole.
      destruct (vehicle_delete id db) as [db'|m] eqn:Hdel.
      * right. exists s, db'. auto.
      * left. cbn. split; [reflexivity|]. split; [lia|].
        intros (s' & _ & _ & [v Hv]). unfold vehicle_delete in Hdel.
        rewrite Hv in Hdel. discriminate Hdel.
    + left. cbn. split; [reflexivity|]. split; [lia|].
      intros (s' & [= <-] & Hadmin & _).
      apply hasRequiredRole_ADMIN in Hadmin. congruence.
  - left. cbn. split; [reflexivity|]. split; [lia|].
    intros (s' & [=] & _).
Qed.

(** X22: Removing a vehicle.  The request is served exactly for a session
    of role ADMIN and a vehicle that exists, and otherwise changes nothing.
    When it is served, the vehicle row is gone and with it every reservation
    of that vehicle, whatever its status, and the payments of those
    reservations; every other row is kept as it was.  The constraints of the
    schema, the absence of double bookings and the payment of every
    reservation survive the removal. *)
Theorem vehicle_DELETE_cascade :
  forall (session : option Session) (id : string) (db : DB),
    let response := fst (Fleet.DELETE session id db) in
    let db' := snd (Fleet.DELETE session id db) in
    (response_status response = 200
     <-> exists s, session = Some s /\ session_user_role s = "ADMIN"
                   /\ is_Some (vehicles db !! id))
    /\ (response_status response <> 200 -> db' = db)
    /\ (response_status response = 200 ->
        vehicles db' = delete id (vehicles db)
        /\ users db' = users db
        /\ (forall i r, reservations db' !! i = Some r
                        <-> reservations db !! i = Some r /\ vehicleId r <> id)
        /\ (forall k p, payments db' !! k = Some p
                        <-> payments db !! k = Some p
                            /\ forall r,
                                reservations db !! reservationId p = Some r ->
                                vehicleId r <> id)
        /\ (constraints db -> constraints db')
        /\ (no_double_booking db -> no_double_booking db')
        /\ (every_reservation_paid db -> every_reservation_paid db')).
Proof.
  intros session id db response db'. subst response db'.
  destruct (Fleet_DELETE_cases session id db)
    as [(Hdb & Hne & Hnot)|(s & db' & -> & Hadmin & Hdel & ->)].
  - split; [split; [intros H; contradiction | intros H; contradiction]|].
    split; [intros _; exact Hdb | intros H; contradiction].
  - cbn [fst snd response_status json].
    destruct (vehicle_delete_Ok _ _ _ Hdel) as (Hv & Hvs & Hus & Hrs & Hps).
    split; [split; [intros _; eauto | reflexivity]|].
    split; [intros H; contradiction|]. intros _.
    do 4 (split; [assumption|]). split; [|split].
    + exact (vehicle_delete_constraints _ _ _ Hdel).
    + intros Hnd i ri Hi j rj Hj. apply Hrs in Hi as [Hi _].
      apply Hrs in Hj as [Hj _]. exact (Hnd i ri Hi j rj Hj).
    + intros Hpaid i r Hi. apply Hrs in Hi as [Hi Hne].
      destruct (Hpaid i r Hi) as (k & p & Hk & Hp). exists k, p.
      split; [|exact Hp]. apply Hps. split; [exact Hk|].
      intros r0 Hr0. cbn beta in Hp. rewrite Hp, Hi in Hr0.
      injection Hr0 as <-. exact Hne.
Qed.

End FleetMore.

(** ** The page of a member's reservations *)

Section PageMore.
Import ReservationsPage VehiclesPage Edit Reads.

Lemma DELETE_ok_iff session id db :
  ok (fst (DELETE session id db)) = true
  <-> response_status (fst (DELETE session id db)) = 200.
Proof.
  unfold ok, DELETE. repeat case_match; cbn; split; intros Hx;
    try discriminate Hx; try reflexivity; lia.
Qed.

Lemma payment_head_unique i d k p :
  payments d !! k = Some p ->
  reservationId p = i ->
  (forall k' q, payments d !! k' = Some q -> reservationId q = i -> k' = k) ->
  List.head (payment_findMany (fun q => String.eqb (reservationId q) i) d)
  = Some (k, p).
Proof.
  intros Hk Hp Huniq.
  destruct (payment_findMany (fun q => String.eqb (reservationId q) i) d)
    as [|[k' q] l] eqn:E.
  - assert (In (k, p) (payment_findMany
                         (fun q => String.eqb (reservationId q) i) d)) as Hin.
    { apply payment_findMany_In. split; [exact Hk|].
      rewrite Hp. apply String.eqb_refl. }
    rewrite E in Hin. destruct Hin.
  - assert (In (k', q) (payment_findMany
                          (fun q => String.eqb (reservationId q) i) d)) as Hin
        by (rewrite E; left; reflexivity).
    apply payment_findMany_In in Hin as [Hk' Hq]. apply String.eqb_eq in Hq.
    pose proof (Huniq k' q Hk' Hq) as ->. rewrite Hk in Hk'.
    injection Hk' as <-. reflexivity.
Qed.

(** The payment that the list loads for a reservation, after a refund. *)
Lemma listed_after_refund id db i r :
  Integrity.reservationId_unique db ->
  listed (payment_updateMany (fun p => String.eqb (reservationId p) id) refund db)
    (i, r)
  = (i, r, (if String.eqb i id then refunded else fun p => p)
             <$> snd (listed db (i, r))).
Proof.
  intros Huniq. unfold listed. cbn [fst snd]. f_equal.
  set (db' := payment_updateMany _ refund db).
  destruct (List.head (payment_findMany
                         (fun p => String.eqb (reservationId p) i) db))
    as [[k p]|] eqn:E.
  - assert (In (k, p) (payment_findMany
                         (fun p => String.eqb (reservationId p) i) db)) as Hin.
    { destruct (payment_findMany _ db) as [|x l]; [discriminate E|].
      injection E as ->. left. reflexivity. }
    apply payment_findMany_In in Hin as [Hk Hp]. apply String.eqb_eq in Hp.
    rewrite (payment_head_unique i db' k
               (if String.eqb (reservationId p) id then refund p else p)).
    + rewrite Hp. cbn [fmap option_fmap option_map].
      destruct (String.eqb i id); reflexivity.
    + unfold db', payment_updateMany. cbn [payments with_payments].
      rewrite lookup_fmap, Hk. reflexivity.
    + destruct (String.eqb (reservationId p) id); exact Hp.
    + intros k' q. unfold db', payment_updateMany.
      cbn [payments with_payments]. rewrite lookup_fmap.
      destruct (payments db !! k') as [q0|] eqn:Hk'; [|discriminate].
      intros [= <-] Hq. apply (Huniq k' q0 Hk' k p Hk).
      destruct (String.eqb (reservationId q0) id); cbn [reservationId refund] in Hq;
        congruence.
  - assert (payment_findMany (fun p => String.eqb (reservationId p) i) db = [])
      as Hnil by (destruct (payment_findMany _ db); [reflexivity|discriminate E]).
    rewrite payment_findMany_nil_iff in Hnil.
    assert (payment_findMany (fun p => String.eqb (reservationId p) i) db' = [])
      as ->; [|reflexivity].
    apply payment_findMany_nil_iff. intros k q.
    unfold db', payment_updateMany. cbn [payments with_payments].
    rewrite lookup_fmap.
    destruct (payments db !! k) as [q0|] eqn:Hk; [|discriminate].
    intros [= <-]. pose proof (Hnil k q0 Hk) as Hne. cbn beta in Hne.
    destruct (String.eqb (reservationId q0) id); exact Hne.
Qed.

(** X23: cancelling on the page of a member's reservations.  The page has
    loaded its list, and no reservation has two payments.  The page reports
    success exactly when the request was answered 200; otherwise it keeps its
    items and the database is unchanged.  On success every item of the page
    with the cancelled id shows the status CANCELLED and its payment as it
    was loaded.  The list that the page loads again from the server differs
    from that: its reservations are the ones from before the request, the
    cancelled one still with its status PENDING or CONFIRMED, and the
    payment of the cancelled reservation has the status REFUNDED. *)
Theorem handleCancelReservation_page_and_server :
  forall (session : option Session) (id : string)
         (orderBy : list (string * Reservation) -> list (string * Reservation))
         (items : list Item) (db : DB),
    (forall l, Permutation (orderBy l) l) ->
    Integrity.reservationId_unique db ->
    GET_reservations_json orderBy session db = Some items ->
    let items' := fst (fst (handleCancelReservation session id items db)) in
    let toast := snd (fst (handleCancelReservation session id items db)) in
    let db' := snd (handleCancelReservation session id items db) in
    (toast = Cancelled
     <-> response_status (fst (DELETE session id db)) = 200)
    /\ (toast = Failed -> items' = items /\ db' = db)
    /\ (toast = Cancelled ->
        items'
        = map (fun item : Item =>
                 if String.eqb (fst (fst item)) id
                 then (fst (fst item),
                       withStatus ReservationStatus.CANCELLED (snd (fst item)),
                       snd item)
                 else item) items
        /\ GET_reservations_json orderBy session db'
           = Some (map (fun item : Item =>
                          if String.eqb (fst (fst item)) id
                          then (fst item, refunded <$> snd item)
                          else item) items)
        /\ (forall r p, In (id, r, p) items -> statusActive r = true)).
Proof.
  intros session id orderBy items db Hperm Huniq Hloaded items' toast db'.
  subst items' toast db'. unfold handleCancelReservation.
  pose proof (DELETE_ok_iff session id db) as Hok.
  pose proof (DELETE_cases session id db) as Hcases.
  pose proof (DELETE_reservations session id db) as Hres.
  pose proof (DELETE_outcome session id db) as Hout.
  destruct (DELETE session id db) as [response db'] eqn:E.
  cbn [fst snd] in *.
  destruct (ok response) eqn:Hokb; cbn [negb fst snd].
  - split; [split; [intros _; apply Hok; reflexivity | reflexivity]|].
    split; [discriminate|]. intros _.
    assert (response_status response = 200) as H200 by (apply Hok; reflexivity).
    destruct Hcases as [[_ Hne]|(s & r & -> & Hr & Hmay & Hact)];
      [contradiction|].
    rewrite (DELETE_permitted s id db r Hr Hmay Hact) in E.
    injection E as _ <-.
    unfold GET_reservations_json, GET_reservations in *.
    cbn [list_body] in *. injection Hloaded as <-.
    split; [reflexivity|]. split.
    + f_equal. unfold reservation_findMany.
      cbn [reservations payment_updateMany with_payments].
      rewrite !map_map. apply map_ext. intros [i ri].
      rewrite (listed_after_refund id db i ri Huniq).
      unfold listed. cbn [fst snd]. destruct (String.eqb i id); [reflexivity|].
      destruct (List.head _); reflexivity.
    + intros r0 p Hin. apply in_map_iff in Hin as ([i ri] & Heq & Hin).
      unfold listed in Heq. cbn [fst snd] in Heq. injection Heq as -> -> _.
      assert (In (id, r0) (reservation_findMany
                (fun r1 => if hasRequiredRole s ["ADMIN"; "EMPLOYEE"] then true
                           else String.eqb (userId r1) (session_user_id s)) db))
        as Hin'.
      { apply list_elem_of_In. rewrite <- (Hperm _).
        apply list_elem_of_In, Hin. }
      apply reservation_findMany_In in Hin' as [Hr0 _].
      rewrite Hr in Hr0. injection Hr0 as <-. exact Hact.
  - split; [split; [discriminate
                   | intros H; apply Hok in H; discriminate H]|].
    split; [|discriminate]. intros _. split; [reflexivity|].
    destruct Hcases as [[Hdb _]|(s & r & -> & Hr & Hmay & Hact)]; [exact Hdb|].
    exfalso. rewrite (DELETE_permitted s id db r Hr Hmay Hact) in E.
    injection E as <- _. discriminate Hokb.
Qed.

(** Dom cancels "res-3" on the page: the page shows it CANCELLED, the list
    loaded again shows it PENDING with its payment REFUNDED. *)
Lemma handleCancelReservation_page_and_server_witness :
  exists items r p,
    GET_reservations_json (fun l => l) (Some Seed.dom_) Seed.booked = Some items
    /\ In ("res-3", r, Some p) items
    /\ GET_reservations_json (fun l => l) (Some Seed.dom_)
         (snd (handleCancelReservation (Some Seed.dom_) "res-3" items
                 Seed.booked))
       = Some (map (fun item : Item =>
                      if String.eqb (fst (fst item)) "res-3"
                      then (fst item, refunded <$> snd item)
                      else item) items)
    /\ status r = ReservationStatus.PENDING.
Proof.
  eexists. eexists. eexists. split; [reflexivity|].
  match goal with
  | |- _ /\ GET_reservations_json _ _ (snd (handleCancelReservation _ _ ?items _))
          = _ /\ _ =>
      destruct (handleCancelReservation_page_and_server (Some Seed.dom_) "res-3"
                  (fun l => l) items Seed.booked)
        as (_ & _ & Hsuccess)
  end.
  - intros l. reflexivity.
  - apply (bool_decide_unpack (Integrity.reservationId_unique Seed.booked)).
    vm_compute. exact I.
  - reflexivity.
  - destruct Hsuccess as (_ & Hreload & _); [vm_compute; reflexivity|].
    split; [|split; [exact Hreload|]].
    + vm_compute. repeat (first [left; reflexivity | right]).
    + reflexivity.
Defined.

End PageMore.

(** ** Accounts *)

Section AccountsMore.
Import Accounts Integrity Cascade.

Lemma rows_lookup st i u p :
  rows st !! i = Some (u, p)
  <-> users (tables st) !! i = Some u /\ profiles st !! i = Some p.
Proof. unfold rows. rewrite map_lookup_zip_Some. reflexivity. Qed.

Lemma rows_insert st id u p :
  rows {| tables := with_users (insert id u) (tables st);
          profiles := <[id := p]> (profiles st) |}
  = <[id := (u, p)]> (rows st).
Proof.
  unfold rows. cbn [tables profiles users with_users]. symmetry.
  apply map_insert_zip_with.
Qed.

Lemma find_by_Some column value st i u p :
  user_findUnique_by column value st = Some (i, (u, p)) ->
  rows st !! i = Some (u, p) /\ column p = value.
Proof.
  unfold user_findUnique_by. intros H. apply List.find_some in H as [Hin Heq].
  cbn [snd] in Heq. apply String.eqb_eq in Heq. split; [|exact Heq].
  apply elem_of_map_to_list, list_elem_of_In. exact Hin.
Qed.

Lemma find_by_None column value st :
  user_findUnique_by column value st = None
  <-> forall i u p, rows st !! i = Some (u, p) -> column p <> value.
Proof.
  split.
  - intros H i u p Hi. unfold user_findUnique_by in H.
    assert (In (i, (u, p)) (map_to_list (rows st))) as Hin
        by (apply list_elem_of_In, elem_of_map_to_list; exact Hi).
    pose proof (List.find_none _ _ H (i, (u, p)) Hin) as Hne.
    cbn [snd] in Hne. apply String.eqb_neq in Hne. exact Hne.
  - intros Hall. destruct (user_findUnique_by column value st)
      as [[i [u p]]|] eqn:E; [|reflexivity].
    apply find_by_Some in E as [Hi Heq]. destruct (Hall i u p Hi Heq).
Qed.

Lemma find_by_unique column value st i u p :
  rows st !! i = Some (u, p) -> column p = value ->
  (forall j u' q, rows st !! j = Some (u', q) -> column q = value -> j = i) ->
  user_findUnique_by column value st = Some (i, (u, p)).
Proof.
  intros Hi Heq Huniq.
  destruct (user_findUnique_by column value st) as [[j [u' q]]|] eqn:E.
  - apply find_by_Some in E as [Hj Hq].
    pose proof (Huniq j u' q Hj Hq) as ->. rewrite Hi in Hj. congruence.
  - rewrite find_by_None in E. destruct (E i u p Hi Heq).
Qed.

Lemma user_create_Ok id u p st st' :
  user_create id u p st = Ok st'
  <-> users (tables st) !! id = None /\ profiles st !! id = None
      /\ (forall i u' q, rows st !! i = Some (u', q) ->
                         email q <> email p
                         /\ driversLicenseNumber q <> driversLicenseNumber p)
      /\ st' = {| tables := with_users (insert id u) (tables st);
                  profiles := <[id := p]> (profiles st) |}.
Proof.
  unfold user_create.
  destruct (users (tables st) !! id) eqn:Hu;
    [split; [discriminate | intros (H & _); discriminate H]|].
  destruct (profiles st !! id) eqn:Hp;
    [split; [discriminate | intros (_ & H & _); discriminate H]|].
  destruct (user_findUnique_by email (email p) st) as [[i [u' q]]|] eqn:He.
  { apply find_by_Some in He as [Hi Heq].
    split; [discriminate|]. intros (_ & _ & Hall & _).
    destruct (Hall i u' q Hi) as [Hne _]. contradiction. }
  destruct (user_findUnique_by driversLicenseNumber (driversLicenseNumber p) st)
    as [[i [u' q]]|] eqn:Hl.
  { apply find_by_Some in Hl as [Hi Heq].
    split; [discriminate|]. intros (_ & _ & Hall & _).
    destruct (Hall i u' q Hi) as [_ Hne]. contradiction. }
  rewrite find_by_None in He, Hl.
  split.
  - intros [= <-]. repeat split; eauto.
  - intros (_ & _ & _ & ->). reflexivity.
Qed.

Lemma minor_false now birthMs :
  minor now (Instant birthMs) = false <-> 18 * msPerYear <= now - birthMs.
Proof.
  unfold minor, age, msPerYear. cbn [getTime]. rewrite Z.ltb_ge.
  split; intros H.
  - pose proof (Z.mul_div_le (now - birthMs) 31557600000 ltac:(lia)). lia.
  - apply Z.div_le_lower_bound; lia.
Qed.

Lemma shorter_false s n : shorter s n = false <-> (n <= String.length s)%nat.
Proof. unfold shorter. apply Nat.ltb_ge. Qed.

Lemma truthy_length s n : (S n <= String.length s)%nat -> truthy s = true.
Proof. destruct s; cbn; [lia | reflexivity]. Qed.

(** What [register] needs of a request and a store to create the user. *)
Lemma register_cases B b now id salt st :
  (snd (register B b now id salt st) = st
   /\ account_status (fst (register B b now id salt st)) <> 201)
  \/ (exists name_ license birthMs,
         reg_name b = Some name_
         /\ reg_driversLicenseNumber b = Some license
         /\ reg_birthDate b = Some (Instant birthMs)
         /\ truthy (reg_email b) = true
         /\ (5 <= String.length (reg_password b))%nat
         /\ (5 <= String.length license)%nat
         /\ 18 * msPerYear <= now - birthMs
         /\ (forall i u p, rows st !! i = Some (u, p) ->
                           email p <> reg_email b
                           /\ driversLicenseNumber p <> license)
         /\ users (tables st) !! id = None
         /\ profiles st !! id = None
         /\ register B b now id salt st
            = (reply (UserJson id name_ (reg_email b) Role.MEMBER) 201,
               {| tables :=
                    with_users (insert id {| role := Role.MEMBER |}) (tables st);
                  profiles :=
                    <[id := {| name := name_; email := reg_email b;
                               password := hash B (reg_password b) salt;
                               phone := None; address := None; city := None;
                               country := "Germany"; birthDate := birthMs;
                               driversLicenseNumber := license |}]>
                      (profiles st) |})).
Proof.
  unfold register.
  destruct (truthy (reg_email b)) eqn:Hemail; cbn [negb];
    [|left; cbn; split; [reflexivity|lia]].
  destruct (truthy (reg_password b)) eqn:Hpw; cbn [negb];
    [|left; cbn; split; [reflexivity|lia]].
  destruct (shorter (reg_password b) 5) eqn:Hlen;
    [left; cbn; split; [reflexivity|lia]|].
  destruct (user_findUnique_by email (reg_email b) st) eqn:He;
    [left; cbn; split; [reflexivity|lia]|].
  destruct (reg_driversLicenseNumber b) as [license|];
    [|left; cbn; split; [reflexivity|lia]].
  destruct (user_findUnique_by driversLicenseNumber license st) eqn:Hl;
    [left; cbn; split; [reflexivity|lia]|].
  destruct (reg_birthDate b) as [birth|];
    [|left; cbn; split; [reflexivity|lia]].
  destruct (minor now birth) eqn:Hminor;
    [left; cbn; split; [reflexivity|lia]|].
  destruct (truthy license) eqn:Hlic; cbn [negb];
    [|left; cbn; split; [reflexivity|lia]].
  destruct (shorter license 5) eqn:Hlen';
    [left; cbn; split; [reflexivity|lia]|].
  destruct (reg_name b) as [name_|]; [|left; cbn; split; [reflexivity|lia]].
  destruct birth as [birthMs|]; cbn [getTime];
    [|left; cbn; split; [reflexivity|lia]].
  match goal with
  | |- context [user_create id ?u ?p st] =>
      destruct (user_create id u p st) as [st'|m] eqn:Hcreate
  end; [|left; cbn; split; [reflexivity|lia]].
  apply user_create_Ok in Hcreate as (Hu & Hp & Hall & ->).
  cbn [email driversLicenseNumber] in Hall.
  right. exists name_, license, birthMs.
  apply shorter_false in Hlen, Hlen'. apply minor_false in Hminor.
  repeat split; try reflexivity; try assumption; eapply Hall; eassumption.
Qed.

(** X24: Registration.  An account is created exactly when the request has
    a name, an email address, a password and a driver's license number of at
    least five characters each of the last two, the birth date is a valid
    date at least 18 years of 365.25 days before the moment of the request,
    no user has the email address or the license number, and the key of the
    new row is fresh.  The new user is a MEMBER whatever the request says,
    the stored password is the bcrypt hash, and every other row is as it
    was.  A request that is not answered 201 leaves the store unchanged. *)
Theorem register_accepted_iff :
  forall (B : Bcrypt) (b : RegisterBody) (now : Z) (id salt : string)
         (st : Store),
    let response := fst (register B b now id salt st) in
    let st' := snd (register B b now id salt st) in
    (account_status response = 201
     <-> exists name_ license birthMs,
         reg_name b = Some name_
         /\ reg_driversLicenseNumber b = Some license
         /\ reg_birthDate b = Some (Instant birthMs)
         /\ truthy (reg_email b) = true
         /\ (5 <= String.length (reg_password b))%nat
         /\ (5 <= String.length license)%nat
         /\ 18 * msPerYear <= now - birthMs
         /\ (forall i u p, rows st !! i = Some (u, p) ->
                           email p <> reg_email b
                           /\ driversLicenseNumber p <> license)
         /\ users (tables st) !! id = None
         /\ profiles st !! id = None)
    /\ (account_status response <> 201 -> st' = st)
    /\ (account_status response = 201 ->
        exists name_ license birthMs,
          reg_name b = Some name_
          /\ reg_driversLicenseNumber b = Some license
          /\ reg_birthDate b = Some (Instant birthMs)
          /\ account_body response = UserJson id name_ (reg_email b) Role.MEMBER
          /\ rows st' !! id
             = Some ({| role := Role.MEMBER |},
                     {| name := name_; email := reg_email b;
                        password := hash B (reg_password b) salt;
                        phone := None; address := None; city := None;
                        country := "Germany"; birthDate := birthMs;
                        driversLicenseNumber := license |})
          /\ (forall j, j <> id -> rows st' !! j = rows st !! j)
          /\ vehicles (tables st') = vehicles (tables st)
          /\ reservations (tables st') = reservations (tables st)
          /\ payments (tables st') = payments (tables st)).
Proof.
  intros B b now id salt st response st'. subst response st'.
  destruct (register_cases B b now id salt st)
    as [[Hst Hne]|(name_ & license & birthMs & Hn & Hl & Hb & He & Hpw & Hlic
                   & Hage & Hall & Hu & Hp & Hreg)].
  - split; [|split; [intros _; exact Hst | intros H; contradiction]].
    split; [intros H; contradiction|].
    intros (name_ & license & birthMs & Hn & Hl & Hb & He & Hpw & Hlic & Hage
            & Hall & Hu & Hp).
    exfalso. apply Hne. unfold register.
    rewrite He, (truthy_length _ 4 Hpw), (proj2 (shorter_false _ 5) Hpw).
    cbn [negb].
    assert (user_findUnique_by email (reg_email b) st = None) as ->
        by (apply find_by_None; intros i u p Hi; apply (Hall i u p Hi)).
    rewrite Hl.
    assert (user_findUnique_by driversLicenseNumber license st = None) as ->
        by (apply find_by_None; intros i u p Hi; apply (Hall i u p Hi)).
    rewrite Hb, (proj2 (minor_false now birthMs) Hage),
      (truthy_length _ 4 Hlic), (proj2 (shorter_false _ 5) Hlic), Hn.
    cbn [negb getTime].
    match goal with
    | |- context [user_create id ?u ?p st] =>
        destruct (user_create id u p st) as [st'|m] eqn:Hcreate
    end; [reflexivity|].
    exfalso.
    match type of Hcreate with
    | user_create id ?u ?p st = _ =>
        assert (user_create id u p st
                = Ok {| tables := with_users (insert id u) (tables st);
                        profiles := <[id := p]> (profiles st) |}) as Hok
    end.
    { apply user_create_Ok. repeat split; try assumption;
        cbn [email driversLicenseNumber]; eapply Hall; eassumption. }
    rewrite Hok in Hcreate. discriminate Hcreate.
  - rewrite Hreg. cbn [fst snd account_status account_body reply].
    split; [split; [intros _; exists name_, license, birthMs; auto 12
                   | reflexivity]|].
    split; [intros H; contradiction|]. intros _.
    exists name_, license, birthMs.
    do 4 (split; [reflexivity || assumption|]).
    rewrite rows_insert. split; [apply lookup_insert_eq|].
    split; [intros j Hj; apply lookup_insert_ne; congruence|].
    repeat split; reflexivity.
Qed.

Lemma sound_plain : sound SeedAccounts.plain.
Proof. intros p salt. apply String.eqb_refl. Qed.

(** X25: Registration and sign-in.  With a bcrypt whose [compare] accepts
    a password against its hash, the email address and the password of an
    accepted registration sign in: [authorize] returns the new user, whose
    session has the role MEMBER.  The registration does not change the
    outcome of a sign-in with another email address that identifies at most
    one user. *)
Theorem register_then_authorize :
  forall (B : Bcrypt) (b : RegisterBody) (now : Z) (id salt : string)
         (st : Store),
    sound B ->
    account_status (fst (register B b now id salt st)) = 201 ->
    let st' := snd (register B b now id salt st) in
    (exists user,
        authorize B (reg_email b) (reg_password b) st' = Some user
        /\ auth_id user = id
        /\ auth_email user = reg_email b
        /\ auth_role user = Role.MEMBER
        /\ session_of user
           = {| session_user_id := id; session_user_role := "MEMBER" |})
    /\ (forall email_ password_,
           email_ <> reg_email b ->
           (forall i j u u' p q,
               rows st !! i = Some (u, p) -> rows st !! j = Some (u', q) ->
               email p = email_ -> email q = email_ -> i = j) ->
           authorize B email_ password_ st' = authorize B email_ password_ st).
Proof.
  intros B b now id salt st Hsound H201 st'. subst st'.
  destruct (register_cases B b now id salt st)
    as [[_ Hne]|(name_ & license & birthMs & Hn & Hl & Hb & He & Hpw & Hlic
                 & Hage & Hall & Hu & Hp & Hreg)]; [contradiction|].
  rewrite Hreg. cbn [snd].
  match goal with
  | |- context [<[id := ?p]> (profiles st)] => set (profile := p)
  end.
  set (st' := {| tables := with_users (insert id {| role := Role.MEMBER |})
                             (tables st);
                 profiles := <[id := profile]> (profiles st) |}).
  assert (rows st' = <[id := ({| role := Role.MEMBER |}, profile)]> (rows st))
    as Hrows by apply rows_insert.
  assert (rows st !! id = None) as Hid.
  { destruct (rows st !! id) as [[u p]|] eqn:E; [|reflexivity].
    apply rows_lookup in E as [E _]. congruence. }
  split.
  - eexists. unfold authorize.
    rewrite He, (truthy_length _ 4 Hpw). cbn [negb orb].
    rewrite (find_by_unique email (reg_email b) st' id
               {| role := Role.MEMBER |} profile).
    + cbn [password profile]. rewrite Hsound.
      repeat split; reflexivity.
    + rewrite Hrows. apply lookup_insert_eq.
    + reflexivity.
    + intros j u' q Hj Hq. destruct (decide (j = id)) as [->|Hne]; [reflexivity|].
      rewrite Hrows, lookup_insert_ne in Hj by congruence.
      destruct (Hall j u' q Hj) as [Hne' _]. contradiction.
  - intros email_ password_ Hother Huniq. unfold authorize.
    destruct (negb (truthy email_) || negb (truthy password_)); [reflexivity|].
    destruct (user_findUnique_by email email_ st) as [[i [u p]]|] eqn:E.
    + apply find_by_Some in E as [Hi Hemail].
      assert (i <> id) as Hne by congruence.
      rewrite (find_by_unique email email_ st' i u p); [reflexivity| | |].
      * rewrite Hrows, lookup_insert_ne by congruence. exact Hi.
      * exact Hemail.
      * intros j u' q Hj Hq. destruct (decide (j = id)) as [->|Hne'].
        { rewrite Hrows, lookup_insert_eq in Hj. injection Hj as <- <-.
          cbn [email profile] in Hq. congruence. }
        rewrite Hrows, lookup_insert_ne in Hj by congruence.
        exact (Huniq j i u' u q p Hj Hi Hq Hemail).
    + rewrite find_by_None in E.
      assert (user_findUnique_by email email_ st' = None) as ->; [|reflexivity].
      apply find_by_None. intros j u' q Hj.
      destruct (decide (j = id)) as [->|Hne'].
      * rewrite Hrows, lookup_insert_eq in Hj. injection Hj as <- <-.
        cbn [email profile]. congruence.
      * rewrite Hrows, lookup_insert_ne in Hj by congruence.
        exact (E j u' q Hj).
Qed.

(** Eve registers on 1 July 2025, her eighteenth birthday, and signs in. *)
Lemma register_then_authorize_witness :
  exists user,
    authorize SeedAccounts.plain "eve@user.com" "secret"
      (snd (register SeedAccounts.plain SeedAccounts.newcomer Seed.now
              "user-4" "salt" SeedAccounts.store))
    = Some user
    /\ auth_id user = "user-4" /\ auth_role user = Role.MEMBER.
Proof.
  destruct (register_then_authorize SeedAccounts.plain SeedAccounts.newcomer
              Seed.now "user-4" "salt" SeedAccounts.store sound_plain)
    as [(user & Hauth & Hid & _ & Hrole & _) _].
  - vm_compute. reflexivity.
  - exists user. split; [exact Hauth|]. split; assumption.
Defined.

Lemma user_update_Ok id data st row' st' :
  user_update id data st = Ok (row', st')
  <-> exists row,
      rows st !! id = Some row /\ data row = Ok row'
      /\ st' = {| tables := with_users (insert id (fst row')) (tables st);
                  profiles := <[id := snd row']> (profiles st) |}.
Proof.
  unfold user_update, user_findUnique.
  destruct (rows st !! id) as [row|];
    [|split; [discriminate | intros (row & [=] & _)]].
  destruct (data row) as [r|m] eqn:Hd; cbn [mbind Exc_bind mret Exc_ret].
  - split.
    + intros [= <- <-]. exists row. auto.
    + intros (row0 & [= <-] & Hd' & ->). rewrite Hd in Hd'.
      injection Hd' as <-. reflexivity.
  - split; [discriminate|]. intros (row0 & [= <-] & Hd' & _).
    rewrite Hd in Hd'. discriminate Hd'.
Qed.

Lemma with_users_insert_id id u db :
  users db !! id = Some u -> with_users (insert id u) db = db.
Proof.
  intros H. destruct db as [us vs rs ps]. unfold with_users.
  cbn [users vehicles reservations payments] in *. rewrite (insert_id _ _ _ H).
  reflexivity.
Qed.

Lemma password_PUT_cases B session b salt st :
  (snd (password_PUT B session b salt st) = st
   /\ account_status (fst (password_PUT B session b salt st)) <> 200
   /\ ~ (exists s u p current,
            session = Some s /\ rows st !! session_user_id s = Some (u, p)
            /\ currentPassword b = Some current
            /\ compare B current (password p) = true
            /\ (5 <= String.length (newPassword b))%nat))
  \/ (exists s u p current,
         session = Some s /\ rows st !! session_user_id s = Some (u, p)
         /\ currentPassword b = Some current
         /\ compare B current (password p) = true
         /\ (5 <= String.length (newPassword b))%nat
         /\ password_PUT B session b salt st
            = (reply Success 200,
               {| tables := with_users (insert (session_user_id s) u) (tables st);
                  profiles :=
                    <[session_user_id s :=
                        withPassword (hash B (newPassword b) salt) p]>
                      (profiles st) |})).
Proof.
  unfold password_PUT, user_findUnique.
  destruct session as [s|].
  2: { left. cbn. split; [reflexivity|]. split; [lia|].
       intros (s & u & p & c & [=] & _). }
  destruct (rows st !! session_user_id s) as [[u p]|] eqn:Hrow.
  2: { left. cbn. split; [reflexivity|]. split; [lia|].
       intros (s' & u & p & c & [= <-] & H & _). congruence. }
  destruct (currentPassword b) as [current|] eqn:Hcur.
  2: { left. cbn. split; [reflexivity|]. split; [lia|].
       intros (s' & u' & p' & c & _ & _ & [=] & _). }
  cbn [snd].
  destruct (compare B current (password p)) eqn:Hcmp; cbn [negb].
  2: { left. cbn. split; [reflexivity|]. split; [lia|].
       intros (s' & u' & p' & c & [= <-] & H & [= <-] & Hc & _).
       rewrite Hrow in H. injection H as <- <-. congruence. }
  destruct (truthy (newPassword b)) eqn:Htr; cbn [negb].
  2: { left. cbn. split; [reflexivity|]. split; [lia|].
       intros (s' & u' & p' & c & _ & _ & _ & _ & Hlen).
       rewrite (truthy_length _ 4 Hlen) in Htr. discriminate Htr. }
  destruct (shorter (newPassword b) 5) eqn:Hlen.
  { left. cbn. split; [reflexivity|]. split; [lia|].
    intros (s' & u' & p' & c & _ & _ & _ & _ & Hlen').
    apply shorter_false in Hlen'. congruence. }
  apply shorter_false in Hlen.
  unfold user_update, user_findUnique. rewrite Hrow.
  cbn [setPassword mbind Exc_bind mret Exc_ret fst snd].
  right. exists s, u, p, current. auto 10.
Qed.

(** X26: Changing the password.  The request is served exactly for a
    session whose user exists, with the current password that [compare]
    accepts against the stored hash and a new password of at least five
    characters; otherwise nothing changes.  When it is served, the hash of
    the new password replaces the stored one and nothing else of the store
    changes: not the other columns of the row, not the role, no other row.
    With a bcrypt whose [compare] accepts a password against its hash, and an
    email address that identifies the user, the new password then signs
    in. *)
Theorem password_PUT_changes_password :
  forall (B : Bcrypt) (session : option Session) (b : PasswordBody)
         (salt : string) (st : Store),
    let response := fst (password_PUT B session b salt st) in
    let st' := snd (password_PUT B session b salt st) in
    (account_status response = 200
     <-> exists s u p current,
         session = Some s /\ rows st !! session_user_id s = Some (u, p)
         /\ currentPassword b = Some current
         /\ compare B current (password p) = true
         /\ (5 <= String.length (newPassword b))%nat)
    /\ (account_status response <> 200 -> st' = st)
    /\ (account_status response = 200 ->
        exists s u p,
          session = Some s /\ rows st !! session_user_id s = Some (u, p)
          /\ tables st' = tables st
          /\ profiles st'
             = <[session_user_id s :=
                   withPassword (hash B (newPassword b) salt) p]> (profiles st)
          /\ (sound B ->
              truthy (email p) = true ->
              (forall j u' q, rows st !! j = Some (u', q) ->
                              email q = email p -> j = session_user_id s) ->
              authorize B (email p) (newPassword b) st'
              = Some {| auth_id := session_user_id s; auth_email := email p;
                        auth_name := name p; auth_role := role u |})).
Proof.
  intros B session b salt st response st'. subst response st'.
  destruct (password_PUT_cases B session b salt st)
    as [(Hst & Hne & Hnot)|(s & u & p & current & -> & Hrow & Hcur & Hcmp
                            & Hlen & ->)].
  - split; [split; intros H; contradiction|].
    split; [intros _; exact Hst | intros H; contradiction].
  - cbn [fst snd account_status reply].
    split; [split; [intros _; exists s, u, p, current; auto | reflexivity]|].
    split; [intros H; contradiction|]. intros _. exists s, u, p.
    split; [reflexivity|]. split; [exact Hrow|].
    pose proof Hrow as Hrow'. apply rows_lookup in Hrow' as [Hu Hp].
    cbn [tables profiles]. split; [apply with_users_insert_id, Hu|].
    split; [reflexivity|]. intros Hsound Hemail Huniq.
    set (st' := {| tables := with_users (insert (session_user_id s) u) (tables st);
                   profiles :=
                     <[session_user_id s :=
                         withPassword (hash B (newPassword b) salt) p]>
                       (profiles st) |}).
    assert (rows st' = <[session_user_id s :=
                           (u, withPassword (hash B (newPassword b) salt) p)]>
                         (rows st)) as Hrows by apply rows_insert.
    unfold authorize.
    rewrite Hemail, (truthy_length _ 4 Hlen). cbn [negb orb].
    rewrite (find_by_unique email (email p) st' (session_user_id s) u
               (withPassword (hash B (newPassword b) salt) p)).
    + cbn [password withPassword email name]. rewrite Hsound. reflexivity.
    + rewrite Hrows. apply lookup_insert_eq.
    + reflexivity.
    + intros j u' q Hj Hq.
      destruct (decide (j = session_user_id s)) as [->|Hne]; [reflexivity|].
      rewrite Hrows, lookup_insert_ne in Hj by congruence.
      exact (Huniq j u' q Hj Hq).
Qed.

(** Dom changes the password and signs in with the new one. *)
Lemma password_PUT_changes_password_witness :
  authorize SeedAccounts.plain "dom@user.com" "new-secret"
    (snd (password_PUT SeedAccounts.plain (Some Seed.dom_)
            {| currentPassword := Some "member-password";
               newPassword := "new-secret" |} "salt" SeedAccounts.store))
  = Some {| auth_id := "user-2"; auth_email := "dom@user.com";
            auth_name := "Dom"; auth_role := Role.MEMBER |}.
Proof.
  destruct (password_PUT_changes_password SeedAccounts.plain (Some Seed.dom_)
              {| currentPassword := Some "member-password";
                 newPassword := "new-secret" |} "salt" SeedAccounts.store)
    as (_ & _ & H).
  destruct H as (s & u & p & Hs & Hrow & _ & _ & Hauth);
    [vm_compute; reflexivity|].
  injection Hs as <-. vm_compute in Hrow. injection Hrow as <- <-.
  apply Hauth.
  - exact sound_plain.
  - reflexivity.
  - assert (map_Forall (fun j (uq : User * Profile) =>
                          email (snd uq) = "dom@user.com" -> j = "user-2")
              (rows SeedAccounts.store)) as Huniq.
    { apply (bool_decide_unpack
               (map_Forall (fun j (uq : User * Profile) =>
                              email (snd uq) = "dom@user.com" -> j = "user-2")
                  (rows SeedAccounts.store))).
      vm_compute. exact I. }
    intros j u' q Hj Hq. exact (Huniq j (u', q) Hj Hq).
Defined.

Lemma hasRequiredRole__ADMIN s :
  hasRequiredRole_ s ["ADMIN"] = true <-> session_user_role s = "ADMIN".
Proof.
  unfold hasRequiredRole_, includes. cbn [existsb]. rewrite orb_false_r.
  apply String.eqb_eq.
Qed.

Lemma assignable_role role_ :
  role_ ∈ ["MEMBER"; "EMPLOYEE"; "ADMIN"] ->
  exists r, Role_of_string role_ = Some r /\ Role.to_string r = role_
            /\ r <> Role.GUEST.
Proof.
  intros H. apply includes_elem in H. unfold includes in H. cbn [existsb] in H.
  rewrite orb_false_r in H.
  apply orb_prop in H as [H|H]; [|apply orb_prop in H as [H|H]];
    apply String.eqb_eq in H; subst role_.
  - exists Role.MEMBER. repeat split; (reflexivity || discriminate).
  - exists Role.EMPLOYEE. repeat split; (reflexivity || discriminate).
  - exists Role.ADMIN. repeat split; (reflexivity || discriminate).
Qed.

Lemma users_PUT_cases session id role_ st :
  (snd (users_PUT session id role_ st) = st
   /\ account_status (fst (users_PUT session id role_ st)) <> 200
   /\ ~ (exists s u p,
            session = Some s /\ session_user_role s = "ADMIN"
            /\ role_ ∈ ["MEMBER"; "EMPLOYEE"; "ADMIN"]
            /\ rows st !! id = Some (u, p)))
  \/ (exists s u p r,
         session = Some s /\ session_user_role s = "ADMIN"
         /\ role_ ∈ ["MEMBER"; "EMPLOYEE"; "ADMIN"]
         /\ rows st !! id = Some (u, p)
         /\ Role_of_string role_ = Some r /\ Role.to_string r = role_
         /\ r <> Role.GUEST
         /\ users_PUT session id role_ st
            = (reply (UserJson id (name p) (email p) r) 200,
               {| tables := with_users (insert id {| role := r |}) (tables st);
                  profiles := <[id := p]> (profiles st) |})).
Proof.
  unfold users_PUT. destruct session as [s|].
  2: { left. cbn. split; [reflexivity|]. split; [lia|].
       intros (s & u & p & [=] & _). }
  destruct (hasRequiredRole_ s ["ADMIN"]) eqn:Hadmin; cbn [negb].
  2: { left. cbn. split; [reflexivity|]. split; [lia|].
       intros (s' & u & p & [= <-] & H & _).
       apply hasRequiredRole__ADMIN in H. congruence. }
  apply hasRequiredRole__ADMIN in Hadmin.
  destruct (includes ["MEMBER"; "EMPLOYEE"; "ADMIN"] role_) eqn:Hrole;
    cbn [negb].
  2: { left. cbn. split; [reflexivity|]. split; [lia|].
       intros (s' & u & p & _ & _ & H & _).
       apply includes_elem in H. congruence. }
  apply includes_elem in Hrole.
  destruct (assignable_role role_ Hrole) as (r & Hr & Hstr & Hguest).
  unfold user_update, user_findUnique.
  destruct (rows st !! id) as [[u p]|] eqn:Hrow.
  2: { left. cbn. split; [reflexivity|]. split; [lia|].
       intros (s' & u & p & _ & _ & _ & [=]). }
  unfold setRole. rewrite Hr.
  cbn [mbind Exc_bind mret Exc_ret fst snd userJson name email role].
  right. exists s, u, p, r. auto 10.
Qed.

(** X27: Changing a user's role.  The request is served exactly for a
    session of role ADMIN, one of the roles MEMBER, EMPLOYEE and ADMIN, and
    a user that exists; nothing excepts the administrator's own account.
    When it is served the user has the requested role, which is never GUEST,
    nothing else of the store changes, and the administrator who reads the
    user back is given the new role; otherwise nothing changes at all. *)
Theorem users_PUT_sets_role :
  forall (session : option Session) (id role_ : string) (st : Store),
    let response := fst (users_PUT session id role_ st) in
    let st' := snd (users_PUT session id role_ st) in
    (account_status response = 200
     <-> exists s u p,
         session = Some s /\ session_user_role s = "ADMIN"
         /\ role_ ∈ ["MEMBER"; "EMPLOYEE"; "ADMIN"]
         /\ rows st !! id = Some (u, p))
    /\ (account_status response <> 200 -> st' = st)
    /\ (account_status response = 200 ->
        exists r,
          Role.to_string r = role_ /\ r <> Role.GUEST
          /\ users (tables st') = <[id := {| role := r |}]> (users (tables st))
          /\ profiles st' = profiles st
          /\ vehicles (tables st') = vehicles (tables st)
          /\ reservations (tables st') = reservations (tables st)
          /\ payments (tables st') = payments (tables st)
          /\ account_body (users_GET session id st') = account_body response
          /\ account_status (users_GET session id st') = 200).
Proof.
  intros session id role_ st response st'. subst response st'.
  destruct (users_PUT_cases session id role_ st)
    as [(Hst & Hne & Hnot)|(s & u & p & r & -> & Hadmin & Hrole & Hrow & Hr
                            & Hstr & Hguest & ->)].
  - split; [split; intros H; contradiction|].
    split; [intros _; exact Hst | intros H; contradiction].
  - cbn [fst snd account_status reply].
    split; [split; [intros _; exists s, u, p; auto | reflexivity]|].
    split; [intros H; contradiction|]. intros _. exists r.
    assert (users_GET (Some s) id
              {| tables := with_users (insert id {| role := r |}) (tables st);
                 profiles := <[id := p]> (profiles st) |}
            = reply (UserJson id (name p) (email p) r) 200) as ->.
    { unfold users_GET, user_findUnique. rewrite Hadmin, rows_insert.
      rewrite lookup_insert_eq. reflexivity. }
    apply rows_lookup in Hrow as [Hu Hp].
    cbn [tables profiles users vehicles reservations payments with_users
         account_body account_status reply].
    rewrite (insert_id _ _ _ Hp). repeat split; assumption.
Qed.


Lemma Cascade_user_delete_Ok id db db' :
  Cascade.user_delete id db = Ok db' ->
  is_Some (users db !! id)
  /\ users db' = delete id (users db)
  /\ vehicles db' = vehicles db
  /\ (forall i r, reservations db' !! i = Some r
                  <-> reservations db !! i = Some r /\ userId r <> id)
  /\ (forall k p, payments db' !! k = Some p
                  <-> payments db !! k = Some p /\ payment_userId p <> id
                      /\ forall r, reservations db !! reservationId p = Some r ->
                                   userId r <> id).
Proof.
  unfold Cascade.user_delete. destruct (users db !! id) as [u|]; [|discriminate].
  intros [= <-]. cbn [users vehicles reservations payments].
  split; [eauto|]. split; [reflexivity|]. split; [reflexivity|]. split.
  - intros i r. rewrite map_lookup_filter_Some. reflexivity.
  - intros k p. rewrite map_lookup_filter_Some. cbn [snd].
    rewrite map_lookup_filter_None. cbn [snd].
    split; intros (Hk & Hu & Hkeep); (split; [exact Hk|]; split; [exact Hu|]).
    + intros r Hr. destruct Hkeep as [Hkeep|Hkeep]; [congruence|]. intros Hv.
      exact (Hkeep r Hr Hv).
    + right. intros r Hr Hv. exact (Hkeep r Hr Hv).
Qed.

Lemma Cascade_user_delete_constraints id db db' :
  Cascade.user_delete id db = Ok db' -> constraints db -> constraints db'.
Proof.
  intros Hdel [[Hres Hpay] Huniq].
  destruct (Cascade_user_delete_Ok _ _ _ Hdel) as (_ & Hus & Hvs & Hrs & Hps).
  split; [split|].
  - intros i r Hi. apply Hrs in Hi as [Hi Hne].
    destruct (Hres i r Hi) as [Hu Hveh]. rewrite Hus, Hvs.
    split; [|exact Hveh]. rewrite lookup_delete_ne by congruence. exact Hu.
  - intros k p Hk. apply Hps in Hk as (Hk & Hne & Hkeep).
    destruct (Hpay k p Hk) as [Hu [r Hr]]. rewrite Hus.
    split; [rewrite lookup_delete_ne by congruence; exact Hu|].
    exists r. apply Hrs. split; [exact Hr|]. exact (Hkeep r Hr).
  - intros k1 p1 Hk1 k2 p2 Hk2. apply Hps in Hk1 as [Hk1 _].
    apply Hps in Hk2 as [Hk2 _]. exact (Huniq k1 p1 Hk1 k2 p2 Hk2).
Qed.

Lemma Accounts_user_delete_cases id st :
  (rows st !! id = None /\ exists m, Accounts.user_delete id st = Throw m)
  \/ (exists db',
         is_Some (rows st !! id)
         /\ Cascade.user_delete id (tables st) = Ok db'
         /\ Accounts.user_delete id st
            = Ok {| tables := db'; profiles := delete id (profiles st) |}).
Proof.
  unfold Accounts.user_delete, user_findUnique.
  destruct (rows st !! id) as [[u p]|] eqn:Hrow; [|left; eauto].
  right. apply rows_lookup in Hrow as [Hu Hp].
  unfold Cascade.user_delete. rewrite Hu.
  cbn [mbind Exc_bind mret Exc_ret]. eexists. split; [eauto|].
  split; reflexivity.
Qed.

Lemma users_DELETE_cases session id st :
  (snd (users_DELETE session id st) = st
   /\ account_status (fst (users_DELETE session id st)) <> 200
   /\ ~ (exists s, session = Some s /\ session_user_role s = "ADMIN"
                   /\ session_user_id s <> id /\ is_Some (rows st !! id)))
  \/ (exists s db',
         session = Some s /\ session_user_role s = "ADMIN"
         /\ session_user_id s <> id /\ is_Some (rows st !! id)
         /\ Cascade.user_delete id (tables st) = Ok db'
         /\ users_DELETE session id st
            = (reply (AccountMessage "User deleted successfully") 200,
               {| tables := db'; profiles := delete id (profiles st) |})).
Proof.
  unfold users_DELETE. destruct session as [s|].
  2: { left. cbn. split; [reflexivity|]. split; [lia|].
       intros (s & [=] & _). }
  destruct (hasRequiredRole_ s ["ADMIN"]) eqn:Hadmin; cbn [negb].
  2: { left. cbn. split; [reflexivity|]. split; [lia|].
       intros (s' & [= <-] & H & _).
       apply hasRequiredRole__ADMIN in H. congruence. }
  apply hasRequiredRole__ADMIN in Hadmin.
  destruct (String.eqb (session_user_id s) id) eqn:Hself.
  { apply String.eqb_eq in Hself.
    left. cbn. split; [reflexivity|]. split; [lia|].
    intros (s' & [= <-] & _ & H & _). contradiction. }
  apply String.eqb_neq in Hself.
  destruct (Accounts_user_delete_cases id st)
    as [[Hrow [m ->]]|(db' & Hrow & Hdel & ->)].
  - left. cbn. split; [reflexivity|]. split; [lia|].
    intros (s' & _ & _ & _ & [row H]). congruence.
  - right. exists s, db'. auto 10.
Qed.

Lemma profile_DELETE_cases session st :
  (snd (profile_DELETE session st) = st
   /\ account_status (fst (profile_DELETE session st)) <> 200
   /\ ~ (exists s, session = Some s /\ session_user_role s = "MEMBER"
                   /\ is_Some (rows st !! session_user_id s)))
  \/ (exists s db',
         session = Some s /\ session_user_role s = "MEMBER"
         /\ is_Some (rows st !! session_user_id s)
         /\ Cascade.user_delete (session_user_id s) (tables st) = Ok db'
         /\ profile_DELETE session st
            = (reply (AccountMessage "Account deleted successfully") 200,
               {| tables := db';
                  profiles := delete (session_user_id s) (profiles st) |})).
Proof.
  unfold profile_DELETE. destruct session as [s|].
  2: { left. cbn. split; [reflexivity|]. split; [lia|].
       intros (s & [=] & _). }
  destruct (String.eqb (session_user_role s) "MEMBER") eqn:Hrole; cbn [negb].
  2: { apply String.eqb_neq in Hrole.
       left. cbn. split; [reflexivity|]. split; [lia|].
       intros (s' & [= <-] & H & _). contradiction. }
  apply String.eqb_eq in Hrole.
  destruct (Accounts_user_delete_cases (session_user_id s) st)
    as [[Hrow [m ->]]|(db' & Hrow & Hdel & ->)].
  - left. cbn. split; [reflexivity|]. split; [lia|].
    intros (s' & [= <-] & _ & [row H]). congruence.
  - right. exists s, db'. auto 10.
Qed.

(** X28: Deleting an account.  An administrator deletes any account that
    exists except their own; a member, and nobody else, deletes their own.
    A request that is refused changes nothing.  When an account is deleted,
    the user row is gone and with it every reservation of the user, whatever
    its status, every payment of the user and every payment of those
    reservations; the vehicles and all other rows are kept as they were, and
    no sign-in returns the deleted user any more. *)
Theorem account_deletion_cascade :
  forall (session : option Session) (id : string) (st : Store),
    let admin := users_DELETE session id st in
    let self := profile_DELETE session st in
    (account_status (fst admin) = 200
     <-> exists s, session = Some s /\ session_user_role s = "ADMIN"
                   /\ session_user_id s <> id /\ is_Some (rows st !! id))
    /\ (account_status (fst admin) <> 200 -> snd admin = st)
    /\ (account_status (fst self) = 200
        <-> exists s, session = Some s /\ session_user_role s = "MEMBER"
                      /\ is_Some (rows st !! session_user_id s))
    /\ (account_status (fst self) <> 200 -> snd self = st)
    /\ (forall st',
           (account_status (fst admin) = 200 /\ st' = snd admin)
           \/ (exists s, session = Some s /\ session_user_id s = id
                         /\ account_status (fst self) = 200 /\ st' = snd self) ->
           rows st' = delete id (rows st)
           /\ vehicles (tables st') = vehicles (tables st)
           /\ (forall i r,
                  reservations (tables st') !! i = Some r
                  <-> reservations (tables st) !! i = Some r /\ userId r <> id)
           /\ (forall k p,
                  payments (tables st') !! k = Some p
                  <-> payments (tables st) !! k = Some p
                      /\ payment_userId p <> id
                      /\ forall r,
                          reservations (tables st) !! reservationId p = Some r ->
                          userId r <> id)
           /\ (forall B email_ password_ user,
                  authorize B email_ password_ st' = Some user ->
                  auth_id user <> id)).
Proof.
  intros session id st admin self. subst admin self.
  assert (forall db',
             Cascade.user_delete id (tables st) = Ok db' ->
             let st' := {| tables := db'; profiles := delete id (profiles st) |} in
             rows st' = delete id (rows st)
             /\ vehicles (tables st') = vehicles (tables st)
             /\ (forall i r,
                    reservations (tables st') !! i = Some r
                    <-> reservations (tables st) !! i = Some r /\ userId r <> id)
             /\ (forall k p,
                    payments (tables st') !! k = Some p
                    <-> payments (tables st) !! k = Some p
                        /\ payment_userId p <> id
                        /\ forall r,
                            reservations (tables st) !! reservationId p = Some r ->
                            userId r <> id)
             /\ (forall B email_ password_ user,
                    authorize B email_ password_ st' = Some user ->
                    auth_id user <> id)) as Heffect.
  { intros db' Hdel st'.
    destruct (Cascade_user_delete_Ok _ _ _ Hdel) as (_ & Hus & Hvs & Hrs & Hps).
    assert (rows st' = delete id (rows st)) as Hrows.
    { unfold rows, st'. cbn [tables profiles]. rewrite Hus.
      symmetry. apply map_delete_zip_with. }
    split; [exact Hrows|]. split; [exact Hvs|]. split; [exact Hrs|].
    split; [exact Hps|].
    intros B email_ password_ user. unfold authorize.
    destruct (negb (truthy email_) || negb (truthy password_)); [discriminate|].
    destruct (user_findUnique_by email email_ st') as [[i [u p]]|] eqn:E;
      [|discriminate].
    apply find_by_Some in E as [Hi _].
    destruct (compare B password_ (password p)); [|discriminate].
    intros [= <-]. cbn [auth_id]. intros ->.
    rewrite Hrows, lookup_delete_eq in Hi. discriminate Hi. }
  destruct (users_DELETE_cases session id st)
    as [(Hst & Hne & Hnot)|(s & db' & Hs & Hadmin & Hself & Hrow & Hdel & Heq)];
  destruct (profile_DELETE_cases session st)
    as [(Hst' & Hne' & Hnot')|(s' & db'' & Hs' & Hmember & Hrow' & Hdel' & Heq')].
  - split; [split; intros H; contradiction|].
    split; [intros _; exact Hst|].
    split; [split; intros H; contradiction|].
    split; [intros _; exact Hst'|].
    intros st' [[H _]|(s & _ & _ & H & _)]; contradiction.
  - rewrite Heq'. cbn [fst snd account_status reply].
    split; [split; intros H; contradiction|].
    split; [intros _; exact Hst|].
    split; [split; [intros _; eauto | reflexivity]|].
    split; [intros H; contradiction|].
    intros st' [[H _]|(s & Hs & Hid & _ & ->)]; [contradiction|].
    rewrite Hs' in Hs. injection Hs as <-. subst id.
    exact (Heffect db'' Hdel').
  - rewrite Heq. cbn [fst snd account_status reply].
    split; [split; [intros _; eauto | reflexivity]|].
    split; [intros H; contradiction|].
    split; [split; intros H; contradiction|].
    split; [intros _; exact Hst'|].
    intros st' [[_ ->]|(s0 & _ & _ & H & _)]; [|contradiction].
    exact (Heffect db' Hdel).
  - rewrite Hs in Hs'. injection Hs' as <-. congruence.
Qed.

(** The administrator of the seed data deletes the member "user-2": the
    confirmed reservation "res-1" goes with the user. *)
Lemma account_deletion_cascade_witness :
  reservations
    (tables (snd (users_DELETE (Some SeedAccounts.fab) "user-2"
                    SeedAccounts.store))) !! "res-1" = None.
Proof.
  destruct (account_deletion_cascade (Some SeedAccounts.fab) "user-2"
              SeedAccounts.store) as (_ & _ & _ & _ & Heffect).
  destruct (Heffect (snd (users_DELETE (Some SeedAccounts.fab) "user-2"
                            SeedAccounts.store)))
    as (_ & _ & Hrs & _).
  - left. split; [vm_compute|]; reflexivity.
  - destruct (reservations _ !! "res-1") as [r|] eqn:E; [|reflexivity].
    apply Hrs in E as [E Hne]. exfalso. vm_compute in E. injection E as <-.
    apply Hne. reflexivity.
Defined.

Lemma with_users_constraints f db :
  (forall i, is_Some (users db !! i) -> is_Some (f (users db) !! i)) ->
  constraints db -> constraints (with_users f db).
Proof.
  intros Hf [[Hres Hpay] Huniq]. split; [split|].
  - intros i r Hi. destruct (Hres i r Hi) as [Hu Hv].
    split; [apply Hf, Hu | exact Hv].
  - intros k p Hk. destruct (Hpay k p Hk) as [Hu Hr].
    split; [apply Hf, Hu | exact Hr].
  - exact Huniq.
Qed.

Lemma update_keeps_wellformed id u p u' p' st :
  rows st !! id = Some (u, p) ->
  email p' = email p ->
  driversLicenseNumber p' = driversLicenseNumber p ->
  wellformed st ->
  wellformed {| tables := with_users (insert id u') (tables st);
                profiles := <[id := p']> (profiles st) |}.
Proof.
  intros Hrow Hemail Hlicense (Hc & Hkeys & He & Hl).
  apply rows_lookup in Hrow as [Hu Hp].
  assert (forall column : Profile -> string,
             column p' = column p ->
             column_unique column st ->
             column_unique column
               {| tables := with_users (insert id u') (tables st);
                  profiles := <[id := p']> (profiles st) |}) as Hcol.
  { intros column Hsame Huniq i q Hi j q' Hj Heq. cbn [profiles] in Hi, Hj.
    destruct (decide (i = id)) as [->|Hni];
      destruct (decide (j = id)) as [->|Hnj]; [reflexivity| | |].
    - rewrite lookup_insert_eq in Hi. injection Hi as <-.
      rewrite lookup_insert_ne in Hj by congruence.
      apply (Huniq id p Hp j q' Hj). congruence.
    - rewrite lookup_insert_eq in Hj. injection Hj as <-.
      rewrite lookup_insert_ne in Hi by congruence.
      apply (Huniq i q Hi id p Hp). congruence.
    - rewrite lookup_insert_ne in Hi by congruence.
      rewrite lookup_insert_ne in Hj by congruence.
      exact (Huniq i q Hi j q' Hj Heq). }
  split; [|split; [|split]].
  - cbn [tables]. apply with_users_constraints; [|exact Hc].
    intros i Hi. apply lookup_insert_is_Some'. right. exact Hi.
  - unfold same_keys in *. cbn [tables profiles users with_users].
    rewrite !dom_insert_L, Hkeys. reflexivity.
  - apply Hcol; assumption.
  - apply Hcol; assumption.
Qed.

Lemma create_keeps_wellformed id u p st :
  users (tables st) !! id = None ->
  (forall i u' q, rows st !! i = Some (u', q) ->
                  email q <> email p
                  /\ driversLicenseNumber q <> driversLicenseNumber p) ->
  wellformed st ->
  wellformed {| tables := with_users (insert id u) (tables st);
                profiles := <[id := p]> (profiles st) |}.
Proof.
  intros Hu Hall (Hc & Hkeys & He & Hl).
  assert (forall i q, profiles st !! i = Some q ->
                      exists u', rows st !! i = Some (u', q)) as Hrow.
  { intros i q Hi.
    assert (i ∈ dom (users (tables st))) as Hdom
        by (unfold same_keys in Hkeys; rewrite Hkeys; apply elem_of_dom; eauto).
    apply elem_of_dom in Hdom as [u' Hu']. exists u'.
    apply rows_lookup. auto. }
  assert (forall column : Profile -> string,
             (forall i u' q, rows st !! i = Some (u', q) -> column q <> column p) ->
             column_unique column st ->
             column_unique column
               {| tables := with_users (insert id u) (tables st);
                  profiles := <[id := p]> (profiles st) |}) as Hcol.
  { intros column Hfresh Huniq i q Hi j q' Hj Heq. cbn [profiles] in Hi, Hj.
    destruct (decide (i = id)) as [->|Hni];
      destruct (decide (j = id)) as [->|Hnj]; [reflexivity| | |].
    - rewrite lookup_insert_eq in Hi. injection Hi as <-.
      rewrite lookup_insert_ne in Hj by congruence.
      destruct (Hrow j q' Hj) as [u' Hj'].
      destruct (Hfresh j u' q' Hj'). congruence.
    - rewrite lookup_insert_eq in Hj. injection Hj as <-.
      rewrite lookup_insert_ne in Hi by congruence.
      destruct (Hrow i q Hi) as [u' Hi'].
      destruct (Hfresh i u' q Hi'). congruence.
    - rewrite lookup_insert_ne in Hi by congruence.
      rewrite lookup_insert_ne in Hj by congruence.
      exact (Huniq i q Hi j q' Hj Heq). }
  split; [|split; [|split]].
  - cbn [tables]. apply with_users_constraints; [|exact Hc].
    intros i Hi. apply lookup_insert_is_Some'. right. exact Hi.
  - unfold same_keys in *. cbn [tables profiles users with_users].
    rewrite !dom_insert_L, Hkeys. reflexivity.
  - apply Hcol; [|exact He]. intros i u' q Hi. apply (Hall i u' q Hi).
  - apply Hcol; [|exact Hl]. intros i u' q Hi. apply (Hall i u' q Hi).
Qed.

Lemma delete_keeps_wellformed id db' st :
  Cascade.user_delete id (tables st) = Ok db' ->
  wellformed st ->
  wellformed {| tables := db'; profiles := delete id (profiles st) |}.
Proof.
  intros Hdel (Hc & Hkeys & He & Hl).
  destruct (Cascade_user_delete_Ok _ _ _ Hdel) as (_ & Hus & _).
  assert (forall column : Profile -> string,
             column_unique column st ->
             column_unique column
               {| tables := db'; profiles := delete id (profiles st) |}) as Hcol.
  { intros column Huniq i q Hi j q' Hj. cbn [profiles] in Hi, Hj.
    apply lookup_delete_Some in Hi as [_ Hi].
    apply lookup_delete_Some in Hj as [_ Hj].
    exact (Huniq i q Hi j q' Hj). }
  split; [|split; [|split]].
  - cbn [tables]. exact (Cascade_user_delete_constraints _ _ _ Hdel Hc).
  - unfold same_keys in *. cbn [tables profiles]. rewrite Hus.
    rewrite !dom_delete_L, Hkeys. reflexivity.
  - apply Hcol, He.
  - apply Hcol, Hl.
Qed.

Lemma tables_keep_wellformed db' st :
  constraints db' -> users db' = users (tables st) ->
  wellformed st ->
  wellformed {| tables := db'; profiles := profiles st |}.
Proof.
  intros Hc' Hus (Hc & Hkeys & He & Hl).
  split; [exact Hc'|]. split; [|split; assumption].
  unfold same_keys in *. cbn [tables profiles]. rewrite Hus. exact Hkeys.
Qed.

Lemma request_users db db' :
  Consistency.request db db' -> users db' = users db.
Proof.
  intros [session b now ids|session id b|session id].
  - destruct (POST_outcome session b now ids db)
      as [[-> _]|(a & t & m & _ & _ & _ & -> & _)]; reflexivity.
  - destruct (PUT_outcome session id b db) as [->|(r & r' & _ & ->)];
      reflexivity.
  - destruct (DELETE_outcome session id db) as [->| ->]; reflexivity.
Qed.

Lemma setProfile_Ok b row row' :
  setProfile b row = Ok row' ->
  fst row' = fst row
  /\ email (snd row') = email (snd row)
  /\ password (snd row') = password (snd row)
  /\ driversLicenseNumber (snd row') = driversLicenseNumber (snd row)
  /\ set_required (put_name b) (name (snd row)) = Ok (name (snd row'))
  /\ set_required (put_country b) (country (snd row)) = Ok (country (snd row'))
  /\ set_date (put_birthDate b) (birthDate (snd row))
     = Ok (birthDate (snd row'))
  /\ phone (snd row') = set_optional (put_phone b) (phone (snd row))
  /\ address (snd row') = set_optional (put_address b) (address (snd row))
  /\ city (snd row') = set_optional (put_city b) (city (snd row)).
Proof.
  unfold setProfile.
  destruct (set_required (put_name b) (name row.2)) as [n|]; [|discriminate].
  destruct (set_required (put_country b) (country row.2)) as [c|];
    [|discriminate].
  destruct (set_date (put_birthDate b) (birthDate row.2)) as [d|];
    [|discriminate].
  cbn [mbind Exc_bind mret Exc_ret]. intros [= <-]. cbn.
  repeat split; reflexivity.
Qed.

(** X29: Whatever requests are served, in whatever order (registrations,
    password changes, profile edits, role changes, deletions of accounts and
    of vehicles, and the reservation requests) the store keeps the
    constraints of the schema: the foreign keys, one payment for a
    reservation at most, and no two users with the same email address or the
    same driver's license number. *)
Theorem requests_keep_wellformed :
  forall (B : Bcrypt) (st st' : Store),
    rtc (Accounts.request B) st st' -> wellformed st -> wellformed st'.
Proof.
  intros B st st' Hrtc. induction Hrtc as [st|st st1 st' Hreq _ IH]; [auto|].
  intros Hwf. apply IH. clear IH.
  destruct Hreq as [b now id salt|session b salt|session b|session
                   |session id role_|session id|db Hreq|session id].
  - destruct (register_cases B b now id salt st)
      as [[-> _]|(name_ & license & birthMs & _ & _ & _ & _ & _ & _ & _ & Hall
                  & Hu & _ & ->)]; [exact Hwf|].
    cbn [snd]. apply create_keeps_wellformed; assumption.
  - destruct (password_PUT_cases B session b salt st)
      as [(-> & _)|(s & u & p & current & _ & Hrow & _ & _ & _ & ->)];
      [exact Hwf|].
    cbn [snd]. apply (update_keeps_wellformed _ u p); auto.
  - unfold profile_PUT. destruct session as [s|]; [|exact Hwf].
    destruct (user_update (session_user_id s) (setProfile b) st)
      as [[row' st2]|m] eqn:Hup; [|exact Hwf].
    apply user_update_Ok in Hup as ([u p] & Hrow & Hset & ->).
    apply setProfile_Ok in Hset as (_ & Hemail & _ & Hlicense & _).
    cbn [snd]. apply (update_keeps_wellformed _ u p); assumption.
  - destruct (profile_DELETE_cases session st)
      as [(-> & _)|(s & db' & _ & _ & _ & Hdel & ->)]; [exact Hwf|].
    cbn [snd]. apply delete_keeps_wellformed; assumption.
  - destruct (users_PUT_cases session id role_ st)
      as [(-> & _)|(s & u & p & r & _ & _ & _ & Hrow & _ & _ & _ & ->)];
      [exact Hwf|].
    cbn [snd]. apply (update_keeps_wellformed _ u p); auto.
  - destruct (users_DELETE_cases session id st)
      as [(-> & _)|(s & db' & _ & _ & _ & _ & Hdel & ->)]; [exact Hwf|].
    cbn [snd]. apply delete_keeps_wellformed; assumption.
  - apply tables_keep_wellformed; [|exact (request_users _ _ Hreq)|exact Hwf].
    destruct Hwf as [Hc _].
    destruct Hreq as [session b now ids|session id b|session id].
    + apply POST_keeps_constraints, Hc.
    + apply PUT_keeps_constraints, Hc.
    + apply DELETE_keeps_constraints, Hc.
  - destruct (Fleet_DELETE_cases session id (tables st))
      as [(-> & _)|(s & db' & _ & _ & Hdel & ->)].
    + destruct st; exact Hwf.
    + cbn [snd]. destruct (vehicle_delete_Ok _ _ _ Hdel) as (_ & _ & Hus & _).
      apply tables_keep_wellformed; [|exact Hus|exact Hwf].
      destruct Hwf as [Hc _]. exact (vehicle_delete_constraints _ _ _ Hdel Hc).
Qed.

(** The seed data are well formed, and so are they after Eve has
    registered. *)
Lemma requests_keep_wellformed_witness :
  wellformed (snd (register SeedAccounts.plain SeedAccounts.newcomer Seed.now
                     "user-4" "salt" SeedAccounts.store)).
Proof.
  apply (requests_keep_wellformed SeedAccounts.plain SeedAccounts.store).
  - apply rtc_once. apply request_register.
  - apply (bool_decide_unpack (wellformed SeedAccounts.store)).
    vm_compute. exact I.
Defined.

Lemma set_required_Ok f old v :
  set_required f old = Ok v
  <-> f <> null /\ v = match f with str s => s | _ => old end.
Proof.
  destruct f; cbn; split.
  - intros [= <-]. split; [discriminate|reflexivity].
  - intros [_ ->]. reflexivity.
  - discriminate.
  - intros [H _]. contradiction.
  - intros [= <-]. split; [discriminate|reflexivity].
  - intros [_ ->]. reflexivity.
Qed.

Lemma setProfile_valid b row :
  put_name b <> null -> put_country b <> null ->
  put_birthDate b <> Some InvalidDate ->
  exists row', setProfile b row = Ok row'.
Proof.
  intros Hn Hc Hb. unfold setProfile.
  destruct (put_name b); [| contradiction |];
    (destruct (put_country b); [| contradiction |]);
    (destruct (put_birthDate b) as [[ms|]|]; [| contradiction |]);
    cbn; eauto.
Qed.

(** X30: Editing the own profile.  The request is served exactly for a
    session whose user exists and a body in which neither the name nor the
    country is null and the birth date, when given, is a valid date;
    otherwise nothing changes.  When it is served, the name, the country,
    the birth date, the phone number, the address and the city of the user
    are the ones of the body where the body has them, and the email address,
    the password, the driver's license number and the role are the ones from
    before; no other row of the store changes, and the profile that the user
    reads back is the one the request answered. *)
Theorem profile_PUT_edits_profile :
  forall (session : option Session) (b : ProfileBody) (st : Store),
    let response := fst (profile_PUT session b st) in
    let st' := snd (profile_PUT session b st) in
    (account_status response = 200
     <-> exists s u p,
         session = Some s /\ rows st !! session_user_id s = Some (u, p)
         /\ put_name b <> null /\ put_country b <> null
         /\ put_birthDate b <> Some InvalidDate)
    /\ (account_status response <> 200 -> st' = st)
    /\ (account_status response = 200 ->
        exists s u p p',
          session = Some s /\ rows st !! session_user_id s = Some (u, p)
          /\ tables st' = tables st
          /\ profiles st' = <[session_user_id s := p']> (profiles st)
          /\ email p' = email p
          /\ password p' = password p
          /\ driversLicenseNumber p' = driversLicenseNumber p
          /\ name p' = match put_name b with str n => n | _ => name p end
          /\ country p'
             = match put_country b with str c => c | _ => country p end
          /\ birthDate p'
             = match put_birthDate b with
               | Some (Instant ms) => ms
               | _ => birthDate p
               end
          /\ phone p' = set_optional (put_phone b) (phone p)
          /\ address p' = set_optional (put_address b) (address p)
          /\ city p' = set_optional (put_city b) (city p)
          /\ account_body response
             = UserJson (session_user_id s) (name p') (email p) (role u)
          /\ profile_GET session st' = response).
Proof.
  intros session b st response st'. subst response st'.
  unfold profile_PUT. destruct session as [s|].
  2: { cbn. split; [split; [lia | intros (s & u & p & [=] & _)]|].
       split; [reflexivity | lia]. }
  destruct (user_update (session_user_id s) (setProfile b) st)
    as [[row' st2]|m] eqn:Hup.
  - apply user_update_Ok in Hup as ([u p] & Hrow & Hset & ->).
    pose proof (setProfile_Ok _ _ _ Hset)
      as (Hu & Hemail & Hpw & Hlic & Hname & Hcountry & Hbirth & Hphone & Haddr
          & Hcity).
    destruct row' as [u' p']. cbn [fst snd] in *. subst u'.
    apply set_required_Ok in Hname as [Hname Hname'].
    apply set_required_Ok in Hcountry as [Hcountry Hcountry'].
    cbn [account_status account_body reply tables profiles].
    split; [split; [intros _; exists s, u, p | reflexivity]|].
    { do 4 (split; [assumption || reflexivity|]). intros Hinv.
      rewrite Hinv in Hbirth. discriminate Hbirth. }
    split; [intros H; contradiction|]. intros _. exists s, u, p, p'.
    split; [reflexivity|]. split; [exact Hrow|].
    apply rows_lookup in Hrow as [Hus Hps].
    split; [apply with_users_insert_id, Hus|]. split; [reflexivity|].
    do 5 (split; [assumption|]).
    split.
    { destruct (put_birthDate b) as [[ms|]|]; cbn in Hbirth;
        congruence. }
    do 3 (split; [assumption|]).
    split; [unfold userJson; cbn [fst snd]; rewrite Hemail; reflexivity|].
    unfold profile_GET, user_findUnique. rewrite rows_insert, lookup_insert_eq.
    reflexivity.
  - cbn [fst snd account_status reply].
    split; [split; [lia|]|split; [reflexivity | lia]].
    intros (s' & u & p & [= <-] & Hrow & Hn & Hc & Hb). exfalso.
    destruct (setProfile_valid b (u, p) Hn Hc Hb) as [row' Hset].
    assert (user_update (session_user_id s) (setProfile b) st
            = Ok (row',
                  {| tables :=
                       with_users (insert (session_user_id s) (fst row'))
                         (tables st);
                     profiles :=
                       <[session_user_id s := snd row']> (profiles st) |}))
      as Hok by (apply user_update_Ok; exists (u, p); auto).
    rewrite Hok in Hup. discriminate Hup.
Qed.

End AccountsMore.
